(** * VFD SWMR coordination core of HDF5: a shallow embedding

    The definitions below follow [src/H5Fvfd_swmr.c] and
    [src/H5MFfreedspace.c] function by function.  C integers are [Z] with
    the wrap-around of their width written out, arrays are lists read and
    updated by index, [NULL]-able pointers are [option]s, and the library's
    [HGOTO_ERROR] discipline is a state monad whose state survives a
    failure (what a C function has already stored stays stored).

    Everything the file calls but does not define (the page buffer, the
    metadata cache, the shadow-file free-space manager, the reader VFD and
    the operating system) is a field of the record [collaborators]: each
    call is answered from the history of all earlier calls and is appended
    to that history, the [log]. *)

From Stdlib Require Import ZArith List Lia Bool String Sorted Permutation.
From stdpp Require Import base list gmap sorting.
Import ListNotations.
Open Scope Z_scope.

(** ** Machine integers *)

Definition u32 (z : Z) : Z := z mod 2 ^ 32.
Definition u64 (z : Z) : Z := z mod 2 ^ 64.

(** Two's-complement reading of the low 32 bits ([int32_t] casts). *)
Definition i32 (z : Z) : Z :=
  let r := z mod 2 ^ 32 in if r <? 2 ^ 31 then r else r - 2 ^ 32.

(** ** Outcomes and the error-handling monad *)

(** [Error msg] is a [FAIL] return reached through [HGOTO_ERROR] with the
    message [msg]; [AssertFail] is a failed [HDassert]; [MemFault] is a
    [NULL] dereference or an access outside an array.  [OutOfFuel] is not
    a behaviour of the C code: it marks a loop cut short by the bound its
    model runs under, and the theorems about such loops show that it does
    not arise. *)
Inductive outcome (A : Type) : Type :=
| Ok (a : A)
| Error (msg : string)
| AssertFail
| MemFault
| OutOfFuel.
Arguments Ok {A} a.
Arguments Error {A} msg.
Arguments AssertFail {A}.
Arguments MemFault {A}.
Arguments OutOfFuel {A}.

Definition M (S A : Type) : Type := S -> S * outcome A.

Definition ret {S A} (a : A) : M S A := fun s => (s, Ok a).

Definition bind {S A B} (m : M S A) (k : A -> M S B) : M S B :=
  fun s =>
    match m s with
    | (s', Ok a) => k a s'
    | (s', Error e) => (s', Error e)
    | (s', AssertFail) => (s', AssertFail)
    | (s', MemFault) => (s', MemFault)
    | (s', OutOfFuel) => (s', OutOfFuel)
    end.

Notation "x <- c1 ;; c2" := (bind c1 (fun x => c2))
  (at level 100, c1 at next level, right associativity).
Notation "c1 >> c2" := (bind c1 (fun _ => c2))
  (at level 100, right associativity).

Definition get {S} : M S S := fun s => (s, Ok s).
Definition put {S} (s : S) : M S unit := fun _ => (s, Ok tt).
Definition modify {S} (g : S -> S) : M S unit := fun s => (g s, Ok tt).
Definition throw {S A} (msg : string) : M S A := fun s => (s, Error msg).
Definition fault {S A} : M S A := fun s => (s, MemFault).

(** [HDassert(b)]. *)
Definition HDassert {S} (b : bool) : M S unit :=
  fun s => (s, if b then Ok tt else AssertFail).

(** [if (callee(...) < 0) HGOTO_ERROR(..., msg)]: the failure of a callee
    is reported under the caller's message. *)
Definition or_error {S A} (msg : string) (m : M S A) : M S A :=
  fun s =>
    match m s with
    | (s', Error _) => (s', Error msg)
    | r => r
    end.

(** A pointer that must not be [NULL] where it is dereferenced. *)
Definition deref {S A} (p : option A) : M S A :=
  match p with Some a => ret a | None => fault end.

(** ** Data model *)

Record timespec := { tv_sec : Z; tv_nsec : Z }.

(** [timespeccmp(a, b, >)]. *)
Definition timespec_gt (a b : timespec) : bool :=
  if tv_sec a =? tv_sec b then tv_nsec b <? tv_nsec a
  else tv_sec b <? tv_sec a.

(** [H5FD_vfd_swmr_idx_entry_t]; [entry_ptr] holds the bytes of the image
    it points to. *)
Record H5FD_vfd_swmr_idx_entry_t := {
  hdf5_page_offset : Z;
  md_file_page_offset : Z;
  entry_length : Z;
  chksum : Z;
  entry_ptr : option (list Z);
  tick_of_last_change : Z;
  clean : bool;
  tick_of_last_flush : Z;
  delayed_flush : Z;
  moved_to_hdf5_file : bool
}.

(** [H5F_vfd_swmr_dl_entry_t] without its links: the delayed list is kept
    as a Rocq list, head first. *)
Record H5F_vfd_swmr_dl_entry_t := {
  dl_hdf5_page_offset : Z;
  dl_md_file_page_offset : Z;
  dl_length : Z;
  dl_tick_num : Z
}.

Record H5F_vfd_swmr_config_t := {
  writer : bool;
  md_pages_reserved : Z;
  tick_len : Z;
  max_lag : Z;
  flush_raw_data : bool
}.

(** The page buffer as far as this file reads it. *)
Record H5PB_t := { page_size : Z; dwl_len : Z }.

(** The fields of [f->shared] the file uses. *)
Record H5F_shared_t := {
  vfd_swmr : bool;
  vfd_swmr_writer : bool;
  vfd_swmr_config : H5F_vfd_swmr_config_t;
  tick_num : Z;
  end_of_tick : timespec;
  fs_page_size : Z;
  vfd_swmr_md_fd : Z;
  mdf_idx : option (list H5FD_vfd_swmr_idx_entry_t);
  mdf_idx_len : Z;
  mdf_idx_entries_used : Z;
  old_mdf_idx : option (list H5FD_vfd_swmr_idx_entry_t);
  old_mdf_idx_len : Z;
  old_mdf_idx_entries_used : Z;
  dl : list H5F_vfd_swmr_dl_entry_t;
  dl_len : Z;
  cache : bool;
  pb_ptr : option H5PB_t
}.

(** ** Calls to collaborators *)

Inductive event : Type :=
| EvCalloc (ok : bool)
| EvMalloc (size : Z) (ok : bool)
| EvFree
| EvMVAlloc (size : Z) (res : option Z)
| EvMVFree (addr size : Z) (ok : bool)
| EvMVClose (ok : bool)
| EvSeek (fd off : Z) (ok : bool)
| EvWrite (fd : Z) (buf : list Z) (nbytes : Z) (ok : bool)
| EvClose (fd : Z) (ok : bool)
| EvUnlink (ok : bool)
| EvClock (res : option timespec)
| EvPBSetTick (tick : Z) (ok : bool)
| EvPBUpdateIndex (ok : bool)
| EvPBReleaseTickList (ok : bool)
| EvPBReleaseDelayedWrites (ok : bool)
| EvPBRemoveEntry (page_addr : Z) (ok : bool)
| EvDFlushAll (ok : bool)
| EvMFFreeAggrs (ok : bool)
| EvACFlush (ok : bool)
| EvFDTruncate (ok : bool)
| EvGetTick (res : option Z)
| EvGetIdx (ok : bool)
| EvEvictOrRefresh (page tick : Z) (ok : bool).

(** What [H5PB_vfd_swmr__update_index] hands back: the index array as it
    left it and the four counters. *)
Record update_index_result := {
  ui_index : option (list H5FD_vfd_swmr_idx_entry_t);
  idx_entries_added : Z;
  idx_entries_modified : Z;
  idx_ent_not_in_tl : Z;
  idx_ent_not_in_tl_flushed : Z
}.

(** The four bytes copied from a magic string literal. *)
Record magic4 := { mg0 : Z; mg1 : Z; mg2 : Z; mg3 : Z }.
Definition magic_bytes (m : magic4) : list Z := [mg0 m; mg1 m; mg2 m; mg3 m].

Record collaborators := {
  H5FD_MD_HEADER_MAGIC : magic4;
  H5FD_MD_INDEX_MAGIC : magic4;
  sizeof_idx_entry : Z;
  H5_checksum_metadata : list Z -> Z -> Z;
  H5FL_CALLOC : list event -> bool;
  HDmalloc : list event -> Z -> bool;
  H5MV_alloc : list event -> Z -> option Z;
  H5MV_free : list event -> Z -> Z -> bool;
  H5MV_close : list event -> bool;
  HDlseek : list event -> Z -> Z -> bool;
  HDwrite : list event -> Z -> list Z -> Z -> bool;
  HDclose : list event -> Z -> bool;
  HDunlink : list event -> bool;
  HDclock_gettime : list event -> option timespec;
  H5PB_vfd_swmr__set_tick : list event -> Z -> bool;
  H5PB_vfd_swmr__update_index :
    list event -> H5F_shared_t -> option update_index_result;
  H5PB_vfd_swmr__release_tick_list : list event -> bool;
  H5PB_vfd_swmr__release_delayed_writes : list event -> bool;
  H5PB_remove_entry : list event -> Z -> bool;
  H5D_flush_all : list event -> bool;
  H5MF_free_aggrs : list event -> bool;
  H5AC_flush : list event -> bool;
  H5FD_truncate : list event -> bool;
  H5FD_vfd_swmr_get_tick : list event -> option Z;
  H5FD_vfd_swmr_get_idx :
    list event -> Z -> option (list H5FD_vfd_swmr_idx_entry_t);
  H5C_evict_or_refresh_all_entries_in_page : list event -> Z -> Z -> bool
}.

(** ** The state a file-local routine runs in *)

Record fstate := { sh : H5F_shared_t; log : list event }.

Definition with_tick_num (v : Z) (s : H5F_shared_t) : H5F_shared_t :=
  {| vfd_swmr := vfd_swmr s; vfd_swmr_writer := vfd_swmr_writer s;
     vfd_swmr_config := vfd_swmr_config s; tick_num := v;
     end_of_tick := end_of_tick s; fs_page_size := fs_page_size s;
     vfd_swmr_md_fd := vfd_swmr_md_fd s; mdf_idx := mdf_idx s;
     mdf_idx_len := mdf_idx_len s;
     mdf_idx_entries_used := mdf_idx_entries_used s;
     old_mdf_idx := old_mdf_idx s; old_mdf_idx_len := old_mdf_idx_len s;
     old_mdf_idx_entries_used := old_mdf_idx_entries_used s;
     dl := dl s; dl_len := dl_len s; cache := cache s; pb_ptr := pb_ptr s |}.

Definition with_end_of_tick (v : timespec) (s : H5F_shared_t) : H5F_shared_t :=
  {| vfd_swmr := vfd_swmr s; vfd_swmr_writer := vfd_swmr_writer s;
     vfd_swmr_config := vfd_swmr_config s; tick_num := tick_num s;
     end_of_tick := v; fs_page_size := fs_page_size s;
     vfd_swmr_md_fd := vfd_swmr_md_fd s; mdf_idx := mdf_idx s;
     mdf_idx_len := mdf_idx_len s;
     mdf_idx_entries_used := mdf_idx_entries_used s;
     old_mdf_idx := old_mdf_idx s; old_mdf_idx_len := old_mdf_idx_len s;
     old_mdf_idx_entries_used := old_mdf_idx_entries_used s;
     dl := dl s; dl_len := dl_len s; cache := cache s; pb_ptr := pb_ptr s |}.

Definition with_md_fd (v : Z) (s : H5F_shared_t) : H5F_shared_t :=
  {| vfd_swmr := vfd_swmr s; vfd_swmr_writer := vfd_swmr_writer s;
     vfd_swmr_config := vfd_swmr_config s; tick_num := tick_num s;
     end_of_tick := end_of_tick s; fs_page_size := fs_page_size s;
     vfd_swmr_md_fd := v; mdf_idx := mdf_idx s;
     mdf_idx_len := mdf_idx_len s;
     mdf_idx_entries_used := mdf_idx_entries_used s;
     old_mdf_idx := old_mdf_idx s; old_mdf_idx_len := old_mdf_idx_len s;
     old_mdf_idx_entries_used := old_mdf_idx_entries_used s;
     dl := dl s; dl_len := dl_len s; cache := cache s; pb_ptr := pb_ptr s |}.

(** Stores to [mdf_idx], [mdf_idx_len] and [mdf_idx_entries_used]. *)
Definition with_mdf_idx (i : option (list H5FD_vfd_swmr_idx_entry_t))
    (len used : Z) (s : H5F_shared_t) : H5F_shared_t :=
  {| vfd_swmr := vfd_swmr s; vfd_swmr_writer := vfd_swmr_writer s;
     vfd_swmr_config := vfd_swmr_config s; tick_num := tick_num s;
     end_of_tick := end_of_tick s; fs_page_size := fs_page_size s;
     vfd_swmr_md_fd := vfd_swmr_md_fd s; mdf_idx := i;
     mdf_idx_len := len; mdf_idx_entries_used := used;
     old_mdf_idx := old_mdf_idx s; old_mdf_idx_len := old_mdf_idx_len s;
     old_mdf_idx_entries_used := old_mdf_idx_entries_used s;
     dl := dl s; dl_len := dl_len s; cache := cache s; pb_ptr := pb_ptr s |}.

(** Stores to the three [old_mdf_idx] fields. *)
Definition with_old_mdf_idx (i : option (list H5FD_vfd_swmr_idx_entry_t))
    (len used : Z) (s : H5F_shared_t) : H5F_shared_t :=
  {| vfd_swmr := vfd_swmr s; vfd_swmr_writer := vfd_swmr_writer s;
     vfd_swmr_config := vfd_swmr_config s; tick_num := tick_num s;
     end_of_tick := end_of_tick s; fs_page_size := fs_page_size s;
     vfd_swmr_md_fd := vfd_swmr_md_fd s; mdf_idx := mdf_idx s;
     mdf_idx_len := mdf_idx_len s;
     mdf_idx_entries_used := mdf_idx_entries_used s;
     old_mdf_idx := i; old_mdf_idx_len := len;
     old_mdf_idx_entries_used := used;
     dl := dl s; dl_len := dl_len s; cache := cache s; pb_ptr := pb_ptr s |}.

(** Stores to the delayed list and [dl_len]. *)
Definition with_dl (l : list H5F_vfd_swmr_dl_entry_t) (n : Z)
    (s : H5F_shared_t) : H5F_shared_t :=
  {| vfd_swmr := vfd_swmr s; vfd_swmr_writer := vfd_swmr_writer s;
     vfd_swmr_config := vfd_swmr_config s; tick_num := tick_num s;
     end_of_tick := end_of_tick s; fs_page_size := fs_page_size s;
     vfd_swmr_md_fd := vfd_swmr_md_fd s; mdf_idx := mdf_idx s;
     mdf_idx_len := mdf_idx_len s;
     mdf_idx_entries_used := mdf_idx_entries_used s;
     old_mdf_idx := old_mdf_idx s; old_mdf_idx_len := old_mdf_idx_len s;
     old_mdf_idx_entries_used := old_mdf_idx_entries_used s;
     dl := l; dl_len := n; cache := cache s; pb_ptr := pb_ptr s |}.

Definition get_shared : M fstate H5F_shared_t := fun s => (s, Ok (sh s)).

Definition set_shared (g : H5F_shared_t -> H5F_shared_t) : M fstate unit :=
  fun s => ({| sh := g (sh s); log := log s |}, Ok tt).

(** A call to a collaborator: answered from the history, then recorded. *)
Definition call {A} (oracle : list event -> A) (ev : A -> event) : M fstate A :=
  fun s =>
    let r := oracle (log s) in
    ({| sh := sh s; log := log s ++ [ev r] |}, Ok r).

(** [if (call < 0) HGOTO_ERROR(msg)] for a call that reports success. *)
Definition check {S} (msg : string) (ok : bool) : M S unit :=
  if ok then ret tt else throw msg.

(** ** Shadow-file codec *)

Definition H5_SIZEOF_MAGIC : Z := 4.

(** Modelled from the spec: the macros [UINT32ENCODE] and [UINT64ENCODE]
    live in a header that is not part of the sources at hand; the spec
    says all integers are little-endian.  One byte per step, low byte
    first: [*p++ = n & 0xff; n >>= 8]. *)
Fixpoint encode_le (width : nat) (n : Z) : list Z :=
  match width with
  | O => []
  | S k => Z.land n 255 :: encode_le k (Z.shiftr n 8)
  end.

Definition UINT32ENCODE (n : Z) : list Z := encode_le 4 n.
Definition UINT64ENCODE (n : Z) : list Z := encode_le 8 n.

(** The number a little-endian byte string denotes. *)
Fixpoint decode_le (bs : list Z) : Z :=
  match bs with
  | [] => 0
  | b :: r => b + 256 * decode_le r
  end.

(** Modelled from the spec: the layout macros [H5FD_MD_HEADER_OFF],
    [H5FD_MD_HEADER_SIZE], [H5FD_MD_INDEX_ENTRY_SIZE] and
    [H5FD_MD_INDEX_SIZE] are declared outside the sources at hand; the spec
    puts the header at offset 0, makes it 4+4+8+8+8+4 bytes, an index entry
    4+4+4+4 bytes and the index frame magic, tick, count, entries and
    checksum.  The index size is computed in [unsigned] arithmetic. *)
Definition H5FD_MD_HEADER_OFF : Z := 0.
Definition H5FD_MD_HEADER_SIZE : Z := 4 + 4 + 8 + 8 + 8 + 4.
Definition H5FD_MD_INDEX_ENTRY_SIZE : Z := 4 + 4 + 4 + 4.
Definition H5FD_MD_INDEX_SIZE (n : Z) : Z :=
  u32 (H5_SIZEOF_MAGIC + 8 + 4 + n * H5FD_MD_INDEX_ENTRY_SIZE + 4).

Section Codec.
Context (E : collaborators).

(** The header image up to, not including, its checksum. *)
Definition md_hdr_body (s : H5F_shared_t) (num_entries : Z) : list Z :=
  magic_bytes (H5FD_MD_HEADER_MAGIC E)
    ++ UINT32ENCODE (fs_page_size s)
    ++ UINT64ENCODE (tick_num s)
    ++ UINT64ENCODE H5FD_MD_HEADER_SIZE
    ++ UINT64ENCODE (H5FD_MD_INDEX_SIZE num_entries).

Definition md_hdr_image (s : H5F_shared_t) (num_entries : Z) : list Z :=
  let body := md_hdr_body s num_entries in
  body ++ UINT32ENCODE
            (H5_checksum_metadata E body (Z.of_nat (length body))).

Definition H5F__vfd_swmr_construct_write_md_hdr (num_entries : Z)
  : M fstate unit :=
  s <- get_shared ;;
  let image := md_hdr_image s num_entries in
  let hdr_size := H5FD_MD_HEADER_SIZE in
  HDassert (Z.of_nat (length image) =? hdr_size) >>
  ok <- call (fun l => HDlseek E l (vfd_swmr_md_fd s) H5FD_MD_HEADER_OFF)
             (EvSeek (vfd_swmr_md_fd s) H5FD_MD_HEADER_OFF) ;;
  check "unable to seek in metadata file" ok >>
  ok <- call (fun l => HDwrite E l (vfd_swmr_md_fd s) image hdr_size)
             (EvWrite (vfd_swmr_md_fd s) image hdr_size) ;;
  check "error in writing header to metadata file" ok.

Definition encode_idx_entry (e : H5FD_vfd_swmr_idx_entry_t) : list Z :=
  UINT32ENCODE (hdf5_page_offset e)
    ++ UINT32ENCODE (md_file_page_offset e)
    ++ UINT32ENCODE (entry_length e)
    ++ UINT32ENCODE (chksum e).

(** [for (i = 0; i < num_entries; i++)] over [index[i]]: [None] when the
    loop reads past the array. *)
Fixpoint encode_idx_entries (n : nat)
    (index : list H5FD_vfd_swmr_idx_entry_t) : option (list Z) :=
  match n with
  | O => Some []
  | S k =>
      match index with
      | [] => None
      | e :: rest =>
          match encode_idx_entries k rest with
          | Some bs => Some (encode_idx_entry e ++ bs)
          | None => None
          end
      end
  end.

Definition md_idx_body (s : H5F_shared_t) (num_entries : Z)
    (entries : list Z) : list Z :=
  magic_bytes (H5FD_MD_INDEX_MAGIC E)
    ++ UINT64ENCODE (tick_num s)
    ++ UINT32ENCODE num_entries
    ++ entries.

Definition md_idx_image (s : H5F_shared_t) (num_entries : Z)
    (entries : list Z) : list Z :=
  let body := md_idx_body s num_entries entries in
  body ++ UINT32ENCODE
            (H5_checksum_metadata E body (Z.of_nat (length body))).

(** [index] is the array the caller passes, [None] for [NULL]. *)
Definition H5F__vfd_swmr_construct_write_md_idx (num_entries : Z)
    (index : option (list H5FD_vfd_swmr_idx_entry_t)) : M fstate unit :=
  s <- get_shared ;;
  let idx_size := H5FD_MD_INDEX_SIZE num_entries in
  HDassert (negb (num_entries =? 0) && bool_decide (index <> None)
            || (num_entries =? 0) && bool_decide (index = None)) >>
  ok <- call (fun l => HDmalloc E l idx_size) (EvMalloc idx_size) ;;
  check "memory allocation failed for md index" ok >>
  entries <- deref (encode_idx_entries (Z.to_nat num_entries)
                      (default [] index)) ;;
  let image := md_idx_image s num_entries entries in
  HDassert (Z.of_nat (length image) =? idx_size) >>
  HDassert (0 <=? vfd_swmr_md_fd s) >>
  ok <- call (fun l => HDlseek E l (vfd_swmr_md_fd s)
                         (H5FD_MD_HEADER_OFF + H5FD_MD_HEADER_SIZE))
             (EvSeek (vfd_swmr_md_fd s)
                     (H5FD_MD_HEADER_OFF + H5FD_MD_HEADER_SIZE)) ;;
  check "unable to seek in metadata file" ok >>
  ok <- call (fun l => HDwrite E l (vfd_swmr_md_fd s) image idx_size)
             (EvWrite (vfd_swmr_md_fd s) image idx_size) ;;
  check "error in writing index to metadata file" ok.

End Codec.

(** ** Publishing the index: [H5F_update_vfd_swmr_metadata_file] *)

(** [H5F__idx_entry_cmp]. *)
Definition H5F__idx_entry_cmp (entry1 entry2 : H5FD_vfd_swmr_idx_entry_t) : Z :=
  if hdf5_page_offset entry1 <? hdf5_page_offset entry2 then -1
  else if hdf5_page_offset entry2 <? hdf5_page_offset entry1 then 1
  else 0.

(** [HDqsort] is the C library's [qsort], which fixes the result only up to
    the order of elements that compare equal; it is taken here as an
    insertion sort driven by the comparison callback. *)
Fixpoint qsort_insert {A} (cmp : A -> A -> Z) (x : A) (l : list A) : list A :=
  match l with
  | [] => [x]
  | y :: r => if cmp x y <=? 0 then x :: y :: r else y :: qsort_insert cmp x r
  end.

Definition HDqsort {A} (cmp : A -> A -> Z) (l : list A) : list A :=
  fold_right (qsort_insert cmp) [] l.

Definition with_md_file_page_offset_chksum (off sum : Z)
    (e : H5FD_vfd_swmr_idx_entry_t) : H5FD_vfd_swmr_idx_entry_t :=
  {| hdf5_page_offset := hdf5_page_offset e; md_file_page_offset := off;
     entry_length := entry_length e; chksum := sum;
     entry_ptr := entry_ptr e;
     tick_of_last_change := tick_of_last_change e; clean := clean e;
     tick_of_last_flush := tick_of_last_flush e;
     delayed_flush := delayed_flush e;
     moved_to_hdf5_file := moved_to_hdf5_file e |}.

Definition with_entry_ptr (p : option (list Z))
    (e : H5FD_vfd_swmr_idx_entry_t) : H5FD_vfd_swmr_idx_entry_t :=
  {| hdf5_page_offset := hdf5_page_offset e;
     md_file_page_offset := md_file_page_offset e;
     entry_length := entry_length e; chksum := chksum e;
     entry_ptr := p;
     tick_of_last_change := tick_of_last_change e; clean := clean e;
     tick_of_last_flush := tick_of_last_flush e;
     delayed_flush := delayed_flush e;
     moved_to_hdf5_file := moved_to_hdf5_file e |}.

(** [index[i]] read and written through [f->shared->mdf_idx]. *)
Definition index_read (i : Z) : M fstate H5FD_vfd_swmr_idx_entry_t :=
  s <- get_shared ;;
  idx <- deref (mdf_idx s) ;;
  if i <? 0 then fault else deref (idx !! Z.to_nat i).

Definition index_write (i : Z) (e : H5FD_vfd_swmr_idx_entry_t)
  : M fstate unit :=
  s <- get_shared ;;
  idx <- deref (mdf_idx s) ;;
  if (0 <=? i) && (i <? Z.of_nat (length idx)) then
    set_shared (with_mdf_idx (Some (<[Z.to_nat i := e]> idx))
                  (mdf_idx_len s) (mdf_idx_entries_used s))
  else fault.

(** The test of the release loop: [tick_num > max_lag &&
    dl_entry->tick_num <= tick_num - max_lag], in [uint64_t]. *)
Definition timed_out (s : H5F_shared_t) (dl_entry : H5F_vfd_swmr_dl_entry_t)
  : bool :=
  let max_lag := max_lag (vfd_swmr_config s) in
  (max_lag <? tick_num s)
  && (dl_tick_num dl_entry <=? u64 (tick_num s - max_lag)).

Section Publish.
Context (E : collaborators).

(** [HDqsort(index, num_entries, ...)]: the first [num_entries] slots are
    sorted in place. *)
Definition sort_index (num_entries : Z) : M fstate unit :=
  s <- get_shared ;;
  idx <- deref (mdf_idx s) ;;
  if Z.of_nat (length idx) <? num_entries then fault
  else
    let n := Z.to_nat num_entries in
    set_shared (with_mdf_idx
                  (Some (HDqsort H5F__idx_entry_cmp (take n idx) ++ drop n idx))
                  (mdf_idx_len s) (mdf_idx_entries_used s)).

(** Body of the [for] loop over the index (source lines 495-557).  The
    width of [dl_len] is declared outside the sources at hand; the
    counter is left unbounded. *)
Definition publish_entry (i : Z) : M fstate unit :=
  e <- index_read i ;;
  match entry_ptr e with
  | None => ret tt
  | Some image =>
      (if md_file_page_offset e =? 0 then ret tt
       else
         ok <- call (H5FL_CALLOC E) EvCalloc ;;
         check "unable to allocate the delayed entry" ok >>
         s <- get_shared ;;
         let dl_entry :=
           {| dl_hdf5_page_offset := hdf5_page_offset e;
              dl_md_file_page_offset := md_file_page_offset e;
              dl_length := entry_length e;
              dl_tick_num := tick_num s |} in
         (* H5F__LL_PREPEND; dl_len++ *)
         set_shared (with_dl (dl_entry :: dl s) (dl_len s + 1))) >>
      md_addr <- call (fun l => H5MV_alloc E l (entry_length e))
                      (EvMVAlloc (entry_length e)) ;;
      match md_addr with
      | None => throw "error in allocating space from the metadata file"
      | Some md_addr =>
          s <- get_shared ;;
          index_write i
            (with_md_file_page_offset_chksum
               (md_addr / fs_page_size s)
               (H5_checksum_metadata E image (entry_length e)) e) >>
          ok <- call (fun l => HDlseek E l (vfd_swmr_md_fd s) md_addr)
                     (EvSeek (vfd_swmr_md_fd s) md_addr) ;;
          check "unable to seek in the metadata file" ok >>
          ok <- call (fun l => HDwrite E l (vfd_swmr_md_fd s) image
                                 (entry_length e))
                     (EvWrite (vfd_swmr_md_fd s) image (entry_length e)) ;;
          check "error in writing the page/multi-page entry to metadata file"
                ok >>
          e' <- index_read i ;;
          index_write i (with_entry_ptr None e')
      end
  end.

(** [for (i = 0; i < num_entries; i++)], [k] iterations still to run. *)
Fixpoint publish_entries (k : nat) (i : Z) : M fstate unit :=
  match k with
  | O => ret tt
  | S k' => publish_entry i >> publish_entries k' (i + 1)
  end.

(** The walk over the delayed list from its tail (source lines 582-613).
    The cursor [dl_entry] is the node at position [k - 1] from the head,
    [k = 0] standing for [NULL]; [dl_entry->prev] is the node before it.
    [H5F__LL_REMOVE] unlinks the node under the cursor. *)
Fixpoint release_delayed (k : nat) : M fstate unit :=
  match k with
  | O => ret tt
  | S k' =>
      s <- get_shared ;;
      dl_entry <- deref (dl s !! k') ;;
      if timed_out s dl_entry then
        let addr := u64 (dl_md_file_page_offset dl_entry * fs_page_size s) in
        ok <- call (fun l => H5MV_free E l addr (dl_length dl_entry))
                   (EvMVFree addr (dl_length dl_entry)) ;;
        check "unable to flush clean entry" ok >>
        s <- get_shared ;;
        set_shared (with_dl (delete k' (dl s)) (dl_len s - 1)) >>
        release_delayed k'
      else ret tt
  end.

(** [index] is [true] when the caller passes [f->shared->mdf_idx] and
    [false] when it passes [NULL]; the source has no other call. *)
Definition H5F_update_vfd_swmr_metadata_file (num_entries : Z)
    (index : bool) : M fstate unit :=
  let the_index (s : H5F_shared_t) :=
    if index then mdf_idx s else None in
  (if num_entries =? 0 then ret tt
   else
     s <- get_shared ;;
     _ <- deref (the_index s) ;;
     sort_index num_entries) >>
  (if num_entries =? 0 then ret tt
   else
     s <- get_shared ;;
     _ <- deref (the_index s) ;;
     publish_entries (Z.to_nat num_entries) 0) >>
  s <- get_shared ;;
  or_error "fail to construct & write index to md"
    (H5F__vfd_swmr_construct_write_md_idx E num_entries (the_index s)) >>
  or_error "fail to construct & write header to md"
    (H5F__vfd_swmr_construct_write_md_hdr E num_entries) >>
  s <- get_shared ;;
  release_delayed (length (dl s)).

End Publish.

(** ** The delay-write oracle: [H5F_vfd_swmr_writer__delay_write] *)

(** The [while (top >= bottom)] loop, in [int32_t]; [fuel] bounds the
    number of probes.  The result is [ie_ptr] at the exit of the loop. *)
Fixpoint delay_write_search (fuel : nat)
    (idx : option (list H5FD_vfd_swmr_idx_entry_t)) (page : Z)
    (top bottom : Z) (ie_ptr : option H5FD_vfd_swmr_idx_entry_t)
  : M fstate (option H5FD_vfd_swmr_idx_entry_t) :=
  if top <? bottom then ret ie_ptr
  else
    match fuel with
    | O => fun s => (s, OutOfFuel)
    | S fuel' =>
        HDassert (bool_decide (idx <> None)) >>
        let probe := Z.quot (i32 (top + bottom)) 2 in
        a <- deref idx ;;
        e <- (if probe <? 0 then fault else deref (a !! Z.to_nat probe)) ;;
        if hdf5_page_offset e <? page then
          delay_write_search fuel' idx page top (i32 (probe + 1)) ie_ptr
        else if page <? hdf5_page_offset e then
          delay_write_search fuel' idx page (i32 (probe - 1)) bottom ie_ptr
        else
          delay_write_search fuel' idx page top (i32 (top + 1)) (Some e)
    end.

(** The value stored through [delay_write_until_ptr] is the result. *)
Definition H5F_vfd_swmr_writer__delay_write (page : Z) : M fstate Z :=
  s <- get_shared ;;
  HDassert (vfd_swmr s) >>
  HDassert (vfd_swmr_writer s) >>
  let idx := mdf_idx s in
  HDassert (bool_decide (idx <> None) || (tick_num s <=? 1)) >>
  let top :=
    match idx with
    | Some _ => i32 (u32 (mdf_idx_entries_used s - 1))
    | None => -1
    end in
  let bottom := 0 in
  ie_ptr <- delay_write_search (S (Z.to_nat (mdf_idx_entries_used s)))
              idx page top bottom None ;;
  let max_lag := max_lag (vfd_swmr_config s) in
  let delay_write_until :=
    match ie_ptr with
    | Some ie =>
        if tick_num s <=? delayed_flush ie then delayed_flush ie else 0
    | None => u64 (tick_num s + max_lag)
    end in
  if negb (delay_write_until =? 0)
     && negb ((tick_num s <=? delay_write_until)
              && (delay_write_until <=? u64 (tick_num s + max_lag)))
  then throw "VFD SWMR write delay out of range"
  else ret delay_write_until.

(** ** The process: open files and the end-of-tick queue *)

(** [H5F_vfd_swmr_eot_queue_entry_t]; an [H5F_t *] is the number of a file,
    a link is the address of a queue entry. *)
Record H5F_vfd_swmr_eot_queue_entry_t := {
  eot_vfd_swmr_writer : bool;
  eot_tick_num : Z;
  eot_end_of_tick : timespec;
  eot_vfd_swmr_file : nat;
  eot_next : option nat;
  eot_prev : option nat
}.

(** The globals of the file, the open files, and the memory holding the
    queue entries; [eot_brk] is the next address the entry allocator hands
    out. *)
Record world := {
  files : gmap nat H5F_shared_t;
  eot_heap : gmap nat H5F_vfd_swmr_eot_queue_entry_t;
  eot_brk : nat;
  vfd_swmr_eot_queue_head_g : option nat;
  vfd_swmr_eot_queue_tail_g : option nat;
  vfd_swmr_writer_g : bool;
  end_of_tick_g : timespec;
  wlog : list event
}.

Definition with_files (v : gmap nat H5F_shared_t) (w : world) : world :=
  {| files := v; eot_heap := eot_heap w; eot_brk := eot_brk w;
     vfd_swmr_eot_queue_head_g := vfd_swmr_eot_queue_head_g w;
     vfd_swmr_eot_queue_tail_g := vfd_swmr_eot_queue_tail_g w;
     vfd_swmr_writer_g := vfd_swmr_writer_g w;
     end_of_tick_g := end_of_tick_g w; wlog := wlog w |}.

Definition with_eot_heap (v : gmap nat H5F_vfd_swmr_eot_queue_entry_t)
    (brk : nat) (w : world) : world :=
  {| files := files w; eot_heap := v; eot_brk := brk;
     vfd_swmr_eot_queue_head_g := vfd_swmr_eot_queue_head_g w;
     vfd_swmr_eot_queue_tail_g := vfd_swmr_eot_queue_tail_g w;
     vfd_swmr_writer_g := vfd_swmr_writer_g w;
     end_of_tick_g := end_of_tick_g w; wlog := wlog w |}.

Definition with_head (v : option nat) (w : world) : world :=
  {| files := files w; eot_heap := eot_heap w; eot_brk := eot_brk w;
     vfd_swmr_eot_queue_head_g := v;
     vfd_swmr_eot_queue_tail_g := vfd_swmr_eot_queue_tail_g w;
     vfd_swmr_writer_g := vfd_swmr_writer_g w;
     end_of_tick_g := end_of_tick_g w; wlog := wlog w |}.

Definition with_tail (v : option nat) (w : world) : world :=
  {| files := files w; eot_heap := eot_heap w; eot_brk := eot_brk w;
     vfd_swmr_eot_queue_head_g := vfd_swmr_eot_queue_head_g w;
     vfd_swmr_eot_queue_tail_g := v;
     vfd_swmr_writer_g := vfd_swmr_writer_g w;
     end_of_tick_g := end_of_tick_g w; wlog := wlog w |}.

Definition with_writer_g (v : bool) (w : world) : world :=
  {| files := files w; eot_heap := eot_heap w; eot_brk := eot_brk w;
     vfd_swmr_eot_queue_head_g := vfd_swmr_eot_queue_head_g w;
     vfd_swmr_eot_queue_tail_g := vfd_swmr_eot_queue_tail_g w;
     vfd_swmr_writer_g := v;
     end_of_tick_g := end_of_tick_g w; wlog := wlog w |}.

Definition with_end_of_tick_g (v : timespec) (w : world) : world :=
  {| files := files w; eot_heap := eot_heap w; eot_brk := eot_brk w;
     vfd_swmr_eot_queue_head_g := vfd_swmr_eot_queue_head_g w;
     vfd_swmr_eot_queue_tail_g := vfd_swmr_eot_queue_tail_g w;
     vfd_swmr_writer_g := vfd_swmr_writer_g w;
     end_of_tick_g := v; wlog := wlog w |}.

Definition with_wlog (v : list event) (w : world) : world :=
  {| files := files w; eot_heap := eot_heap w; eot_brk := eot_brk w;
     vfd_swmr_eot_queue_head_g := vfd_swmr_eot_queue_head_g w;
     vfd_swmr_eot_queue_tail_g := vfd_swmr_eot_queue_tail_g w;
     vfd_swmr_writer_g := vfd_swmr_writer_g w;
     end_of_tick_g := end_of_tick_g w; wlog := v |}.

(** A collaborator called from process level. *)
Definition wcall {A} (oracle : list event -> A) (ev : A -> event) : M world A :=
  fun w =>
    let r := oracle (wlog w) in
    (with_wlog (wlog w ++ [ev r]) w, Ok r).

(** [f->shared]. *)
Definition shared_of (f : nat) : M world H5F_shared_t :=
  w <- get ;; deref (files w !! f).

(** A file-local routine run on file [f]. *)
Definition on_file {A} (f : nat) (m : M fstate A) : M world A :=
  fun w =>
    match files w !! f with
    | None => (w, MemFault)
    | Some s =>
        let '(st', r) := m {| sh := s; log := wlog w |} in
        (with_files (<[f := sh st']> (files w)) (with_wlog (log st') w), r)
    end.

(** Loads and stores through a pointer to a queue entry. *)
Definition eot_load (p : nat) : M world H5F_vfd_swmr_eot_queue_entry_t :=
  w <- get ;; deref (eot_heap w !! p).

Definition eot_store (p : nat) (e : H5F_vfd_swmr_eot_queue_entry_t)
  : M world unit :=
  w <- get ;;
  _ <- deref (eot_heap w !! p) ;;
  put (with_eot_heap (<[p := e]> (eot_heap w)) (eot_brk w) w).

Definition set_eot_next (v : option nat) (e : H5F_vfd_swmr_eot_queue_entry_t)
  : H5F_vfd_swmr_eot_queue_entry_t :=
  {| eot_vfd_swmr_writer := eot_vfd_swmr_writer e;
     eot_tick_num := eot_tick_num e; eot_end_of_tick := eot_end_of_tick e;
     eot_vfd_swmr_file := eot_vfd_swmr_file e;
     eot_next := v; eot_prev := eot_prev e |}.

Definition set_eot_prev (v : option nat) (e : H5F_vfd_swmr_eot_queue_entry_t)
  : H5F_vfd_swmr_eot_queue_entry_t :=
  {| eot_vfd_swmr_writer := eot_vfd_swmr_writer e;
     eot_tick_num := eot_tick_num e; eot_end_of_tick := eot_end_of_tick e;
     eot_vfd_swmr_file := eot_vfd_swmr_file e;
     eot_next := eot_next e; eot_prev := v |}.

(** [p->next = v] and [p->prev = v], [p] possibly [NULL]. *)
Definition store_next (p : option nat) (v : option nat) : M world unit :=
  a <- deref p ;; e <- eot_load a ;; eot_store a (set_eot_next v e).

Definition store_prev (p : option nat) (v : option nat) : M world unit :=
  a <- deref p ;; e <- eot_load a ;; eot_store a (set_eot_prev v e).

(** [p->next] and [p->prev], [p] possibly [NULL]. *)
Definition load_next (p : option nat) : M world (option nat) :=
  a <- deref p ;; e <- eot_load a ;; ret (eot_next e).

Definition load_prev (p : option nat) : M world (option nat) :=
  a <- deref p ;; e <- eot_load a ;; ret (eot_prev e).

Definition get_head : M world (option nat) :=
  w <- get ;; ret (vfd_swmr_eot_queue_head_g w).
Definition get_tail : M world (option nat) :=
  w <- get ;; ret (vfd_swmr_eot_queue_tail_g w).
Definition set_head (v : option nat) : M world unit := modify (with_head v).
Definition set_tail (v : option nat) : M world unit := modify (with_tail v).

(** The list macros, applied to the end-of-tick queue. *)
Definition H5F__LL_REMOVE (entry_ptr : nat) : M world unit :=
  head_ptr <- get_head ;;
  (if bool_decide (head_ptr = Some entry_ptr) then
     n <- load_next (Some entry_ptr) ;;
     set_head n >>
     (if bool_decide (n <> None) then store_prev n None else ret tt)
   else
     p <- load_prev (Some entry_ptr) ;;
     n <- load_next (Some entry_ptr) ;;
     store_next p n) >>
  tail_ptr <- get_tail ;;
  (if bool_decide (tail_ptr = Some entry_ptr) then
     p <- load_prev (Some entry_ptr) ;;
     set_tail p >>
     (if bool_decide (p <> None) then store_next p None else ret tt)
   else
     n <- load_next (Some entry_ptr) ;;
     p <- load_prev (Some entry_ptr) ;;
     store_prev n p) >>
  store_next (Some entry_ptr) None >>
  store_prev (Some entry_ptr) None.

Definition H5F__LL_APPEND (entry_ptr : nat) : M world unit :=
  head_ptr <- get_head ;;
  if bool_decide (head_ptr = None) then
    set_head (Some entry_ptr) >> set_tail (Some entry_ptr)
  else
    tail_ptr <- get_tail ;;
    store_next tail_ptr (Some entry_ptr) >>
    store_prev (Some entry_ptr) tail_ptr >>
    set_tail (Some entry_ptr).

Definition H5F__LL_PREPEND (entry_ptr : nat) : M world unit :=
  head_ptr <- get_head ;;
  if bool_decide (head_ptr = None) then
    set_head (Some entry_ptr) >> set_tail (Some entry_ptr)
  else
    store_prev head_ptr (Some entry_ptr) >>
    store_next (Some entry_ptr) head_ptr >>
    set_head (Some entry_ptr).

Definition H5F_EOT_INSERT_AFTER (entry_ptr : nat) (prec_ptr : option nat)
  : M world unit :=
  if bool_decide (prec_ptr = None) then H5F__LL_PREPEND entry_ptr
  else
    pp <- load_prev prec_ptr ;;
    if bool_decide (pp = None) then H5F__LL_APPEND entry_ptr
    else
      store_prev (Some entry_ptr) prec_ptr >>
      pn <- load_next prec_ptr ;;
      store_next (Some entry_ptr) pn >>
      pn <- load_next prec_ptr ;;
      store_prev pn (Some entry_ptr) >>
      store_next prec_ptr (Some entry_ptr).

(** The globals follow the head of the queue (the tail of both queue
    routines). *)
Definition sync_eot_globals : M world unit :=
  head_ptr <- get_head ;;
  match head_ptr with
  | Some h =>
      e <- eot_load h ;;
      modify (with_writer_g (eot_vfd_swmr_writer e)) >>
      modify (with_end_of_tick_g (eot_end_of_tick e))
  | None => modify (with_writer_g false)
  end.

(** [while (curr != NULL)] of [H5F_vfd_swmr_remove_entry_eot]; [fuel]
    bounds the number of entries visited. *)
Fixpoint remove_entry_eot_scan (fuel : nat) (f : nat) (curr : option nat)
  : M world unit :=
  match curr with
  | None => ret tt
  | Some c =>
      match fuel with
      | O => fun w => (w, OutOfFuel)
      | S fuel' =>
          e <- eot_load c ;;
          if bool_decide (eot_vfd_swmr_file e = f) then
            H5F__LL_REMOVE c >>
            (* H5FL_FREE *)
            w <- get ;;
            put (with_eot_heap (delete c (eot_heap w)) (eot_brk w) w)
          else
            remove_entry_eot_scan fuel' f (eot_next e)
      end
  end.

Definition H5F_vfd_swmr_remove_entry_eot (f : nat) : M world unit :=
  w <- get ;;
  remove_entry_eot_scan (S (size (eot_heap w))) f
    (vfd_swmr_eot_queue_head_g w) >>
  sync_eot_globals.

(** [while (prec_ptr)] of [H5F_vfd_swmr_insert_entry_eot]: the walk from
    the tail to the predecessor of the new entry. *)
Fixpoint insert_entry_eot_scan (fuel : nat) (eot : timespec)
    (prec_ptr : option nat) : M world (option nat) :=
  match prec_ptr with
  | None => ret None
  | Some p =>
      match fuel with
      | O => fun w => (w, OutOfFuel)
      | S fuel' =>
          e <- eot_load p ;;
          if timespec_gt (eot_end_of_tick e) eot then
            insert_entry_eot_scan fuel' eot (eot_prev e)
          else ret (Some p)
      end
  end.

Section EotQueue.
Context (E : collaborators).

Definition H5F_vfd_swmr_insert_entry_eot (f : nat) : M world unit :=
  ok <- wcall (H5FL_CALLOC E) EvCalloc ;;
  check "unable to allocate the endo of tick queue entry" ok >>
  s <- shared_of f ;;
  w <- get ;;
  let entry_ptr := eot_brk w in
  let entry :=
    {| eot_vfd_swmr_writer := vfd_swmr_writer s;
       eot_tick_num := tick_num s;
       eot_end_of_tick := end_of_tick s;
       eot_vfd_swmr_file := f;
       eot_next := None; eot_prev := None |} in
  put (with_eot_heap (<[entry_ptr := entry]> (eot_heap w)) (S entry_ptr) w) >>
  w <- get ;;
  prec_ptr <- insert_entry_eot_scan (S (size (eot_heap w)))
                (end_of_tick s) (vfd_swmr_eot_queue_tail_g w) ;;
  H5F_EOT_INSERT_AFTER entry_ptr prec_ptr >>
  sync_eot_globals.

End EotQueue.

(** ** Creating the index: [H5F__vfd_swmr_writer__create_index] *)

Definition empty_idx_entry : H5FD_vfd_swmr_idx_entry_t :=
  {| hdf5_page_offset := 0; md_file_page_offset := 0; entry_length := 0;
     chksum := 0; entry_ptr := None; tick_of_last_change := 0;
     clean := false; tick_of_last_flush := 0; delayed_flush := 0;
     moved_to_hdf5_file := false |}.

Section CreateIndex.
Context (E : collaborators).

Definition H5F__vfd_swmr_writer__create_index : M fstate unit :=
  s <- get_shared ;;
  HDassert (vfd_swmr s) >>
  HDassert (bool_decide (mdf_idx s = None)) >>
  HDassert (mdf_idx_len s =? 0) >>
  HDassert (mdf_idx_entries_used s =? 0) >>
  let bytes_available :=
    u64 (u64 (fs_page_size s * md_pages_reserved (vfd_swmr_config s))
         - H5FD_MD_HEADER_SIZE) in
  HDassert (0 <? bytes_available) >>
  let entries_in_index := i32 (bytes_available / H5FD_MD_INDEX_ENTRY_SIZE) in
  HDassert (0 <? entries_in_index) >>
  let index_size := u64 (sizeof_idx_entry E * entries_in_index) in
  ok <- call (fun l => HDmalloc E l index_size) (EvMalloc index_size) ;;
  check "memory allocation failed for md index" ok >>
  let index := replicate (Z.to_nat entries_in_index) empty_idx_entry in
  set_shared (with_mdf_idx (Some index) entries_in_index 0).

End CreateIndex.

(** ** The two end-of-tick routines *)

(** Modelled from the spec: [SECOND_TO_NANOSECS] and
    [TENTH_SEC_TO_NANOSECS] are macros declared outside the sources at
    hand, [int] literals; the spec gives [tick_len] as a [uint32_t] in
    tenths of a second.  The product [tick_len * TENTH_SEC_TO_NANOSECS]
    is therefore taken in [unsigned int] and wraps modulo 2^32 before it
    is widened to [long].  The [long] arithmetic on nanoseconds is written
    without wrap-around (signed overflow has no defined result in C). *)
Definition SECOND_TO_NANOSECS : Z := 1000000000.
Definition TENTH_SEC_TO_NANOSECS : Z := 100000000.

Section EndOfTick.
Context (E : collaborators).

Definition H5F__vfd_swmr_update_end_of_tick_and_tick_num (f : nat)
    (incr_tick_num : bool) : M world unit :=
  curr <- wcall (HDclock_gettime E) EvClock ;;
  match curr with
  | None => throw "can't get time via clock_gettime"
  | Some curr =>
      let curr_nsecs := tv_sec curr * SECOND_TO_NANOSECS + tv_nsec curr in
      s <- shared_of f ;;
      let tlen_nsecs :=
        u32 (tick_len (vfd_swmr_config s) * TENTH_SEC_TO_NANOSECS) in
      (if incr_tick_num then
         on_file f (set_shared (with_tick_num (u64 (tick_num s + 1)))) >>
         ok <- wcall (fun l => H5PB_vfd_swmr__set_tick E l (u64 (tick_num s + 1)))
                     (EvPBSetTick (u64 (tick_num s + 1))) ;;
         check "Can't update page buffer current tick" ok
       else ret tt) >>
      let new_end_nsecs := curr_nsecs + tlen_nsecs in
      let new_end_of_tick :=
        {| tv_sec := Z.quot new_end_nsecs SECOND_TO_NANOSECS;
           tv_nsec := Z.rem new_end_nsecs SECOND_TO_NANOSECS |} in
      modify (with_end_of_tick_g new_end_of_tick) >>
      on_file f (set_shared (with_end_of_tick new_end_of_tick))
  end.

(** [if (f == NULL) f = vfd_swmr_eot_queue_head_g->vfd_swmr_file]. *)
Definition eot_file (f : option nat) : M world nat :=
  match f with
  | Some f => ret f
  | None =>
      head_ptr <- get_head ;;
      h <- deref head_ptr ;;
      e <- eot_load h ;;
      ret (eot_vfd_swmr_file e)
  end.

(** Steps 1 and 2 of the writer's end of tick (source lines 893-939). *)
Definition writer_flush_caches (f : nat) : M world unit :=
  s <- shared_of f ;;
  (if flush_raw_data (vfd_swmr_config s) then HDassert false else ret tt) >>
  ok <- wcall (H5D_flush_all E) EvDFlushAll ;;
  check "unable to flush dataset cache" ok >>
  ok <- wcall (H5MF_free_aggrs E) EvMFFreeAggrs ;;
  check "can't release file space" ok >>
  (if cache s then
     ok <- wcall (H5AC_flush E) EvACFlush ;;
     check "Can't flush metadata cache to the page buffer" ok
   else ret tt) >>
  ok <- wcall (H5FD_truncate E) EvFDTruncate ;;
  check "low level truncate failed" ok >>
  (if cache s then
     ok <- wcall (H5AC_flush E) EvACFlush ;;
     check "Can't flush metadata cache to the page buffer" ok
   else ret tt).

(** [H5PB_vfd_swmr__update_index]: the page buffer rewrites the index
    array and reports its counters. *)
Definition update_index : M fstate update_index_result :=
  s <- get_shared ;;
  r <- call (fun l => H5PB_vfd_swmr__update_index E l s)
            (fun r => EvPBUpdateIndex (bool_decide (r <> None))) ;;
  match r with
  | None => throw "can't update MD file index"
  | Some r =>
      set_shared (with_mdf_idx (ui_index r) (mdf_idx_len s)
                    (mdf_idx_entries_used s)) >>
      ret r
  end.

Definition H5F_vfd_swmr_writer_end_of_tick (f : option nat) : M world unit :=
  f <- eot_file f ;;
  s <- shared_of f ;;
  HDassert (bool_decide (pb_ptr s <> None)) >>
  HDassert (vfd_swmr_writer s) >>
  writer_flush_caches f >>
  (* 3) *)
  (if tick_num s =? 1 then
     or_error "unable to allocate metadata file index"
       (on_file f (H5F__vfd_swmr_writer__create_index E))
   else ret tt) >>
  (* 4) *)
  r <- on_file f update_index ;;
  let idx_entries_added := idx_entries_added r in
  (* 6) *)
  s <- shared_of f ;;
  let num_entries := u32 (mdf_idx_entries_used s + idx_entries_added) in
  (if 0 <? num_entries then
     or_error "can't update MD file"
       (on_file f (H5F_update_vfd_swmr_metadata_file E num_entries true))
   else
     or_error "can't update MD file"
       (on_file f (H5F_update_vfd_swmr_metadata_file E 0 false))) >>
  s <- shared_of f ;;
  on_file f (set_shared (with_mdf_idx (mdf_idx s) (mdf_idx_len s)
                           (u32 (mdf_idx_entries_used s + idx_entries_added)))) >>
  s <- shared_of f ;;
  HDassert (mdf_idx_entries_used s <=? u32 (mdf_idx_len s)) >>
  (* 7) *)
  ok <- wcall (H5PB_vfd_swmr__release_tick_list E) EvPBReleaseTickList ;;
  check "can't release tick list" ok >>
  (* 8) *)
  ok <- wcall (H5PB_vfd_swmr__release_delayed_writes E)
              EvPBReleaseDelayedWrites ;;
  check "can't release delayed writes" ok >>
  (* 9) *)
  or_error "unable to update end of tick"
    (H5F__vfd_swmr_update_end_of_tick_and_tick_num f true) >>
  H5F_vfd_swmr_remove_entry_eot f >>
  or_error "unable to insert entry into the EOT queue"
    (H5F_vfd_swmr_insert_entry_eot E f).

(** One step of the main [while] of the comparison of the old and the new
    index (source lines 1260-1359), and the clean-up loop after it (lines
    1362-1390), for pass [pass].  The counters [entries_added],
    [entries_removed] and [entries_changed] feed only disabled print
    statements and are left out. *)
Definition evict_page (pass : Z) (ps tmp_tick_num : Z)
    (e : H5FD_vfd_swmr_idx_entry_t) : M fstate unit :=
  if pass =? 0 then
    let page_addr := u64 (hdf5_page_offset e * ps) in
    ok <- call (fun l => H5PB_remove_entry E l page_addr)
               (EvPBRemoveEntry page_addr) ;;
    check "remove page buffer entry failed" ok
  else
    ok <- call (fun l => H5C_evict_or_refresh_all_entries_in_page E l
                           (hdf5_page_offset e) tmp_tick_num)
               (EvEvictOrRefresh (hdf5_page_offset e) tmp_tick_num) ;;
    check "evict or refresh stale MDC entries failed" ok.

(** [arr[i]] for an [int32_t] index. *)
Definition at_index (arr : option (list H5FD_vfd_swmr_idx_entry_t)) (i : Z)
  : M fstate H5FD_vfd_swmr_idx_entry_t :=
  a <- deref arr ;;
  if i <? 0 then fault else deref (a !! Z.to_nat i).

(** The sanity check after each step: [k == 0 || k >= used ||
    arr[k - 1].hdf5_page_offset < arr[k].hdf5_page_offset]. *)
Definition assert_ascending (arr : option (list H5FD_vfd_swmr_idx_entry_t))
    (used k : Z) : M fstate unit :=
  if (k =? 0) || (used <=? k) then ret tt
  else
    a <- at_index arr (k - 1) ;;
    b <- at_index arr k ;;
    HDassert (hdf5_page_offset a <? hdf5_page_offset b).

Fixpoint compare_indexes (fuel : nat) (pass ps tmp_tick_num : Z)
    (old_mdf_idx new_mdf_idx : option (list H5FD_vfd_swmr_idx_entry_t))
    (old_mdf_idx_entries_used new_mdf_idx_entries_used : Z) (i j : Z)
  : M fstate Z :=
  if (i <? old_mdf_idx_entries_used) && (j <? new_mdf_idx_entries_used) then
    match fuel with
    | O => fun s => (s, OutOfFuel)
    | S fuel' =>
        o <- at_index old_mdf_idx i ;;
        n <- at_index new_mdf_idx j ;;
        ij <-
          (if hdf5_page_offset o =? hdf5_page_offset n then
             (if negb (md_file_page_offset o =? md_file_page_offset n) then
                evict_page pass ps tmp_tick_num n
              else ret tt) >>
             ret (i32 (i + 1), i32 (j + 1))
           else if hdf5_page_offset o <? hdf5_page_offset n then
             evict_page pass ps tmp_tick_num o >>
             ret (i32 (i + 1), j)
           else
             ret (i, i32 (j + 1))) ;;
        assert_ascending old_mdf_idx old_mdf_idx_entries_used (fst ij) >>
        assert_ascending new_mdf_idx new_mdf_idx_entries_used (snd ij) >>
        compare_indexes fuel' pass ps tmp_tick_num old_mdf_idx new_mdf_idx
          old_mdf_idx_entries_used new_mdf_idx_entries_used (fst ij) (snd ij)
    end
  else ret i.

Fixpoint evict_left_overs (fuel : nat) (pass ps tmp_tick_num : Z)
    (old_mdf_idx : option (list H5FD_vfd_swmr_idx_entry_t))
    (old_mdf_idx_entries_used : Z) (i : Z) : M fstate unit :=
  if i <? old_mdf_idx_entries_used then
    match fuel with
    | O => fun s => (s, OutOfFuel)
    | S fuel' =>
        o <- at_index old_mdf_idx i ;;
        evict_page pass ps tmp_tick_num o >>
        evict_left_overs fuel' pass ps tmp_tick_num old_mdf_idx
          old_mdf_idx_entries_used (i32 (i + 1))
    end
  else ret tt.

(** One turn of [while (pass <= 1)]. *)
Definition reader_pass (pass tmp_tick_num : Z) : M fstate unit :=
  s <- get_shared ;;
  pb <- deref (pb_ptr s) ;;
  let new_mdf_idx := mdf_idx s in
  let new_mdf_idx_entries_used := i32 (mdf_idx_entries_used s) in
  let old_mdf_idx := old_mdf_idx s in
  let old_mdf_idx_entries_used := old_mdf_idx_entries_used s in
  let fuel := S (Z.to_nat old_mdf_idx_entries_used
                 + Z.to_nat new_mdf_idx_entries_used) in
  i <- compare_indexes fuel pass (page_size pb) tmp_tick_num
         old_mdf_idx new_mdf_idx
         old_mdf_idx_entries_used new_mdf_idx_entries_used 0 0 ;;
  evict_left_overs fuel pass (page_size pb) tmp_tick_num
    old_mdf_idx old_mdf_idx_entries_used i.

(** [while (pass <= 1)]: the page buffer first, then the metadata
    cache. *)
Definition reader_passes (tmp_tick_num : Z) : M fstate unit :=
  reader_pass 0 tmp_tick_num >>
  reader_pass 1 tmp_tick_num.

(** The body of [if (tmp_tick_num != f->shared->tick_num)] up to the new
    tick being adopted (source lines 1188-1405). *)
Definition reader_new_tick (tmp_tick_num : Z) : M fstate unit :=
  s <- get_shared ;;
  (* swap the old and new metadata file indexes *)
  set_shared (fun s =>
    with_mdf_idx (old_mdf_idx s) (old_mdf_idx_len s)
      (u32 (old_mdf_idx_entries_used s))
      (with_old_mdf_idx (mdf_idx s) (mdf_idx_len s)
         (i32 (mdf_idx_entries_used s)) s)) >>
  s <- get_shared ;;
  (if bool_decide (mdf_idx s = None) then
     or_error "unable to allocate metadata file index"
       (H5F__vfd_swmr_writer__create_index E)
   else ret tt) >>
  s <- get_shared ;;
  let capacity := u32 (mdf_idx_len s) in
  loaded <- call (fun l => H5FD_vfd_swmr_get_idx E l capacity)
                 (fun r => EvGetIdx (bool_decide (r <> None))) ;;
  match loaded with
  | None => throw "error in retrieving tick_num from driver"
  | Some loaded =>
      arr <- deref (mdf_idx s) ;;
      let entries_read := u32 (Z.of_nat (length loaded)) in
      set_shared (with_mdf_idx
                    (Some (loaded ++ drop (length loaded) arr))
                    (mdf_idx_len s) (mdf_idx_entries_used s)) >>
      HDassert (entries_read <=? u32 (mdf_idx_len s)) >>
      set_shared (fun s =>
        with_mdf_idx (mdf_idx s) (mdf_idx_len s) entries_read s) >>
      reader_passes tmp_tick_num >>
      set_shared (with_tick_num tmp_tick_num)
  end.

Definition H5F_vfd_swmr_reader_end_of_tick (f : option nat) : M world unit :=
  f <- eot_file f ;;
  s <- shared_of f ;;
  HDassert (bool_decide (pb_ptr s <> None)) >>
  HDassert (vfd_swmr s) >>
  HDassert (negb (vfd_swmr_writer s)) >>
  tmp_tick_num <- wcall (H5FD_vfd_swmr_get_tick E) EvGetTick ;;
  match tmp_tick_num with
  | None => throw "error in retrieving tick_num from driver"
  | Some tmp_tick_num =>
      (if negb (tmp_tick_num =? tick_num s) then
         on_file f (reader_new_tick tmp_tick_num) >>
         or_error "unable to update end of tick"
           (H5F__vfd_swmr_update_end_of_tick_and_tick_num f false)
       else ret tt) >>
      H5F_vfd_swmr_remove_entry_eot f >>
      or_error "unable to insert entry into the EOT queue"
        (H5F_vfd_swmr_insert_entry_eot E f)
  end.

(** ** Closing or flushing the writer: [H5F_vfd_swmr_close_or_flush] *)

Definition H5F_vfd_swmr_close_or_flush (f : nat) (closing : bool)
  : M world unit :=
  s <- shared_of f ;;
  HDassert (vfd_swmr_writer s) >>
  HDassert (0 <=? vfd_swmr_md_fd s) >>
  or_error "fail to create index in md"
    (on_file f (H5F__vfd_swmr_construct_write_md_idx E 0 None)) >>
  or_error "fail to create header in md"
    (on_file f (H5F__vfd_swmr_construct_write_md_hdr E 0)) >>
  on_file f (set_shared (fun s => with_tick_num (u64 (tick_num s + 1)) s)) >>
  if closing then
    ok <- wcall (fun l => HDclose E l (vfd_swmr_md_fd s))
                (EvClose (vfd_swmr_md_fd s)) ;;
    check "unable to close the metadata file" ok >>
    on_file f (set_shared (with_md_fd (-1))) >>
    ok <- wcall (HDunlink E) EvUnlink ;;
    check "unable to unlink the metadata file" ok >>
    ok <- wcall (H5MV_close E) EvMVClose ;;
    check "unable to close the free-space manager for the metadata file" ok >>
    (* Free the delayed list *)
    on_file f (set_shared (fun s => with_dl [] (dl_len s) s))
  else
    (* HDONE_ERROR: the failure is reported, nothing is skipped *)
    or_error "unable to update end of tick"
      (H5F__vfd_swmr_update_end_of_tick_and_tick_num f true).

End EndOfTick.

(** The queue read from the head along [next]; [None] if a link leaves the
    allocated entries or the walk does not end within [fuel] steps. *)
Fixpoint eot_queue_from (fuel : nat)
    (heap : gmap nat H5F_vfd_swmr_eot_queue_entry_t) (p : option nat)
  : option (list H5F_vfd_swmr_eot_queue_entry_t) :=
  match p with
  | None => Some []
  | Some a =>
      match fuel with
      | O => None
      | S fuel' =>
          match heap !! a with
          | None => None
          | Some e =>
              match eot_queue_from fuel' heap (eot_next e) with
              | Some r => Some (e :: r)
              | None => None
              end
          end
      end
  end.

Definition eot_queue (w : world)
  : option (list H5F_vfd_swmr_eot_queue_entry_t) :=
  eot_queue_from (S (size (eot_heap w))) (eot_heap w)
    (vfd_swmr_eot_queue_head_g w).

(** ** Vocabulary of the statements about the codec *)

(** [bs] is the [width]-byte little-endian field holding [v] (truncated to
    the field's width, as the encoding macros do). *)
Definition is_le (width : nat) (v : Z) (bs : list Z) : Prop :=
  length bs = width
  /\ Forall (fun b => 0 <= b < 256) bs
  /\ decode_le bs = v mod 2 ^ (8 * Z.of_nat width).

(** ** Vocabulary of the statements about publication *)

(** What the loop over the index is said to do, told entry by entry:
    [addrs] are the shadow-file addresses handed out, one per entry that
    has an image to publish, in index order. *)
Section PublicationSpec.
Context (E : collaborators) (fd fs_page_size tick : Z).

Definition published_entry (e : H5FD_vfd_swmr_idx_entry_t) (image : list Z)
    (addr : Z) : H5FD_vfd_swmr_idx_entry_t :=
  {| hdf5_page_offset := hdf5_page_offset e;
     md_file_page_offset := addr / fs_page_size;
     entry_length := entry_length e;
     chksum := H5_checksum_metadata E image (entry_length e);
     entry_ptr := None;
     tick_of_last_change := tick_of_last_change e; clean := clean e;
     tick_of_last_flush := tick_of_last_flush e;
     delayed_flush := delayed_flush e;
     moved_to_hdf5_file := moved_to_hdf5_file e |}.

Fixpoint published_index (es : list H5FD_vfd_swmr_idx_entry_t)
    (addrs : list Z) : list H5FD_vfd_swmr_idx_entry_t :=
  match es with
  | [] => []
  | e :: r =>
      match entry_ptr e, addrs with
      | None, _ => e :: published_index r addrs
      | Some image, a :: addrs' =>
          published_entry e image a :: published_index r addrs'
      | Some _, [] => e :: r
      end
  end.

(** The calls made for one entry, in the order they are made. *)
Definition entry_events (e : H5FD_vfd_swmr_idx_entry_t) (image : list Z)
    (addr : Z) : list event :=
  (if md_file_page_offset e =? 0 then [] else [EvCalloc true])
    ++ [EvMVAlloc (entry_length e) (Some addr);
        EvSeek fd addr true;
        EvWrite fd image (entry_length e) true].

Fixpoint publication_events (es : list H5FD_vfd_swmr_idx_entry_t)
    (addrs : list Z) : list event :=
  match es with
  | [] => []
  | e :: r =>
      match entry_ptr e, addrs with
      | None, _ => publication_events r addrs
      | Some image, a :: addrs' =>
          entry_events e image a ++ publication_events r addrs'
      | Some _, [] => []
      end
  end.

(** The extents superseded by the publication, in index order. *)
Fixpoint superseded (es : list H5FD_vfd_swmr_idx_entry_t)
  : list H5F_vfd_swmr_dl_entry_t :=
  match es with
  | [] => []
  | e :: r =>
      match entry_ptr e with
      | None => superseded r
      | Some _ =>
          if md_file_page_offset e =? 0 then superseded r
          else
            {| dl_hdf5_page_offset := hdf5_page_offset e;
               dl_md_file_page_offset := md_file_page_offset e;
               dl_length := entry_length e;
               dl_tick_num := tick |} :: superseded r
      end
  end.

Definition pending (es : list H5FD_vfd_swmr_idx_entry_t)
  : list H5FD_vfd_swmr_idx_entry_t :=
  filter (fun e => is_Some (entry_ptr e)) es.

(** The index frame and the header frame as written. *)
Definition idx_frame_events (s : H5F_shared_t) (n : Z)
    (es : list H5FD_vfd_swmr_idx_entry_t) : list event :=
  [EvMalloc (H5FD_MD_INDEX_SIZE n) true;
   EvSeek fd (H5FD_MD_HEADER_OFF + H5FD_MD_HEADER_SIZE) true;
   EvWrite fd
     (md_idx_image E s n (concat (map encode_idx_entry es)))
     (H5FD_MD_INDEX_SIZE n) true].

Definition hdr_frame_events (s : H5F_shared_t) (n : Z) : list event :=
  [EvSeek fd H5FD_MD_HEADER_OFF true;
   EvWrite fd (md_hdr_image E s n) H5FD_MD_HEADER_SIZE true].

Definition free_event (d : H5F_vfd_swmr_dl_entry_t) : event :=
  EvMVFree (u64 (dl_md_file_page_offset d * fs_page_size)) (dl_length d) true.
End PublicationSpec.

(** The index holds each page once, in ascending order. *)
Definition index_sorted (es : list H5FD_vfd_swmr_idx_entry_t) : Prop :=
  StronglySorted (fun a b => hdf5_page_offset a < hdf5_page_offset b) es.

(** Ascending, repeats allowed: all a comparison sort promises. *)
Definition index_ordered (es : list H5FD_vfd_swmr_idx_entry_t) : Prop :=
  StronglySorted (fun a b => hdf5_page_offset a <= hdf5_page_offset b) es.

Definition is_MVFree (ev : event) : bool :=
  match ev with EvMVFree _ _ _ => true | _ => false end.

(** A delayed-list entry is due at [tick] under [max_lag]. *)
Definition reclaimable (tick max_lag : Z) (d : H5F_vfd_swmr_dl_entry_t) : Prop :=
  dl_tick_num d <= tick - max_lag.

(** The delayed list is newest first, no entry is from the future, and
    ticks start at 1. *)
Definition dl_wf (tick : Z) (l : list H5F_vfd_swmr_dl_entry_t) : Prop :=
  StronglySorted (fun a b => dl_tick_num b <= dl_tick_num a) l
  /\ Forall (fun d => 1 <= dl_tick_num d <= tick) l.

(** [s] after stores to the index array, the delayed list and [dl_len]. *)
Definition upd_index_dl (idx : list H5FD_vfd_swmr_idx_entry_t)
    (l : list H5F_vfd_swmr_dl_entry_t) (n : Z) (s : H5F_shared_t)
  : H5F_shared_t :=
  with_mdf_idx (Some idx) (mdf_idx_len s) (mdf_idx_entries_used s)
    (with_dl l n s).

(** ** A concrete environment *)

(** A checksum for the examples: the bytes summed. *)
Definition sum_checksum (buf : list Z) (nbytes : Z) : Z :=
  u32 (fold_right Z.add 0 (take (Z.to_nat nbytes) buf)).

(** A free-space manager for the examples: it hands out consecutive
    extents from [base] on and never reuses one. *)
Definition bump_alloc (base : Z) (l : list event) (size : Z) : option Z :=
  Some (fold_left
          (fun a ev =>
             match ev with
             | EvMVAlloc sz (Some _) => a + sz
             | _ => a
             end) l base).

(** A clock for the examples: one second per recorded call. *)
Definition log_clock (l : list event) : option timespec :=
  Some {| tv_sec := Z.of_nat (length l); tv_nsec := 0 |}.

(** A page buffer whose tick list is empty: the index is left as it is. *)
Definition idle_update_index (l : list event) (s : H5F_shared_t)
  : option update_index_result :=
  Some {| ui_index := mdf_idx s; idx_entries_added := 0;
          idx_entries_modified := 0; idx_ent_not_in_tl := 0;
          idx_ent_not_in_tl_flushed := 0 |}.

(** Every collaborator succeeds. *)
Definition E_ok : collaborators :=
  {| H5FD_MD_HEADER_MAGIC := {| mg0 := 86; mg1 := 72; mg2 := 68; mg3 := 82 |};
     H5FD_MD_INDEX_MAGIC := {| mg0 := 86; mg1 := 73; mg2 := 68; mg3 := 88 |};
     sizeof_idx_entry := 72;
     H5_checksum_metadata := sum_checksum;
     H5FL_CALLOC := fun _ => true;
     HDmalloc := fun _ _ => true;
     H5MV_alloc := bump_alloc 108;
     H5MV_free := fun _ _ _ => true;
     H5MV_close := fun _ => true;
     HDlseek := fun _ _ _ => true;
     HDwrite := fun _ _ _ _ => true;
     HDclose := fun _ _ => true;
     HDunlink := fun _ => true;
     HDclock_gettime := log_clock;
     H5PB_vfd_swmr__set_tick := fun _ _ => true;
     H5PB_vfd_swmr__update_index := idle_update_index;
     H5PB_vfd_swmr__release_tick_list := fun _ => true;
     H5PB_vfd_swmr__release_delayed_writes := fun _ => true;
     H5PB_remove_entry := fun _ _ => true;
     H5D_flush_all := fun _ => true;
     H5MF_free_aggrs := fun _ => true;
     H5AC_flush := fun _ => true;
     H5FD_truncate := fun _ => true;
     H5FD_vfd_swmr_get_tick := fun _ => Some 1;
     H5FD_vfd_swmr_get_idx := fun _ _ => Some [];
     H5C_evict_or_refresh_all_entries_in_page := fun _ _ _ => true |}.

(** An index entry for page [page]: published at shadow page [md] (0 if
    never published), one page of 4 bytes long, with image [img] waiting. *)
Definition sample_entry (page md : Z) (img : option (list Z))
  : H5FD_vfd_swmr_idx_entry_t :=
  {| hdf5_page_offset := page; md_file_page_offset := md;
     entry_length := 4; chksum := 0; entry_ptr := img;
     tick_of_last_change := 0; clean := false; tick_of_last_flush := 0;
     delayed_flush := 0; moved_to_hdf5_file := false |}.

Definition sample_config : H5F_vfd_swmr_config_t :=
  {| writer := true; md_pages_reserved := 25; tick_len := 1; max_lag := 3;
     flush_raw_data := false |}.

(** A writer at tick [tick] with index [idx] ([used] slots in use) and
    delayed list [l]. *)
Definition sample_writer (tick : Z)
    (idx : option (list H5FD_vfd_swmr_idx_entry_t)) (used : Z)
    (l : list H5F_vfd_swmr_dl_entry_t) : H5F_shared_t :=
  {| vfd_swmr := true; vfd_swmr_writer := true;
     vfd_swmr_config := sample_config; tick_num := tick;
     end_of_tick := {| tv_sec := 0; tv_nsec := 0 |};
     fs_page_size := 4; vfd_swmr_md_fd := 3;
     mdf_idx := idx;
     mdf_idx_len := Z.of_nat (length (default [] idx));
     mdf_idx_entries_used := used;
     old_mdf_idx := None; old_mdf_idx_len := 0;
     old_mdf_idx_entries_used := 0;
     dl := l; dl_len := Z.of_nat (length l);
     cache := true;
     pb_ptr := Some {| page_size := 4; dwl_len := 0 |} |}.

(** Page 100 was published at shadow page 25 and is dirty again; page 7 is
    new; page 50 is unchanged.  The array is not yet sorted. *)
Definition sample_index : list H5FD_vfd_swmr_idx_entry_t :=
  [sample_entry 100 25 (Some [1; 2; 3; 4]);
   sample_entry 7 0 (Some [5; 6; 7; 8]);
   sample_entry 50 26 None].

(** The extent superseded at tick [t]. *)
Definition sample_dl_entry (md t : Z) : H5F_vfd_swmr_dl_entry_t :=
  {| dl_hdf5_page_offset := 100; dl_md_file_page_offset := md;
     dl_length := 4; dl_tick_num := t |}.

(** [bs] is one on-disk index entry for [e]: four 4-byte fields. *)
Definition entry_layout (e : H5FD_vfd_swmr_idx_entry_t) (bs : list Z) : Prop :=
  exists a b c d,
    bs = a ++ b ++ c ++ d
    /\ is_le 4 (hdf5_page_offset e) a
    /\ is_le 4 (md_file_page_offset e) b
    /\ is_le 4 (entry_length e) c
    /\ is_le 4 (chksum e) d.


(** ** Vocabulary of the statement about the delay-write oracle *)

(** The entry for [page] among the slots in use, if there is one. *)
Definition index_lookup (page : Z) (es : list H5FD_vfd_swmr_idx_entry_t)
  : option H5FD_vfd_swmr_idx_entry_t :=
  List.find (fun e => hdf5_page_offset e =? page) es.

(** The tick the oracle is said to answer with, before the range check. *)
Definition delay_until (tick max_lag : Z)
    (found : option H5FD_vfd_swmr_idx_entry_t) : Z :=
  match found with
  | None => tick + max_lag
  | Some e => if tick <=? delayed_flush e then delayed_flush e else 0
  end.

(** The sample index once published and sorted. *)
Definition sample_sorted_index : list H5FD_vfd_swmr_idx_entry_t :=
  [sample_entry 7 27 None; sample_entry 50 26 None; sample_entry 100 28 None].

(** A deadline [ms] milliseconds from the origin of the clock. *)
Definition deadline_ms (ms : Z) : timespec :=
  {| tv_sec := ms / 1000; tv_nsec := (ms mod 1000) * 1000000 |}.

(** A process with the given files open and an empty queue. *)
Definition process_of (fs : list H5F_shared_t) : world :=
  {| files := list_to_map (zip (seq 0 (length fs)) fs);
     eot_heap := ∅; eot_brk := 1;
     vfd_swmr_eot_queue_head_g := None;
     vfd_swmr_eot_queue_tail_g := None;
     vfd_swmr_writer_g := false;
     end_of_tick_g := {| tv_sec := 0; tv_nsec := 0 |};
     wlog := [] |}.

(** Three writers whose ticks end 100, 200 and 150 ms from now. *)
Definition three_files : world :=
  process_of
    [with_end_of_tick (deadline_ms 100) (sample_writer 1 None 0 []);
     with_end_of_tick (deadline_ms 200) (sample_writer 1 None 0 []);
     with_end_of_tick (deadline_ms 150) (sample_writer 1 None 0 [])].

(** The deadlines along the queue, in milliseconds. *)
Definition queue_deadlines_ms (w : world) : option (list Z) :=
  match eot_queue w with
  | Some q =>
      Some (map (fun e => tv_sec (eot_end_of_tick e) * 1000
                          + tv_nsec (eot_end_of_tick e) / 1000000) q)
  | None => None
  end.

(** ** Vocabulary of the statements about the calls of a routine *)

(** Whatever [m] does, the calls it makes all satisfy [P]. *)
Definition emits {A} (P : event -> Prop) (m : M fstate A) : Prop :=
  forall s s' r, m s = (s', r) ->
    exists evs, log s' = log s ++ evs /\ Forall P evs.

(** The same at process level, for a routine working on file [f], which
    stays open. *)
Definition wemits {A} (P : event -> Prop) (f : nat) (m : M world A) : Prop :=
  forall w w' r, m w = (w', r) -> is_Some (files w !! f) ->
    (exists evs, wlog w' = wlog w ++ evs /\ Forall P evs)
    /\ is_Some (files w' !! f).

(** ** Vocabulary of the statements about close *)

(** The descriptor of the shadow file cannot be closed. *)
Definition E_close_fails : collaborators :=
  {| H5FD_MD_HEADER_MAGIC := H5FD_MD_HEADER_MAGIC E_ok;
     H5FD_MD_INDEX_MAGIC := H5FD_MD_INDEX_MAGIC E_ok;
     sizeof_idx_entry := sizeof_idx_entry E_ok;
     H5_checksum_metadata := H5_checksum_metadata E_ok;
     H5FL_CALLOC := H5FL_CALLOC E_ok;
     HDmalloc := HDmalloc E_ok;
     H5MV_alloc := H5MV_alloc E_ok;
     H5MV_free := H5MV_free E_ok;
     H5MV_close := H5MV_close E_ok;
     HDlseek := HDlseek E_ok;
     HDwrite := HDwrite E_ok;
     HDclose := fun _ _ => false;
     HDunlink := HDunlink E_ok;
     HDclock_gettime := HDclock_gettime E_ok;
     H5PB_vfd_swmr__set_tick := H5PB_vfd_swmr__set_tick E_ok;
     H5PB_vfd_swmr__update_index := H5PB_vfd_swmr__update_index E_ok;
     H5PB_vfd_swmr__release_tick_list := H5PB_vfd_swmr__release_tick_list E_ok;
     H5PB_vfd_swmr__release_delayed_writes :=
       H5PB_vfd_swmr__release_delayed_writes E_ok;
     H5PB_remove_entry := H5PB_remove_entry E_ok;
     H5D_flush_all := H5D_flush_all E_ok;
     H5MF_free_aggrs := H5MF_free_aggrs E_ok;
     H5AC_flush := H5AC_flush E_ok;
     H5FD_truncate := H5FD_truncate E_ok;
     H5FD_vfd_swmr_get_tick := H5FD_vfd_swmr_get_tick E_ok;
     H5FD_vfd_swmr_get_idx := H5FD_vfd_swmr_get_idx E_ok;
     H5C_evict_or_refresh_all_entries_in_page :=
       H5C_evict_or_refresh_all_entries_in_page E_ok |}.

(** A call as it is recorded when it is refused. *)
Definition refused (ev : event) : event :=
  match ev with
  | EvMalloc size _ => EvMalloc size false
  | EvSeek fd off _ => EvSeek fd off false
  | EvWrite fd buf nbytes _ => EvWrite fd buf nbytes false
  | EvClose fd _ => EvClose fd false
  | EvUnlink _ => EvUnlink false
  | EvMVClose _ => EvMVClose false
  | ev => ev
  end.

(** Of the calls [calls], the first [k] as they are and then, if there is
    a next one, that one refused. *)
Definition stopped_at (calls : list event) (k : nat) : list event :=
  take k calls
    ++ match calls !! k with
       | Some ev => [refused ev]
       | None => []
       end.

Section CloseCourse.
Context (E : collaborators) (s : H5F_shared_t).

(** The eight calls of a close of the writer [s] that succeeds, in their
    order: the empty index frame (allocation, seek, write), the header
    frame (seek, write), the close of the descriptor, the unlink, the close
    of the free-space manager. *)
Definition close_calls : list event :=
  idx_frame_events E (vfd_swmr_md_fd s) s 0 []
    ++ hdr_frame_events E (vfd_swmr_md_fd s) s 0
    ++ [EvClose (vfd_swmr_md_fd s) true; EvUnlink true; EvMVClose true].

(** The calls of a close whose first [k] calls succeed: those [k] calls
    and then, if there is a next call, that call refused. *)
Definition close_log (k : nat) : list event := stopped_at close_calls k.

(** What the routine returns when its first [k] calls succeed and the
    next one, if there is one, is refused. *)
Definition close_outcome (k : nat) : outcome unit :=
  match k with
  | 0 | 1 | 2 => Error "fail to create index in md"
  | 3 | 4 => Error "fail to create header in md"
  | 5 => Error "unable to close the metadata file"
  | 6 => Error "unable to unlink the metadata file"
  | 7 => Error
           "unable to close the free-space manager for the metadata file"
  | _ => Ok tt
  end%nat.

(** The file at that point: the tick is incremented once both frames are
    written, the descriptor is forgotten once it is closed, the delayed
    list is dropped once the free-space manager is closed. *)
Definition close_progress (k : nat) : H5F_shared_t :=
  let s1 := if (5 <=? k)%nat then with_tick_num (u64 (tick_num s + 1)) s
            else s in
  let s2 := if (6 <=? k)%nat then with_md_fd (-1) s1 else s1 in
  if (8 <=? k)%nat then with_dl [] (dl_len s2) s2 else s2.

End CloseCourse.


(** ** Vocabulary of the statements about the index capacity *)

(** [m] leaves the open files as they are, whatever its outcome. *)
Definition files_fixed {A} (m : M world A) : Prop :=
  forall w, files (fst (m w)) = files w.

(** [m] changes nothing of file [f] that [proj] reads, and keeps it
    open. *)
Definition keeps_of_file {A B} (f : nat) (proj : H5F_shared_t -> B)
    (m : M world A) : Prop :=
  forall w s, files w !! f = Some s ->
    exists s', files (fst (m w)) !! f = Some s' /\ proj s' = proj s.

(** The page buffer reports one more entry than the index can take. *)
Definition one_too_many (l : list event) (s : H5F_shared_t)
  : option update_index_result :=
  Some {| ui_index := mdf_idx s; idx_entries_added := 1;
          idx_entries_modified := 0; idx_ent_not_in_tl := 0;
          idx_ent_not_in_tl_flushed := 0 |}.

Definition E_index_overflow : collaborators :=
  {| H5FD_MD_HEADER_MAGIC := H5FD_MD_HEADER_MAGIC E_ok;
     H5FD_MD_INDEX_MAGIC := H5FD_MD_INDEX_MAGIC E_ok;
     sizeof_idx_entry := sizeof_idx_entry E_ok;
     H5_checksum_metadata := H5_checksum_metadata E_ok;
     H5FL_CALLOC := H5FL_CALLOC E_ok;
     HDmalloc := HDmalloc E_ok;
     H5MV_alloc := H5MV_alloc E_ok;
     H5MV_free := H5MV_free E_ok;
     H5MV_close := H5MV_close E_ok;
     HDlseek := HDlseek E_ok;
     HDwrite := HDwrite E_ok;
     HDclose := HDclose E_ok;
     HDunlink := HDunlink E_ok;
     HDclock_gettime := HDclock_gettime E_ok;
     H5PB_vfd_swmr__set_tick := H5PB_vfd_swmr__set_tick E_ok;
     H5PB_vfd_swmr__update_index := one_too_many;
     H5PB_vfd_swmr__release_tick_list := H5PB_vfd_swmr__release_tick_list E_ok;
     H5PB_vfd_swmr__release_delayed_writes :=
       H5PB_vfd_swmr__release_delayed_writes E_ok;
     H5PB_remove_entry := H5PB_remove_entry E_ok;
     H5D_flush_all := H5D_flush_all E_ok;
     H5MF_free_aggrs := H5MF_free_aggrs E_ok;
     H5AC_flush := H5AC_flush E_ok;
     H5FD_truncate := H5FD_truncate E_ok;
     H5FD_vfd_swmr_get_tick := H5FD_vfd_swmr_get_tick E_ok;
     H5FD_vfd_swmr_get_idx := H5FD_vfd_swmr_get_idx E_ok;
     H5C_evict_or_refresh_all_entries_in_page :=
       H5C_evict_or_refresh_all_entries_in_page E_ok |}.

(** A writer at tick 5 whose index of three slots is full. *)
Definition full_writer : world :=
  fst (H5F_vfd_swmr_insert_entry_eot E_ok 0%nat
         (process_of [sample_writer 5 (Some sample_sorted_index) 3 []])).


(** ** Vocabulary of the statement about the reader *)

(** An entry of the old index is stale under the new one: its page is
    gone, or is published at another shadow offset. *)
Definition stale (new_es : list H5FD_vfd_swmr_idx_entry_t)
    (o : H5FD_vfd_swmr_idx_entry_t) : bool :=
  match index_lookup (hdf5_page_offset o) new_es with
  | None => true
  | Some n => negb (md_file_page_offset o =? md_file_page_offset n)
  end.

Definition stale_pages (old_es new_es : list H5FD_vfd_swmr_idx_entry_t)
  : list H5FD_vfd_swmr_idx_entry_t :=
  List.filter (stale new_es) old_es.

(** What pass [pass] asks for entry [e]. *)
Definition page_event (pass ps tmp_tick_num : Z)
    (e : H5FD_vfd_swmr_idx_entry_t) : event :=
  if pass =? 0 then EvPBRemoveEntry (u64 (hdf5_page_offset e * ps)) true
  else EvEvictOrRefresh (hdf5_page_offset e) tmp_tick_num true.

(** Tick 7: pages 7, 42 and 50.  Tick 8: page 42 has moved in the shadow
    file, page 50 is gone, page 60 is new. *)
Definition index_tick7 : list H5FD_vfd_swmr_idx_entry_t :=
  [sample_entry 7 27 None; sample_entry 42 26 None; sample_entry 50 28 None].
Definition index_tick8 : list H5FD_vfd_swmr_idx_entry_t :=
  [sample_entry 7 27 None; sample_entry 42 29 None; sample_entry 60 30 None].

(** A reader at tick 7 with two index arrays of four slots: the current
    one holds [index_tick7], the other is spare. *)
Definition sample_reader : H5F_shared_t :=
  {| vfd_swmr := true; vfd_swmr_writer := false;
     vfd_swmr_config := sample_config; tick_num := 7;
     end_of_tick := {| tv_sec := 0; tv_nsec := 0 |};
     fs_page_size := 4; vfd_swmr_md_fd := 3;
     mdf_idx := Some (index_tick7 ++ [empty_idx_entry]);
     mdf_idx_len := 4;
     mdf_idx_entries_used := 3;
     old_mdf_idx := Some (replicate 4 empty_idx_entry);
     old_mdf_idx_len := 4;
     old_mdf_idx_entries_used := 0;
     dl := []; dl_len := 0; cache := true;
     pb_ptr := Some {| page_size := 4; dwl_len := 0 |} |}.

(** The shadow file as the writer left it at tick 8. *)
Definition E_tick8 : collaborators :=
  {| H5FD_MD_HEADER_MAGIC := H5FD_MD_HEADER_MAGIC E_ok;
     H5FD_MD_INDEX_MAGIC := H5FD_MD_INDEX_MAGIC E_ok;
     sizeof_idx_entry := sizeof_idx_entry E_ok;
     H5_checksum_metadata := H5_checksum_metadata E_ok;
     H5FL_CALLOC := H5FL_CALLOC E_ok;
     HDmalloc := HDmalloc E_ok;
     H5MV_alloc := H5MV_alloc E_ok;
     H5MV_free := H5MV_free E_ok;
     H5MV_close := H5MV_close E_ok;
     HDlseek := HDlseek E_ok;
     HDwrite := HDwrite E_ok;
     HDclose := HDclose E_ok;
     HDunlink := HDunlink E_ok;
     HDclock_gettime := HDclock_gettime E_ok;
     H5PB_vfd_swmr__set_tick := H5PB_vfd_swmr__set_tick E_ok;
     H5PB_vfd_swmr__update_index := H5PB_vfd_swmr__update_index E_ok;
     H5PB_vfd_swmr__release_tick_list := H5PB_vfd_swmr__release_tick_list E_ok;
     H5PB_vfd_swmr__release_delayed_writes :=
       H5PB_vfd_swmr__release_delayed_writes E_ok;
     H5PB_remove_entry := H5PB_remove_entry E_ok;
     H5D_flush_all := H5D_flush_all E_ok;
     H5MF_free_aggrs := H5MF_free_aggrs E_ok;
     H5AC_flush := H5AC_flush E_ok;
     H5FD_truncate := H5FD_truncate E_ok;
     H5FD_vfd_swmr_get_tick := fun _ => Some 8;
     H5FD_vfd_swmr_get_idx := fun _ _ => Some index_tick8;
     H5C_evict_or_refresh_all_entries_in_page :=
       H5C_evict_or_refresh_all_entries_in_page E_ok |}.


(** * Freed space: [H5MFfreedspace.c] *)

(** File space types.  [H5FD_MEM_DRAW] is raw data; the others are kinds
    of metadata. *)
Inductive H5FD_mem_t :=
| H5FD_MEM_DEFAULT | H5FD_MEM_SUPER | H5FD_MEM_BTREE | H5FD_MEM_DRAW
| H5FD_MEM_GHEAP | H5FD_MEM_LHEAP | H5FD_MEM_OHDR.

#[global] Instance H5FD_mem_t_eq_dec : EqDecision H5FD_mem_t.
Proof. solve_decision. Defined.

(** The cache clients [H5MF__freedspace_create_cb] names; every other
    client is [H5AC_OTHER_ID] with its number. *)
Inductive H5AC_type_id :=
| H5AC_BT2_HDR_ID | H5AC_BT2_INT_ID | H5AC_BT2_LEAF_ID
| H5AC_EARRAY_HDR_ID | H5AC_EARRAY_IBLOCK_ID | H5AC_EARRAY_SBLOCK_ID
| H5AC_EARRAY_DBLOCK_ID | H5AC_EARRAY_DBLK_PAGE_ID
| H5AC_FARRAY_HDR_ID | H5AC_FARRAY_DBLOCK_ID | H5AC_FARRAY_DBLK_PAGE_ID
| H5AC_OHDR_ID | H5AC_OHDR_CHK_ID
| H5AC_FREEDSPACE_ID | H5AC_PROXY_ENTRY_ID | H5AC_EPOCH_MARKER_ID
| H5AC_PREFETCHED_ENTRY_ID
| H5AC_OTHER_ID (n : nat).

#[global] Instance H5AC_type_id_eq_dec : EqDecision H5AC_type_id.
Proof. solve_decision. Defined.

(** What the callback reads of a cache entry. *)
Record H5AC_info_t := {
  addr : Z;
  is_dirty : bool;
  ring : Z
}.

Record H5MF_freedspace_t := {
  fs_f : nat;
  fs_alloc_type : H5FD_mem_t;
  fs_addr : Z;
  fs_size : Z;
  fs_timestamp : Z;
  fs_next : option nat
}.

(** Context for the iterator callback. *)
Record H5MF_freedspace_ctx_t := {
  ctx_f : nat;
  ctx_ring : Z;
  ctx_alloc_type : H5FD_mem_t;
  ctx_addr : Z;
  ctx_size : Z;
  ctx_fs : option H5MF_freedspace_t
}.

Definition with_ctx_fs (fs : option H5MF_freedspace_t)
    (ctx : H5MF_freedspace_ctx_t) : H5MF_freedspace_ctx_t :=
  {| ctx_f := ctx_f ctx; ctx_ring := ctx_ring ctx;
     ctx_alloc_type := ctx_alloc_type ctx; ctx_addr := ctx_addr ctx;
     ctx_size := ctx_size ctx; ctx_fs := fs |}.

(** The calls that change something, with what they returned. *)
Inductive cache_call :=
| CallCalloc (ok : bool)
| CallAllocTmp (f : nat) (size : Z) (r : option Z)
| CallSetRing (ring : Z)
| CallInsertEntry (f : nat) (type : H5AC_type_id) (fs_addr : Z)
    (fs : H5MF_freedspace_t) (ok : bool)
| CallCreateFlushDependency (parent : H5MF_freedspace_t)
    (child : H5AC_info_t) (ok : bool).

(** The metadata cache, the allocator and the API context, none of which is
    in the file.  The constants are theirs; a query is a function; a call
    that changes something depends on the calls made before it.
    [H5AC_set_ring] answers with the ring that was in force;
    [H5AC_entries] is the cache's entry list in the order [H5AC_iterate]
    visits it. *)
Record cache_env := {
  H5AC_RING_INV : Z;
  H5AC_RING_USER : Z;
  H5AC_RING_SB : Z;
  H5AC_ES__IN_CACHE : Z;
  HADDR_UNDEF : Z;
  H5AC_cache_is_clean : nat -> Z -> option bool;
  H5AC_get_entry_status : nat -> Z -> option Z;
  H5AC_get_entry_ring : nat -> Z -> option Z;
  H5CX_get_ring : Z;
  H5AC_get_entry_type : H5AC_info_t -> option H5AC_type_id;
  H5AC_entries : nat -> list H5AC_info_t;
  H5FL_CALLOC_H5MF_freedspace_t : list cache_call -> bool;
  H5_now_usec : list cache_call -> Z;
  H5MF_alloc_tmp : list cache_call -> nat -> Z -> option Z;
  H5AC_set_ring : list cache_call -> Z -> Z;
  H5AC_insert_entry :
    list cache_call -> nat -> Z -> H5MF_freedspace_t -> bool;
  H5AC_create_flush_dependency :
    list cache_call -> H5MF_freedspace_t -> H5AC_info_t -> bool
}.

Definition ccall {A} (oracle : list cache_call -> A) (ev : A -> cache_call)
  : M (list cache_call) A :=
  fun l => let r := oracle l in (l ++ [ev r], Ok r).

(** Modelled from the spec: [iterate(file, cb, ctx)] calls [cb] on the
    cache's entries one after the other; the first call to fail ends the
    walk, which then fails. *)
Fixpoint H5AC_iterate {S C} (entries : list H5AC_info_t)
    (cb : H5AC_info_t -> C -> M S C) (ctx : C) : M S C :=
  match entries with
  | [] => ret ctx
  | entry :: rest =>
      ctx <- cb entry ctx ;;
      H5AC_iterate rest cb ctx
  end.

Section Freedspace.
Variable E : cache_env.

Definition H5F_addr_defined (X : Z) : bool := negb (X =? HADDR_UNDEF E).
Definition H5F_addr_eq (X Y : Z) : bool := H5F_addr_defined X && (X =? Y).
Definition H5F_addr_ne (X Y : Z) : bool := negb (H5F_addr_eq X Y).

(** [H5MF__freedspace_new]: the ring is put back at [done] whenever it had
    been set, also when the insertion has failed. *)
Definition H5MF__freedspace_new (ctx : H5MF_freedspace_ctx_t)
  : M (list cache_call) H5MF_freedspace_t :=
  ok <- ccall (H5FL_CALLOC_H5MF_freedspace_t E) CallCalloc ;;
  check "can't allocate freed space entry" ok >>
  now <- (fun l => (l, Ok (H5_now_usec E l))) ;;
  let fs := {| fs_f := ctx_f ctx; fs_alloc_type := ctx_alloc_type ctx;
               fs_addr := ctx_addr ctx; fs_size := ctx_size ctx;
               fs_timestamp := now; fs_next := None |} in
  tmp <- ccall (fun l => H5MF_alloc_tmp E l (ctx_f ctx) 1)
               (CallAllocTmp (ctx_f ctx) 1) ;;
  match tmp with
  | None => throw "can't allocate temporary space for freed space entry"
  | Some tmp_addr =>
      orig_ring <- ccall (fun l => H5AC_set_ring E l (ctx_ring ctx))
                         (fun _ => CallSetRing (ctx_ring ctx)) ;;
      ok <- ccall (fun l => H5AC_insert_entry E l (ctx_f ctx) tmp_addr fs)
                  (CallInsertEntry (ctx_f ctx) H5AC_FREEDSPACE_ID tmp_addr fs) ;;
      (if orig_ring =? H5AC_RING_INV E then ret tt
       else
         _ <- ccall (fun l => H5AC_set_ring E l orig_ring)
                    (fun _ => CallSetRing orig_ring) ;;
         ret tt) >>
      check "unable to insert freedspace" ok >>
      ret fs
  end.

(** The value of the local [create_fd] in [H5MF__freedspace_create_cb]
    once the type of the entry is known. *)
Definition create_fd (alloc_type : H5FD_mem_t) (type_id : H5AC_type_id)
  : bool :=
  let id_is (t : H5AC_type_id) := bool_decide (type_id = t) in
  if bool_decide (alloc_type = H5FD_MEM_DRAW) then
    (id_is H5AC_BT2_HDR_ID || id_is H5AC_BT2_INT_ID
     || id_is H5AC_BT2_LEAF_ID)
    || (id_is H5AC_EARRAY_HDR_ID || id_is H5AC_EARRAY_IBLOCK_ID
        || id_is H5AC_EARRAY_SBLOCK_ID || id_is H5AC_EARRAY_DBLOCK_ID
        || id_is H5AC_EARRAY_DBLK_PAGE_ID)
    || (id_is H5AC_FARRAY_HDR_ID || id_is H5AC_FARRAY_DBLOCK_ID
        || id_is H5AC_FARRAY_DBLK_PAGE_ID)
    || (id_is H5AC_OHDR_ID || id_is H5AC_OHDR_CHK_ID)
  else
    negb (id_is H5AC_FREEDSPACE_ID) && negb (id_is H5AC_PROXY_ENTRY_ID)
    && negb (id_is H5AC_EPOCH_MARKER_ID)
    && negb (id_is H5AC_PREFETCHED_ENTRY_ID).

(** [H5MF__freedspace_create_cb]: the context is handed back with [fs]
    set once the freedspace object exists. *)
Definition H5MF__freedspace_create_cb (entry : H5AC_info_t)
    (ctx : H5MF_freedspace_ctx_t)
  : M (list cache_call) H5MF_freedspace_ctx_t :=
  if H5F_addr_ne (addr entry) (ctx_addr ctx) && is_dirty entry
     && (ring entry <=? ctx_ring ctx) then
    match H5AC_get_entry_type E entry with
    | None => throw "unable to get entry type"
    | Some type_id =>
        if create_fd (ctx_alloc_type ctx) type_id then
          ctx <- match ctx_fs ctx with
                 | None =>
                     fs <- or_error "can't create freed space entry"
                             (H5MF__freedspace_new ctx) ;;
                     ret (with_ctx_fs (Some fs) ctx)
                 | Some _ => ret ctx
                 end ;;
          fs <- deref (ctx_fs ctx) ;;
          ok <- ccall (fun l => H5AC_create_flush_dependency E l fs entry)
                      (CallCreateFlushDependency fs entry) ;;
          check "can't create flush dependency" ok >>
          ret ctx
        else ret ctx
    end
  else ret ctx.

(** [H5MF__freedspace_create]; [fs] is [*fs] on entry and the value
    returned is [*fs] on exit.  On the failure paths [*fs] is still [NULL],
    so [done] releases nothing.  The count of children is checked only in
    debug builds. *)
Definition H5MF__freedspace_create (f : nat) (alloc_type : H5FD_mem_t)
    (addr size : Z) (fs : option H5MF_freedspace_t)
  : M (list cache_call) (option H5MF_freedspace_t) :=
  HDassert (H5F_addr_defined addr) >>
  HDassert (bool_decide (fs = None)) >>
  match H5AC_cache_is_clean E f (H5AC_RING_SB E) with
  | None => throw "unable to check for dirty entries in cache"
  | Some cache_clean =>
      if negb cache_clean then
        status <- (if negb (bool_decide (alloc_type = H5FD_MEM_DRAW)) then
                     match H5AC_get_entry_status E f addr with
                     | None => throw "unable to get entry status"
                     | Some status => ret status
                     end
                   else ret 0) ;;
        ring <- (if bool_decide (alloc_type = H5FD_MEM_DRAW) then
                   ret (H5AC_RING_USER E)
                 else if negb (Z.land status (H5AC_ES__IN_CACHE E) =? 0) then
                   match H5AC_get_entry_ring E f addr with
                   | None => throw "can't get ring of entry"
                   | Some ring => ret ring
                   end
                 else ret (H5CX_get_ring E)) ;;
        let fs_ctx := {| ctx_f := f; ctx_ring := ring;
                         ctx_alloc_type := alloc_type; ctx_addr := addr;
                         ctx_size := size; ctx_fs := None |} in
        fs_ctx <- or_error "unable to iterate cache entries"
                    (H5AC_iterate (H5AC_entries E f)
                       H5MF__freedspace_create_cb fs_ctx) ;;
        match ctx_fs fs_ctx with
        | Some new_fs => ret (Some new_fs)
        | None => ret fs
        end
      else ret fs
  end.

End Freedspace.


(** ** Vocabulary of the statement about freed space *)

(** Object headers and chunk indexes: the cache clients that can hold a
    reference to raw data. *)
Definition references_raw_data (t : H5AC_type_id) : bool :=
  match t with
  | H5AC_BT2_HDR_ID | H5AC_BT2_INT_ID | H5AC_BT2_LEAF_ID
  | H5AC_EARRAY_HDR_ID | H5AC_EARRAY_IBLOCK_ID | H5AC_EARRAY_SBLOCK_ID
  | H5AC_EARRAY_DBLOCK_ID | H5AC_EARRAY_DBLK_PAGE_ID
  | H5AC_FARRAY_HDR_ID | H5AC_FARRAY_DBLOCK_ID | H5AC_FARRAY_DBLK_PAGE_ID
  | H5AC_OHDR_ID | H5AC_OHDR_CHK_ID => true
  | _ => false
  end.

(** Entries the cache keeps for itself. *)
Definition cache_internal (t : H5AC_type_id) : bool :=
  match t with
  | H5AC_FREEDSPACE_ID | H5AC_PROXY_ENTRY_ID | H5AC_EPOCH_MARKER_ID
  | H5AC_PREFETCHED_ENTRY_ID => true
  | _ => false
  end.

(** Whether an entry of type [t] can refer to space of type
    [alloc_type]. *)
Definition may_reference (alloc_type : H5FD_mem_t) (t : H5AC_type_id)
  : bool :=
  match alloc_type with
  | H5FD_MEM_DRAW => references_raw_data t
  | _ => negb (cache_internal t)
  end.

(** The ring the freed space counts in: the user ring for raw data, the
    ring of the cache entry at the address when there is one, the ring of
    the API context otherwise. *)
Definition freed_ring (E : cache_env) (f : nat) (alloc_type : H5FD_mem_t)
    (freed : Z) : option Z :=
  match alloc_type with
  | H5FD_MEM_DRAW => Some (H5AC_RING_USER E)
  | _ =>
      match H5AC_get_entry_status E f freed with
      | None => None
      | Some status =>
          if Z.land status (H5AC_ES__IN_CACHE E) =? 0
          then Some (H5CX_get_ring E)
          else H5AC_get_entry_ring E f freed
      end
  end.

(** The entries whose flush must come before the space is released. *)
Definition depends_on (E : cache_env) (alloc_type : H5FD_mem_t)
    (freed max_ring : Z) (e : H5AC_info_t) : bool :=
  negb (addr e =? freed) && is_dirty e && (ring e <=? max_ring)
  && match H5AC_get_entry_type E e with
     | Some t => may_reference alloc_type t
     | None => false
     end.

Definition dependents (E : cache_env) (f : nat) (alloc_type : H5FD_mem_t)
    (freed max_ring : Z) : list H5AC_info_t :=
  List.filter (depends_on E alloc_type freed max_ring) (H5AC_entries E f).

(** The calls that bring the freedspace object [fs] into the cache. *)
Definition setup_calls (f : nat) (max_ring : Z) (fs : H5MF_freedspace_t)
    (calls : list cache_call) : Prop :=
  exists tmp restore,
    calls = [CallCalloc true; CallAllocTmp f 1 (Some tmp);
             CallSetRing max_ring;
             CallInsertEntry f H5AC_FREEDSPACE_ID tmp fs true] ++ restore
    /\ (restore = [] \/ exists orig, restore = [CallSetRing orig]).

(** What a freedspace object made for [ctx] holds. *)
Definition made_for (ctx : H5MF_freedspace_ctx_t) (fs : H5MF_freedspace_t)
  : Prop :=
  fs_f fs = ctx_f ctx /\ fs_alloc_type fs = ctx_alloc_type ctx
  /\ fs_addr fs = ctx_addr ctx /\ fs_size fs = ctx_size ctx.

(** A cache over the entries [entries], each of the type [types] gives it;
    the API context is in ring 1, the user ring, and every request is
    granted. *)
Definition E_cache (entries : list H5AC_info_t)
    (types : Z -> H5AC_type_id) : cache_env :=
  {| H5AC_RING_INV := 0; H5AC_RING_USER := 1; H5AC_RING_SB := 5;
     H5AC_ES__IN_CACHE := 1; HADDR_UNDEF := 2 ^ 64 - 1;
     H5AC_cache_is_clean := fun _ inner =>
       Some (forallb (fun e => negb (is_dirty e) || (inner <? ring e))
               entries);
     H5AC_get_entry_status := fun _ a =>
       Some (if existsb (fun e => addr e =? a) entries then 1 else 0);
     H5AC_get_entry_ring := fun _ a =>
       option_map ring (List.find (fun e => addr e =? a) entries);
     H5CX_get_ring := 1;
     H5AC_get_entry_type := fun e => Some (types (addr e));
     H5AC_entries := fun _ => entries;
     H5FL_CALLOC_H5MF_freedspace_t := fun _ => true;
     H5_now_usec := fun l => 1000 + Z.of_nat (length l);
     H5MF_alloc_tmp := fun _ _ _ => Some (2 ^ 63);
     H5AC_set_ring := fun _ _ => 1;
     H5AC_insert_entry := fun _ _ _ _ => true;
     H5AC_create_flush_dependency := fun _ _ _ => true |}.

(** A dirty object header at 4096, a dirty chunk-index leaf at 8192, a
    dirty local heap at 12288, a clean header chunk at 16384 and the dirty
    superblock in ring 5. *)
Definition sample_cache : list H5AC_info_t :=
  [{| addr := 4096; is_dirty := true; ring := 1 |};
   {| addr := 8192; is_dirty := true; ring := 1 |};
   {| addr := 12288; is_dirty := true; ring := 1 |};
   {| addr := 16384; is_dirty := false; ring := 1 |};
   {| addr := 0; is_dirty := true; ring := 5 |}].

Definition sample_types (a : Z) : H5AC_type_id :=
  if a =? 4096 then H5AC_OHDR_ID
  else if a =? 8192 then H5AC_BT2_LEAF_ID
  else if a =? 12288 then H5AC_OTHER_ID 2
  else if a =? 16384 then H5AC_OHDR_CHK_ID
  else H5AC_OTHER_ID 0.

(** A cache whose only entry is a dirty object header. *)
Definition lone_header : list H5AC_info_t :=
  [{| addr := 4096; is_dirty := true; ring := 1 |}].

(** The freedspace object for 512 bytes of raw data at 65536, and the calls
    that make it and give it the two children it gets in [sample_cache]. *)
Definition sample_freedspace : H5MF_freedspace_t :=
  {| fs_f := 0; fs_alloc_type := H5FD_MEM_DRAW; fs_addr := 65536;
     fs_size := 512; fs_timestamp := 1001; fs_next := None |}.

Definition sample_freed_calls : list cache_call :=
  [CallCalloc true; CallAllocTmp 0 1 (Some (2 ^ 63)); CallSetRing 1;
   CallInsertEntry 0 H5AC_FREEDSPACE_ID (2 ^ 63) sample_freedspace true;
   CallSetRing 1;
   CallCreateFlushDependency sample_freedspace
     {| addr := 4096; is_dirty := true; ring := 1 |} true;
   CallCreateFlushDependency sample_freedspace
     {| addr := 8192; is_dirty := true; ring := 1 |} true].

(** ** Vocabulary of the further statements about the writer *)

(** The calls that end the life of the shadow file. *)
Definition ends_shadow_file (ev : event) : bool :=
  match ev with
  | EvClose _ _ | EvUnlink _ | EvMVClose _ => true
  | _ => false
  end.

(** What a flush must leave alone. *)
Definition shadow_file_state (s : H5F_shared_t)
  : Z * list H5F_vfd_swmr_dl_entry_t * option (list H5FD_vfd_swmr_idx_entry_t)
    * Z :=
  (vfd_swmr_md_fd s, dl s, mdf_idx s, mdf_idx_entries_used s).

(** The sample writer at tick 5 with a tick of [len] tenths of a
    second. *)
Definition writer_of_tick_len (len : Z) : H5F_shared_t :=
  let s := sample_writer 5 None 0 [] in
  {| vfd_swmr := vfd_swmr s; vfd_swmr_writer := vfd_swmr_writer s;
     vfd_swmr_config :=
       {| writer := true; md_pages_reserved := 25; tick_len := len;
          max_lag := 3; flush_raw_data := false |};
     tick_num := tick_num s; end_of_tick := end_of_tick s;
     fs_page_size := fs_page_size s; vfd_swmr_md_fd := vfd_swmr_md_fd s;
     mdf_idx := mdf_idx s; mdf_idx_len := mdf_idx_len s;
     mdf_idx_entries_used := mdf_idx_entries_used s;
     old_mdf_idx := old_mdf_idx s; old_mdf_idx_len := old_mdf_idx_len s;
     old_mdf_idx_entries_used := old_mdf_idx_entries_used s;
     dl := dl s; dl_len := dl_len s; cache := cache s; pb_ptr := pb_ptr s |}.

(** ** Vocabulary of the statements about the end-of-tick queue *)

Definition hd_or {A} (d : option A) (l : list A) : option A :=
  match l with
  | [] => d
  | x :: _ => Some x
  end.

Definition last_or {A} (d : option A) (l : list A) : option A :=
  match last l with
  | Some x => Some x
  | None => d
  end.

(** The entries at [ptrs] are chained in this order: each points back to
    the one before it ([prev] for the first) and on to the one after it
    ([nxt] for the last). *)
Fixpoint eot_seg (heap : gmap nat H5F_vfd_swmr_eot_queue_entry_t)
    (prev : option nat) (ptrs : list nat) (nxt : option nat) : Prop :=
  match ptrs with
  | [] => True
  | p :: rest =>
      exists e, heap !! p = Some e
                /\ eot_prev e = prev
                /\ eot_next e = hd_or nxt rest
                /\ eot_seg heap (Some p) rest nxt
  end.

(** The queue of [w] is made of the entries at [ptrs], head first. *)
Definition eot_queue_is (w : world) (ptrs : list nat) : Prop :=
  NoDup ptrs
  /\ eot_seg (eot_heap w) None ptrs None
  /\ vfd_swmr_eot_queue_head_g w = head ptrs
  /\ vfd_swmr_eot_queue_tail_g w = last ptrs
  /\ Forall (fun p => (p < eot_brk w)%nat) ptrs.

(** What an entry says, its links apart. *)
Definition eot_payload (e : H5F_vfd_swmr_eot_queue_entry_t)
  : bool * Z * timespec * nat :=
  (eot_vfd_swmr_writer e, eot_tick_num e, eot_end_of_tick e,
   eot_vfd_swmr_file e).

Definition eot_payload_at (w : world) (p : nat)
  : option (bool * Z * timespec * nat) :=
  eot_payload <$> eot_heap w !! p.

Definition eot_owned_by (w : world) (f : nat) (p : nat) : bool :=
  bool_decide (eot_vfd_swmr_file <$> eot_heap w !! p = Some f).

(** [l] without the first of its elements that satisfies [P]. *)
Fixpoint drop_first {A} (P : A -> bool) (l : list A) : list A :=
  match l with
  | [] => []
  | x :: r => if P x then r else x :: drop_first P r
  end.

(** The globals [vfd_swmr_writer_g] and [end_of_tick_g] say what the head
    of the queue says; with an empty queue the first is false and the
    second is whatever it was, [old]. *)
Definition eot_globals_follow (w : world) (ptrs : list nat) (old : timespec)
  : Prop :=
  match ptrs with
  | [] => vfd_swmr_writer_g w = false /\ end_of_tick_g w = old
  | h :: _ =>
      exists e, eot_heap w !! h = Some e
                /\ vfd_swmr_writer_g w = eot_vfd_swmr_writer e
                /\ end_of_tick_g w = eot_end_of_tick e
  end.

(** The deadline of the entry at [p] is later than [t]. *)
Definition eot_later_than (w : world) (t : timespec) (p : nat) : Prop :=
  exists e, eot_heap w !! p = Some e
            /\ timespec_gt (eot_end_of_tick e) t = true.

Definition eot_not_later_than (w : world) (t : timespec) (p : nat) : Prop :=
  exists e, eot_heap w !! p = Some e
            /\ timespec_gt (eot_end_of_tick e) t = false.

(** The heap once the entry before [prev] points on to [next], and the
    entry after points back to [prev]. *)
Definition relink_next (prev next : option nat)
    (heap : gmap nat H5F_vfd_swmr_eot_queue_entry_t)
  : gmap nat H5F_vfd_swmr_eot_queue_entry_t :=
  match prev with
  | Some p => alter (set_eot_next next) p heap
  | None => heap
  end.

Definition relink_prev (next prev : option nat)
    (heap : gmap nat H5F_vfd_swmr_eot_queue_entry_t)
  : gmap nat H5F_vfd_swmr_eot_queue_entry_t :=
  match next with
  | Some n => alter (set_eot_prev prev) n heap
  | None => heap
  end.

(** What the removal of the entry of [f] makes of a queue [ptrs]. *)
Definition removed_from (w : world) (f : nat) (ptrs : list nat)
    (w1 : world) : Prop :=
  eot_queue_is w1 (drop_first (eot_owned_by w f) ptrs)
  /\ (forall q, q ∈ drop_first (eot_owned_by w f) ptrs ->
                eot_payload_at w1 q = eot_payload_at w q)
  /\ (forall q, q ∈ ptrs -> q ∉ drop_first (eot_owned_by w f) ptrs ->
                eot_heap w1 !! q = None)
  /\ files w1 = files w /\ wlog w1 = wlog w /\ eot_brk w1 = eot_brk w
  /\ vfd_swmr_writer_g w1 = vfd_swmr_writer_g w
  /\ end_of_tick_g w1 = end_of_tick_g w.

(** The entry [H5F_vfd_swmr_insert_entry_eot] makes for file [f]. *)
Definition eot_entry_for (f : nat) (s : H5F_shared_t)
  : H5F_vfd_swmr_eot_queue_entry_t :=
  {| eot_vfd_swmr_writer := vfd_swmr_writer s;
     eot_tick_num := tick_num s;
     eot_end_of_tick := end_of_tick s;
     eot_vfd_swmr_file := f;
     eot_next := None; eot_prev := None |}.

(** The process once that entry has been allocated, not yet linked. *)
Definition with_new_entry (f : nat) (s : H5F_shared_t) (w : world) : world :=
  with_eot_heap (<[eot_brk w := eot_entry_for f s]> (eot_heap w))
    (S (eot_brk w)) (with_wlog (wlog w ++ [EvCalloc true]) w).

(** What a completed insertion for file [f] leaves: the queue is [ptrs'],
    the new entry (at the address the allocator was at) says what the file
    says, the others say what they said, the globals follow the head, and
    the one call made is the allocation. *)
Definition eot_inserted (w : world) (f : nat) (s : H5F_shared_t)
    (ptrs' : list nat) (w' : world) : Prop :=
  eot_queue_is w' ptrs'
  /\ eot_payload_at w' (eot_brk w)
     = Some (vfd_swmr_writer s, tick_num s, end_of_tick s, f)
  /\ (forall q, q <> eot_brk w -> eot_payload_at w' q = eot_payload_at w q)
  /\ eot_globals_follow w' ptrs' (end_of_tick_g w)
  /\ files w' = files w
  /\ wlog w' = wlog w ++ [EvCalloc true].

(** Four writers whose ticks end 100, 150, 200 and 175 ms from now. *)
Definition four_files : world :=
  process_of
    [with_end_of_tick (deadline_ms 100) (sample_writer 1 None 0 []);
     with_end_of_tick (deadline_ms 150) (sample_writer 1 None 0 []);
     with_end_of_tick (deadline_ms 200) (sample_writer 1 None 0 []);
     with_end_of_tick (deadline_ms 175) (sample_writer 1 None 0 [])].

(** The process after the files [order] have been queued one by one. *)
Definition queued (order : list nat) (w : world) : world :=
  fold_left (fun w f => fst (H5F_vfd_swmr_insert_entry_eot E_ok f w)) order w.

(** ** The holding tank of freed space: [H5MF__freedspace_push],
    [H5MF__freedspace_dequeue_time_limit] *)

(** The freedspace objects in memory, and the two pointers of the file the
    tank hangs on ([f->shared->freedspace_head] and [freedspace_tail]). *)
Record freedspace_tank := {
  tank_heap : gmap nat H5MF_freedspace_t;
  freedspace_head : option nat;
  freedspace_tail : option nat
}.

Definition with_fs_next (v : option nat) (fs : H5MF_freedspace_t)
  : H5MF_freedspace_t :=
  {| fs_f := fs_f fs; fs_alloc_type := fs_alloc_type fs;
     fs_addr := fs_addr fs; fs_size := fs_size fs;
     fs_timestamp := fs_timestamp fs; fs_next := v |}.

(** [p->next = v]. *)
Definition store_fs_next (p : nat) (v : option nat) : M freedspace_tank unit :=
  t <- get ;;
  fs <- deref (tank_heap t !! p) ;;
  put {| tank_heap := <[p := with_fs_next v fs]> (tank_heap t);
         freedspace_head := freedspace_head t;
         freedspace_tail := freedspace_tail t |}.

(** [H5MF__freedspace_push], called on the head and tail pointers of the
    file.  Only the branch for a tank that is not empty writes
    [freedspace->next]. *)
Definition H5MF__freedspace_push (freedspace : option nat)
  : M freedspace_tank unit :=
  HDassert (bool_decide (freedspace <> None)) >>
  t <- get ;;
  match freedspace_head t with
  | None =>
      put {| tank_heap := tank_heap t;
             freedspace_head := freedspace;
             freedspace_tail := freedspace |}
  | Some _ =>
      tail <- deref (freedspace_tail t) ;;
      store_fs_next tail freedspace >>
      modify (fun t => {| tank_heap := tank_heap t;
                          freedspace_head := freedspace_head t;
                          freedspace_tail := freedspace |}) >>
      fs <- deref freedspace ;;
      store_fs_next fs None
  end.

(** [H5MF__freedspace_dequeue_time_limit]; [now_time] is what
    [H5_now_usec] answers, [freedspace] is [*freedspace] on entry and the
    value returned is [*freedspace] on exit.  The difference of the two
    times is taken in [uint64_t]. *)
Definition H5MF__freedspace_dequeue_time_limit (now_time : Z)
    (freedspace : option nat) (time_limit : Z)
  : M freedspace_tank (option nat) :=
  t <- get ;;
  match freedspace_head t with
  | None => ret None
  | Some h =>
      e <- deref (tank_heap t !! h) ;;
      let entry_time := fs_timestamp e in
      if time_limit <? u64 (now_time - entry_time) then
        match fs_next e with
        | Some n =>
            put {| tank_heap := tank_heap t;
                   freedspace_head := Some n;
                   freedspace_tail := freedspace_tail t |} >>
            ret (Some h)
        | None =>
            put {| tank_heap := tank_heap t;
                   freedspace_head := None;
                   freedspace_tail := None |} >>
            ret (Some h)
        end
      else ret freedspace
  end.

(** The entries [ptrs] are chained through [next], the last one ending
    the chain. *)
Fixpoint tank_seg (heap : gmap nat H5MF_freedspace_t) (ptrs : list nat)
  : Prop :=
  match ptrs with
  | [] => True
  | p :: rest =>
      (exists e, heap !! p = Some e /\ fs_next e = head rest)
      /\ tank_seg heap rest
  end.

(** The tank holds the entries [ptrs], oldest first. *)
Definition tank_is (t : freedspace_tank) (ptrs : list nat) : Prop :=
  NoDup ptrs
  /\ tank_seg (tank_heap t) ptrs
  /\ freedspace_head t = head ptrs
  /\ freedspace_tail t = last ptrs.

(** What a freedspace object says, the link apart. *)
Definition fs_payload (fs : H5MF_freedspace_t)
  : nat * H5FD_mem_t * Z * Z * Z :=
  (fs_f fs, fs_alloc_type fs, fs_addr fs, fs_size fs, fs_timestamp fs).

(** The time stamps are [uint64_t]. *)
Definition tank_stamped (t : freedspace_tank) : Prop :=
  map_Forall (fun _ e => 0 <= fs_timestamp e < 2 ^ 64) (tank_heap t).

(** The head has been in the tank for more than [time_limit], by a clock
    that may have been set back since the entry was stamped. *)
Definition held_longer_than (now_time time_limit : Z)
    (e : H5MF_freedspace_t) : Prop :=
  (fs_timestamp e <= now_time /\ time_limit < now_time - fs_timestamp e)
  \/ (now_time < fs_timestamp e
      /\ time_limit < 2 ^ 64 - (fs_timestamp e - now_time)).

(** Three objects freed at 1000, 1500 and 2000 microseconds, none of them
    in the tank yet. *)
Definition sample_tank : freedspace_tank :=
  let fs (a t : Z) :=
    {| fs_f := 0%nat; fs_alloc_type := H5FD_MEM_DRAW; fs_addr := a;
       fs_size := 512; fs_timestamp := t; fs_next := None |} in
  {| tank_heap := {[ 1%nat := fs 4096 1000; 2%nat := fs 8192 1500;
                     3%nat := fs 12288 2000 ]};
     freedspace_head := None; freedspace_tail := None |}.

(** The tank after the objects [ps] have been pushed one by one. *)
Definition pushed (ps : list nat) (t : freedspace_tank) : freedspace_tank :=
  fold_left (fun t p => fst (H5MF__freedspace_push (Some p) t)) ps t.

(** ** The ring of the API context around [H5MF__freedspace_new] *)

(** The ring in force after [calls], when it was [ring0] before them. *)
Definition ring_in_force (ring0 : Z) (calls : list cache_call) : Z :=
  fold_left (fun r c => match c with CallSetRing r' => r' | _ => r end)
    calls ring0.

Definition sets_no_ring (c : cache_call) : Prop :=
  match c with CallSetRing _ => False | _ => True end.

(** The cache of [E_cache] when it refuses to take the new entry. *)
Definition E_no_insert (entries : list H5AC_info_t)
    (types : Z -> H5AC_type_id) : cache_env :=
  let E := E_cache entries types in
  {| H5AC_RING_INV := H5AC_RING_INV E; H5AC_RING_USER := H5AC_RING_USER E;
     H5AC_RING_SB := H5AC_RING_SB E;
     H5AC_ES__IN_CACHE := H5AC_ES__IN_CACHE E;
     HADDR_UNDEF := HADDR_UNDEF E;
     H5AC_cache_is_clean := H5AC_cache_is_clean E;
     H5AC_get_entry_status := H5AC_get_entry_status E;
     H5AC_get_entry_ring := H5AC_get_entry_ring E;
     H5CX_get_ring := H5CX_get_ring E;
     H5AC_get_entry_type := H5AC_get_entry_type E;
     H5AC_entries := H5AC_entries E;
     H5FL_CALLOC_H5MF_freedspace_t := H5FL_CALLOC_H5MF_freedspace_t E;
     H5_now_usec := H5_now_usec E;
     H5MF_alloc_tmp := H5MF_alloc_tmp E;
     H5AC_set_ring := H5AC_set_ring E;
     H5AC_insert_entry := fun _ _ _ _ => false;
     H5AC_create_flush_dependency := H5AC_create_flush_dependency E |}.

(** A request to free the 512 bytes of raw data at 65536, counted in
    ring 3. *)
Definition sample_ctx : H5MF_freedspace_ctx_t :=
  {| ctx_f := 0%nat; ctx_ring := 3; ctx_alloc_type := H5FD_MEM_DRAW;
     ctx_addr := 65536; ctx_size := 512; ctx_fs := None |}.

(** ** The counter of the delayed list *)

(** [dl_len] is the number of entries on the delayed list. *)
Definition counts_dl (s : H5F_shared_t) : Prop :=
  dl_len s = Z.of_nat (length (dl s)).

(** [m] keeps [I] true of the file, whatever its outcome. *)
Definition preserves {A} (I : H5F_shared_t -> Prop) (m : M fstate A) : Prop :=
  forall st, I (sh st) -> I (sh (fst (m st))).

(** ** A reader's end of tick when the writer has not moved *)

(** [m] makes no call to a collaborator, whatever its outcome. *)
Definition wlog_fixed {A} (m : M world A) : Prop :=
  forall w, wlog (fst (m w)) = wlog w.

(** ** Vocabulary of the statements about the capacity of the index *)

(** The number of slots the sizing rule gives the index of [s]. *)
Definition index_capacity (s : H5F_shared_t) : Z :=
  (fs_page_size s * md_pages_reserved (vfd_swmr_config s)
   - H5FD_MD_HEADER_SIZE) / H5FD_MD_INDEX_ENTRY_SIZE.

(** What the sizing rule reads, and the length it sets. *)
Definition capacity_view (s : H5F_shared_t) : Z * Z * Z :=
  (fs_page_size s, md_pages_reserved (vfd_swmr_config s), mdf_idx_len s).

(** The file once [H5F__vfd_swmr_writer__create_index] has given it a
    blank index, and the call that allocates the array. *)
Definition index_made (s : H5F_shared_t) : H5F_shared_t :=
  with_mdf_idx
    (Some (replicate (Z.to_nat (index_capacity s)) empty_idx_entry))
    (index_capacity s) 0 s.

Definition index_alloc (E : collaborators) (s : H5F_shared_t) : event :=
  EvMalloc (u64 (sizeof_idx_entry E * index_capacity s)) true.

(** What a file must be like for its index to be created. *)
Definition index_can_be_made (s : H5F_shared_t) : Prop :=
  vfd_swmr s = true /\ mdf_idx s = None /\ mdf_idx_len s = 0
  /\ mdf_idx_entries_used s = 0
  /\ H5FD_MD_HEADER_SIZE
       <= fs_page_size s * md_pages_reserved (vfd_swmr_config s) < 2 ^ 64
  /\ 0 < index_capacity s < 2 ^ 31.

(** ** Vocabulary of the statements about a reader that finds a new tick *)

(** The file once the reader has swapped its two index arrays. *)
Definition reader_swap (s : H5F_shared_t) : H5F_shared_t :=
  with_mdf_idx (old_mdf_idx s) (old_mdf_idx_len s)
    (u32 (old_mdf_idx_entries_used s))
    (with_old_mdf_idx (mdf_idx s) (mdf_idx_len s)
       (i32 (mdf_idx_entries_used s)) s).

(** The same once the array that is now current exists: a reader that
    has only one array yet -- at its first new tick -- creates the
    other. *)
Definition reader_swapped (s : H5F_shared_t) : H5F_shared_t :=
  match old_mdf_idx s with
  | Some _ => reader_swap s
  | None => index_made (reader_swap s)
  end.

(** The call that allocates that array. *)
Definition reader_alloc (E : collaborators) (s : H5F_shared_t)
  : list event :=
  match old_mdf_idx s with
  | Some _ => []
  | None => [index_alloc E (reader_swap s)]
  end.

(** The file once [loaded] has been read into the current array. *)
Definition reader_loaded (loaded : list H5FD_vfd_swmr_idx_entry_t)
    (s : H5F_shared_t) : H5F_shared_t :=
  let s2 := reader_swapped s in
  with_mdf_idx
    (Some (loaded ++ drop (length loaded) (default [] (mdf_idx s2))))
    (mdf_idx_len s2) (Z.of_nat (length loaded)) s2.

(** The calls that follow the walk of the two indexes: the clock is read
    and the queue entry of the file is allocated. *)
Definition settles_tick (ev : event) : Prop :=
  match ev with
  | EvClock _ | EvCalloc _ => True
  | _ => False
  end.

(** What the walk has settled of the file. *)
Definition reader_view (s : H5F_shared_t)
  : Z * option (list H5FD_vfd_swmr_idx_entry_t) * Z * Z
    * option (list H5FD_vfd_swmr_idx_entry_t) * Z :=
  (tick_num s, mdf_idx s, mdf_idx_len s, mdf_idx_entries_used s,
   old_mdf_idx s, old_mdf_idx_entries_used s).

(** ** A reader's end of tick after one that failed *)

(** A request to the page buffer or to the metadata cache that was
    refused. *)
Definition refused_eviction (ev : event) : Prop :=
  match ev with
  | EvPBRemoveEntry _ false | EvEvictOrRefresh _ _ false => True
  | _ => False
  end.

(** [m] leaves the file as it is, and reports an error only right after
    an eviction has been refused. *)
Definition evicts_only {A} (m : M fstate A) : Prop :=
  forall st st' r, m st = (st', r) ->
    sh st' = sh st
    /\ forall msg, r = Error msg ->
         exists ev, last (log st') = Some ev /\ refused_eviction ev.

(** The shadow file of [E_tick8] with a page buffer that refuses every
    removal. *)
Definition E_tick8_pb_refuses : collaborators :=
  {| H5FD_MD_HEADER_MAGIC := H5FD_MD_HEADER_MAGIC E_tick8;
     H5FD_MD_INDEX_MAGIC := H5FD_MD_INDEX_MAGIC E_tick8;
     sizeof_idx_entry := sizeof_idx_entry E_tick8;
     H5_checksum_metadata := H5_checksum_metadata E_tick8;
     H5FL_CALLOC := H5FL_CALLOC E_tick8;
     HDmalloc := HDmalloc E_tick8;
     H5MV_alloc := H5MV_alloc E_tick8;
     H5MV_free := H5MV_free E_tick8;
     H5MV_close := H5MV_close E_tick8;
     HDlseek := HDlseek E_tick8;
     HDwrite := HDwrite E_tick8;
     HDclose := HDclose E_tick8;
     HDunlink := HDunlink E_tick8;
     HDclock_gettime := HDclock_gettime E_tick8;
     H5PB_vfd_swmr__set_tick := H5PB_vfd_swmr__set_tick E_tick8;
     H5PB_vfd_swmr__update_index := H5PB_vfd_swmr__update_index E_tick8;
     H5PB_vfd_swmr__release_tick_list :=
       H5PB_vfd_swmr__release_tick_list E_tick8;
     H5PB_vfd_swmr__release_delayed_writes :=
       H5PB_vfd_swmr__release_delayed_writes E_tick8;
     H5PB_remove_entry := fun _ _ => false;
     H5D_flush_all := H5D_flush_all E_tick8;
     H5MF_free_aggrs := H5MF_free_aggrs E_tick8;
     H5AC_flush := H5AC_flush E_tick8;
     H5FD_truncate := H5FD_truncate E_tick8;
     H5FD_vfd_swmr_get_tick := H5FD_vfd_swmr_get_tick E_tick8;
     H5FD_vfd_swmr_get_idx := H5FD_vfd_swmr_get_idx E_tick8;
     H5C_evict_or_refresh_all_entries_in_page :=
       H5C_evict_or_refresh_all_entries_in_page E_tick8 |}.

(** ** The course of a writer's end of tick *)

(** Steps 1 and 2 when every call succeeds. *)
Definition flush_calls (with_cache : bool) : list event :=
  [EvDFlushAll true; EvMFFreeAggrs true]
    ++ (if with_cache then [EvACFlush true] else [])
    ++ [EvFDTruncate true]
    ++ (if with_cache then [EvACFlush true] else []).

(** The file when the page buffer is asked to update the index: the end
    of tick 1 has created the index first. *)
Definition file_at_update (s : H5F_shared_t) : H5F_shared_t :=
  if tick_num s =? 1 then index_made s else s.

(** The calls of a writer's end of tick before it asks the page buffer to
    update the index, when they all succeed. *)
Definition calls_before_update (E : collaborators) (s : H5F_shared_t)
  : list event :=
  flush_calls (cache s)
    ++ (if tick_num s =? 1 then [index_alloc E s] else []).

(** What the header frame is made from, and where it goes. *)
Definition tick_view (s : H5F_shared_t) : Z * Z * Z :=
  (tick_num s, fs_page_size s, vfd_swmr_md_fd s).

(** A call that asks the page buffer to release pages to the HDF5 file. *)
Definition is_release (ev : event) : bool :=
  match ev with
  | EvPBReleaseTickList _ | EvPBReleaseDelayedWrites _ => true
  | _ => false
  end.

(** The collaborators of [E_ok] with a page buffer that cannot release
    its tick list. *)
Definition E_tick_list_stuck : collaborators :=
  {| H5FD_MD_HEADER_MAGIC := H5FD_MD_HEADER_MAGIC E_ok;
     H5FD_MD_INDEX_MAGIC := H5FD_MD_INDEX_MAGIC E_ok;
     sizeof_idx_entry := sizeof_idx_entry E_ok;
     H5_checksum_metadata := H5_checksum_metadata E_ok;
     H5FL_CALLOC := H5FL_CALLOC E_ok;
     HDmalloc := HDmalloc E_ok;
     H5MV_alloc := H5MV_alloc E_ok;
     H5MV_free := H5MV_free E_ok;
     H5MV_close := H5MV_close E_ok;
     HDlseek := HDlseek E_ok;
     HDwrite := HDwrite E_ok;
     HDclose := HDclose E_ok;
     HDunlink := HDunlink E_ok;
     HDclock_gettime := HDclock_gettime E_ok;
     H5PB_vfd_swmr__set_tick := H5PB_vfd_swmr__set_tick E_ok;
     H5PB_vfd_swmr__update_index := H5PB_vfd_swmr__update_index E_ok;
     H5PB_vfd_swmr__release_tick_list := fun _ => false;
     H5PB_vfd_swmr__release_delayed_writes :=
       H5PB_vfd_swmr__release_delayed_writes E_ok;
     H5PB_remove_entry := H5PB_remove_entry E_ok;
     H5D_flush_all := H5D_flush_all E_ok;
     H5MF_free_aggrs := H5MF_free_aggrs E_ok;
     H5AC_flush := H5AC_flush E_ok;
     H5FD_truncate := H5FD_truncate E_ok;
     H5FD_vfd_swmr_get_tick := H5FD_vfd_swmr_get_tick E_ok;
     H5FD_vfd_swmr_get_idx := H5FD_vfd_swmr_get_idx E_ok;
     H5C_evict_or_refresh_all_entries_in_page :=
       H5C_evict_or_refresh_all_entries_in_page E_ok |}.

(** The end-of-tick queue as the process holds it. *)
Definition queue_of (w : world)
  : gmap nat H5F_vfd_swmr_eot_queue_entry_t * nat * option nat * option nat :=
  (eot_heap w, eot_brk w, vfd_swmr_eot_queue_head_g w,
   vfd_swmr_eot_queue_tail_g w).

(** ** Reasoning about monadic code *)

Lemma bind_ok {S A B} (m : M S A) (k : A -> M S B) (s s' : S) (b : B) :
  bind m k s = (s', Ok b) ->
  exists s1 a, m s = (s1, Ok a) /\ k a s1 = (s', Ok b).
Proof.
  unfold bind. destruct (m s) as [s1 [a| | | |]]; intros H; try discriminate.
  exists s1, a. split; [reflexivity | exact H].
Qed.

Lemma bind_run {S A B} (m : M S A) (k : A -> M S B) (s s1 : S) (a : A) :
  m s = (s1, Ok a) -> bind m k s = k a s1.
Proof. unfold bind. intros ->. reflexivity. Qed.

Lemma or_error_ok {S A} (msg : string) (m : M S A) (s s' : S) (a : A) :
  or_error msg m s = (s', Ok a) -> m s = (s', Ok a).
Proof.
  unfold or_error. destruct (m s) as [s1 [x| | | |]]; intros H;
    try discriminate; exact H.
Qed.

Lemma check_ok {S} (msg : string) (b : bool) (s s' : S) (u : unit) :
  check msg b s = (s', Ok u) -> b = true /\ s' = s.
Proof.
  destruct b; unfold check, ret, throw; intros H; inversion H; auto.
Qed.

Lemma HDassert_ok {S} (b : bool) (s s' : S) (u : unit) :
  HDassert b s = (s', Ok u) -> b = true /\ s' = s.
Proof. destruct b; unfold HDassert; intros H; inversion H; auto. Qed.

Lemma deref_ok {S A} (p : option A) (s s' : S) (a : A) :
  deref p s = (s', Ok a) -> p = Some a /\ s' = s.
Proof.
  destruct p; unfold deref, ret, fault; intros H; inversion H; auto.
Qed.

Lemma call_ok {A} (oracle : list event -> A) (ev : A -> event)
    (s s' : fstate) (a : A) :
  call oracle ev s = (s', Ok a) ->
  a = oracle (log s) /\ s' = {| sh := sh s; log := log s ++ [ev a] |}.
Proof. unfold call. intros H. inversion H. auto. Qed.

Lemma get_shared_ok (s s' : fstate) (x : H5F_shared_t) :
  get_shared s = (s', Ok x) -> x = sh s /\ s' = s.
Proof. unfold get_shared. intros H. inversion H. auto. Qed.

Lemma set_shared_ok (g : H5F_shared_t -> H5F_shared_t) (s s' : fstate)
    (u : unit) :
  set_shared g s = (s', Ok u) -> s' = {| sh := g (sh s); log := log s |}.
Proof. unfold set_shared. intros H. inversion H. auto. Qed.

Lemma ret_ok {S A} (a b : A) (s s' : S) :
  ret a s = (s', Ok b) -> b = a /\ s' = s.
Proof. unfold ret. intros H. inversion H. auto. Qed.

(** Peel one successful step off [H : (x <- m ;; k) s = (_, Ok _)]: the
    value bound is named [a] and what is learnt about it [Ha]. *)
Ltac inv_bind H a Ha :=
  let s1 := fresh "s" in
  apply bind_ok in H; destruct H as (s1 & a & Ha & H);
  first
    [ apply get_shared_ok in Ha; destruct Ha as [Ha ->]
    | apply set_shared_ok in Ha; subst s1
    | apply check_ok in Ha; destruct Ha as [Ha ->]
    | apply HDassert_ok in Ha; destruct Ha as [Ha ->]
    | apply deref_ok in Ha; destruct Ha as [Ha ->]
    | apply call_ok in Ha; destruct Ha as [Ha ->]
    | apply ret_ok in Ha; destruct Ha as [Ha ->]
    | idtac ];
  cbn [sh log] in H.

Ltac inv_step H :=
  let a := fresh "a" in
  let Ha := fresh "Hstep" in
  inv_bind H a Ha.

(** ** Properties of the codec *)

Lemma encode_le_length (w : nat) (n : Z) : length (encode_le w n) = w.
Proof. revert n; induction w as [|w IH]; intros n; simpl; [|rewrite IH]; reflexivity. Qed.

Lemma encode_le_bytes (w : nat) (n : Z) :
  Forall (fun b => 0 <= b < 256) (encode_le w n).
Proof.
  revert n; induction w as [|w IH]; intros n; simpl; constructor.
  - change 255 with (Z.ones 8). rewrite Z.land_ones by lia.
    apply Z.mod_pos_bound. lia.
  - apply IH.
Qed.

Lemma decode_encode_le (w : nat) (n : Z) :
  decode_le (encode_le w n) = n mod 2 ^ (8 * Z.of_nat w).
Proof.
  revert n; induction w as [|w IH]; intros n.
  - simpl. rewrite Z.mod_1_r. reflexivity.
  - cbn [encode_le decode_le]. rewrite IH.
    change 255 with (Z.ones 8). rewrite Z.land_ones by lia.
    rewrite Z.shiftr_div_pow2 by lia.
    replace (8 * Z.of_nat (S w)) with (8 + 8 * Z.of_nat w) by lia.
    rewrite Z.pow_add_r by lia.
    rewrite Z.rem_mul_r by lia. reflexivity.
Qed.

Lemma encode_le_is_le (w : nat) (n : Z) : is_le w n (encode_le w n).
Proof.
  split; [apply encode_le_length|].
  split; [apply encode_le_bytes | apply decode_encode_le].
Qed.

Lemma encode_idx_entries_Some n : forall index bs,
  encode_idx_entries n index = Some bs ->
  (n <= length index)%nat
  /\ bs = concat (map encode_idx_entry (take n index)).
Proof.
  induction n as [|n IH]; intros index bs H; simpl in H.
  - inversion H. split; [lia | reflexivity].
  - destruct index as [|e rest]; [discriminate|].
    destruct (encode_idx_entries n rest) as [bs'|] eqn:Hr; [|discriminate].
    inversion H; subst bs. destruct (IH _ _ Hr) as [Hle ->].
    split; [simpl; lia | reflexivity].
Qed.

Lemma encode_idx_entries_take n : forall index,
  (n <= length index)%nat ->
  encode_idx_entries n index
  = Some (concat (map encode_idx_entry (take n index))).
Proof.
  induction n as [|n IH]; intros index Hle; simpl; [reflexivity|].
  destruct index as [|e rest]; [simpl in Hle; lia|].
  rewrite IH by (simpl in Hle; lia). reflexivity.
Qed.

Lemma construct_write_md_hdr_ok E n st st' (u : unit) :
  H5F__vfd_swmr_construct_write_md_hdr E n st = (st', Ok u) ->
  sh st' = sh st
  /\ log st' = log st ++ hdr_frame_events E (vfd_swmr_md_fd (sh st)) (sh st) n.
Proof.
  unfold H5F__vfd_swmr_construct_write_md_hdr. intros H.
  inv_bind H s Hs. subst s.
  inv_bind H u0 Hassert.
  inv_bind H ok1 Hseek. inv_bind H u1 Hu1. rewrite Hu1 in *. clear Hseek.
  inv_bind H ok2 Hwrite.
  apply check_ok in H. destruct H as [H ->]. rewrite H in *.
  simpl. split; [reflexivity|].
  unfold hdr_frame_events. rewrite <- app_assoc. reflexivity.
Qed.

Lemma construct_write_md_idx_ok E n index st st' (u : unit) :
  H5F__vfd_swmr_construct_write_md_idx E n index st = (st', Ok u) ->
  (Z.to_nat n <= length (default [] index))%nat
  /\ sh st' = sh st
  /\ log st' = log st
       ++ idx_frame_events E (vfd_swmr_md_fd (sh st)) (sh st) n
            (take (Z.to_nat n) (default [] index)).
Proof.
  unfold H5F__vfd_swmr_construct_write_md_idx. intros H.
  inv_bind H s Hs. subst s.
  inv_bind H u0 Hassert.
  inv_bind H ok0 Hmalloc. inv_bind H u1 Hu1. rewrite Hu1 in *. clear Hmalloc.
  inv_bind H entries Henc.
  apply encode_idx_entries_Some in Henc. destruct Henc as [Hle ->].
  inv_bind H u2 Hsize. inv_bind H u3 Hfd.
  inv_bind H ok1 Hseek. inv_bind H u4 Hu4. rewrite Hu4 in *. clear Hseek.
  inv_bind H ok2 Hwrite.
  apply check_ok in H. destruct H as [H ->]. rewrite H in *.
  simpl. split; [exact Hle|]. split; [reflexivity|].
  unfold idx_frame_events. rewrite <- !app_assoc. reflexivity.
Qed.

(** ** The sort *)

Lemma qsort_insert_perm {A} (cmp : A -> A -> Z) (x : A) (l : list A) :
  Permutation (x :: l) (qsort_insert cmp x l).
Proof.
  induction l as [|y r IH]; simpl; [reflexivity|].
  destruct (cmp x y <=? 0); [reflexivity|].
  rewrite perm_swap. constructor. exact IH.
Qed.

Lemma HDqsort_perm {A} (cmp : A -> A -> Z) (l : list A) :
  Permutation l (HDqsort cmp l).
Proof.
  induction l as [|x r IH]; simpl; [reflexivity|].
  rewrite <- qsort_insert_perm. constructor. exact IH.
Qed.

Lemma HDqsort_length {A} (cmp : A -> A -> Z) (l : list A) :
  length (HDqsort cmp l) = length l.
Proof. symmetry. apply Permutation_length, HDqsort_perm. Qed.

Lemma idx_cmp_le (a b : H5FD_vfd_swmr_idx_entry_t) :
  (H5F__idx_entry_cmp a b <=? 0) = (hdf5_page_offset a <=? hdf5_page_offset b).
Proof.
  unfold H5F__idx_entry_cmp.
  destruct (Z.ltb_spec (hdf5_page_offset a) (hdf5_page_offset b));
    [|destruct (Z.ltb_spec (hdf5_page_offset b) (hdf5_page_offset a))];
    simpl; symmetry; [apply Z.leb_le|apply Z.leb_gt|apply Z.leb_le]; lia.
Qed.

Lemma qsort_insert_ordered (x : H5FD_vfd_swmr_idx_entry_t) l :
  index_ordered l -> index_ordered (qsort_insert H5F__idx_entry_cmp x l).
Proof.
  unfold index_ordered.
  induction l as [|y r IH]; intros Hs; simpl.
  - constructor; constructor.
  - rewrite idx_cmp_le.
    apply StronglySorted_inv in Hs. destruct Hs as [Hr Hy].
    destruct (Z.leb_spec (hdf5_page_offset x) (hdf5_page_offset y)).
    + constructor; [constructor; assumption|].
      constructor; [assumption|].
      eapply Forall_impl; [exact Hy|]. simpl. intros; lia.
    + constructor; [apply IH; exact Hr|].
      rewrite <- (qsort_insert_perm H5F__idx_entry_cmp x r).
      constructor; [lia | exact Hy].
Qed.

Lemma HDqsort_ordered (l : list H5FD_vfd_swmr_idx_entry_t) :
  index_ordered (HDqsort H5F__idx_entry_cmp l).
Proof.
  induction l as [|x r IH]; simpl.
  - constructor.
  - apply qsort_insert_ordered, IH.
Qed.

(** ** One entry of the index *)

Lemma upd_index_dl_id s idx :
  mdf_idx s = Some idx -> upd_index_dl idx (dl s) (dl_len s) s = s.
Proof. destruct s; simpl; intros ->; reflexivity. Qed.

Lemma upd_index_dl_twice idx l n idx' l' n' s :
  upd_index_dl idx l n (upd_index_dl idx' l' n' s) = upd_index_dl idx l n s.
Proof. reflexivity. Qed.

Lemma index_read_ok i st st' e :
  index_read i st = (st', Ok e) ->
  exists idx, mdf_idx (sh st) = Some idx /\ 0 <= i
              /\ idx !! Z.to_nat i = Some e /\ st' = st.
Proof.
  unfold index_read. intros H.
  inv_bind H s Hs. subst s. inv_bind H idx Hidx.
  destruct (Z.ltb_spec i 0); [discriminate|].
  apply deref_ok in H. destruct H as [H ->].
  eauto.
Qed.

Lemma index_write_ok i e st st' (u : unit) :
  index_write i e st = (st', Ok u) ->
  exists idx, mdf_idx (sh st) = Some idx
              /\ (Z.to_nat i < length idx)%nat
              /\ st' = {| sh := with_mdf_idx (Some (<[Z.to_nat i := e]> idx))
                                  (mdf_idx_len (sh st))
                                  (mdf_idx_entries_used (sh st)) (sh st);
                          log := log st |}.
Proof.
  unfold index_write. intros H.
  inv_bind H s Hs. subst s. inv_bind H idx Hidx.
  destruct (Z.leb_spec 0 i); simpl in H; [|discriminate].
  destruct (Z.ltb_spec i (Z.of_nat (length idx))); simpl in H; [|discriminate].
  apply set_shared_ok in H. exists idx. split; [assumption|].
  split; [lia | exact H].
Qed.

Lemma publish_entry_ok E i st st' idx e :
  publish_entry E i st = (st', Ok tt) ->
  mdf_idx (sh st) = Some idx ->
  idx !! Z.to_nat i = Some e ->
  let s := sh st in
  match entry_ptr e with
  | None => st' = st
  | Some image =>
      exists a,
        sh st' =
          upd_index_dl
            (<[Z.to_nat i := published_entry E (fs_page_size s) e image a]> idx)
            (superseded (tick_num s) [e] ++ dl s)
            (dl_len s + Z.of_nat (length (superseded (tick_num s) [e]))) s
        /\ log st' = log st ++ entry_events (vfd_swmr_md_fd s) e image a
  end.
Proof.
  intros H Hidx He s. unfold publish_entry in H.
  apply bind_ok in H. destruct H as (s1 & e0 & Hr & H).
  apply index_read_ok in Hr. destruct Hr as (idx0 & Hi0 & Hpos & He0 & ->).
  rewrite Hidx in Hi0. inversion Hi0; subst idx0. clear Hi0.
  rewrite He in He0. inversion He0; subst e0. clear He0.
  destruct (entry_ptr e) as [image|] eqn:Hptr.
  2:{ apply ret_ok in H. destruct H as [_ ->]. reflexivity. }
  apply bind_ok in H. destruct H as (s1 & [] & Hdl & H).
  (* the delayed-list step *)
  assert (Hs1 : sh s1 = upd_index_dl idx
                   (superseded (tick_num s) [e] ++ dl s)
                   (dl_len s + Z.of_nat (length (superseded (tick_num s) [e]))) s
                /\ log s1 = log st
                     ++ (if md_file_page_offset e =? 0 then [] else [EvCalloc true])).
  { simpl. rewrite Hptr.
    destruct (md_file_page_offset e =? 0) eqn:Hz.
    - apply ret_ok in Hdl. destruct Hdl as [_ ->]. simpl.
      rewrite Z.add_0_r, app_nil_r. split; [|reflexivity].
      symmetry. apply upd_index_dl_id. exact Hidx.
    - inv_bind Hdl ok Hok. inv_bind Hdl u Hu. subst ok.
      inv_bind Hdl s0 Hs0. subst s0.
      apply set_shared_ok in Hdl. subst s1. simpl.
      rewrite Hu. split; [|reflexivity].
      unfold upd_index_dl, s. destruct (sh st); simpl in *.
      rewrite Hidx. reflexivity. }
  destruct Hs1 as [Hsh1 Hlog1].
  inv_bind H md_addr Hal.
  destruct md_addr as [md_addr|]; [|discriminate].
  inv_bind H s2 Hs2. subst s2.
  apply bind_ok in H. destruct H as (s2 & [] & Hw & H).
  apply index_write_ok in Hw. destruct Hw as (idx1 & Hi1 & Hlt & ->).
  simpl in Hi1. rewrite Hsh1 in Hi1. simpl in Hi1. inversion Hi1; subst idx1.
  inv_bind H ok1 Hseek. inv_bind H u1 Hu1. rewrite Hu1 in *. clear Hseek.
  inv_bind H ok2 Hwrite. inv_bind H u2 Hu2. rewrite Hu2 in *. clear Hwrite.
  apply bind_ok in H. destruct H as (s3 & e' & Hr & H).
  apply index_read_ok in Hr. destruct Hr as (idx2 & Hi2 & _ & He2 & ->).
  simpl in Hi2. inversion Hi2; subst idx2. clear Hi2.
  rewrite list_lookup_insert_eq in He2 by exact Hlt.
  inversion He2; subst e'. clear He2.
  apply index_write_ok in H. destruct H as (idx3 & Hi3 & _ & ->).
  simpl in Hi3. inversion Hi3; subst idx3. clear Hi3.
  exists md_addr. simpl.
  rewrite Hsh1. simpl. split.
  - rewrite list_insert_insert_eq. unfold upd_index_dl. simpl.
    unfold with_entry_ptr, published_entry; simpl. reflexivity.
  - unfold entry_events.
    cbn [sh log] in *. rewrite Hlog1.
    rewrite <- !app_assoc. simpl. reflexivity.
Qed.

(** ** The loop over the index *)

Lemma superseded_cons tick e r :
  superseded tick (e :: r) = superseded tick [e] ++ superseded tick r.
Proof.
  simpl. destruct (entry_ptr e); [|reflexivity].
  destruct (md_file_page_offset e =? 0); reflexivity.
Qed.

Lemma superseded_one_rev tick e :
  rev (superseded tick [e]) = superseded tick [e].
Proof.
  simpl. destruct (entry_ptr e); [|reflexivity].
  destruct (md_file_page_offset e =? 0); reflexivity.
Qed.

Lemma publish_entries_ok E es : forall pre post st st',
  mdf_idx (sh st) = Some (pre ++ es ++ post) ->
  publish_entries E (length es) (Z.of_nat (length pre)) st = (st', Ok tt) ->
  let s := sh st in
  exists addrs,
    length addrs = length (pending es)
    /\ sh st' =
         upd_index_dl
           (pre ++ published_index E (fs_page_size s) es addrs ++ post)
           (rev (superseded (tick_num s) es) ++ dl s)
           (dl_len s + Z.of_nat (length (superseded (tick_num s) es))) s
    /\ log st' = log st ++ publication_events (vfd_swmr_md_fd s) es addrs.
Proof.
  induction es as [|e r IH]; intros pre post st st' Hidx H s.
  - apply ret_ok in H. destruct H as [_ ->]. exists []. simpl.
    rewrite Z.add_0_r, app_nil_r. split; [reflexivity|]. split; [|reflexivity].
    symmetry. apply upd_index_dl_id. exact Hidx.
  - cbn [length publish_entries] in H.
    apply bind_ok in H. destruct H as (s1 & [] & H1 & H).
    assert (He : (pre ++ (e :: r) ++ post) !! Z.to_nat (Z.of_nat (length pre))
                 = Some e).
    { rewrite Nat2Z.id. apply list_lookup_middle. reflexivity. }
    pose proof (publish_entry_ok E _ _ _ _ _ H1 Hidx He) as Hstep.
    cbv zeta in Hstep. fold s in Hstep.
    replace (Z.of_nat (length pre) + 1) with (Z.of_nat (length (pre ++ [e])))
      in H by (rewrite length_app; simpl; lia).
    destruct (entry_ptr e) as [image|] eqn:Hptr.
    + destruct Hstep as (a & Hsh1 & Hlog1).
      rewrite Nat2Z.id in Hsh1.
      assert (Hidx1 : mdf_idx (sh s1)
                      = Some ((pre ++ [published_entry E (fs_page_size s) e image a])
                                ++ r ++ post)).
      { rewrite Hsh1. simpl. f_equal.
        rewrite insert_app_r_alt by lia. rewrite Nat.sub_diag. simpl.
        rewrite <- app_assoc. reflexivity. }
      replace (length (pre ++ [e]))
        with (length (pre ++ [published_entry E (fs_page_size s) e image a]))
        in H by (rewrite !length_app; reflexivity).
      destruct (IH _ _ _ _ Hidx1 H) as (addrs & Hlen & Hsh & Hlog).
      exists (a :: addrs).
      assert (Hfs : fs_page_size (sh s1) = fs_page_size s) by (rewrite Hsh1; reflexivity).
      assert (Htk : tick_num (sh s1) = tick_num s) by (rewrite Hsh1; reflexivity).
      assert (Hfd : vfd_swmr_md_fd (sh s1) = vfd_swmr_md_fd s) by (rewrite Hsh1; reflexivity).
      rewrite Hfs, Htk in Hsh. rewrite Hfd in Hlog.
      split; [|split].
      * unfold pending in *. rewrite filter_cons_True by (rewrite Hptr; eauto).
        simpl. rewrite Hlen. reflexivity.
      * rewrite Hsh. rewrite Hsh1 at 3. rewrite upd_index_dl_twice.
        rewrite Hsh1 at 1 2. cbn [dl dl_len upd_index_dl with_mdf_idx with_dl].
        cbn [published_index]. rewrite Hptr.
        rewrite (superseded_cons _ e r).
        rewrite rev_app_distr, superseded_one_rev, length_app.
        rewrite <- !app_assoc. simpl.
        f_equal. lia.
      * rewrite Hlog, Hlog1. cbn [publication_events]. rewrite Hptr.
        rewrite <- app_assoc. reflexivity.
    + subst s1.
      assert (Hidx1 : mdf_idx (sh st) = Some ((pre ++ [e]) ++ r ++ post)).
      { rewrite Hidx. rewrite <- app_assoc. reflexivity. }
      destruct (IH _ _ _ _ Hidx1 H) as (addrs & Hlen & Hsh & Hlog).
      exists addrs. fold s in Hsh, Hlog.
      split; [|split].
      * unfold pending in *.
        rewrite filter_cons_False; [exact Hlen|].
        rewrite Hptr. intros [x Hx]. discriminate.
      * rewrite Hsh. cbn [published_index superseded]. rewrite Hptr.
        rewrite <- app_assoc. reflexivity.
      * rewrite Hlog. cbn [publication_events]. rewrite Hptr. reflexivity.
Qed.

(** ** The walk over the delayed list *)

Lemma timed_out_upd s idx l n d :
  timed_out (upd_index_dl idx l n s) d = timed_out s d.
Proof. reflexivity. Qed.

Lemma timed_out_with_dl s l n d : timed_out (with_dl l n s) d = timed_out s d.
Proof. reflexivity. Qed.

Lemma release_delayed_ok E front : forall back st st',
  dl (sh st) = front ++ back ->
  release_delayed E (length front) st = (st', Ok tt) ->
  let s := sh st in
  exists kept freed,
    front = kept ++ freed
    /\ Forall (fun d => timed_out s d = true) freed
    /\ match last kept with
       | Some d => timed_out s d = false
       | None => True
       end
    /\ sh st' = with_dl (kept ++ back) (dl_len s - Z.of_nat (length freed)) s
    /\ log st' = log st ++ map (free_event (fs_page_size s)) (rev freed).
Proof.
  induction front as [|d front IH] using rev_ind; intros back st st' Hdl H s.
  - apply ret_ok in H. destruct H as [_ ->]. exists [], []. simpl.
    rewrite app_nil_r, Z.sub_0_r. repeat split; auto.
    destruct (sh st); simpl in *. subst. reflexivity.
  - rewrite length_app, Nat.add_1_r in H. cbn [release_delayed] in H.
    inv_bind H s0 Hs0. subst s0.
    inv_bind H d0 Hd0.
    rewrite Hdl, <- app_assoc in Hd0. simpl in Hd0.
    rewrite list_lookup_middle in Hd0 by reflexivity.
    inversion Hd0; subst d0. clear Hd0.
    fold s in H.
    destruct (timed_out s d) eqn:Hdue.
    + inv_bind H ok Hfree. inv_bind H u Hu. rewrite Hu in *. clear Hfree.
      inv_bind H s1 Hs1. subst s1. inv_bind H u1 Hu1.
      cbn [sh log] in H.
      match type of H with release_delayed _ _ ?st1 = _ =>
        assert (Hdl1 : dl (sh st1) = front ++ back) end.
      { simpl. unfold s. rewrite Hdl, <- app_assoc. simpl.
        apply delete_middle. }
      destruct (IH back _ _ Hdl1 H) as (kept & freed & Hfront & Hall & Hlast & Hsh & Hlog).
      exists kept, (freed ++ [d]). cbn [sh log] in *.
      split; [rewrite Hfront, app_assoc; reflexivity|].
      split; [apply Forall_app; split; [exact Hall | constructor; [exact Hdue|constructor]]|].
      split; [exact Hlast|].
      split.
      * rewrite Hsh. rewrite length_app. unfold with_dl, s. simpl.
        f_equal. lia.
      * rewrite Hlog. rewrite rev_app_distr. simpl.
        rewrite <- app_assoc. reflexivity.
    + apply ret_ok in H. destruct H as [_ ->].
      exists (front ++ [d]), []. simpl.
      rewrite app_nil_r, Z.sub_0_r. rewrite last_snoc.
      split; [reflexivity|]. split; [constructor|]. split; [exact Hdue|].
      split; [|rewrite app_nil_r; reflexivity].
      rewrite <- Hdl. unfold s. destruct (sh st); reflexivity.
Qed.

(** ** The whole routine *)

Lemma published_index_length E ps es : forall addrs,
  length (published_index E ps es addrs) = length es.
Proof.
  induction es as [|e r IH]; intros addrs; simpl; [reflexivity|].
  destruct (entry_ptr e); [destruct addrs|]; simpl; rewrite ?IH; reflexivity.
Qed.

Lemma sort_index_ok n st st' (u : unit) :
  sort_index n st = (st', Ok u) ->
  exists idx,
    mdf_idx (sh st) = Some idx
    /\ Z.of_nat (length idx) >= n
    /\ st' = {| sh := upd_index_dl
                        (HDqsort H5F__idx_entry_cmp (take (Z.to_nat n) idx)
                           ++ drop (Z.to_nat n) idx)
                        (dl (sh st)) (dl_len (sh st)) (sh st);
                log := log st |}.
Proof.
  unfold sort_index. intros H.
  inv_bind H s Hs. subst s. inv_bind H idx Hidx.
  destruct (Z.ltb_spec (Z.of_nat (length idx)) n); [discriminate|].
  apply set_shared_ok in H. subst st'. exists idx.
  split; [exact Hidx|]. split; [lia|].
  reflexivity.
Qed.

Lemma update_metadata_file_ok E n st st' idx :
  H5F_update_vfd_swmr_metadata_file E n true st = (st', Ok tt) ->
  mdf_idx (sh st) = Some idx ->
  0 <= n ->
  let s := sh st in
  let fd := vfd_swmr_md_fd s in
  let sorted := HDqsort H5F__idx_entry_cmp (take (Z.to_nat n) idx) in
  0 < n <= Z.of_nat (length idx)
  /\ exists addrs kept freed,
       let idx' := published_index E (fs_page_size s) sorted addrs in
       length addrs = length (pending sorted)
       /\ rev (superseded (tick_num s) sorted) ++ dl s = kept ++ freed
       /\ Forall (fun d => timed_out s d = true) freed
       /\ match last kept with
          | Some d => timed_out s d = false
          | None => True
          end
       /\ sh st' =
            upd_index_dl (idx' ++ drop (Z.to_nat n) idx) kept
              (dl_len s + Z.of_nat (length (superseded (tick_num s) sorted))
               - Z.of_nat (length freed)) s
       /\ log st' =
            log st ++ publication_events fd sorted addrs
              ++ idx_frame_events E fd s n idx'
              ++ hdr_frame_events E fd s n
              ++ map (free_event (fs_page_size s)) (rev freed).
Proof.
  intros H Hidx Hn s fd sorted.
  unfold H5F_update_vfd_swmr_metadata_file in H.
  destruct (Z.eqb_spec n 0) as [->|Hn0].
  { (* with no entries the index must be NULL *)
    exfalso.
    inv_bind H u0 Hu0. inv_bind H u1 Hu1. inv_bind H s0 Hs0. subst s0.
    apply bind_ok in H. destruct H as (s1 & u2 & H & _).
    apply or_error_ok in H.
    unfold H5F__vfd_swmr_construct_write_md_idx in H.
    inv_bind H s0 Hs0. subst s0. inv_bind H u3 Hassert.
    rewrite Hidx in Hassert. simpl in Hassert. discriminate. }
  apply bind_ok in H. destruct H as (s1 & u1 & Hsort & H).
  inv_bind Hsort s0 Hs0. subst s0. inv_bind Hsort i0 Hi0. clear i0 Hi0.
  apply sort_index_ok in Hsort.
  destruct Hsort as (idx0 & Hidx0 & Hlen & ->).
  rewrite Hidx in Hidx0. inversion Hidx0; subst idx0. clear Hidx0.
  split; [lia|].
  apply bind_ok in H. destruct H as (s2 & [] & Hloop & H).
  inv_bind Hloop s0 Hs0. subst s0. inv_bind Hloop i0 Hi0. clear i0 Hi0.
  fold sorted in Hloop.
  assert (Hsl : length sorted = Z.to_nat n).
  { unfold sorted. rewrite HDqsort_length, length_take. lia. }
  rewrite <- Hsl in Hloop at 1.
  change 0 with (Z.of_nat (length (@nil H5FD_vfd_swmr_idx_entry_t))) in Hloop.
  eapply (publish_entries_ok E sorted [] (drop (Z.to_nat n) idx)) in Hloop;
    [|simpl; unfold upd_index_dl; simpl; reflexivity].
  destruct Hloop as (addrs & Hal & Hsh2 & Hlog2).
  cbn [sh log app] in Hsh2, Hlog2.
  rewrite upd_index_dl_twice in Hsh2.
  cbn [fs_page_size tick_num dl dl_len vfd_swmr_md_fd upd_index_dl
       with_mdf_idx with_dl] in Hsh2, Hlog2.
  fold s in Hsh2, Hlog2. fold fd in Hlog2.
  inv_bind H s0 Hs0. subst s0.
  apply bind_ok in H. destruct H as (s3 & u3 & Hix & H).
  apply or_error_ok, construct_write_md_idx_ok in Hix.
  destruct Hix as (_ & Hsh3 & Hlog3).
  apply bind_ok in H. destruct H as (s4 & u4 & Hhd & H).
  apply or_error_ok, construct_write_md_hdr_ok in Hhd.
  destruct Hhd as (Hsh4 & Hlog4).
  inv_bind H s0 Hs0. subst s0.
  assert (Hdl4 : dl (sh s4)
                 = (rev (superseded (tick_num s) sorted) ++ dl s) ++ []).
  { rewrite Hsh4, Hsh3, Hsh2, app_nil_r. reflexivity. }
  rewrite Hdl4, app_nil_r in H. rewrite <- (app_nil_r (_ ++ _)) in Hdl4 at 1.
  rewrite app_nil_r in Hdl4.
  eapply release_delayed_ok in H; [|rewrite Hdl4; reflexivity].
  destruct H as (kept & freed & Hsplit & Hall & Hlast & Hsh & Hlog).
  exists addrs, kept, freed. cbv zeta.
  assert (Hs4 : sh s4 = sh s2) by (rewrite Hsh4, Hsh3; reflexivity).
  rewrite Hs4, Hsh2 in Hall, Hlast, Hsh, Hlog.
  split; [exact Hal|]. split; [exact Hsplit|].
  split; [exact Hall|]. split; [exact Hlast|].
  split.
  - rewrite Hsh. rewrite app_nil_r. reflexivity.
  - rewrite Hlog, Hlog4, Hlog3, Hlog2, Hsh3, Hsh2.
    cbn [fs_page_size vfd_swmr_md_fd upd_index_dl with_mdf_idx with_dl
         mdf_idx default].
    fold fd. unfold id.
    rewrite take_app_length'
      by (rewrite published_index_length; exact (eq_sym Hsl)).
    rewrite <- !app_assoc. reflexivity.
Qed.

(** The call with no entries and a [NULL] index. *)
Lemma update_metadata_file_empty_ok E index st st' :
  H5F_update_vfd_swmr_metadata_file E 0 index st = (st', Ok tt) ->
  let s := sh st in
  let fd := vfd_swmr_md_fd s in
  (if index then mdf_idx s else None) = None
  /\ exists kept freed,
       dl s = kept ++ freed
       /\ Forall (fun d => timed_out s d = true) freed
       /\ match last kept with
          | Some d => timed_out s d = false
          | None => True
          end
       /\ sh st' = with_dl kept (dl_len s - Z.of_nat (length freed)) s
       /\ log st' =
            log st ++ idx_frame_events E fd s 0 []
              ++ hdr_frame_events E fd s 0
              ++ map (free_event (fs_page_size s)) (rev freed).
Proof.
  intros H s fd. unfold H5F_update_vfd_swmr_metadata_file in H.
  change (0 =? 0) with true in H. cbv iota in H.
  inv_bind H u0 Hu0. inv_bind H u1 Hu1. inv_bind H s0 Hs0. subst s0.
  apply bind_ok in H. destruct H as (s3 & u3 & Hix & H).
  apply or_error_ok in Hix.
  assert (Hnull : (if index then mdf_idx (sh st) else None) = None).
  { unfold H5F__vfd_swmr_construct_write_md_idx in Hix.
    inv_bind Hix s0 Hs0. inv_bind Hix u4 Hassert.
    simpl in Hassert. apply bool_decide_eq_true_1 in Hassert. exact Hassert. }
  split; [exact Hnull|].
  apply construct_write_md_idx_ok in Hix.
  destruct Hix as (_ & Hsh3 & Hlog3).
  apply bind_ok in H. destruct H as (s4 & u4 & Hhd & H).
  apply or_error_ok, construct_write_md_hdr_ok in Hhd.
  destruct Hhd as (Hsh4 & Hlog4).
  inv_bind H s0 Hs0. subst s0.
  assert (Hs4 : sh s4 = s) by (rewrite Hsh4, Hsh3; reflexivity).
  assert (Hdl4 : dl (sh s4) = dl s ++ []) by (rewrite Hs4, app_nil_r; reflexivity).
  rewrite Hs4 in H.
  eapply release_delayed_ok in H; [|exact Hdl4].
  destruct H as (kept & freed & Hsplit & Hall & Hlast & Hsh & Hlog).
  rewrite Hs4 in Hall, Hlast, Hsh, Hlog.
  exists kept, freed.
  split; [exact Hsplit|]. split; [exact Hall|]. split; [exact Hlast|].
  split; [rewrite Hsh, app_nil_r; reflexivity|].
  rewrite Hlog, Hlog4, Hlog3, Hsh3. fold s fd.
  rewrite <- !app_assoc. reflexivity.
Qed.

(** ** Publication order *)

Lemma published_index_consumed E ps es : forall addrs,
  length addrs = length (pending es) ->
  Forall (fun e => entry_ptr e = None) (published_index E ps es addrs).
Proof.
  induction es as [|e r IH]; intros addrs Hlen; simpl; [constructor|].
  unfold pending in Hlen.
  destruct (entry_ptr e) as [image|] eqn:Hptr.
  - rewrite filter_cons_True in Hlen by (rewrite Hptr; eauto).
    destruct addrs as [|a addrs]; [discriminate|].
    constructor; [reflexivity|]. apply IH. unfold pending.
    cbn [length] in Hlen. lia.
  - rewrite filter_cons_False in Hlen
      by (rewrite Hptr; intros [x Hx]; discriminate).
    constructor; [exact Hptr|]. apply IH. exact Hlen.
Qed.

(** C1.  A successful [H5F_update_vfd_swmr_metadata_file] on [n > 0] index
    slots first sorts them by [hdf5_page_offset]; then, for each sorted
    entry with a non-null [entry_ptr] in turn, it allocates the delayed-list
    node when [md_file_page_offset] is nonzero (the node records the page,
    the old shadow offset, the length and the current tick, and is put at
    the head of the delayed list), allocates [entry_length] bytes in the
    shadow file, seeks there and writes the image; the entry ends with
    [md_file_page_offset = address / page size], the checksum of its image
    and a null [entry_ptr].  Only then the index frame, carrying the new
    offsets and checksums, is written, and after it the header frame; the
    frees of expired delayed-list entries come last.  Called with no
    entries, it writes the empty index frame and then the header frame. *)
Theorem C1_publication_order (E : collaborators) (n : Z) (st st' : fstate)
    (idx : list H5FD_vfd_swmr_idx_entry_t) :
  mdf_idx (sh st) = Some idx ->
  0 <= n ->
  let s := sh st in
  let fd := vfd_swmr_md_fd s in
  let sorted := HDqsort H5F__idx_entry_cmp (take (Z.to_nat n) idx) in
  (H5F_update_vfd_swmr_metadata_file E n true st = (st', Ok tt) ->
   index_ordered sorted
   /\ Permutation (take (Z.to_nat n) idx) sorted
   /\ exists addrs freed,
        let idx' := published_index E (fs_page_size s) sorted addrs in
        length addrs = length (pending sorted)
        /\ mdf_idx (sh st') = Some (idx' ++ drop (Z.to_nat n) idx)
        /\ Forall (fun e => entry_ptr e = None) idx'
        /\ rev (superseded (tick_num s) sorted) ++ dl s = dl (sh st') ++ freed
        /\ log st' =
             log st ++ publication_events fd sorted addrs
               ++ idx_frame_events E fd s n idx'
               ++ hdr_frame_events E fd s n
               ++ map (free_event (fs_page_size s)) (rev freed))
  /\ (H5F_update_vfd_swmr_metadata_file E 0 false st = (st', Ok tt) ->
      exists freed,
        mdf_idx (sh st') = Some idx
        /\ dl s = dl (sh st') ++ freed
        /\ log st' =
             log st ++ idx_frame_events E fd s 0 []
               ++ hdr_frame_events E fd s 0
               ++ map (free_event (fs_page_size s)) (rev freed)).
Proof.
  intros Hidx Hn s fd sorted. split; intros H.
  - split; [apply HDqsort_ordered|]. split; [apply HDqsort_perm|].
    destruct (update_metadata_file_ok E n st st' idx H Hidx Hn)
      as (_ & addrs & kept & freed & Hlen & Hsplit & _ & _ & Hsh & Hlog).
    exists addrs, freed. cbv zeta.
    split; [exact Hlen|].
    split; [rewrite Hsh; reflexivity|].
    split; [apply published_index_consumed; exact Hlen|].
    split; [rewrite Hsh; exact Hsplit | exact Hlog].
  - destruct (update_metadata_file_empty_ok E false st st' H)
      as (_ & kept & freed & Hsplit & _ & _ & Hsh & Hlog).
    exists freed.
    split; [rewrite Hsh; exact Hidx|].
    split; [rewrite Hsh; exact Hsplit | exact Hlog].
Qed.

Lemma C1_publication_order_witness :
  let st := {| sh := sample_writer 5 (Some sample_index) 3
                       [sample_dl_entry 24 2];
               log := [] |} in
  let st' := fst (H5F_update_vfd_swmr_metadata_file E_ok 3 true st) in
  exists addrs freed,
    mdf_idx (sh st')
    = Some (published_index E_ok 4
              (HDqsort H5F__idx_entry_cmp sample_index) addrs ++ [])
    /\ log st' =
         publication_events 3 (HDqsort H5F__idx_entry_cmp sample_index) addrs
           ++ idx_frame_events E_ok 3 (sh st) 3
                (published_index E_ok 4
                   (HDqsort H5F__idx_entry_cmp sample_index) addrs)
           ++ hdr_frame_events E_ok 3 (sh st) 3
           ++ map (free_event 4) (rev freed).
Proof.
  intros st st'.
  destruct (C1_publication_order E_ok 3 st st' sample_index
              eq_refl ltac:(lia)) as [Hpub _].
  destruct Hpub as (_ & _ & addrs & freed & _ & Hidx & _ & _ & Hlog).
  { vm_compute. reflexivity. }
  exists addrs, freed. split; [exact Hidx | exact Hlog].
Defined.

(** ** Reclaiming the delayed list *)

Lemma superseded_ticks tick es :
  Forall (fun d => dl_tick_num d = tick) (superseded tick es).
Proof.
  induction es as [|e r IH]; simpl; [constructor|].
  destruct (entry_ptr e); [|exact IH].
  destruct (md_file_page_offset e =? 0); [exact IH|].
  constructor; [reflexivity | exact IH].
Qed.

Lemma publication_events_no_free fd es : forall addrs,
  Forall (fun ev => is_MVFree ev = false) (publication_events fd es addrs).
Proof.
  induction es as [|e r IH]; intros addrs; simpl; [constructor|].
  destruct (entry_ptr e) as [image|]; [|apply IH].
  destruct addrs as [|a addrs]; [constructor|].
  apply Forall_app. split; [|apply IH].
  unfold entry_events. destruct (md_file_page_offset e =? 0);
    repeat constructor.
Qed.

(** What every successful call does to the delayed list. *)
Lemma update_metadata_file_dl E n index st st' :
  0 <= n ->
  H5F_update_vfd_swmr_metadata_file E n index st = (st', Ok tt) ->
  let s := sh st in
  exists new kept freed calls,
    new ++ dl s = kept ++ freed
    /\ Forall (fun d => dl_tick_num d = tick_num s) new
    /\ Forall (fun d => timed_out s d = true) freed
    /\ match last kept with
       | Some d => timed_out s d = false
       | None => True
       end
    /\ dl (sh st') = kept
    /\ tick_num (sh st') = tick_num s
    /\ vfd_swmr_config (sh st') = vfd_swmr_config s
    /\ log st' = log st ++ calls ++ map (free_event (fs_page_size s)) (rev freed)
    /\ Forall (fun ev => is_MVFree ev = false) calls.
Proof.
  intros Hn H s.
  assert (Hcases : (exists idx, index = true /\ mdf_idx s = Some idx)
                   \/ (n = 0)).
  { destruct (Z.eqb_spec n 0) as [->|Hn0]; [right; reflexivity|left].
    unfold H5F_update_vfd_swmr_metadata_file in H.
    destruct (Z.eqb_spec n 0) as [|_]; [contradiction|].
    apply bind_ok in H. destruct H as (s1 & u1 & Hsort & _).
    inv_bind Hsort s0 Hs0. subst s0. inv_bind Hsort i0 Hi0.
    destruct index; [|discriminate]. eauto. }
  destruct Hcases as [(idx & -> & Hidx) | ->].
  - destruct (update_metadata_file_ok E n st st' idx H Hidx Hn)
      as (_ & addrs & kept & freed & _ & Hsplit & Hall & Hlast & Hsh & Hlog).
    fold s in Hsplit, Hall, Hlast, Hsh, Hlog.
    exists (rev (superseded (tick_num s)
                   (HDqsort H5F__idx_entry_cmp (take (Z.to_nat n) idx)))),
      kept, freed,
      (publication_events (vfd_swmr_md_fd s)
         (HDqsort H5F__idx_entry_cmp (take (Z.to_nat n) idx)) addrs
       ++ idx_frame_events E (vfd_swmr_md_fd s) s n
            (published_index E (fs_page_size s)
               (HDqsort H5F__idx_entry_cmp (take (Z.to_nat n) idx)) addrs)
       ++ hdr_frame_events E (vfd_swmr_md_fd s) s n).
    split; [exact Hsplit|].
    split; [apply Forall_rev, superseded_ticks|].
    split; [exact Hall|]. split; [exact Hlast|].
    split; [rewrite Hsh; reflexivity|].
    split; [rewrite Hsh; reflexivity|].
    split; [rewrite Hsh; reflexivity|].
    split.
    + rewrite Hlog. rewrite <- !app_assoc. reflexivity.
    + apply Forall_app. split; [apply publication_events_no_free|].
      unfold idx_frame_events, hdr_frame_events.
      repeat (apply Forall_cons; split; [reflexivity|]). exact (List.Forall_nil _).
  - destruct (update_metadata_file_empty_ok E index st st' H)
      as (_ & kept & freed & Hsplit & Hall & Hlast & Hsh & Hlog).
    fold s in Hsplit, Hall, Hlast, Hsh, Hlog.
    exists [], kept, freed,
      (idx_frame_events E (vfd_swmr_md_fd s) s 0 []
       ++ hdr_frame_events E (vfd_swmr_md_fd s) s 0).
    split; [exact Hsplit|].
    split; [constructor|].
    split; [exact Hall|]. split; [exact Hlast|].
    split; [rewrite Hsh; reflexivity|].
    split; [rewrite Hsh; reflexivity|].
    split; [rewrite Hsh; reflexivity|].
    split.
    + rewrite Hlog. rewrite <- !app_assoc. reflexivity.
    + unfold idx_frame_events, hdr_frame_events.
      repeat (apply Forall_cons; split; [reflexivity|]). exact (List.Forall_nil _).
Qed.

Lemma timed_out_reclaimable s d :
  0 <= max_lag (vfd_swmr_config s) ->
  1 <= tick_num s < 2 ^ 64 ->
  1 <= dl_tick_num d ->
  timed_out s d = true
  <-> reclaimable (tick_num s) (max_lag (vfd_swmr_config s)) d.
Proof.
  intros Hlag Htick Hd. unfold timed_out, reclaimable, u64.
  destruct (Z.ltb_spec (max_lag (vfd_swmr_config s)) (tick_num s)) as [Hlt|Hge];
    simpl.
  - rewrite Z.mod_small by lia. apply Z.leb_le.
  - split; [discriminate | lia].
Qed.

Lemma same_tick_sorted tick (l : list H5F_vfd_swmr_dl_entry_t) :
  Forall (fun d => dl_tick_num d = tick) l ->
  StronglySorted (fun a b => dl_tick_num b <= dl_tick_num a) l.
Proof.
  induction 1 as [|d l Hd Hl IH]; constructor; [exact IH|].
  eapply Forall_impl; [exact Hl|]. simpl. intros x Hx. lia.
Qed.

Lemma dl_wf_prepend tick new l :
  1 <= tick ->
  Forall (fun d => dl_tick_num d = tick) new ->
  dl_wf tick l -> dl_wf tick (new ++ l).
Proof.
  intros Htick Hnew [Hsorted Hbound]. split.
  - apply StronglySorted_app_2; [|apply (same_tick_sorted tick); exact Hnew
                                 |exact Hsorted].
    intros x1 x2 H1 H2.
    rewrite Forall_forall in Hnew, Hbound.
    rewrite (Hnew _ H1). apply Hbound. exact H2.
  - apply Forall_app. split; [|exact Hbound].
    eapply Forall_impl; [exact Hnew|]. simpl. intros x Hx. lia.
Qed.

(** C2.  When a publication at tick [tick] succeeds, the delayed list it
    walks is this tick's new entries on top of the list it started with;
    the walk removes a suffix of it, from the tail, and every removed entry
    has [tick_num <= tick - max_lag] and had its extent freed through
    [H5MV_free], oldest first, with no other free made.  Provided the list
    was newest-first with ticks between 1 and [tick] on entry, every entry
    left on it satisfies [tick - tick_num < max_lag], and the list is again
    newest-first.  Here [tick] is the tick being published, that is
    [f->shared->tick_num] while the routine runs. *)
Theorem C2_delayed_reclamation (E : collaborators) (n : Z) (index : bool)
    (st st' : fstate) :
  let s := sh st in
  let tick := tick_num s in
  let lag := max_lag (vfd_swmr_config s) in
  0 <= n ->
  0 <= lag ->
  1 <= tick < 2 ^ 64 ->
  dl_wf tick (dl s) ->
  H5F_update_vfd_swmr_metadata_file E n index st = (st', Ok tt) ->
  exists new freed calls,
    new ++ dl s = dl (sh st') ++ freed
    /\ Forall (fun d => dl_tick_num d = tick) new
    /\ Forall (reclaimable tick lag) freed
    /\ log st' = log st ++ calls
                   ++ map (free_event (fs_page_size s)) (rev freed)
    /\ Forall (fun ev => is_MVFree ev = false) calls
    /\ Forall (fun d => tick - dl_tick_num d < lag) (dl (sh st'))
    /\ dl_wf tick (dl (sh st'))
    /\ tick_num (sh st') = tick.
Proof.
  intros s tick lag Hn Hlag Htick Hwf H.
  destruct (update_metadata_file_dl E n index st st' Hn H)
    as (new & kept & freed & calls & Hsplit & Hnew & Hall & Hlast & Hdl
        & Htk & _ & Hlog & Hcalls).
  fold s in Hsplit, Hnew, Hall, Hlast, Hlog. fold tick in Hnew.
  assert (Hfull : dl_wf tick (kept ++ freed)).
  { rewrite <- Hsplit. apply dl_wf_prepend; [lia | exact Hnew | exact Hwf]. }
  destruct Hfull as [Hsorted Hbound].
  apply Forall_app in Hbound. destruct Hbound as [Hbk Hbf].
  assert (Hfreed : Forall (reclaimable tick lag) freed).
  { rewrite Forall_forall in Hall, Hbf. apply Forall_forall. intros d Hd.
    apply (timed_out_reclaimable s d Hlag Htick); [apply Hbf; exact Hd|].
    apply Hall. exact Hd. }
  assert (Hkept : Forall (fun d => tick - dl_tick_num d < lag) kept).
  { apply StronglySorted_app_1_l in Hsorted.
    destruct (last kept) as [d|] eqn:Hl.
    - apply last_Some in Hl. destruct Hl as [k' ->].
      apply Forall_app in Hbk. destruct Hbk as [_ Hbd].
      apply Forall_cons in Hbd. destruct Hbd as [Hbd _].
      assert (Hd : tick - dl_tick_num d < lag).
      { destruct (Z.lt_ge_cases (tick - dl_tick_num d) lag) as [|Hge];
          [assumption|].
        assert (Hr : reclaimable tick lag d) by (unfold reclaimable; lia).
        apply (timed_out_reclaimable s d Hlag Htick) in Hr; [|lia].
        congruence. }
      apply Forall_app. split; [|constructor; [exact Hd|constructor]].
      apply Forall_forall. intros x Hx.
      pose proof (StronglySorted_app_1_elem_of _ _ _ x d Hsorted Hx
                    ltac:(apply list_elem_of_here)) as Hxd.
      simpl in Hxd. lia.
    - apply last_None in Hl. subst kept. constructor. }
  exists new, freed, calls. rewrite Hdl.
  split; [exact Hsplit|]. split; [exact Hnew|]. split; [exact Hfreed|].
  split; [exact Hlog|]. split; [exact Hcalls|]. split; [exact Hkept|].
  split; [|exact Htk].
  split; [eapply StronglySorted_app_1_l; exact Hsorted | exact Hbk].
Qed.

(** The extent superseded at tick 2, with [max_lag = 3], is freed by the
    publication of tick 5. *)
Lemma C2_delayed_reclamation_witness :
  let st := {| sh := sample_writer 5 None 0 [sample_dl_entry 24 2];
               log := [] |} in
  let st' := fst (H5F_update_vfd_swmr_metadata_file E_ok 0 false st) in
  exists new freed calls,
    new ++ [sample_dl_entry 24 2] = dl (sh st') ++ freed
    /\ Forall (reclaimable 5 3) freed
    /\ log st' = [] ++ calls ++ map (free_event 4) (rev freed)
    /\ Forall (fun d => 5 - dl_tick_num d < 3) (dl (sh st')).
Proof.
  intros st st'.
  destruct (C2_delayed_reclamation E_ok 0 false st st')
    as (new & freed & calls & H1 & _ & H3 & H4 & _ & H6 & _).
  - lia.
  - simpl. lia.
  - simpl. lia.
  - split; simpl.
    + repeat constructor.
    + repeat constructor; simpl; lia.
  - vm_compute. reflexivity.
  - exists new, freed, calls. repeat split; assumption.
Defined.

(** The same extent at the publications of ticks 3, 4 and 5: kept, kept,
    freed. *)
Example delayed_extent_lifetime :
  let run tick :=
    fst (H5F_update_vfd_swmr_metadata_file E_ok 0 false
           {| sh := sample_writer tick None 0 [sample_dl_entry 24 2];
              log := [] |}) in
  dl (sh (run 3)) = [sample_dl_entry 24 2]
  /\ dl (sh (run 4)) = [sample_dl_entry 24 2]
  /\ dl (sh (run 5)) = []
  /\ last (log (run 5)) = Some (EvMVFree 96 4 true).
Proof. vm_compute. repeat split; reflexivity. Qed.

(** ** The frames on disk *)

Lemma encode_idx_entry_layout e : entry_layout e (encode_idx_entry e).
Proof.
  exists (UINT32ENCODE (hdf5_page_offset e)),
         (UINT32ENCODE (md_file_page_offset e)),
         (UINT32ENCODE (entry_length e)), (UINT32ENCODE (chksum e)).
  split; [reflexivity|].
  repeat split; apply encode_le_is_le.
Qed.

Lemma encoded_entries_length (index : list H5FD_vfd_swmr_idx_entry_t) :
  Z.of_nat (length (concat (map encode_idx_entry index)))
  = 16 * Z.of_nat (length index).
Proof.
  induction index as [|e r IH]; [reflexivity|].
  assert (He : length (encode_idx_entry e) = 16%nat).
  { unfold encode_idx_entry, UINT32ENCODE.
    rewrite !length_app, !encode_le_length. reflexivity. }
  cbn [map concat]. rewrite length_app, He. cbn [length]. lia.
Qed.

Lemma index_size_small n :
  0 <= n -> 20 + 16 * n < 2 ^ 32 -> H5FD_MD_INDEX_SIZE n = 20 + 16 * n.
Proof.
  intros Hn Hb. unfold H5FD_MD_INDEX_SIZE, u32, H5_SIZEOF_MAGIC,
    H5FD_MD_INDEX_ENTRY_SIZE.
  rewrite Z.mod_small by lia. lia.
Qed.

(** C6.  For every file state (tick number, page size) and every entry
    list short enough for its frame length to fit 32 bits, the header frame
    written is 36 bytes: the 4 magic bytes, the page size in 4 bytes, the
    tick number in 8, the header size 36 in 8, the length in bytes of the
    index frame in 8, and in 4 bytes the checksum of the 32 bytes before
    it.  The index frame written is the 4 magic bytes, the same tick number
    in 8 bytes, the entry count in 4, one 16-byte record per entry (page
    offset, shadow page offset, length, checksum, 4 bytes each), and in 4
    bytes the checksum of all the bytes before it.  Every field is
    little-endian and holds its value truncated to the field's width. *)
Theorem C6_frame_layout (E : collaborators) (st : fstate)
    (index : list H5FD_vfd_swmr_idx_entry_t) :
  let s := sh st in
  let fd := vfd_swmr_md_fd s in
  let n := Z.of_nat (length index) in
  let index_arg := if n =? 0 then None else Some index in
  20 + 16 * n < 2 ^ 32 ->
  exists hdr idx : list Z,
    (forall st',
        H5F__vfd_swmr_construct_write_md_hdr E n st = (st', Ok tt) ->
        log st' = log st ++ [EvSeek fd 0 true; EvWrite fd hdr 36 true])
    /\ (forall st',
          H5F__vfd_swmr_construct_write_md_idx E n index_arg st = (st', Ok tt) ->
          log st' = log st ++ [EvMalloc (20 + 16 * n) true;
                               EvSeek fd 36 true;
                               EvWrite fd idx (20 + 16 * n) true])
    /\ length hdr = 36%nat
    /\ Z.of_nat (length idx) = 20 + 16 * n
    /\ (exists pg tk hs il ck,
          hdr = magic_bytes (H5FD_MD_HEADER_MAGIC E)
                  ++ pg ++ tk ++ hs ++ il ++ ck
          /\ is_le 4 (fs_page_size s) pg
          /\ is_le 8 (tick_num s) tk
          /\ is_le 8 36 hs
          /\ is_le 8 (Z.of_nat (length idx)) il
          /\ is_le 4 (H5_checksum_metadata E (take 32 hdr) 32) ck)
    /\ (exists tk cnt es ck,
          idx = magic_bytes (H5FD_MD_INDEX_MAGIC E)
                  ++ tk ++ cnt ++ concat es ++ ck
          /\ is_le 8 (tick_num s) tk
          /\ is_le 4 n cnt
          /\ Forall2 entry_layout index es
          /\ is_le 4 (H5_checksum_metadata E
                        (take (length idx - 4) idx)
                        (Z.of_nat (length idx) - 4)) ck).
Proof.
  intros s fd n index_arg Hb.
  assert (Hn : 0 <= n) by (unfold n; lia).
  pose proof (index_size_small n Hn Hb) as Hsz.
  set (entries := concat (map encode_idx_entry index)).
  assert (Hel : Z.of_nat (length entries) = 16 * n)
    by apply encoded_entries_length.
  assert (Hbody : length (md_idx_body E s n entries)
                  = (16 + length entries)%nat).
  { unfold md_idx_body. rewrite !length_app. reflexivity. }
  assert (Hil : length (md_idx_image E s n entries)
                = (20 + length entries)%nat).
  { unfold md_idx_image. rewrite length_app, Hbody.
    unfold UINT32ENCODE. rewrite encode_le_length. lia. }
  exists (md_hdr_image E s n), (md_idx_image E s n entries).
  split; [|split; [|split; [|split; [|split]]]].
  - intros st' H. apply construct_write_md_hdr_ok in H.
    destruct H as [_ H]. exact H.
  - intros st' H. apply construct_write_md_idx_ok in H.
    destruct H as (_ & _ & H). rewrite H.
    unfold idx_frame_events. rewrite Hsz. fold s fd.
    assert (Harg : take (Z.to_nat n) (default [] index_arg) = index).
    { unfold index_arg. destruct (Z.eqb_spec n 0) as [H0|H0].
      - destruct index; [reflexivity|]. unfold n in H0. simpl in H0. lia.
      - simpl. apply take_ge. unfold n. lia. }
    rewrite Harg. reflexivity.
  - reflexivity.
  - rewrite Hil. lia.
  - exists (UINT32ENCODE (fs_page_size s)), (UINT64ENCODE (tick_num s)),
      (UINT64ENCODE H5FD_MD_HEADER_SIZE),
      (UINT64ENCODE (H5FD_MD_INDEX_SIZE n)),
      (UINT32ENCODE (H5_checksum_metadata E (md_hdr_body E s n)
                       (Z.of_nat (length (md_hdr_body E s n))))).
    split; [unfold md_hdr_image, md_hdr_body; rewrite <- !app_assoc;
            reflexivity|].
    split; [apply encode_le_is_le|]. split; [apply encode_le_is_le|].
    split; [apply encode_le_is_le|].
    split; [rewrite Hil, Hsz, Nat2Z.inj_add, Hel; apply encode_le_is_le|].
    replace (take 32 (md_hdr_image E s n)) with (md_hdr_body E s n)
      by reflexivity.
    apply encode_le_is_le.
  - exists (UINT64ENCODE (tick_num s)), (UINT32ENCODE n),
      (map encode_idx_entry index),
      (UINT32ENCODE (H5_checksum_metadata E (md_idx_body E s n entries)
                       (Z.of_nat (length (md_idx_body E s n entries))))).
    split; [unfold md_idx_image, md_idx_body; rewrite <- !app_assoc;
            reflexivity|].
    split; [apply encode_le_is_le|]. split; [apply encode_le_is_le|].
    split.
    { clear. induction index as [|e r IH]; constructor;
        [apply encode_idx_entry_layout | exact IH]. }
    assert (Htake : take (length (md_idx_image E s n entries) - 4)
                      (md_idx_image E s n entries)
                    = md_idx_body E s n entries).
    { unfold md_idx_image. apply take_app_length'.
      rewrite length_app, Hbody. unfold UINT32ENCODE.
      rewrite encode_le_length. lia. }
    rewrite Htake, Hil.
    replace (Z.of_nat (20 + length entries) - 4)
      with (Z.of_nat (length (md_idx_body E s n entries)))
      by (rewrite Hbody; lia).
    apply encode_le_is_le.
Qed.

Lemma C6_frame_layout_witness :
  let st := {| sh := sample_writer 5 (Some sample_index) 3 [];
               log := [] |} in
  exists hdr idx : list Z,
    log (fst (H5F__vfd_swmr_construct_write_md_hdr E_ok 3 st))
    = [EvSeek 3 0 true; EvWrite 3 hdr 36 true]
    /\ log (fst (H5F__vfd_swmr_construct_write_md_idx E_ok 3
                   (Some sample_index) st))
       = [EvMalloc 68 true; EvSeek 3 36 true; EvWrite 3 idx 68 true]
    /\ length hdr = 36%nat
    /\ length idx = 68%nat.
Proof.
  intros st.
  destruct (C6_frame_layout E_ok st sample_index)
    as (hdr & idx & Hh & Hi & Hlh & Hli & _).
  - simpl. lia.
  - exists hdr, idx.
    split; [apply Hh; vm_compute; reflexivity|].
    split; [apply Hi; vm_compute; reflexivity|].
    split; [exact Hlh|]. simpl in Hli. lia.
Defined.

(** ** The binary search *)

Lemma i32_small (x : Z) : - 2 ^ 31 <= x < 2 ^ 31 -> i32 x = x.
Proof.
  intros H. unfold i32. cbv zeta.
  destruct (Z.ltb_spec (x mod 2 ^ 32) (2 ^ 31)) as [Hlt|Hge];
    Z.to_euclidean_division_equations; lia.
Qed.

Lemma u32_small (x : Z) : 0 <= x < 2 ^ 32 -> u32 x = x.
Proof. intros H. unfold u32. apply Z.mod_small. exact H. Qed.

Lemma sorted_lookup_lt (es : list H5FD_vfd_swmr_idx_entry_t) (i j : nat) x y :
  index_sorted es ->
  es !! i = Some x -> es !! j = Some y -> (i < j)%nat ->
  hdf5_page_offset x < hdf5_page_offset y.
Proof.
  unfold index_sorted. intros Hs. revert i j.
  induction Hs as [|a l Hl IH Ha]; intros i j Hi Hj Hij.
  - discriminate.
  - destruct j as [|j]; [lia|]. simpl in Hj.
    destruct i as [|i].
    + simpl in Hi. inversion Hi; subst a.
      rewrite Forall_forall in Ha. apply Ha.
      eapply list_elem_of_lookup_2. exact Hj.
    + simpl in Hi. eapply IH; eauto. lia.
Qed.

Lemma index_lookup_none page es :
  (forall e, e ∈ es -> hdf5_page_offset e <> page) ->
  index_lookup page es = None.
Proof.
  unfold index_lookup. induction es as [|e r IH]; intros H; [reflexivity|].
  simpl. destruct (Z.eqb_spec (hdf5_page_offset e) page) as [Heq|_].
  - exfalso. apply (H e); [apply list_elem_of_here | exact Heq].
  - apply IH. intros x Hx. apply H. apply list_elem_of_further. exact Hx.
Qed.

Lemma index_lookup_found page es (i : nat) e :
  index_sorted es ->
  es !! i = Some e -> hdf5_page_offset e = page ->
  index_lookup page es = Some e.
Proof.
  unfold index_lookup. revert i. induction es as [|x r IH]; intros i Hs Hi He.
  - discriminate.
  - simpl. destruct i as [|i].
    + simpl in Hi. inversion Hi; subst x.
      rewrite He, Z.eqb_refl. reflexivity.
    + simpl in Hi.
      assert (Hx : hdf5_page_offset x < hdf5_page_offset e).
      { eapply (sorted_lookup_lt (x :: r) 0 (S i)); eauto. lia. }
      destruct (Z.eqb_spec (hdf5_page_offset x) page) as [Heq|_]; [lia|].
      apply (IH i); [|exact Hi|exact He].
      unfold index_sorted in *. apply StronglySorted_inv in Hs. tauto.
Qed.

Lemma delay_write_search_ok (a : list H5FD_vfd_swmr_idx_entry_t)
    (used : nat) (page : Z) (st : fstate) :
  let es := take used a in
  (used <= length a)%nat ->
  Z.of_nat used <= 2 ^ 30 ->
  index_sorted es ->
  forall (fuel : nat) (top bottom : Z),
    0 <= bottom -> top < Z.of_nat used -> bottom <= top + 1 ->
    top - bottom + 1 <= Z.of_nat fuel ->
    (forall i e, 0 <= i < bottom -> es !! Z.to_nat i = Some e ->
                 hdf5_page_offset e < page) ->
    (forall i e, top < i -> es !! Z.to_nat i = Some e ->
                 page < hdf5_page_offset e) ->
    delay_write_search fuel (Some a) page top bottom None st
    = (st, Ok (index_lookup page es)).
Proof.
  intros es Hused Hbig Hsorted.
  assert (Hlen : length es = used) by (unfold es; rewrite length_take; lia).
  induction fuel as [|fuel IH]; intros top bottom Hb Ht Hbt Hfuel Hlo Hhi.
  - simpl. destruct (Z.ltb_spec top bottom) as [_|Hge]; [|lia].
    unfold ret. f_equal. f_equal. symmetry. apply index_lookup_none.
    intros e He. apply list_elem_of_lookup in He. destruct He as [i Hi].
    pose proof (lookup_lt_Some _ _ _ Hi) as Hil.
    destruct (Z.lt_ge_cases (Z.of_nat i) bottom) as [Hlt|Hge].
    + specialize (Hlo (Z.of_nat i) e). rewrite Nat2Z.id in Hlo.
      specialize (Hlo ltac:(lia) Hi). lia.
    + specialize (Hhi (Z.of_nat i) e). rewrite Nat2Z.id in Hhi.
      specialize (Hhi ltac:(lia) Hi). lia.
  - cbn [delay_write_search].
    destruct (Z.ltb_spec top bottom) as [Hlt|Hge].
    { unfold ret. f_equal. f_equal. symmetry. apply index_lookup_none.
      intros e He. apply list_elem_of_lookup in He. destruct He as [i Hi].
      pose proof (lookup_lt_Some _ _ _ Hi) as Hil.
      destruct (Z.lt_ge_cases (Z.of_nat i) bottom) as [Hlt'|Hge'].
      + specialize (Hlo (Z.of_nat i) e). rewrite Nat2Z.id in Hlo.
        specialize (Hlo ltac:(lia) Hi). lia.
      + specialize (Hhi (Z.of_nat i) e). rewrite Nat2Z.id in Hhi.
        specialize (Hhi ltac:(lia) Hi). lia. }
    rewrite i32_small by lia.
    set (probe := Z.quot (top + bottom) 2).
    assert (Hprobe : bottom <= probe <= top).
    { unfold probe. Z.to_euclidean_division_equations. lia. }
    assert (Hlk : exists e, a !! Z.to_nat probe = Some e
                            /\ es !! Z.to_nat probe = Some e).
    { destruct (lookup_lt_is_Some_2 es (Z.to_nat probe)) as [e He];
        [lia|].
      exists e. split; [|exact He].
      unfold es in He. rewrite lookup_take_lt in He by lia. exact He. }
    destruct Hlk as (e & Hae & Hee).
    unfold bind at 1. simpl.
    unfold bind at 1. simpl.
    destruct (Z.ltb_spec probe 0) as [|_]; [lia|].
    unfold bind at 1. rewrite Hae. simpl.
    destruct (Z.ltb_spec (hdf5_page_offset e) page) as [Hless|Hnl].
    + rewrite i32_small by lia.
      apply IH; try lia.
      * intros i x Hi Hx.
        destruct (Z.eq_dec i probe) as [->|Hne].
        -- rewrite Hee in Hx. inversion Hx; subst x. exact Hless.
        -- destruct (Z.lt_ge_cases i bottom) as [Hl|Hg];
             [apply (Hlo i x); [lia|exact Hx]|].
           assert (hdf5_page_offset x < hdf5_page_offset e); [|lia].
           apply (sorted_lookup_lt es (Z.to_nat i) (Z.to_nat probe));
             auto; lia.
      * exact Hhi.
    + destruct (Z.ltb_spec page (hdf5_page_offset e)) as [Hmore|Hnm].
      * rewrite i32_small by lia.
        apply IH; try lia.
        -- exact Hlo.
        -- intros i x Hi Hx.
           destruct (Z.eq_dec i probe) as [->|Hne].
           ++ rewrite Hee in Hx. inversion Hx; subst x. exact Hmore.
           ++ destruct (Z.lt_ge_cases top i) as [Hl|Hg];
                [apply (Hhi i x); [lia|exact Hx]|].
              assert (hdf5_page_offset e < hdf5_page_offset x); [|lia].
              apply (sorted_lookup_lt es (Z.to_nat probe) (Z.to_nat i));
                auto; lia.
      * rewrite i32_small by lia.
        destruct fuel as [|fuel']; cbn [delay_write_search];
          (destruct (Z.ltb_spec top (top + 1)) as [_|]; [|lia]);
          unfold ret; f_equal; f_equal; symmetry;
          apply (index_lookup_found page es (Z.to_nat probe) e);
          auto; lia.
Qed.

Lemma top_of_used (used : Z) :
  0 <= used <= 2 ^ 30 -> i32 (u32 (used - 1)) = used - 1.
Proof.
  intros H. unfold i32, u32. cbv zeta. rewrite Z.mod_mod by lia.
  destruct (Z.ltb_spec ((used - 1) mod 2 ^ 32) (2 ^ 31));
    Z.to_euclidean_division_equations; lia.
Qed.

(** C3.  For a writer whose index slots in use are sorted by page, each
    page once, the oracle finds the entry for [page] exactly when the index
    has one, and its candidate answer is [tick + max_lag] when there is
    none, the entry's [delayed_flush] when that is at least the current
    tick, and 0 otherwise.  The candidate is returned when it is 0 or lies
    in [[tick, tick + max_lag]]; any other candidate makes the call fail
    with the out-of-range error.  The state is left as it was. *)
Theorem C3_delay_write (page : Z) (st : fstate) :
  let s := sh st in
  let tick := tick_num s in
  let lag := max_lag (vfd_swmr_config s) in
  let used := mdf_idx_entries_used s in
  let es := match mdf_idx s with
            | Some a => take (Z.to_nat used) a
            | None => []
            end in
  vfd_swmr s = true ->
  vfd_swmr_writer s = true ->
  match mdf_idx s with
  | Some a => 0 <= used <= Z.of_nat (length a) /\ used <= 2 ^ 30
  | None => tick <= 1
  end ->
  index_sorted es ->
  0 <= tick -> 0 <= lag -> tick + lag < 2 ^ 64 ->
  let d := delay_until tick lag (index_lookup page es) in
  H5F_vfd_swmr_writer__delay_write page st
  = (st, if (d =? 0) || ((tick <=? d) && (d <=? tick + lag))
         then Ok d
         else Error "VFD SWMR write delay out of range").
Proof.
  intros s tick lag used es Hswmr Hwriter Hidx Hsorted Htick Hlag Hsum d.
  unfold H5F_vfd_swmr_writer__delay_write.
  unfold bind at 1. unfold get_shared at 1. fold s.
  rewrite Hswmr, Hwriter. unfold bind at 1, HDassert at 1.
  unfold bind at 1, HDassert at 1.
  assert (Hsearch :
    delay_write_search (S (Z.to_nat used)) (mdf_idx s) page
      match mdf_idx s with
      | Some _ => i32 (u32 (used - 1))
      | None => -1
      end 0 None st
    = (st, Ok (index_lookup page es))).
  { unfold es. destruct (mdf_idx s) as [a|] eqn:Hmdf.
    - destruct Hidx as [Hu Hbig].
      rewrite top_of_used by lia.
      apply (delay_write_search_ok a (Z.to_nat used) page st); try lia.
      + exact Hsorted.
      + intros i e Hi He. apply lookup_lt_Some in He.
        rewrite length_take in He. lia.
    - reflexivity. }
  assert (Hassert : bool_decide (mdf_idx s <> None) || (tick_num s <=? 1) = true).
  { destruct (mdf_idx s); [reflexivity|]. simpl. apply Z.leb_le. exact Hidx. }
  rewrite Hassert. unfold bind at 1, HDassert at 1.
  fold used. unfold bind at 1. rewrite Hsearch.
  fold tick lag.
  unfold u64. rewrite Z.mod_small by lia.
  unfold d, delay_until.
  destruct (index_lookup page es) as [e|].
  - destruct (tick <=? delayed_flush e) eqn:Hle.
    + destruct (delayed_flush e =? 0); simpl; [reflexivity|].
      rewrite Hle. simpl.
      destruct (delayed_flush e <=? tick + lag); reflexivity.
    + reflexivity.
  - destruct (tick + lag =? 0); simpl; [reflexivity|].
    destruct (tick <=? tick + lag); simpl; [|reflexivity].
    destruct (tick + lag <=? tick + lag); reflexivity.
Qed.

(** Page 8 is not in the index of the sample writer at tick 5: writes over
    it wait until tick 8. *)
Lemma C3_delay_write_witness :
  let st := {| sh := sample_writer 5 (Some sample_sorted_index) 3 [];
               log := [] |} in
  H5F_vfd_swmr_writer__delay_write 8 st = (st, Ok 8).
Proof.
  intros st.
  apply (C3_delay_write 8 st).
  - reflexivity.
  - reflexivity.
  - simpl. lia.
  - unfold index_sorted. simpl. repeat constructor; simpl; lia.
  - simpl. lia.
  - simpl. lia.
  - simpl. lia.
Defined.

(** ** The end-of-tick queue *)

(** C4.  Inserting three files whose ticks end in 100, 200 and 150 ms, in
    that order, leaves the queue in the order 100, 200, 150: the walk from
    the tail stops at the entry for 100 ms, which is the head, and
    [H5F_EOT_INSERT_AFTER] appends at the tail whenever the predecessor has
    no [prev].  The queue is then not sorted by deadline.  Inserting 100,
    150, 200 does not complete at all: the predecessor is the tail of a
    two-entry queue, the macro takes its last branch and dereferences the
    [NULL] in [prec_ptr->next]. *)
Theorem C4_eot_insert_order :
  let insert := H5F_vfd_swmr_insert_entry_eot E_ok in
  let r := (insert 0%nat >> insert 1%nat >> insert 2%nat) three_files in
  let r' := (insert 0%nat >> insert 2%nat >> insert 1%nat) three_files in
  snd r = Ok tt
  /\ queue_deadlines_ms (fst r) = Some [100; 200; 150]
  /\ snd r' = MemFault.
Proof. vm_compute. repeat split; reflexivity. Qed.

(** With at most one entry queued the insertion does go where the deadline
    puts it. *)
Example eot_insert_two_sorted :
  let insert := H5F_vfd_swmr_insert_entry_eot E_ok in
  queue_deadlines_ms (fst ((insert 0%nat >> insert 1%nat) three_files))
  = Some [100; 200]
  /\ queue_deadlines_ms (fst ((insert 1%nat >> insert 0%nat) three_files))
     = Some [100; 200].
Proof. vm_compute. split; reflexivity. Qed.

(** ** A [NULL] file pointer at the end of a tick *)

Lemma eot_file_empty_queue (w : world) :
  vfd_swmr_eot_queue_head_g w = None -> eot_file None w = (w, MemFault).
Proof.
  intros H. unfold eot_file, get_head, bind, get, ret, deref, fault.
  rewrite H. reflexivity.
Qed.

Lemma eot_file_head (w : world) (h : nat) e :
  vfd_swmr_eot_queue_head_g w = Some h ->
  eot_heap w !! h = Some e ->
  eot_file None w = (w, Ok (eot_vfd_swmr_file e)).
Proof.
  intros Hh He. unfold eot_file, get_head, eot_load, bind, get, ret, deref.
  rewrite Hh. simpl. rewrite He. reflexivity.
Qed.

(** C10.  Called with a [NULL] file, either end-of-tick routine takes the
    file of the entry at the head of the queue, and does so without a test:
    on an empty queue the call stops at once on the [NULL] dereference,
    with nothing changed; when the queue has a head entry, the dereference
    succeeds and the call is the call on that entry's file. *)
Theorem C10_null_file_needs_queue (E : collaborators) (w : world) :
  (vfd_swmr_eot_queue_head_g w = None ->
   H5F_vfd_swmr_writer_end_of_tick E None w = (w, MemFault)
   /\ H5F_vfd_swmr_reader_end_of_tick E None w = (w, MemFault))
  /\ (forall h e,
        vfd_swmr_eot_queue_head_g w = Some h ->
        eot_heap w !! h = Some e ->
        eot_file None w = (w, Ok (eot_vfd_swmr_file e))
        /\ H5F_vfd_swmr_writer_end_of_tick E None w
           = H5F_vfd_swmr_writer_end_of_tick E (Some (eot_vfd_swmr_file e)) w
        /\ H5F_vfd_swmr_reader_end_of_tick E None w
           = H5F_vfd_swmr_reader_end_of_tick E (Some (eot_vfd_swmr_file e)) w).
Proof.
  split.
  - intros H. unfold H5F_vfd_swmr_writer_end_of_tick,
      H5F_vfd_swmr_reader_end_of_tick.
    unfold bind at 1. rewrite (eot_file_empty_queue w H).
    split; [reflexivity|].
    unfold bind at 1. rewrite (eot_file_empty_queue w H). reflexivity.
  - intros h e Hh He.
    pose proof (eot_file_head w h e Hh He) as Hf.
    split; [exact Hf|].
    unfold H5F_vfd_swmr_writer_end_of_tick, H5F_vfd_swmr_reader_end_of_tick.
    split.
    + unfold bind at 1. rewrite Hf.
      unfold bind at 3. reflexivity.
    + unfold bind at 1. rewrite Hf.
      unfold bind at 3. reflexivity.
Qed.

(** One writer open and queued: the scheduler's call with [NULL] runs the
    tick of that writer. *)
Lemma C10_null_file_needs_queue_witness :
  let w0 := process_of [sample_writer 1 None 0 []] in
  let w := fst (H5F_vfd_swmr_insert_entry_eot E_ok 0%nat w0) in
  H5F_vfd_swmr_writer_end_of_tick E_ok None w0 = (w0, MemFault)
  /\ H5F_vfd_swmr_writer_end_of_tick E_ok None w
     = H5F_vfd_swmr_writer_end_of_tick E_ok (Some 0%nat) w.
Proof.
  intros w0 w.
  destruct (C10_null_file_needs_queue E_ok w0) as [Hempty _].
  destruct (C10_null_file_needs_queue E_ok w) as [_ Hhead].
  split.
  - apply Hempty. reflexivity.
  - apply (Hhead 1%nat
             {| eot_vfd_swmr_writer := true; eot_tick_num := 1;
                eot_end_of_tick := {| tv_sec := 0; tv_nsec := 0 |};
                eot_vfd_swmr_file := 0%nat;
                eot_next := None; eot_prev := None |}).
    + reflexivity.
    + vm_compute. reflexivity.
Defined.

(** ** What a routine can emit, whatever its outcome *)

Lemma bind_inv {S A B} (m : M S A) (k : A -> M S B) (s s' : S)
    (r : outcome B) :
  bind m k s = (s', r) ->
  (exists s1 a, m s = (s1, Ok a) /\ k a s1 = (s', r))
  \/ (exists r0, m s = (s', r0) /\ (forall a, r0 <> Ok a)
                 /\ (forall b, r <> Ok b)).
Proof.
  unfold bind. destruct (m s) as [s1 [a|e| | |]] eqn:Hm; intros H.
  - left. eauto.
  - right. inversion H; subst. exists (Error e).
    repeat split; intros; discriminate.
  - right. inversion H; subst. exists AssertFail.
    repeat split; intros; discriminate.
  - right. inversion H; subst. exists MemFault.
    repeat split; intros; discriminate.
  - right. inversion H; subst. exists OutOfFuel.
    repeat split; intros; discriminate.
Qed.

Section Emits.
Context (P : event -> Prop).

Lemma emits_ret {A} (a : A) : emits P (ret a).
Proof.
  intros s s' r H. inversion H; subst. exists [].
  rewrite app_nil_r. split; [reflexivity | constructor].
Qed.

Lemma emits_throw {A} msg : emits P (@throw fstate A msg).
Proof.
  intros s s' r H. inversion H; subst. exists [].
  rewrite app_nil_r. split; [reflexivity | constructor].
Qed.

Lemma emits_fault {A} : emits P (@fault fstate A).
Proof.
  intros s s' r H. inversion H; subst. exists [].
  rewrite app_nil_r. split; [reflexivity | constructor].
Qed.

Lemma emits_out_of_fuel {A} :
  emits P (fun s : fstate => (s, @OutOfFuel A)).
Proof.
  intros s s' r H. inversion H; subst. exists [].
  rewrite app_nil_r. split; [reflexivity | constructor].
Qed.

Lemma emits_bind {A B} (m : M fstate A) (k : A -> M fstate B) :
  emits P m -> (forall a, emits P (k a)) -> emits P (bind m k).
Proof.
  intros Hm Hk s s' r H.
  apply bind_inv in H. destruct H as [(s1 & a & H1 & H2) | (r0 & H1 & _)].
  - destruct (Hm _ _ _ H1) as (e1 & Hl1 & Hp1).
    destruct (Hk a _ _ _ H2) as (e2 & Hl2 & Hp2).
    exists (e1 ++ e2). rewrite Hl2, Hl1, app_assoc.
    split; [reflexivity | apply Forall_app; split; assumption].
  - exact (Hm _ _ _ H1).
Qed.

Lemma emits_get_shared : emits P get_shared.
Proof.
  intros s s' r H. inversion H; subst. exists [].
  rewrite app_nil_r. split; [reflexivity | constructor].
Qed.

Lemma emits_set_shared g : emits P (set_shared g).
Proof.
  intros s s' r H. inversion H; subst. exists []. simpl.
  rewrite app_nil_r. split; [reflexivity | constructor].
Qed.

Lemma emits_check msg b : emits P (@check fstate msg b).
Proof. destruct b; [apply emits_ret | apply emits_throw]. Qed.

Lemma emits_HDassert b : emits P (@HDassert fstate b).
Proof.
  intros s s' r H. inversion H; subst. exists [].
  rewrite app_nil_r. split; [reflexivity | constructor].
Qed.

Lemma emits_deref {A} (p : option A) : emits P (@deref fstate A p).
Proof. destruct p; [apply emits_ret | apply emits_fault]. Qed.

Lemma emits_call {A} (oracle : list event -> A) (ev : A -> event) :
  (forall a, P (ev a)) -> emits P (call oracle ev).
Proof.
  intros Hev s s' r H. inversion H; subst. simpl.
  exists [ev (oracle (log s))]. split; [reflexivity|].
  constructor; [apply Hev | constructor].
Qed.

Lemma emits_or_error {A} msg (m : M fstate A) :
  emits P m -> emits P (or_error msg m).
Proof.
  intros Hm s s' r H. unfold or_error in H.
  destruct (m s) as [s1 r1] eqn:Hms.
  destruct (Hm _ _ _ Hms) as (evs & Hl & Hp).
  exists evs. destruct r1; inversion H; subst; auto.
Qed.

End Emits.

(** Steps through a routine built from the primitives above. *)
Ltac emits_steps :=
  repeat first
    [ apply emits_bind; [|intros]
    | apply emits_get_shared
    | apply emits_set_shared
    | apply emits_check
    | apply emits_HDassert
    | apply emits_deref
    | apply emits_ret
    | apply emits_throw
    | apply emits_fault
    | apply emits_or_error
    | apply emits_call; intros ].

(** ** Lifting to the process *)

Lemma on_file_inv {A} (f : nat) (m : M fstate A) (w w' : world) r :
  on_file f m w = (w', r) ->
  (files w !! f = None /\ w' = w /\ r = MemFault)
  \/ (exists s st',
        files w !! f = Some s
        /\ m {| sh := s; log := wlog w |} = (st', r)
        /\ w' = with_files (<[f := sh st']> (files w))
                  (with_wlog (log st') w)).
Proof.
  unfold on_file. destruct (files w !! f) as [s|] eqn:Hf.
  - destruct (m {| sh := s; log := wlog w |}) as [st' r'] eqn:Hm.
    intros H. inversion H; subst. right. eauto.
  - intros H. inversion H; subst. left. auto.
Qed.

Section WEmits.
Context (P : event -> Prop) (f : nat).

Lemma wemits_on_file {A} (m : M fstate A) :
  emits P m -> wemits P f (on_file f m).
Proof.
  intros Hm w w' r H Hpres. apply on_file_inv in H.
  destruct H as [(Hnone & -> & ->) | (s & st' & Hs & Hrun & ->)].
  - rewrite Hnone in Hpres. destruct Hpres as [x Hx]. discriminate.
  - destruct (Hm _ _ _ Hrun) as (evs & Hl & Hp). simpl in Hl.
    split.
    + exists evs. simpl. split; assumption.
    + simpl. rewrite lookup_insert_eq. eauto.
Qed.

Lemma wemits_bind {A B} (m : M world A) (k : A -> M world B) :
  wemits P f m -> (forall a, wemits P f (k a)) -> wemits P f (bind m k).
Proof.
  intros Hm Hk w w' r H Hpres.
  apply bind_inv in H. destruct H as [(w1 & a & H1 & H2) | (r0 & H1 & _)].
  - destruct (Hm _ _ _ H1 Hpres) as ((e1 & Hl1 & Hp1) & Hpres1).
    destruct (Hk a _ _ _ H2 Hpres1) as ((e2 & Hl2 & Hp2) & Hpres2).
    split; [|exact Hpres2].
    exists (e1 ++ e2). rewrite Hl2, Hl1, app_assoc.
    split; [reflexivity | apply Forall_app; split; assumption].
  - exact (Hm _ _ _ H1 Hpres).
Qed.

Lemma wemits_or_error {A} msg (m : M world A) :
  wemits P f m -> wemits P f (or_error msg m).
Proof.
  intros Hm w w' r H Hpres. unfold or_error in H.
  destruct (m w) as [w1 r1] eqn:Hmw.
  pose proof (Hm _ _ _ Hmw Hpres) as Hres.
  destruct r1; inversion H; subst; exact Hres.
Qed.

Lemma wemits_pure {A} (m : M world A) :
  (forall w, fst (m w) = w) -> wemits P f m.
Proof.
  intros Hm w w' r H Hpres. pose proof (Hm w) as Hw. rewrite H in Hw.
  simpl in Hw. subst w'. split; [|exact Hpres].
  exists []. rewrite app_nil_r. split; [reflexivity | constructor].
Qed.

Lemma wemits_wcall {A} (oracle : list event -> A) (ev : A -> event) :
  (forall a, P (ev a)) -> wemits P f (wcall oracle ev).
Proof.
  intros Hev w w' r H Hpres. inversion H; subst. simpl.
  split; [|exact Hpres].
  exists [ev (oracle (wlog w))]. split; [reflexivity|].
  constructor; [apply Hev | constructor].
Qed.

Lemma shared_of_pure g : forall w, fst (shared_of g w) = w.
Proof.
  intros w. unfold shared_of, bind, get, deref, ret, fault.
  destruct (files w !! g); reflexivity.
Qed.

Lemma HDassert_pure b : forall w : world, fst (HDassert b w) = w.
Proof. reflexivity. Qed.

Lemma check_pure msg b : forall w : world, fst (check msg b w) = w.
Proof. destruct b; reflexivity. Qed.

End WEmits.

(** ** Routines that leave the open files alone *)

Lemma files_fixed_bind {A B} (m : M world A) (k : A -> M world B) :
  files_fixed m -> (forall a, files_fixed (k a)) -> files_fixed (bind m k).
Proof.
  intros Hm Hk w. unfold bind. pose proof (Hm w) as H1.
  destruct (m w) as [w1 [a| | | |]]; simpl in *; try exact H1.
  rewrite Hk. exact H1.
Qed.

Lemma files_fixed_get_bind {A} (k : world -> M world A) :
  (forall w, files (fst (k w w)) = files w) -> files_fixed (bind get k).
Proof. intros H w. unfold bind, get. apply H. Qed.

Lemma files_fixed_ret {A} (a : A) : files_fixed (ret a).
Proof. intros w. reflexivity. Qed.

Lemma files_fixed_deref {A} (p : option A) : files_fixed (deref p).
Proof. intros w. destruct p; reflexivity. Qed.

Lemma files_fixed_check msg b : files_fixed (check msg b).
Proof. intros w. destruct b; reflexivity. Qed.

Lemma files_fixed_HDassert b : files_fixed (HDassert b).
Proof. intros w. reflexivity. Qed.

Lemma files_fixed_wcall {A} (oracle : list event -> A) ev :
  files_fixed (wcall oracle ev).
Proof. intros w. reflexivity. Qed.

Lemma files_fixed_or_error {A} msg (m : M world A) :
  files_fixed m -> files_fixed (or_error msg m).
Proof.
  intros Hm w. unfold or_error. pose proof (Hm w) as H.
  destruct (m w) as [w1 []]; exact H.
Qed.

Lemma files_fixed_out_of_fuel {A} :
  files_fixed (fun w : world => (w, @OutOfFuel A)).
Proof. intros w. reflexivity. Qed.

Lemma files_fixed_modify g :
  (forall w, files (g w) = files w) -> files_fixed (modify g).
Proof. intros H w. apply H. Qed.

Lemma files_fixed_eot_load p : files_fixed (eot_load p).
Proof.
  apply files_fixed_get_bind. intros w. destruct (eot_heap w !! p); reflexivity.
Qed.

Lemma files_fixed_eot_store p e : files_fixed (eot_store p e).
Proof.
  apply files_fixed_get_bind. intros w. unfold bind, deref, put, ret, fault.
  destruct (eot_heap w !! p); reflexivity.
Qed.

Lemma files_fixed_get_head : files_fixed get_head.
Proof. intros w. reflexivity. Qed.

Lemma files_fixed_get_tail : files_fixed get_tail.
Proof. intros w. reflexivity. Qed.

Lemma files_fixed_set_head v : files_fixed (set_head v).
Proof. intros w. reflexivity. Qed.

Lemma files_fixed_set_tail v : files_fixed (set_tail v).
Proof. intros w. reflexivity. Qed.

Lemma files_fixed_shared_of f : files_fixed (shared_of f).
Proof. intros w. rewrite shared_of_pure. reflexivity. Qed.

(** Steps through a routine on the queue. *)
Ltac files_fixed_steps :=
  repeat first
    [ apply files_fixed_ret
    | apply files_fixed_deref
    | apply files_fixed_check
    | apply files_fixed_HDassert
    | apply files_fixed_wcall
    | apply files_fixed_eot_load
    | apply files_fixed_eot_store
    | apply files_fixed_get_head
    | apply files_fixed_get_tail
    | apply files_fixed_set_head
    | apply files_fixed_set_tail
    | apply files_fixed_shared_of
    | apply files_fixed_or_error
    | apply files_fixed_out_of_fuel
    | apply files_fixed_modify; intros; reflexivity
    | match goal with |- files_fixed (if ?b then _ else _) => destruct b end
    | match goal with |- files_fixed (match ?x with Some _ => _ | None => _ end) =>
        destruct x end
    | apply files_fixed_bind; [|intros] ].

Lemma files_fixed_store_next p v : files_fixed (store_next p v).
Proof. unfold store_next. files_fixed_steps. Qed.

Lemma files_fixed_store_prev p v : files_fixed (store_prev p v).
Proof. unfold store_prev. files_fixed_steps. Qed.

Lemma files_fixed_load_next p : files_fixed (load_next p).
Proof. unfold load_next. files_fixed_steps. Qed.

Lemma files_fixed_load_prev p : files_fixed (load_prev p).
Proof. unfold load_prev. files_fixed_steps. Qed.

Ltac files_fixed_links :=
  repeat first
    [ apply files_fixed_store_next
    | apply files_fixed_store_prev
    | apply files_fixed_load_next
    | apply files_fixed_load_prev
    | apply files_fixed_ret
    | apply files_fixed_get_head
    | apply files_fixed_get_tail
    | apply files_fixed_set_head
    | apply files_fixed_set_tail
    | apply files_fixed_eot_load
    | apply files_fixed_modify; intros; reflexivity
    | match goal with |- files_fixed (if ?b then _ else _) => destruct b end
    | match goal with |- files_fixed (match ?x with Some _ => _ | None => _ end) =>
        destruct x end
    | apply files_fixed_bind; [|intros] ].

Lemma files_fixed_LL_REMOVE p : files_fixed (H5F__LL_REMOVE p).
Proof. unfold H5F__LL_REMOVE. files_fixed_links. Qed.

Lemma files_fixed_LL_APPEND p : files_fixed (H5F__LL_APPEND p).
Proof. unfold H5F__LL_APPEND. files_fixed_links. Qed.

Lemma files_fixed_LL_PREPEND p : files_fixed (H5F__LL_PREPEND p).
Proof. unfold H5F__LL_PREPEND. files_fixed_links. Qed.

Lemma files_fixed_INSERT_AFTER p q : files_fixed (H5F_EOT_INSERT_AFTER p q).
Proof.
  unfold H5F_EOT_INSERT_AFTER.
  destruct (bool_decide (q = None)); [apply files_fixed_LL_PREPEND|].
  apply files_fixed_bind; [apply files_fixed_load_prev|]. intros pp.
  destruct (bool_decide (pp = None)); [apply files_fixed_LL_APPEND|].
  files_fixed_links.
Qed.

Lemma files_fixed_sync : files_fixed sync_eot_globals.
Proof. unfold sync_eot_globals. files_fixed_links. Qed.

Lemma files_fixed_remove_scan fuel f : forall curr,
  files_fixed (remove_entry_eot_scan fuel f curr).
Proof.
  induction fuel as [|fuel IH]; intros [c|]; simpl;
    try apply files_fixed_ret; try apply files_fixed_out_of_fuel.
  apply files_fixed_bind; [apply files_fixed_eot_load|]. intros e.
  destruct (bool_decide (eot_vfd_swmr_file e = f)); [|apply IH].
  apply files_fixed_bind; [apply files_fixed_LL_REMOVE|]. intros _.
  apply files_fixed_get_bind. intros w. reflexivity.
Qed.

Lemma files_fixed_remove_entry_eot f :
  files_fixed (H5F_vfd_swmr_remove_entry_eot f).
Proof.
  unfold H5F_vfd_swmr_remove_entry_eot.
  apply files_fixed_get_bind. intros w.
  apply (files_fixed_bind _ _ (files_fixed_remove_scan _ f _)
           (fun _ => files_fixed_sync)).
Qed.

Lemma files_fixed_insert_scan fuel eot : forall p,
  files_fixed (insert_entry_eot_scan fuel eot p).
Proof.
  induction fuel as [|fuel IH]; intros [p|]; simpl;
    try apply files_fixed_ret; try apply files_fixed_out_of_fuel.
  apply files_fixed_bind; [apply files_fixed_eot_load|]. intros e.
  destruct (timespec_gt (eot_end_of_tick e) eot);
    [apply IH | apply files_fixed_ret].
Qed.

Lemma files_fixed_insert_entry_eot E f :
  files_fixed (H5F_vfd_swmr_insert_entry_eot E f).
Proof.
  unfold H5F_vfd_swmr_insert_entry_eot.
  apply files_fixed_bind; [apply files_fixed_wcall|]. intros ok.
  apply files_fixed_bind; [apply files_fixed_check|]. intros _.
  apply files_fixed_bind; [apply files_fixed_shared_of|]. intros s.
  apply files_fixed_get_bind. intros w.
  unfold bind at 1, put.
  match goal with
  | |- files (fst (?m ?w2)) = _ =>
      transitivity (files w2); [|reflexivity];
      apply (fun H : files_fixed m => H w2)
  end.
  apply files_fixed_get_bind. intros w1.
  apply (files_fixed_bind _ _ (files_fixed_insert_scan _ _ _)).
  intros prec.
  apply (files_fixed_bind _ _ (files_fixed_INSERT_AFTER _ _)
           (fun _ => files_fixed_sync)).
Qed.

(** ** Routines that keep a file's index bookkeeping *)

Section KeepsOfFile.
Context {B : Type} (f : nat) (proj : H5F_shared_t -> B).

Lemma keeps_of_file_fixed {A} (m : M world A) :
  files_fixed m -> keeps_of_file f proj m.
Proof. intros Hm w s Hs. exists s. rewrite Hm. auto. Qed.

Lemma keeps_of_file_bind {A C} (m : M world A) (k : A -> M world C) :
  keeps_of_file f proj m -> (forall a, keeps_of_file f proj (k a)) ->
  keeps_of_file f proj (bind m k).
Proof.
  intros Hm Hk w s Hs. unfold bind.
  destruct (Hm w s Hs) as (s1 & Hs1 & Hp1).
  destruct (m w) as [w1 [a| | | |]]; simpl in *; eauto.
  destruct (Hk a w1 s1 Hs1) as (s2 & Hs2 & Hp2).
  exists s2. split; [exact Hs2 | congruence].
Qed.

Lemma keeps_of_file_or_error {A} msg (m : M world A) :
  keeps_of_file f proj m -> keeps_of_file f proj (or_error msg m).
Proof.
  intros Hm w s Hs. unfold or_error.
  destruct (Hm w s Hs) as (s1 & Hs1 & Hp1).
  destruct (m w) as [w1 []]; simpl in *; eauto.
Qed.

Lemma keeps_of_file_on_file {A} (m : M fstate A) :
  (forall st, proj (sh (fst (m st))) = proj (sh st)) ->
  keeps_of_file f proj (on_file f m).
Proof.
  intros Hm w s Hs. unfold on_file. rewrite Hs.
  pose proof (Hm {| sh := s; log := wlog w |}) as Hp.
  destruct (m {| sh := s; log := wlog w |}) as [st' r]. simpl in *.
  exists (sh st'). rewrite lookup_insert_eq. auto.
Qed.

End KeepsOfFile.

Lemma update_end_of_tick_keeps_index E f incr :
  keeps_of_file f (fun s => (mdf_idx_entries_used s, mdf_idx_len s))
    (H5F__vfd_swmr_update_end_of_tick_and_tick_num E f incr).
Proof.
  unfold H5F__vfd_swmr_update_end_of_tick_and_tick_num.
  apply keeps_of_file_bind;
    [apply keeps_of_file_fixed, files_fixed_wcall|]. intros [curr|];
    [|apply keeps_of_file_fixed; intros w; reflexivity].
  apply keeps_of_file_bind;
    [apply keeps_of_file_fixed, files_fixed_shared_of|]. intros s.
  apply keeps_of_file_bind.
  { destruct incr; [|apply keeps_of_file_fixed, files_fixed_ret].
    apply keeps_of_file_bind;
      [apply keeps_of_file_on_file; intros st; reflexivity|]. intros _.
    apply keeps_of_file_bind;
      [apply keeps_of_file_fixed, files_fixed_wcall|]. intros ok.
    apply keeps_of_file_fixed, files_fixed_check. }
  intros _.
  apply keeps_of_file_bind;
    [apply keeps_of_file_fixed, files_fixed_modify; intros; reflexivity|].
  intros _. apply keeps_of_file_on_file. intros st. reflexivity.
Qed.

Lemma eot_file_ok (fo : option nat) (w w1 : world) (f : nat) :
  eot_file fo w = (w1, Ok f) -> w1 = w.
Proof.
  destruct fo as [g|]; simpl.
  - intros H. inversion H. reflexivity.
  - unfold get_head, eot_load, bind, get, ret, deref, fault.
    destruct (vfd_swmr_eot_queue_head_g w) as [h|]; [|discriminate].
    simpl. destruct (eot_heap w !! h); intros H; inversion H. reflexivity.
Qed.

Lemma shared_of_ok f (w w1 : world) s :
  shared_of f w = (w1, Ok s) -> w1 = w /\ files w !! f = Some s.
Proof.
  unfold shared_of, bind, get, deref, ret, fault.
  destruct (files w !! f); intros H; inversion H. auto.
Qed.

(** A writer's end of tick that completes has passed the assertion on the
    number of slots in use, and nothing after the assertion changes it. *)
Lemma writer_end_of_tick_within_capacity E fo (w w' : world) :
  H5F_vfd_swmr_writer_end_of_tick E fo w = (w', Ok tt) ->
  exists f s',
    eot_file fo w = (w, Ok f)
    /\ files w' !! f = Some s'
    /\ mdf_idx_entries_used s' <= u32 (mdf_idx_len s').
Proof.
  intros H. unfold H5F_vfd_swmr_writer_end_of_tick in H.
  apply bind_ok in H. destruct H as (w0 & f & Hf & H).
  pose proof (eot_file_ok _ _ _ _ Hf) as ->.
  exists f.
  do 10 (apply bind_ok in H;
         let wi := fresh "w" in let ai := fresh "a" in let Hi := fresh "Hi" in
         destruct H as (wi & ai & Hi & H); clear Hi).
  apply bind_ok in H. destruct H as (wa & s & Hs & H).
  apply shared_of_ok in Hs. destruct Hs as [-> Hs].
  apply bind_ok in H. destruct H as (wb & u & Hassert & H).
  apply HDassert_ok in Hassert. destruct Hassert as [Hle ->].
  apply Z.leb_le in Hle.
  match type of H with ?rest _ = _ =>
    assert (Hkeep : keeps_of_file f
              (fun s => (mdf_idx_entries_used s, mdf_idx_len s)) rest)
  end.
  { apply keeps_of_file_bind;
      [apply keeps_of_file_fixed, files_fixed_wcall|]. intros ok1.
    apply keeps_of_file_bind;
      [apply keeps_of_file_fixed, files_fixed_check|]. intros _.
    apply keeps_of_file_bind;
      [apply keeps_of_file_fixed, files_fixed_wcall|]. intros ok2.
    apply keeps_of_file_bind;
      [apply keeps_of_file_fixed, files_fixed_check|]. intros _.
    apply keeps_of_file_bind;
      [apply keeps_of_file_or_error, update_end_of_tick_keeps_index|].
    intros _.
    apply keeps_of_file_bind;
      [apply keeps_of_file_fixed, files_fixed_remove_entry_eot|]. intros _.
    apply keeps_of_file_or_error, keeps_of_file_fixed,
      files_fixed_insert_entry_eot. }
  destruct (Hkeep _ _ Hs) as (s' & Hs' & Hproj).
  rewrite H in Hs'. simpl in Hs'.
  exists s'. split; [exact Hf|]. split; [exact Hs'|].
  inversion Hproj as [[Hu Hl]]. rewrite Hu, Hl. exact Hle.
Qed.

(** ** The capacity of the index *)

Lemma create_index_ok E (st st' : fstate) :
  let s := sh st in
  let bytes := fs_page_size s * md_pages_reserved (vfd_swmr_config s) in
  let N := (bytes - H5FD_MD_HEADER_SIZE) / H5FD_MD_INDEX_ENTRY_SIZE in
  H5FD_MD_HEADER_SIZE <= bytes < 2 ^ 64 ->
  N < 2 ^ 31 ->
  H5F__vfd_swmr_writer__create_index E st = (st', Ok tt) ->
  0 < N
  /\ mdf_idx_len (sh st') = N
  /\ mdf_idx_entries_used (sh st') = 0
  /\ mdf_idx (sh st') = Some (replicate (Z.to_nat N) empty_idx_entry).
Proof.
  intros s bytes N Hbytes HN H.
  unfold H5F__vfd_swmr_writer__create_index in H.
  inv_bind H s0 Hs0. subst s0. fold s in H.
  inv_bind H u1 H1. inv_bind H u2 H2. inv_bind H u3 H3. inv_bind H u4 H4.
  fold bytes in H.
  assert (Hb : u64 (u64 bytes - H5FD_MD_HEADER_SIZE)
               = bytes - H5FD_MD_HEADER_SIZE).
  { unfold H5FD_MD_HEADER_SIZE in *. unfold u64.
    rewrite (Z.mod_small bytes) by lia. apply Z.mod_small. lia. }
  rewrite Hb in H. fold N in H.
  inv_bind H u5 H5. inv_bind H u6 H6.
  assert (HN0 : 0 <= N).
  { unfold N, H5FD_MD_INDEX_ENTRY_SIZE, H5FD_MD_HEADER_SIZE in *.
    apply Z.div_pos; lia. }
  rewrite i32_small in H6, H by lia.
  apply Z.ltb_lt in H6.
  inv_bind H ok Hok. inv_bind H u7 H7.
  apply set_shared_ok in H. subst st'. simpl.
  split; [exact H6|]. repeat split; reflexivity.
Qed.

(** ** The reader's walk over the old and the new index *)

Lemma bind_assoc {S A B C} (m : M S A) (f : A -> M S B) (g : B -> M S C)
    (s : S) :
  bind (bind m f) g s = bind m (fun x => bind (f x) g) s.
Proof. unfold bind. destruct (m s) as [s1 [a| | | |]]; reflexivity. Qed.

Lemma stale_same n sn o :
  hdf5_page_offset o = hdf5_page_offset n ->
  stale (n :: sn) o = negb (md_file_page_offset o =? md_file_page_offset n).
Proof.
  intros H. unfold stale, index_lookup. simpl.
  rewrite H, Z.eqb_refl. reflexivity.
Qed.

Lemma stale_skip n sn o :
  hdf5_page_offset n <> hdf5_page_offset o ->
  stale (n :: sn) o = stale sn o.
Proof.
  intros H. unfold stale, index_lookup. simpl.
  destruct (Z.eqb_spec (hdf5_page_offset n) (hdf5_page_offset o));
    [contradiction | reflexivity].
Qed.

Lemma stale_absent sn o :
  (forall n, n ∈ sn -> hdf5_page_offset n <> hdf5_page_offset o) ->
  stale sn o = true.
Proof. intros H. unfold stale. rewrite index_lookup_none; auto. Qed.

Lemma stale_pages_skip n sn so :
  Forall (fun o => hdf5_page_offset n < hdf5_page_offset o) so ->
  List.filter (stale (n :: sn)) so = List.filter (stale sn) so.
Proof.
  intros H. apply List.filter_ext_in. intros o Ho. apply stale_skip.
  rewrite Forall_forall in H. apply list_elem_of_In in Ho.
  specialize (H o Ho). lia.
Qed.

Lemma stale_pages_nil so : List.filter (stale []) so = so.
Proof.
  induction so as [|o r IH]; [reflexivity|]. simpl. rewrite IH. reflexivity.
Qed.

Lemma sorted_suffix es (k : nat) e r :
  index_sorted es -> drop k es = e :: r ->
  index_sorted r
  /\ Forall (fun x => hdf5_page_offset e < hdf5_page_offset x) r.
Proof.
  unfold index_sorted. intros Hs Hd.
  rewrite <- (take_drop k es) in Hs. apply StronglySorted_app_1_r in Hs.
  rewrite Hd in Hs. apply StronglySorted_inv in Hs.
  destruct Hs; split; assumption.
Qed.

Lemma used_suffix (a : list H5FD_vfd_swmr_idx_entry_t) (used i : Z) e :
  0 <= i < used -> a !! Z.to_nat i = Some e ->
  drop (Z.to_nat i) (take (Z.to_nat used) a)
  = e :: drop (Z.to_nat (i + 1)) (take (Z.to_nat used) a).
Proof.
  intros Hi He. replace (Z.to_nat (i + 1)) with (S (Z.to_nat i)) by lia.
  apply drop_S. rewrite lookup_take_lt by lia. exact He.
Qed.

Lemma used_slot (a : list H5FD_vfd_swmr_idx_entry_t) (used i : Z) :
  0 <= i < used -> used <= Z.of_nat (length a) ->
  exists e, a !! Z.to_nat i = Some e.
Proof.
  intros Hi Hu. destruct (a !! Z.to_nat i) as [e|] eqn:He; [eauto|].
  apply lookup_ge_None in He. lia.
Qed.

Lemma at_index_run (a : list H5FD_vfd_swmr_idx_entry_t) (i : Z) e
    (st : fstate) :
  0 <= i -> a !! Z.to_nat i = Some e -> at_index (Some a) i st = (st, Ok e).
Proof.
  intros Hi He. unfold at_index, bind, deref, ret.
  destruct (Z.ltb_spec i 0); [lia|]. rewrite He. reflexivity.
Qed.

Lemma assert_ascending_run (a : list H5FD_vfd_swmr_idx_entry_t)
    (used k : Z) (st : fstate) :
  0 <= k -> used <= Z.of_nat (length a) ->
  index_sorted (take (Z.to_nat used) a) ->
  assert_ascending (Some a) used k st = (st, Ok tt).
Proof.
  intros Hk Hu Hs. unfold assert_ascending.
  destruct (Z.eqb_spec k 0) as [|Hk0]; [reflexivity|].
  destruct (Z.leb_spec used k) as [|Hlt]; [reflexivity|]. simpl.
  destruct (used_slot a used (k - 1)) as [x Hx]; [lia|lia|].
  destruct (used_slot a used k) as [y Hy]; [lia|lia|].
  rewrite (bind_run _ _ _ _ _ (at_index_run a (k - 1) x st ltac:(lia) Hx)).
  rewrite (bind_run _ _ _ _ _ (at_index_run a k y st Hk Hy)).
  assert (Hlt' : hdf5_page_offset x < hdf5_page_offset y).
  { apply (sorted_lookup_lt (take (Z.to_nat used) a)
             (Z.to_nat (k - 1)) (Z.to_nat k)); [exact Hs| | |lia].
    - rewrite lookup_take_lt by lia. exact Hx.
    - rewrite lookup_take_lt by lia. exact Hy. }
  apply Z.ltb_lt in Hlt'. rewrite Hlt'. reflexivity.
Qed.

Section Walk.
Variable E : collaborators.
Hypothesis remove_ok : forall l page, H5PB_remove_entry E l page = true.
Hypothesis evict_ok : forall l page tick,
  H5C_evict_or_refresh_all_entries_in_page E l page tick = true.
Variables pass ps tmp : Z.
Variables old new : list H5FD_vfd_swmr_idx_entry_t.
Variables ou nu : Z.
Hypothesis old_bound : 0 <= ou <= Z.of_nat (length old).
Hypothesis new_bound : 0 <= nu <= Z.of_nat (length new).
Hypothesis old_small : ou < 2 ^ 31.
Hypothesis new_small : nu < 2 ^ 31.
Let old_es := take (Z.to_nat ou) old.
Let new_es := take (Z.to_nat nu) new.
Hypothesis old_sorted : index_sorted old_es.
Hypothesis new_sorted : index_sorted new_es.

Lemma evict_page_run (e : H5FD_vfd_swmr_idx_entry_t) (st : fstate) :
  evict_page E pass ps tmp e st
  = ({| sh := sh st; log := log st ++ [page_event pass ps tmp e] |}, Ok tt).
Proof.
  unfold evict_page, page_event.
  destruct (pass =? 0); unfold bind, call, check, ret; simpl.
  - rewrite remove_ok. reflexivity.
  - rewrite evict_ok. reflexivity.
Qed.

Lemma evict_left_overs_run (fuel : nat) :
  forall (i : Z) (st : fstate),
    0 <= i -> ou - i <= Z.of_nat fuel ->
    evict_left_overs E fuel pass ps tmp (Some old) ou i st
    = ({| sh := sh st;
          log := log st
                 ++ map (page_event pass ps tmp) (drop (Z.to_nat i) old_es) |},
       Ok tt).
Proof.
  induction fuel as [|fuel IH]; intros i st Hi Hf.
  - simpl. destruct (Z.ltb_spec i ou); [lia|].
    rewrite drop_ge by (subst old_es; rewrite length_take; lia).
    simpl. rewrite app_nil_r. destruct st; reflexivity.
  - simpl. destruct (Z.ltb_spec i ou) as [Hlt|Hge].
    + destruct (used_slot old ou i) as [o Ho]; [lia|lia|].
      rewrite (bind_run _ _ _ _ _ (at_index_run old i o st Hi Ho)).
      rewrite (bind_run _ _ _ _ _ (evict_page_run o st)).
      rewrite i32_small by lia. rewrite IH by lia. simpl.
      subst old_es. rewrite (used_suffix old ou i o) by (auto; lia).
      simpl. rewrite <- app_assoc. reflexivity.
    + rewrite drop_ge by (subst old_es; rewrite length_take; lia).
      simpl. rewrite app_nil_r. destruct st; reflexivity.
Qed.

Lemma walk_exit (i j : Z) :
  0 <= i -> 0 <= j -> ou <= i \/ nu <= j ->
  List.filter (stale (drop (Z.to_nat j) new_es)) (drop (Z.to_nat i) old_es)
  = drop (Z.to_nat i) old_es.
Proof.
  intros Hi Hj [H|H].
  - rewrite (drop_ge old_es) by (subst old_es; rewrite length_take; lia).
    reflexivity.
  - rewrite (drop_ge new_es) by (subst new_es; rewrite length_take; lia).
    apply stale_pages_nil.
Qed.

Lemma walk_run (fuel2 : nat) (Hf2 : ou <= Z.of_nat fuel2) (fuel : nat) :
  forall (i j : Z) (st : fstate),
    0 <= i <= ou -> 0 <= j <= nu ->
    (ou - i) + (nu - j) <= Z.of_nat fuel ->
    bind (compare_indexes E fuel pass ps tmp (Some old) (Some new) ou nu i j)
         (evict_left_overs E fuel2 pass ps tmp (Some old) ou) st
    = ({| sh := sh st;
          log := log st
                 ++ map (page_event pass ps tmp)
                      (List.filter (stale (drop (Z.to_nat j) new_es))
                         (drop (Z.to_nat i) old_es)) |},
       Ok tt).
Proof.
  assert (Hexit : forall i j st, 0 <= i <= ou -> 0 <= j <= nu ->
            ou <= i \/ nu <= j ->
            bind (ret i) (evict_left_overs E fuel2 pass ps tmp (Some old) ou) st
            = ({| sh := sh st;
                  log := log st
                    ++ map (page_event pass ps tmp)
                         (List.filter (stale (drop (Z.to_nat j) new_es))
                            (drop (Z.to_nat i) old_es)) |}, Ok tt)).
  { intros i j st Hi Hj Hor. rewrite walk_exit by lia.
    unfold bind, ret. apply evict_left_overs_run; lia. }
  induction fuel as [|fuel IH]; intros i j st Hi Hj Hf.
  - simpl. destruct (Z.ltb_spec i ou), (Z.ltb_spec j nu); try lia; simpl;
      apply Hexit; lia.
  - simpl. destruct (Z.ltb_spec i ou) as [Hio|Hio];
      [destruct (Z.ltb_spec j nu) as [Hjn|Hjn]|]; simpl;
      [| apply Hexit; lia | apply Hexit; lia].
    destruct (used_slot old ou i) as [o Ho]; [lia|lia|].
    destruct (used_slot new nu j) as [n Hn]; [lia|lia|].
    rewrite bind_assoc.
    rewrite (bind_run _ _ _ _ _ (at_index_run old i o st ltac:(lia) Ho)).
    rewrite bind_assoc.
    rewrite (bind_run _ _ _ _ _ (at_index_run new j n st ltac:(lia) Hn)).
    rewrite bind_assoc.
    pose proof (used_suffix old ou i o ltac:(lia) Ho) as Hso.
    pose proof (used_suffix new nu j n ltac:(lia) Hn) as Hsn.
    fold old_es in Hso. fold new_es in Hsn.
    destruct (sorted_suffix _ _ _ _ old_sorted Hso) as [_ Hoabove].
    destruct (sorted_suffix _ _ _ _ new_sorted Hsn) as [_ Hnabove].
    rewrite Hso, Hsn.
    assert (Htail : forall i' j' st1,
              0 <= i' <= ou -> 0 <= j' <= nu ->
              (ou - i') + (nu - j') <= Z.of_nat fuel ->
              bind (assert_ascending (Some old) ou i' >>
                    assert_ascending (Some new) nu j' >>
                    compare_indexes E fuel pass ps tmp (Some old) (Some new)
                      ou nu i' j')
                   (evict_left_overs E fuel2 pass ps tmp (Some old) ou) st1
              = ({| sh := sh st1;
                    log := log st1
                      ++ map (page_event pass ps tmp)
                           (List.filter (stale (drop (Z.to_nat j') new_es))
                              (drop (Z.to_nat i') old_es)) |}, Ok tt)).
    { intros i' j' st1 Hi' Hj' Hf'.
      rewrite bind_assoc.
      rewrite (bind_run _ _ _ _ _
                 (assert_ascending_run old ou i' st1 ltac:(lia) ltac:(lia)
                    old_sorted)).
      rewrite bind_assoc.
      rewrite (bind_run _ _ _ _ _
                 (assert_ascending_run new nu j' st1 ltac:(lia) ltac:(lia)
                    new_sorted)).
      apply IH; assumption. }
    rewrite !i32_small by lia.
    destruct (Z.eqb_spec (hdf5_page_offset o) (hdf5_page_offset n))
      as [Heq|Hne].
    + assert (Hskip : List.filter (stale (n :: drop (Z.to_nat (j + 1)) new_es))
                        (drop (Z.to_nat (i + 1)) old_es)
                      = List.filter (stale (drop (Z.to_nat (j + 1)) new_es))
                          (drop (Z.to_nat (i + 1)) old_es)).
      { apply stale_pages_skip. rewrite <- Heq. exact Hoabove. }
      simpl List.filter. rewrite (stale_same n _ o Heq), Hskip.
      destruct (md_file_page_offset o =? md_file_page_offset n); simpl negb;
        cbv iota.
      * unfold bind at 2. unfold ret at 1 2. unfold bind at 1.
        cbn [fst snd]. rewrite Htail by lia. reflexivity.
      * rewrite bind_assoc.
        rewrite (bind_run _ _ _ _ _ (evict_page_run n st)).
        unfold bind at 1. unfold ret at 1. cbn [fst snd].
        rewrite Htail by lia. cbn [sh log map].
        rewrite <- app_assoc. unfold page_event. rewrite Heq. reflexivity.
    + destruct (Z.ltb_spec (hdf5_page_offset o) (hdf5_page_offset n))
        as [Hlt|Hge].
      * rewrite bind_assoc.
        rewrite (bind_run _ _ _ _ _ (evict_page_run o st)).
        unfold bind at 1. unfold ret at 1. cbn [fst snd].
        rewrite Htail by lia. cbn [sh log]. rewrite Hsn.
        simpl List.filter. rewrite (stale_absent (n :: _) o).
        { simpl. rewrite <- app_assoc. reflexivity. }
        intros x Hx. apply elem_of_cons in Hx. destruct Hx as [->|Hx]; [lia|].
          rewrite Forall_forall in Hnabove. specialize (Hnabove x Hx). lia.
      * unfold bind at 1. unfold ret at 1. cbn [fst snd].
        rewrite Htail by lia. rewrite Hso.
        rewrite (stale_pages_skip n _ (o :: _)); [reflexivity|].
        constructor; [lia|].
        eapply Forall_impl; [exact Hoabove|]. simpl. intros x Hx. lia.
Qed.
End Walk.

Lemma reader_pass_run (E : collaborators) (pass tmp : Z) (st : fstate)
    (pb : H5PB_t) (old new : list H5FD_vfd_swmr_idx_entry_t) :
  let ou := old_mdf_idx_entries_used (sh st) in
  let nu := mdf_idx_entries_used (sh st) in
  (forall l page, H5PB_remove_entry E l page = true) ->
  (forall l page tick,
      H5C_evict_or_refresh_all_entries_in_page E l page tick = true) ->
  pb_ptr (sh st) = Some pb ->
  old_mdf_idx (sh st) = Some old ->
  mdf_idx (sh st) = Some new ->
  0 <= ou <= Z.of_nat (length old) -> ou < 2 ^ 31 ->
  0 <= nu <= Z.of_nat (length new) -> nu < 2 ^ 31 ->
  index_sorted (take (Z.to_nat ou) old) ->
  index_sorted (take (Z.to_nat nu) new) ->
  reader_pass E pass tmp st
  = ({| sh := sh st;
        log := log st
               ++ map (page_event pass (page_size pb) tmp)
                    (stale_pages (take (Z.to_nat ou) old)
                       (take (Z.to_nat nu) new)) |},
     Ok tt).
Proof.
  intros ou nu Hrm Hev Hpb Hold Hnew Hou Hou' Hnu Hnu' Hso Hsn.
  unfold reader_pass. unfold bind at 1, get_shared at 1.
  rewrite Hpb. unfold bind at 1, deref at 1, ret at 1.
  rewrite Hold, Hnew. fold ou nu. rewrite i32_small by lia.
  rewrite (walk_run E Hrm Hev pass (page_size pb) tmp old new ou nu)
    by (try assumption; lia).
  reflexivity.
Qed.

Lemma reader_passes_run (E : collaborators) (tmp : Z) (st : fstate)
    (pb : H5PB_t) (old new : list H5FD_vfd_swmr_idx_entry_t) :
  let ou := old_mdf_idx_entries_used (sh st) in
  let nu := mdf_idx_entries_used (sh st) in
  let gone := stale_pages (take (Z.to_nat ou) old) (take (Z.to_nat nu) new) in
  (forall l page, H5PB_remove_entry E l page = true) ->
  (forall l page tick,
      H5C_evict_or_refresh_all_entries_in_page E l page tick = true) ->
  pb_ptr (sh st) = Some pb ->
  old_mdf_idx (sh st) = Some old ->
  mdf_idx (sh st) = Some new ->
  0 <= ou <= Z.of_nat (length old) -> ou < 2 ^ 31 ->
  0 <= nu <= Z.of_nat (length new) -> nu < 2 ^ 31 ->
  index_sorted (take (Z.to_nat ou) old) ->
  index_sorted (take (Z.to_nat nu) new) ->
  reader_passes E tmp st
  = ({| sh := sh st;
        log := log st
               ++ map (page_event 0 (page_size pb) tmp) gone
               ++ map (page_event 1 (page_size pb) tmp) gone |},
     Ok tt).
Proof.
  intros ou nu gone Hrm Hev Hpb Hold Hnew Hou Hou' Hnu Hnu' Hso Hsn.
  unfold reader_passes.
  rewrite (bind_run _ _ _ _ _
             (reader_pass_run E 0 tmp st pb old new Hrm Hev Hpb Hold Hnew
                Hou Hou' Hnu Hnu' Hso Hsn)).
  rewrite (reader_pass_run E 1 tmp _ pb old new) by assumption.
  cbn [sh log]. rewrite <- app_assoc. reflexivity.
Qed.

(** Which entries of the old index the walk selects. *)
Lemma stale_pages_spec (old_es new_es : list H5FD_vfd_swmr_idx_entry_t) :
  index_sorted new_es ->
  (forall o n, o ∈ old_es -> n ∈ new_es ->
               hdf5_page_offset o = hdf5_page_offset n ->
               (o ∈ stale_pages old_es new_es
                <-> md_file_page_offset o <> md_file_page_offset n))
  /\ (forall o, o ∈ old_es ->
                (forall n, n ∈ new_es ->
                           hdf5_page_offset n <> hdf5_page_offset o) ->
                o ∈ stale_pages old_es new_es)
  /\ (forall x, x ∈ stale_pages old_es new_es -> x ∈ old_es).
Proof.
  intros Hs. unfold stale_pages. split; [|split].
  - intros o n Ho Hn Heq.
    apply list_elem_of_lookup_1 in Hn. destruct Hn as [k Hk].
    pose proof (index_lookup_found _ _ k n Hs Hk (eq_sym Heq)) as Hfound.
    rewrite list_elem_of_In, List.filter_In, <- list_elem_of_In.
    unfold stale. rewrite Hfound, negb_true_iff, Z.eqb_neq. tauto.
  - intros o Ho Habs. apply list_elem_of_In, List.filter_In.
    split; [apply list_elem_of_In; exact Ho|]. apply stale_absent. exact Habs.
  - intros x Hx. apply list_elem_of_In, List.filter_In in Hx.
    apply list_elem_of_In. tauto.
Qed.


(** With the two indexes equal nothing is requested. *)
Example reader_same_index_quiet (es : list H5FD_vfd_swmr_idx_entry_t) :
  index_sorted es -> stale_pages es es = [].
Proof.
  intros Hs. unfold stale_pages.
  assert (H : forall x, In x es -> stale es x = false).
  { intros x Hx. apply list_elem_of_In, list_elem_of_lookup_1 in Hx.
    destruct Hx as [k Hk]. unfold stale.
    rewrite (index_lookup_found _ _ k x Hs Hk eq_refl).
    rewrite Z.eqb_refl. reflexivity. }
  induction es as [|e r IH]; [reflexivity|].
  rewrite (List.filter_ext_in _ (fun _ => false) _ H).
  clear. induction (e :: r) as [|a l IHl]; [reflexivity | exact IHl].
Qed.

(** ** Freed space *)

Lemma ccall_ok {A} (oracle : list cache_call -> A) (ev : A -> cache_call)
    (l l' : list cache_call) (a : A) :
  ccall oracle ev l = (l', Ok a) -> a = oracle l /\ l' = l ++ [ev a].
Proof. unfold ccall. intros H. inversion H. auto. Qed.

Lemma create_fd_may_reference (alloc_type : H5FD_mem_t) (t : H5AC_type_id) :
  create_fd alloc_type t = may_reference alloc_type t.
Proof. destruct alloc_type, t; reflexivity. Qed.

Lemma addr_ne_defined (E : cache_env) (x y : Z) :
  H5F_addr_defined E y = true -> H5F_addr_ne E x y = negb (x =? y).
Proof.
  unfold H5F_addr_ne, H5F_addr_eq. intros Hy.
  destruct (Z.eqb_spec x y) as [->|_].
  - rewrite Hy. reflexivity.
  - rewrite andb_false_r. reflexivity.
Qed.

Lemma freedspace_new_ok (E : cache_env) (ctx : H5MF_freedspace_ctx_t)
    (l l' : list cache_call) (fs : H5MF_freedspace_t) :
  H5MF__freedspace_new E ctx l = (l', Ok fs) ->
  made_for ctx fs
  /\ exists calls, l' = l ++ calls
                   /\ setup_calls (ctx_f ctx) (ctx_ring ctx) fs calls.
Proof.
  unfold H5MF__freedspace_new. intros H.
  inv_bind H ok Hok. rewrite <- Hok in H.
  inv_bind H u Hu. subst ok.
  inv_bind H now Hnow.
  inv_bind H tmp Htmp. rewrite <- Htmp in H.
  destruct tmp as [tmp_addr|]; [|discriminate].
  inv_bind H orig Horig.
  inv_bind H ok Hins. rewrite <- Hins in H.
  inv_bind H u' Hrestore.
  inv_bind H u'' Hchk. subst ok.
  apply ret_ok in H. destruct H as [-> ->].
  rewrite Hchk, Hu in Hrestore.
  split; [repeat split|].
  destruct (_ =? H5AC_RING_INV E) in Hrestore.
  - apply ret_ok in Hrestore. destruct Hrestore as [_ ->].
    eexists. rewrite <- !app_assoc. split; [reflexivity|].
    exists tmp_addr, []. split; [reflexivity | left; reflexivity].
  - inv_bind Hrestore o Ho. apply ret_ok in Hrestore.
    destruct Hrestore as [_ ->].
    eexists. rewrite <- !app_assoc. split; [reflexivity|].
    exists tmp_addr. eexists. split; [reflexivity | right; eauto].
Qed.

(** One call of the callback: nothing for an entry that does not depend on
    the freed space, one flush dependency for one that does, after the
    freedspace object has been made if it was not there yet. *)
Lemma freedspace_create_cb_ok (E : cache_env) (entry : H5AC_info_t)
    (ctx ctx' : H5MF_freedspace_ctx_t) (l l' : list cache_call) :
  H5F_addr_defined E (ctx_addr ctx) = true ->
  H5MF__freedspace_create_cb E entry ctx l = (l', Ok ctx') ->
  if depends_on E (ctx_alloc_type ctx) (ctx_addr ctx) (ctx_ring ctx) entry
  then
    exists fs calls,
      ctx' = with_ctx_fs (Some fs) ctx
      /\ l' = l ++ calls ++ [CallCreateFlushDependency fs entry true]
      /\ match ctx_fs ctx with
         | Some fs0 => fs = fs0 /\ calls = []
         | None => made_for ctx fs
                   /\ setup_calls (ctx_f ctx) (ctx_ring ctx) fs calls
         end
  else ctx' = ctx /\ l' = l.
Proof.
  intros Hdef H. unfold H5MF__freedspace_create_cb in H. unfold depends_on.
  rewrite (addr_ne_defined E _ _ Hdef) in H.
  destruct (negb (addr entry =? ctx_addr ctx) && is_dirty entry
            && (ring entry <=? ctx_ring ctx)).
  2:{ apply ret_ok in H. destruct H as [-> ->]. simpl. auto. }
  destruct (H5AC_get_entry_type E entry) as [t|]; [|discriminate].
  rewrite create_fd_may_reference in H. simpl.
  destruct (may_reference (ctx_alloc_type ctx) t).
  2:{ apply ret_ok in H. destruct H as [-> ->]. auto. }
  inv_bind H ctx1 Hctx1.
  inv_bind H fs Hfs.
  inv_bind H ok Hdep.
  inv_bind H u Hok.
  apply ret_ok in H. destruct H as [-> ->].
  rewrite <- Hdep, Hok. clear ok Hdep Hok. exists fs.
  destruct (ctx_fs ctx) as [fs0|] eqn:Hfs0.
  - apply ret_ok in Hctx1. destruct Hctx1 as [-> ->].
    exists []. rewrite Hfs0 in Hfs. inversion Hfs; subst fs0.
    split; [|split; [reflexivity | split; reflexivity]].
    destruct ctx; simpl in *; subst; reflexivity.
  - inv_bind Hctx1 fs1 Hnew. apply or_error_ok in Hnew.
    apply ret_ok in Hctx1. destruct Hctx1 as [-> ->].
    simpl in Hfs. inversion Hfs; subst fs1.
    apply freedspace_new_ok in Hnew.
    destruct Hnew as (Hmade & calls & -> & Hsetup).
    exists calls. rewrite <- app_assoc.
    split; [reflexivity|]. split; [reflexivity|]. split; assumption.
Qed.

Lemma freedspace_iterate_ok (E : cache_env) (es : list H5AC_info_t) :
  forall (ctx ctx' : H5MF_freedspace_ctx_t) (l l' : list cache_call),
    H5F_addr_defined E (ctx_addr ctx) = true ->
    H5AC_iterate es (H5MF__freedspace_create_cb E) ctx l = (l', Ok ctx') ->
    match List.filter
            (depends_on E (ctx_alloc_type ctx) (ctx_addr ctx) (ctx_ring ctx))
            es with
    | [] => ctx' = ctx /\ l' = l
    | kids =>
        exists fs calls,
          ctx' = with_ctx_fs (Some fs) ctx
          /\ l' = l ++ calls
                    ++ map (fun e => CallCreateFlushDependency fs e true) kids
          /\ match ctx_fs ctx with
             | Some fs0 => fs = fs0 /\ calls = []
             | None => made_for ctx fs
                       /\ setup_calls (ctx_f ctx) (ctx_ring ctx) fs calls
             end
    end.
Proof.
  induction es as [|e r IH]; intros ctx ctx' l l' Hdef H.
  - simpl in *. apply ret_ok in H. destruct H as [-> ->]. auto.
  - simpl in H. inv_bind H ctx1 Hcb.
    apply freedspace_create_cb_ok in Hcb; [|exact Hdef].
    simpl List.filter.
    destruct (depends_on E (ctx_alloc_type ctx) (ctx_addr ctx)
                (ctx_ring ctx) e).
    + destruct Hcb as (fs & calls & -> & -> & Hfs).
      apply IH in H; [|exact Hdef]. simpl in H.
      destruct (List.filter _ r) as [|k kids].
      * destruct H as [-> ->]. exists fs, calls. auto.
      * destruct H as (fs' & calls' & -> & -> & -> & ->).
        exists fs, calls. simpl. rewrite <- !app_assoc. simpl. auto.
    + destruct Hcb as [-> ->]. apply IH in H; [|exact Hdef]. exact H.
Qed.

(** An entry of the cache's own kinds, the new freedspace entry among
    them, is never made a child, whatever is freed: it does not matter
    whether the walk meets the entry inserted while it was under way. *)
Example cache_internal_not_linked (E : cache_env) (alloc_type : H5FD_mem_t)
    (freed max_ring : Z) (e : H5AC_info_t) (t : H5AC_type_id) :
  H5AC_get_entry_type E e = Some t -> cache_internal t = true ->
  depends_on E alloc_type freed max_ring e = false.
Proof.
  intros Ht Hint. unfold depends_on. rewrite Ht.
  destruct alloc_type, t; try discriminate; simpl; apply andb_false_r.
Qed.

(** C9, as the code has it.  When [H5MF__freedspace_create] succeeds: if
    the cache reports itself clean, no freedspace object is returned and no
    call is made.  Otherwise the entries that count are those of the cache
    that are not at the freed address, are dirty, are in a ring at most
    [max_ring] (the user ring for raw data, the ring of the cache entry at
    the freed address if there is one, the ring of the API context if not)
    and whose type may refer to the space (object headers and chunk
    indexes for raw data, anything but the cache's own entries for
    metadata).  If there is none, again no freedspace object is returned
    and no call is made.  If there is at least one, a freedspace object for
    the freed extent is allocated and inserted into the cache, once, and
    then each of these entries, in the order of the walk, is made its
    flush-dependency child; no other entry is. *)
Theorem C9_freedspace_dependents (E : cache_env) (f : nat)
    (alloc_type : H5FD_mem_t) (freed size : Z)
    (fs0 r : option H5MF_freedspace_t) (l l' : list cache_call) :
  H5MF__freedspace_create E f alloc_type freed size fs0 l = (l', Ok r) ->
  exists clean,
    H5AC_cache_is_clean E f (H5AC_RING_SB E) = Some clean
    /\ if clean then r = None /\ l' = l
       else
         exists max_ring,
           freed_ring E f alloc_type freed = Some max_ring
           /\ match dependents E f alloc_type freed max_ring with
              | [] => r = None /\ l' = l
              | kids =>
                  exists fs calls,
                    r = Some fs
                    /\ fs_alloc_type fs = alloc_type
                    /\ fs_addr fs = freed
                    /\ fs_size fs = size
                    /\ setup_calls f max_ring fs calls
                    /\ l' = l ++ calls
                              ++ map (fun e =>
                                        CallCreateFlushDependency fs e true)
                                   kids
              end.
Proof.
  unfold H5MF__freedspace_create. intros H.
  inv_bind H u Hdef. inv_bind H u' Hnull.
  apply bool_decide_eq_true in Hnull. subst fs0.
  destruct (H5AC_cache_is_clean E f (H5AC_RING_SB E)) as [clean|];
    [|discriminate].
  exists clean. split; [reflexivity|].
  destruct clean; simpl in H.
  { apply ret_ok in H. destruct H as [-> ->]. auto. }
  inv_bind H status Hstatus.
  inv_bind H max_ring Hring.
  inv_bind H ctx' Hiter. apply or_error_ok in Hiter.
  assert (Hfr : freed_ring E f alloc_type freed = Some max_ring
                /\ s0 = l).
  { unfold freed_ring.
    destruct (bool_decide (alloc_type = H5FD_MEM_DRAW)) eqn:Hdraw.
    - apply bool_decide_eq_true in Hdraw. subst alloc_type. simpl in *.
      apply ret_ok in Hstatus. destruct Hstatus as [_ ->].
      apply ret_ok in Hring. destruct Hring as [-> ->]. auto.
    - simpl in Hstatus.
      destruct (H5AC_get_entry_status E f freed) as [st|]; [|discriminate].
      apply ret_ok in Hstatus. destruct Hstatus as [-> ->].
      assert (Hgoal : (if Z.land st (H5AC_ES__IN_CACHE E) =? 0
                       then Some (H5CX_get_ring E)
                       else H5AC_get_entry_ring E f freed) = Some max_ring
                      /\ s0 = l).
      { destruct (Z.land st (H5AC_ES__IN_CACHE E) =? 0); simpl in Hring.
        - apply ret_ok in Hring. destruct Hring as [-> ->]. auto.
        - destruct (H5AC_get_entry_ring E f freed) as [rg|]; [|discriminate].
          apply ret_ok in Hring. destruct Hring as [-> ->]. auto. }
      apply bool_decide_eq_false in Hdraw.
      destruct alloc_type; try exact Hgoal. contradiction. }
  destruct Hfr as [Hfr ->]. exists max_ring. split; [exact Hfr|].
  apply freedspace_iterate_ok in Hiter; [|exact Hdef].
  unfold dependents. simpl in Hiter.
  destruct (List.filter _ (H5AC_entries E f)) as [|k kids].
  - destruct Hiter as [-> ->]. simpl in H.
    apply ret_ok in H. destruct H as [-> ->]. auto.
  - destruct Hiter as (fs & calls & -> & -> & Hmade & Hsetup).
    simpl in H. apply ret_ok in H. destruct H as [-> ->].
    destruct Hmade as (_ & Ha & Hb & Hc). simpl in *.
    exists fs, calls. auto 10.
Qed.

(** Raw data at 65536 is freed while [sample_cache] is dirty: the object
    header and the chunk-index leaf become children; the local heap, the
    clean chunk and the superblock do not. *)
Lemma C9_freedspace_dependents_witness :
  let E := E_cache sample_cache sample_types in
  H5MF__freedspace_create E 0%nat H5FD_MEM_DRAW 65536 512 None []
  = (sample_freed_calls, Ok (Some sample_freedspace))
  /\ exists calls,
       setup_calls 0%nat 1 sample_freedspace calls
       /\ sample_freed_calls
          = calls ++ [CallCreateFlushDependency sample_freedspace
                        {| addr := 4096; is_dirty := true; ring := 1 |} true;
                      CallCreateFlushDependency sample_freedspace
                        {| addr := 8192; is_dirty := true; ring := 1 |} true].
Proof.
  intros E.
  assert (Hrun : H5MF__freedspace_create E 0%nat H5FD_MEM_DRAW 65536 512
                   None []
                 = (sample_freed_calls, Ok (Some sample_freedspace)))
    by (vm_compute; reflexivity).
  split; [exact Hrun|].
  destruct (C9_freedspace_dependents E 0%nat H5FD_MEM_DRAW 65536 512 None
              (Some sample_freedspace) [] sample_freed_calls Hrun)
    as (clean & Hclean & H).
  vm_compute in Hclean. inversion Hclean; subst clean.
  destruct H as (max_ring & Hring & H).
  vm_compute in Hring. inversion Hring; subst max_ring.
  change (dependents E 0%nat H5FD_MEM_DRAW 65536 1)
    with [{| addr := 4096; is_dirty := true; ring := 1 |};
          {| addr := 8192; is_dirty := true; ring := 1 |}] in H.
  destruct H as (fs & calls & Hr & _ & _ & _ & Hsetup & Hl).
  inversion Hr; subst fs. exists calls. split; [exact Hsetup | exact Hl].
Defined.

(** The header at 4096 is freed while it is itself the only dirty entry of
    the cache: the cache is not clean, yet no freedspace object is made. *)
Lemma C9_dirty_cache_without_freedspace :
  let E := E_cache lone_header sample_types in
  H5AC_cache_is_clean E 0%nat (H5AC_RING_SB E) = Some false
  /\ H5MF__freedspace_create E 0%nat H5FD_MEM_OHDR 4096 256 None []
     = ([], Ok None).
Proof. split; vm_compute; reflexivity. Qed.

(** ** Running process-level code forwards *)

Lemma shared_of_run (f : nat) (w : world) (s : H5F_shared_t) :
  files w !! f = Some s -> shared_of f w = (w, Ok s).
Proof. intros H. unfold shared_of, bind, get, deref. rewrite H. reflexivity. Qed.

Lemma on_file_run {A} (f : nat) (m : M fstate A) (w : world)
    (s : H5F_shared_t) (st' : fstate) (r : outcome A) :
  files w !! f = Some s ->
  m {| sh := s; log := wlog w |} = (st', r) ->
  on_file f m w
  = (with_files (<[f := sh st']> (files w)) (with_wlog (log st') w), r).
Proof. intros Hf Hm. unfold on_file. rewrite Hf, Hm. reflexivity. Qed.

Lemma or_error_on_file_run {A} (f : nat) msg (m : M fstate A) (w : world)
    (s : H5F_shared_t) (st' : fstate) (r : outcome A) :
  files w !! f = Some s ->
  m {| sh := s; log := wlog w |} = (st', r) ->
  or_error msg (on_file f m) w
  = (with_files (<[f := sh st']> (files w)) (with_wlog (log st') w),
     match r with Error _ => Error msg | _ => r end).
Proof.
  intros Hf Hm. unfold or_error. rewrite (on_file_run f m w s st' r Hf Hm).
  destruct r; reflexivity.
Qed.

(** ** The end of the tick: [H5F__vfd_swmr_update_end_of_tick_and_tick_num] *)

Lemma quot_rem_normal (a : Z) :
  0 <= a ->
  0 <= Z.rem a SECOND_TO_NANOSECS < SECOND_TO_NANOSECS
  /\ Z.quot a SECOND_TO_NANOSECS * SECOND_TO_NANOSECS
     + Z.rem a SECOND_TO_NANOSECS = a.
Proof.
  intros Ha. unfold SECOND_TO_NANOSECS.
  rewrite Z.rem_mod_nonneg, Z.quot_div_nonneg by lia.
  split; [apply Z.mod_pos_bound; lia|].
  pose proof (Z.div_mod a 1000000000 ltac:(lia)). lia.
Qed.

Lemma tick_len_nsecs_small (len : Z) :
  0 <= len <= 42 ->
  u32 (len * TENTH_SEC_TO_NANOSECS) = len * TENTH_SEC_TO_NANOSECS.
Proof.
  intros H. unfold u32, TENTH_SEC_TO_NANOSECS. apply Z.mod_small. lia.
Qed.

Lemma tick_len_nsecs_positive (len : Z) :
  0 < len < 2 ^ 24 -> 0 < u32 (len * TENTH_SEC_TO_NANOSECS).
Proof.
  intros H. unfold u32, TENTH_SEC_TO_NANOSECS.
  pose proof (Z.mod_pos_bound (len * 100000000) (2 ^ 32) ltac:(lia)) as Hb.
  destruct (Z.eq_dec ((len * 100000000) mod 2 ^ 32) 0) as [Hz|Hnz]; [|lia].
  exfalso. apply Z.mod_divide in Hz; [|lia].
  assert (Hdiv : (2 ^ 24 | len * 390625)).
  { destruct Hz as [k Hk]. exists k.
    change (2 ^ 32) with (2 ^ 24 * 256) in Hk. lia. }
  rewrite Z.mul_comm in Hdiv. apply Z.gauss in Hdiv; [|reflexivity].
  destruct Hdiv as [k Hk]. assert (0 < k) by nia. nia.
Qed.

(** A successful update sets the end of the tick, in the file and in the
    global, to the clock reading plus the length of the tick, as a
    normalised [timespec].  The length of the tick is [tick_len] tenths of
    a second taken in 32 bits: it is [tick_len] tenths of a second up to
    4.2 seconds ([tick_len] 42) and wraps modulo 2^32 nanoseconds beyond.
    The end of the tick is later than the clock reading unless that length
    is zero, which needs [tick_len] to be a multiple of 2^24.  The tick
    number moves by one exactly when [incr_tick_num] is set, and nothing
    else of the file changes. *)
Theorem end_of_tick_is_clock_plus_tick_len (E : collaborators) (f : nat)
    (incr_tick_num : bool) (w : world) (s : H5F_shared_t) (curr : timespec) :
  files w !! f = Some s ->
  HDclock_gettime E (wlog w) = Some curr ->
  0 <= tv_sec curr -> 0 <= tv_nsec curr < SECOND_TO_NANOSECS ->
  (forall l t, H5PB_vfd_swmr__set_tick E l t = true) ->
  let len := tick_len (vfd_swmr_config s) in
  exists w' eot,
    H5F__vfd_swmr_update_end_of_tick_and_tick_num E f incr_tick_num w
    = (w', Ok tt)
    /\ files w' !! f
       = Some (with_end_of_tick eot
                 (if incr_tick_num
                  then with_tick_num (u64 (tick_num s + 1)) s else s))
    /\ end_of_tick_g w' = eot
    /\ 0 <= tv_nsec eot < SECOND_TO_NANOSECS
    /\ tv_sec eot * SECOND_TO_NANOSECS + tv_nsec eot
       = tv_sec curr * SECOND_TO_NANOSECS + tv_nsec curr
         + (len * TENTH_SEC_TO_NANOSECS) mod 2 ^ 32
    /\ (0 <= len <= 42 ->
        tv_sec eot * SECOND_TO_NANOSECS + tv_nsec eot
        = tv_sec curr * SECOND_TO_NANOSECS + tv_nsec curr
          + len * TENTH_SEC_TO_NANOSECS)
    /\ (0 < len < 2 ^ 24 -> timespec_gt eot curr = true).
Proof.
  intros Hf Hclock Hsec Hnsec Hpb len.
  set (tlen := u32 (len * TENTH_SEC_TO_NANOSECS)).
  assert (Htlen : 0 <= tlen).
  { unfold tlen, u32. apply Z.mod_pos_bound. lia. }
  set (total := tv_sec curr * SECOND_TO_NANOSECS + tv_nsec curr + tlen).
  assert (Htotal : 0 <= total).
  { unfold total, SECOND_TO_NANOSECS in *. nia. }
  destruct (quot_rem_normal total Htotal) as [Hrem Hsum].
  set (eot := {| tv_sec := Z.quot total SECOND_TO_NANOSECS;
                 tv_nsec := Z.rem total SECOND_TO_NANOSECS |}).
  assert (Hsmall : 0 <= len <= 42 ->
            tv_sec eot * SECOND_TO_NANOSECS + tv_nsec eot
            = tv_sec curr * SECOND_TO_NANOSECS + tv_nsec curr
              + len * TENTH_SEC_TO_NANOSECS).
  { intros Hlen. simpl. rewrite Hsum. unfold total, tlen.
    rewrite tick_len_nsecs_small by exact Hlen. reflexivity. }
  assert (Hlater : 0 < len < 2 ^ 24 -> timespec_gt eot curr = true).
  { intros Hpos. apply tick_len_nsecs_positive in Hpos. fold tlen in Hpos.
    unfold timespec_gt, eot. simpl.
    unfold SECOND_TO_NANOSECS in *. fold total.
    destruct (Z.eqb_spec (Z.quot total 1000000000) (tv_sec curr))
      as [Heq|Hne].
    - apply Z.ltb_lt. unfold total in *. nia.
    - apply Z.ltb_lt. unfold total in *. nia. }
  unfold H5F__vfd_swmr_update_end_of_tick_and_tick_num.
  unfold bind at 1, wcall at 1. rewrite Hclock.
  rewrite (bind_run _ _ _ _ _ (shared_of_run f (with_wlog _ w) s Hf)).
  fold len. fold tlen. fold total. fold eot.
  destruct incr_tick_num.
  - eexists _, eot.
    split.
    { unfold bind, on_file, set_shared, wcall, check, modify, ret, get, put.
      cbn [files wlog with_wlog with_files with_end_of_tick_g sh log].
      rewrite Hf. cbn [files wlog with_wlog with_files sh log].
      rewrite Hpb. cbn [files wlog with_wlog with_files sh log
                        with_end_of_tick_g].
      rewrite lookup_insert_eq. reflexivity. }
    cbn [files wlog with_wlog with_files sh log with_end_of_tick_g
         end_of_tick_g].
    rewrite lookup_insert_eq.
    repeat split; try assumption; try reflexivity; try apply Hrem.
  - eexists _, eot.
    split.
    { unfold bind, on_file, set_shared, modify, ret, get, put.
      cbn [files wlog with_wlog with_files with_end_of_tick_g sh log].
      rewrite Hf. reflexivity. }
    cbn [files wlog with_wlog with_files sh log with_end_of_tick_g
         end_of_tick_g].
    rewrite lookup_insert_eq.
    repeat split; try assumption; try reflexivity; try apply Hrem.
Qed.

(** A writer whose tick is five seconds ([tick_len] 50), at clock reading
    0: its tick ends after 0.705032704 seconds. *)
Lemma end_of_tick_is_clock_plus_tick_len_witness :
  exists w' eot,
    H5F__vfd_swmr_update_end_of_tick_and_tick_num E_ok 0%nat true
      (process_of [writer_of_tick_len 50])
    = (w', Ok tt)
    /\ end_of_tick_g w' = eot
    /\ tv_sec eot * SECOND_TO_NANOSECS + tv_nsec eot = 705032704
    /\ timespec_gt eot {| tv_sec := 0; tv_nsec := 0 |} = true.
Proof.
  destruct (end_of_tick_is_clock_plus_tick_len E_ok 0%nat true
              (process_of [writer_of_tick_len 50])
              (writer_of_tick_len 50)
              {| tv_sec := 0; tv_nsec := 0 |})
    as (w' & eot & Hrun & _ & Hg & _ & Hsum & _ & Hlater).
  - reflexivity.
  - reflexivity.
  - simpl. lia.
  - simpl. unfold SECOND_TO_NANOSECS. lia.
  - reflexivity.
  - exists w', eot. split; [exact Hrun|]. split; [exact Hg|].
    split; [exact Hsum|]. apply Hlater. simpl. lia.
Defined.

(** The same routine read backwards from a success. *)
Lemma update_end_of_tick_ok (E : collaborators) (f : nat) (incr : bool)
    (w w' : world) (s : H5F_shared_t) :
  files w !! f = Some s ->
  H5F__vfd_swmr_update_end_of_tick_and_tick_num E f incr w = (w', Ok tt) ->
  exists curr eot,
    files w'
    = <[f := with_end_of_tick eot
               (if incr then with_tick_num (u64 (tick_num s + 1)) s else s)]>
        (files w)
    /\ wlog w' = wlog w ++ EvClock (Some curr)
                   :: (if incr
                       then [EvPBSetTick (u64 (tick_num s + 1)) true]
                       else [])
    /\ end_of_tick_g w' = eot
    /\ eot_heap w' = eot_heap w
    /\ eot_brk w' = eot_brk w
    /\ vfd_swmr_eot_queue_head_g w' = vfd_swmr_eot_queue_head_g w
    /\ vfd_swmr_eot_queue_tail_g w' = vfd_swmr_eot_queue_tail_g w
    /\ vfd_swmr_writer_g w' = vfd_swmr_writer_g w.
Proof.
  intros Hf H. unfold H5F__vfd_swmr_update_end_of_tick_and_tick_num in H.
  unfold bind at 1, wcall at 1 in H.
  destruct (HDclock_gettime E (wlog w)) as [curr|] eqn:Hclock;
    [|discriminate].
  rewrite (bind_run _ _ _ _ _ (shared_of_run f (with_wlog _ w) s Hf)) in H.
  exists curr. eexists.
  destruct incr.
  - unfold bind, on_file, set_shared, wcall, check, modify, ret, get, put,
      throw in H.
    cbn [files wlog with_wlog with_files with_end_of_tick_g sh log] in H.
    rewrite Hf in H. cbn [files wlog with_wlog with_files sh log] in H.
    destruct (H5PB_vfd_swmr__set_tick E _ _); [|discriminate].
    cbn [files wlog with_wlog with_files sh log with_end_of_tick_g] in H.
    rewrite lookup_insert_eq in H. inversion H; subst w'. clear H.
    cbn. rewrite insert_insert_eq, <- app_assoc.
    repeat split; reflexivity.
  - unfold bind, on_file, set_shared, modify, ret, get, put in H.
    cbn [files wlog with_wlog with_files with_end_of_tick_g sh log] in H.
    rewrite Hf in H. inversion H; subst w'. clear H.
    cbn. repeat split; reflexivity.
Qed.

(** ** Closing the writer *)

Lemma idx_frame_length E (s : H5F_shared_t) :
  (Z.of_nat (length (md_idx_image E s 0 [])) =? H5FD_MD_INDEX_SIZE 0) = true.
Proof. reflexivity. Qed.

Lemma hdr_frame_length E (s : H5F_shared_t) n :
  (Z.of_nat (length (md_hdr_image E s n)) =? H5FD_MD_HEADER_SIZE) = true.
Proof. reflexivity. Qed.

Lemma idx_empty_course E (st : fstate) :
  0 <= vfd_swmr_md_fd (sh st) ->
  exists (k : nat) (r : outcome unit),
    (k <= 3)%nat
    /\ H5F__vfd_swmr_construct_write_md_idx E 0 None st
       = ({| sh := sh st;
             log := log st
                    ++ stopped_at (idx_frame_events E (vfd_swmr_md_fd (sh st))
                                     (sh st) 0 []) k |}, r)
    /\ (k = 3%nat -> r = Ok tt)
    /\ ((k < 3)%nat -> exists msg, r = Error msg).
Proof.
  intros Hfd. apply Z.leb_le in Hfd.
  unfold H5F__vfd_swmr_construct_write_md_idx.
  unfold bind, get_shared, HDassert, call, check, deref, ret, throw.
  cbn -[md_idx_image H5FD_MD_INDEX_SIZE idx_frame_events].
  rewrite ?bool_decide_eq_true_2 by reflexivity.
  cbn -[md_idx_image H5FD_MD_INDEX_SIZE idx_frame_events].
  destruct (HDmalloc E (log st) (H5FD_MD_INDEX_SIZE 0)) eqn:H0;
    cbn -[md_idx_image H5FD_MD_INDEX_SIZE idx_frame_events].
  2:{ exists 0%nat. eexists. split; [lia|]. split; [reflexivity|].
      split; [discriminate | eauto]. }
  change (encode_idx_entries (Z.to_nat 0) []) with (Some ([] : list Z)).
  cbn -[md_idx_image H5FD_MD_INDEX_SIZE idx_frame_events].
  rewrite idx_frame_length, Hfd.
  cbn -[md_idx_image H5FD_MD_INDEX_SIZE idx_frame_events].
  match goal with
  | |- context [HDlseek E ?l ?a ?b] => destruct (HDlseek E l a b) eqn:H1
  end; cbn -[md_idx_image H5FD_MD_INDEX_SIZE idx_frame_events].
  2:{ exists 1%nat. eexists. split; [lia|].
      split; [rewrite <- app_assoc; reflexivity|].
      split; [discriminate | eauto]. }
  match goal with
  | |- context [HDwrite E ?l ?a ?b ?c] => destruct (HDwrite E l a b c) eqn:H2
  end; cbn -[md_idx_image H5FD_MD_INDEX_SIZE idx_frame_events].
  2:{ exists 2%nat. eexists. split; [lia|].
      split; [rewrite <- !app_assoc; reflexivity|].
      split; [discriminate | eauto]. }
  exists 3%nat. eexists. split; [lia|].
  split; [rewrite <- !app_assoc; reflexivity|].
  split; [reflexivity | lia].
Qed.

Lemma hdr_course E n (st : fstate) :
  exists (k : nat) (r : outcome unit),
    (k <= 2)%nat
    /\ H5F__vfd_swmr_construct_write_md_hdr E n st
       = ({| sh := sh st;
             log := log st
                    ++ stopped_at (hdr_frame_events E (vfd_swmr_md_fd (sh st))
                                     (sh st) n) k |}, r)
    /\ (k = 2%nat -> r = Ok tt)
    /\ ((k < 2)%nat -> exists msg, r = Error msg).
Proof.
  unfold H5F__vfd_swmr_construct_write_md_hdr.
  unfold bind, get_shared, HDassert, call, check, ret, throw.
  rewrite hdr_frame_length.
  cbn -[md_hdr_image hdr_frame_events].
  match goal with
  | |- context [HDlseek E ?l ?a ?b] => destruct (HDlseek E l a b) eqn:H1
  end; cbn -[md_hdr_image hdr_frame_events].
  2:{ exists 0%nat. eexists. split; [lia|]. split; [reflexivity|].
      split; [discriminate | eauto]. }
  match goal with
  | |- context [HDwrite E ?l ?a ?b ?c] => destruct (HDwrite E l a b c) eqn:H2
  end; cbn -[md_hdr_image hdr_frame_events].
  2:{ exists 1%nat. eexists. split; [lia|].
      split; [rewrite <- !app_assoc; reflexivity|].
      split; [discriminate | eauto]. }
  exists 2%nat. eexists. split; [lia|].
  split; [rewrite <- !app_assoc; reflexivity|].
  split; [reflexivity | lia].
Qed.

(** C8.  The close of a writer makes its calls in one order -- the index
    frame, the header frame, the close of the descriptor, the unlink of
    the shadow file, the close of its free-space manager -- and the first
    call that is refused ends the routine with the failure of that step:
    the calls made are the [k] calls that succeeded and the one refused,
    for some [k].  The tick is incremented between the header and the
    close of the descriptor, the descriptor is forgotten when it has been
    closed, and the delayed list is dropped last.  So the unlink is
    attempted exactly when the five calls before it, the close of the
    descriptor included, have succeeded, and a close that succeeds has
    unlinked the shadow file. *)
Theorem C8_close_stops_at_first_failure (E : collaborators) (f : nat)
    (w : world) (s : H5F_shared_t) :
  files w !! f = Some s ->
  vfd_swmr_writer s = true ->
  0 <= vfd_swmr_md_fd s ->
  let w' := fst (H5F_vfd_swmr_close_or_flush E f true w) in
  let r := snd (H5F_vfd_swmr_close_or_flush E f true w) in
  exists k : nat,
    (k <= 8)%nat
    /\ wlog w' = wlog w ++ close_log E s k
    /\ r = close_outcome k
    /\ files w' = <[f := close_progress s k]> (files w)
    /\ ((exists ok, In (EvUnlink ok) (close_log E s k)) <-> (6 <= k)%nat)
    /\ (r = Ok tt <-> k = 8%nat).
Proof.
  intros Hf Hwr Hfd.
  assert (Hunlink : forall k : nat, (k <= 8)%nat ->
            ((exists ok, In (EvUnlink ok) (close_log E s k))
             <-> (6 <= k)%nat)).
  { intros k Hk.
    assert (Hcases : (k = 0 \/ k = 1 \/ k = 2 \/ k = 3 \/ k = 4 \/ k = 5
                      \/ k = 6 \/ k = 7 \/ k = 8)%nat) by lia.
    split.
    - intros [ok Hin].
      destruct Hcases as [->|[->|[->|[->|[->|[->|[->|[->| ->]]]]]]]];
        try lia; exfalso; simpl in Hin;
        repeat (destruct Hin as [Hin|Hin]; [discriminate|]); exact Hin.
    - intros H6. assert (Hc : (k = 6 \/ k = 7 \/ k = 8)%nat) by lia.
      destruct Hc as [->|[->| ->]];
        [exists false | exists true | exists true]; simpl; tauto. }
  assert (Hok : forall k : nat, (k <= 8)%nat ->
            (close_outcome k = Ok tt <-> k = 8%nat)).
  { intros k Hk.
    assert (Hcases : (k = 0 \/ k = 1 \/ k = 2 \/ k = 3 \/ k = 4 \/ k = 5
                      \/ k = 6 \/ k = 7 \/ k = 8)%nat) by lia.
    destruct Hcases as [->|[->|[->|[->|[->|[->|[->|[->| ->]]]]]]]];
      (split; [discriminate || reflexivity | lia || reflexivity]). }
  assert (Hfinish : forall (k : nat) w1 r1,
            (k <= 8)%nat ->
            wlog w1 = wlog w ++ close_log E s k ->
            r1 = close_outcome k ->
            files w1 = <[f := close_progress s k]> (files w) ->
            exists k : nat,
              (k <= 8)%nat
              /\ wlog w1 = wlog w ++ close_log E s k
              /\ r1 = close_outcome k
              /\ files w1 = <[f := close_progress s k]> (files w)
              /\ ((exists ok, In (EvUnlink ok) (close_log E s k))
                  <-> (6 <= k)%nat)
              /\ (r1 = Ok tt <-> k = 8%nat)).
  { intros k w1 r1 Hk Hl Hr Hfl. exists k. rewrite Hr at 2.
    repeat split; auto; try apply Hunlink; try apply Hok; auto. }
  intros w' r.
  destruct (H5F_vfd_swmr_close_or_flush E f true w) as [w1 r1] eqn:Hrun.
  subst w' r. cbn [fst snd].
  unfold H5F_vfd_swmr_close_or_flush in Hrun.
  rewrite (bind_run _ _ _ _ _ (shared_of_run f w s Hf)) in Hrun.
  rewrite Hwr in Hrun. unfold bind at 1, HDassert at 1 in Hrun.
  rewrite (proj2 (Z.leb_le _ _) Hfd) in Hrun.
  unfold bind at 1, HDassert at 1 in Hrun.
  (* the index frame *)
  destruct (idx_empty_course E {| sh := s; log := wlog w |} Hfd)
    as (k1 & r1' & Hk1 & Hrun1 & Hok1 & Herr1).
  cbn [sh log] in Hrun1.
  unfold bind at 1 in Hrun.
  rewrite (or_error_on_file_run f _ _ w s _ _ Hf Hrun1) in Hrun.
  cbn [sh log] in Hrun.
  destruct (Nat.eq_dec k1 3%nat) as [->|Hne1].
  2:{ destruct (Herr1 ltac:(lia)) as [msg ->].
      injection Hrun as <- <-.
      assert (Hc : (k1 = 0 \/ k1 = 1 \/ k1 = 2)%nat) by lia.
      apply (Hfinish k1); [lia| | |];
        destruct Hc as [->|[->| ->]]; reflexivity. }
  rewrite (Hok1 eq_refl) in Hrun. clear Hrun1 Hok1 Herr1 Hk1.
  (* the header frame *)
  match type of Hrun with
  | _ ?w2 = _ => set (wa := w2) in *
  end.
  assert (Hfa : files wa !! f = Some s) by apply lookup_insert_eq.
  destruct (hdr_course E 0 {| sh := s; log := wlog wa |})
    as (k2 & r2 & Hk2 & Hrun2 & Hok2 & Herr2).
  cbn [sh log] in Hrun2.
  unfold bind at 1 in Hrun.
  rewrite (or_error_on_file_run f _ _ wa s _ _ Hfa Hrun2) in Hrun.
  cbn [sh log] in Hrun.
  destruct (Nat.eq_dec k2 2%nat) as [->|Hne2].
  2:{ destruct (Herr2 ltac:(lia)) as [msg ->].
      injection Hrun as <- <-.
      assert (Hc : (k2 = 0 \/ k2 = 1)%nat) by lia.
      destruct Hc as [->| ->].
      - apply (Hfinish 3%nat); [lia| | |].
        + unfold wa. cbn [wlog with_wlog with_files].
          rewrite <- app_assoc. reflexivity.
        + reflexivity.
        + unfold wa. cbn [files with_wlog with_files].
          rewrite insert_insert_eq. reflexivity.
      - apply (Hfinish 4%nat); [lia| | |].
        + unfold wa. cbn [wlog with_wlog with_files].
          rewrite <- app_assoc. reflexivity.
        + reflexivity.
        + unfold wa. cbn [files with_wlog with_files].
          rewrite insert_insert_eq. reflexivity. }
  rewrite (Hok2 eq_refl) in Hrun. clear Hrun2 Hok2 Herr2 Hk2.
  (* the tick, then the three calls of the close *)
  unfold bind, on_file, set_shared, wcall, check, ret, throw in Hrun.
  unfold wa in Hrun.
  cbn [files wlog with_files with_wlog sh log] in Hrun.
  rewrite !lookup_insert_eq in Hrun.
  cbn [files wlog with_files with_wlog sh log] in Hrun.
  match type of Hrun with
  | context [HDclose E ?l ?fd] => destruct (HDclose E l fd) eqn:Hc
  end; cbn [files wlog with_files with_wlog sh log] in Hrun.
  2:{ injection Hrun as <- <-. apply (Hfinish 5%nat); [lia| | |].
      - cbn [wlog with_wlog with_files]. rewrite <- !app_assoc. reflexivity.
      - reflexivity.
      - cbn [files with_wlog with_files]. rewrite !insert_insert_eq.
        reflexivity. }
  rewrite !lookup_insert_eq in Hrun.
  cbn [files wlog with_files with_wlog sh log] in Hrun.
  match type of Hrun with
  | context [HDunlink E ?l] => destruct (HDunlink E l) eqn:Hu
  end; cbn [files wlog with_files with_wlog sh log] in Hrun.
  2:{ injection Hrun as <- <-. apply (Hfinish 6%nat); [lia| | |].
      - cbn [wlog with_wlog with_files]. rewrite <- !app_assoc. reflexivity.
      - reflexivity.
      - cbn [files with_wlog with_files]. rewrite !insert_insert_eq.
        reflexivity. }
  match type of Hrun with
  | context [H5MV_close E ?l] => destruct (H5MV_close E l) eqn:Hm
  end; cbn [files wlog with_files with_wlog sh log] in Hrun.
  2:{ injection Hrun as <- <-. apply (Hfinish 7%nat); [lia| | |].
      - cbn [wlog with_wlog with_files]. rewrite <- !app_assoc. reflexivity.
      - reflexivity.
      - cbn [files with_wlog with_files]. rewrite !insert_insert_eq.
        reflexivity. }
  rewrite !lookup_insert_eq in Hrun.
  cbn [files wlog with_files with_wlog sh log] in Hrun.
  injection Hrun as <- <-. apply (Hfinish 8%nat); [lia| | |].
  - cbn [wlog with_wlog with_files]. rewrite <- !app_assoc. reflexivity.
  - reflexivity.
  - cbn [files with_wlog with_files]. rewrite !insert_insert_eq.
    reflexivity.
Qed.

(** A writer closes while the descriptor cannot be closed: the routine
    fails on the close and the shadow file is never unlinked. *)
Lemma C8_close_failure_skips_unlink :
  let w := process_of [sample_writer 5 None 0 []] in
  let r := H5F_vfd_swmr_close_or_flush E_close_fails 0%nat true w in
  HDclose E_close_fails (wlog w) 3 = false
  /\ snd r = Error "unable to close the metadata file"
  /\ In (EvClose 3 false) (wlog (fst r))
  /\ forall ok, ~ In (EvUnlink ok) (wlog (fst r)).
Proof.
  vm_compute. split; [reflexivity|]. split; [reflexivity|].
  split; [tauto|].
  intros ok H. repeat (destruct H as [H|H]; [discriminate|]). exact H.
Qed.


(** The same close when every call succeeds. *)
Lemma C8_close_stops_at_first_failure_witness :
  let w := process_of [sample_writer 5 None 0 []] in
  let s := sample_writer 5 None 0 [] in
  let w' := fst (H5F_vfd_swmr_close_or_flush E_ok 0%nat true w) in
  let r := snd (H5F_vfd_swmr_close_or_flush E_ok 0%nat true w) in
  exists k : nat,
    (k <= 8)%nat
    /\ wlog w' = wlog w ++ close_log E_ok s k
    /\ r = close_outcome k
    /\ files w' = <[0%nat := close_progress s k]> (files w)
    /\ ((exists ok, In (EvUnlink ok) (close_log E_ok s k)) <-> (6 <= k)%nat)
    /\ (r = Ok tt <-> k = 8%nat).
Proof.
  intros w s.
  apply (C8_close_stops_at_first_failure E_ok 0%nat w s).
  - reflexivity.
  - reflexivity.
  - simpl. lia.
Defined.

(** ** Flushing the writer: [H5F_vfd_swmr_close_or_flush] with [closing]
    false *)

Lemma construct_write_md_idx_keeps E n index (st : fstate) :
  sh (fst (H5F__vfd_swmr_construct_write_md_idx E n index st)) = sh st.
Proof.
  unfold H5F__vfd_swmr_construct_write_md_idx, bind, get_shared, HDassert,
    call, check, deref, ret, throw, fault.
  repeat (match goal with
          | |- context [if ?b then _ else _] => destruct b
          | |- context [match ?o with Some _ => _ | None => _ end] =>
              destruct o
          end; simpl; try reflexivity).
Qed.

Lemma construct_write_md_hdr_keeps E n (st : fstate) :
  sh (fst (H5F__vfd_swmr_construct_write_md_hdr E n st)) = sh st.
Proof.
  unfold H5F__vfd_swmr_construct_write_md_hdr, bind, get_shared, HDassert,
    call, check, ret, throw.
  repeat (match goal with
          | |- context [if ?b then _ else _] => destruct b
          end; simpl; try reflexivity).
Qed.

Lemma wemits_modify (P : event -> Prop) (f : nat) (g : world -> world) :
  (forall w, wlog (g w) = wlog w) -> (forall w, files (g w) = files w) ->
  wemits P f (modify g).
Proof.
  intros Hl Hf w w' r H Hpres. inversion H; subst.
  split.
  - exists []. rewrite app_nil_r, Hl. split; [reflexivity | constructor].
  - rewrite Hf. exact Hpres.
Qed.

Lemma update_end_of_tick_wemits (P : event -> Prop) E f incr :
  (forall r, P (EvClock r)) -> (forall t ok, P (EvPBSetTick t ok)) ->
  wemits P f (H5F__vfd_swmr_update_end_of_tick_and_tick_num E f incr).
Proof.
  intros Hclock Htick.
  unfold H5F__vfd_swmr_update_end_of_tick_and_tick_num.
  apply wemits_bind; [apply wemits_wcall; exact Hclock|]. intros [curr|].
  2:{ apply wemits_pure. reflexivity. }
  apply wemits_bind; [apply wemits_pure, shared_of_pure|]. intros s.
  apply wemits_bind.
  { destruct incr; [|apply wemits_pure; reflexivity].
    apply wemits_bind; [apply wemits_on_file, emits_set_shared|]. intros _.
    apply wemits_bind; [apply wemits_wcall; intros; apply Htick|]. intros ok.
    apply wemits_pure, check_pure. }
  intros _.
  apply wemits_bind; [apply wemits_modify; reflexivity|]. intros _.
  apply wemits_on_file, emits_set_shared.
Qed.

Lemma update_end_of_tick_keeps_shadow_file E f incr :
  keeps_of_file f shadow_file_state
    (H5F__vfd_swmr_update_end_of_tick_and_tick_num E f incr).
Proof.
  unfold H5F__vfd_swmr_update_end_of_tick_and_tick_num.
  apply keeps_of_file_bind;
    [apply keeps_of_file_fixed, files_fixed_wcall|]. intros [curr|];
    [|apply keeps_of_file_fixed; intros w; reflexivity].
  apply keeps_of_file_bind;
    [apply keeps_of_file_fixed, files_fixed_shared_of|]. intros s.
  apply keeps_of_file_bind.
  { destruct incr; [|apply keeps_of_file_fixed, files_fixed_ret].
    apply keeps_of_file_bind;
      [apply keeps_of_file_on_file; intros st; reflexivity|]. intros _.
    apply keeps_of_file_bind;
      [apply keeps_of_file_fixed, files_fixed_wcall|]. intros ok.
    apply keeps_of_file_fixed, files_fixed_check. }
  intros _.
  apply keeps_of_file_bind;
    [apply keeps_of_file_fixed, files_fixed_modify; intros; reflexivity|].
  intros _. apply keeps_of_file_on_file. intros st. reflexivity.
Qed.

(** Whatever its outcome, a flush makes no call that closes the descriptor
    of the shadow file, unlinks the file or closes its free-space manager,
    and it leaves the descriptor, the delayed list and the index of the
    file as they were. *)
Theorem flush_keeps_shadow_file (E : collaborators) (f : nat)
    (w w' : world) (r : outcome unit) (s : H5F_shared_t) :
  files w !! f = Some s ->
  H5F_vfd_swmr_close_or_flush E f false w = (w', r) ->
  (exists evs, wlog w' = wlog w ++ evs
               /\ Forall (fun ev => ends_shadow_file ev = false) evs)
  /\ exists s', files w' !! f = Some s'
                /\ vfd_swmr_md_fd s' = vfd_swmr_md_fd s
                /\ dl s' = dl s
                /\ mdf_idx s' = mdf_idx s
                /\ mdf_idx_entries_used s' = mdf_idx_entries_used s.
Proof.
  intros Hs H.
  set (P := fun ev => ends_shadow_file ev = false).
  assert (Hemits : wemits P f (H5F_vfd_swmr_close_or_flush E f false)).
  { unfold H5F_vfd_swmr_close_or_flush.
    apply wemits_bind; [apply wemits_pure, shared_of_pure|]. intros s0.
    apply wemits_bind; [apply wemits_pure, HDassert_pure|]. intros _.
    apply wemits_bind; [apply wemits_pure, HDassert_pure|]. intros _.
    apply wemits_bind.
    { apply wemits_or_error, wemits_on_file.
      unfold H5F__vfd_swmr_construct_write_md_idx. emits_steps; reflexivity. }
    intros _. apply wemits_bind.
    { apply wemits_or_error, wemits_on_file.
      unfold H5F__vfd_swmr_construct_write_md_hdr. emits_steps; reflexivity. }
    intros _.
    apply wemits_bind; [apply wemits_on_file, emits_set_shared|]. intros _.
    apply wemits_or_error, update_end_of_tick_wemits; reflexivity. }
  assert (Hkeeps : keeps_of_file f shadow_file_state
                     (H5F_vfd_swmr_close_or_flush E f false)).
  { unfold H5F_vfd_swmr_close_or_flush.
    apply keeps_of_file_bind;
      [apply keeps_of_file_fixed, files_fixed_shared_of|]. intros s0.
    apply keeps_of_file_bind;
      [apply keeps_of_file_fixed, files_fixed_HDassert|]. intros _.
    apply keeps_of_file_bind;
      [apply keeps_of_file_fixed, files_fixed_HDassert|]. intros _.
    apply keeps_of_file_bind.
    { apply keeps_of_file_or_error, keeps_of_file_on_file. intros st.
      rewrite construct_write_md_idx_keeps. reflexivity. }
    intros _. apply keeps_of_file_bind.
    { apply keeps_of_file_or_error, keeps_of_file_on_file. intros st.
      rewrite construct_write_md_hdr_keeps. reflexivity. }
    intros _.
    apply keeps_of_file_bind;
      [apply keeps_of_file_on_file; intros st; reflexivity|]. intros _.
    apply keeps_of_file_or_error, update_end_of_tick_keeps_shadow_file. }
  destruct (Hemits w w' r H (ex_intro _ s Hs)) as [Hlog _].
  split; [exact Hlog|].
  destruct (Hkeeps w s Hs) as (s' & Hs' & Hproj). rewrite H in Hs'.
  exists s'. unfold shadow_file_state in Hproj. inversion Hproj.
  repeat split; assumption.
Qed.

(** A flush of the sample writer. *)
Lemma flush_keeps_shadow_file_witness :
  let w := process_of [sample_writer 5 None 0 []] in
  let w' := fst (H5F_vfd_swmr_close_or_flush E_ok 0%nat false w) in
  exists s', files w' !! 0%nat = Some s' /\ vfd_swmr_md_fd s' = 3.
Proof.
  intros w w'.
  destruct (flush_keeps_shadow_file E_ok 0%nat w w'
              (snd (H5F_vfd_swmr_close_or_flush E_ok 0%nat false w))
              (sample_writer 5 None 0 []) eq_refl
              (surjective_pairing _))
    as [_ (s' & Hs' & Hfd & _)].
  exists s'. split; [exact Hs' | exact Hfd].
Defined.

Lemma on_file_ok {A} (f : nat) (m : M fstate A) (w w' : world) (a : A) :
  on_file f m w = (w', Ok a) ->
  exists s st',
    files w !! f = Some s
    /\ m {| sh := s; log := wlog w |} = (st', Ok a)
    /\ w' = with_files (<[f := sh st']> (files w)) (with_wlog (log st') w).
Proof.
  intros H. apply on_file_inv in H.
  destruct H as [(_ & _ & Hr) | H]; [discriminate | exact H].
Qed.

(** A flush that succeeds has written the empty index and then a header
    that carries the tick the call started with; it leaves the writer two
    ticks further, having told the page buffer so: the tick is incremented
    once by the flush itself and once more when the end of the tick is
    set. *)
Theorem flush_advances_tick_twice (E : collaborators) (f : nat)
    (w w' : world) (s : H5F_shared_t) :
  files w !! f = Some s ->
  H5F_vfd_swmr_close_or_flush E f false w = (w', Ok tt) ->
  let fd := vfd_swmr_md_fd s in
  let tick' := u64 (u64 (tick_num s + 1) + 1) in
  exists s' curr,
    files w' !! f = Some s'
    /\ tick_num s' = tick'
    /\ wlog w' = wlog w ++ idx_frame_events E fd s 0 []
                   ++ hdr_frame_events E fd s 0
                   ++ [EvClock (Some curr); EvPBSetTick tick' true].
Proof.
  intros Hs H fd tick'. unfold H5F_vfd_swmr_close_or_flush in H.
  apply bind_ok in H. destruct H as (w0 & s0 & Hs0 & H).
  apply shared_of_ok in Hs0. destruct Hs0 as [-> Hs0].
  rewrite Hs in Hs0. inversion Hs0; subst s0. clear Hs0.
  inv_bind H u1 Ha1. inv_bind H u2 Ha2.
  apply bind_ok in H. destruct H as (w1 & u3 & Hidx & H).
  apply or_error_ok, on_file_ok in Hidx.
  destruct Hidx as (s1 & st1 & Hs1 & Hidx & ->).
  rewrite Hs in Hs1. inversion Hs1; subst s1. clear Hs1.
  apply construct_write_md_idx_ok in Hidx.
  destruct Hidx as (_ & Hsh1 & Hlog1). simpl in Hsh1, Hlog1.
  apply bind_ok in H. destruct H as (w2 & u4 & Hhdr & H).
  apply or_error_ok, on_file_ok in Hhdr.
  destruct Hhdr as (s2 & st2 & Hs2 & Hhdr & ->).
  simpl in Hs2. rewrite lookup_insert_eq in Hs2. inversion Hs2; subst s2.
  clear Hs2.
  apply construct_write_md_hdr_ok in Hhdr.
  destruct Hhdr as (Hsh2 & Hlog2). simpl in Hsh2, Hlog2.
  apply bind_ok in H. destruct H as (w3 & u5 & Hinc & H).
  apply on_file_ok in Hinc. destruct Hinc as (s3 & st3 & Hs3 & Hinc & ->).
  simpl in Hs3. rewrite lookup_insert_eq in Hs3. inversion Hs3; subst s3.
  clear Hs3.
  apply set_shared_ok in Hinc. subst st3. simpl in H.
  apply or_error_ok in H.
  eapply update_end_of_tick_ok in H;
    [|cbn [files with_files]; apply lookup_insert_eq].
  destruct H as (curr & eot & Hfiles & Hlog & _).
  eexists. exists curr. rewrite Hfiles, lookup_insert_eq.
  split; [reflexivity|].
  cbn [tick_num with_end_of_tick with_tick_num].
  rewrite Hsh2, Hsh1. split; [reflexivity|].
  rewrite Hlog. cbn [wlog with_wlog with_files].
  rewrite Hlog2, Hlog1, Hsh1, Hsh2, Hsh1.
  cbn [tick_num with_tick_num]. rewrite <- !app_assoc. reflexivity.
Qed.

(** The sample writer at tick 5 is at tick 7 after a flush. *)
Lemma flush_advances_tick_twice_witness :
  let w := process_of [sample_writer 5 None 0 []] in
  exists w' s',
    H5F_vfd_swmr_close_or_flush E_ok 0%nat false w = (w', Ok tt)
    /\ files w' !! 0%nat = Some s' /\ tick_num s' = 7.
Proof.
  intros w.
  assert (Hrun : H5F_vfd_swmr_close_or_flush E_ok 0%nat false w
                 = (fst (H5F_vfd_swmr_close_or_flush E_ok 0%nat false w),
                    Ok tt))
    by (vm_compute; reflexivity).
  destruct (flush_advances_tick_twice E_ok 0%nat w _
              (sample_writer 5 None 0 []) eq_refl Hrun)
    as (s' & curr & Hs' & Htick & _).
  eexists. exists s'. split; [exact Hrun|]. split; [exact Hs' | exact Htick].
Defined.

(** ** Closing the writer: what a successful close leaves *)

(** A close that succeeds has written the empty index and a header with
    the tick the call started with, then closed the descriptor, unlinked
    the shadow file and closed its free-space manager, in this order and
    with no other call.  The file is left one tick further, with
    descriptor -1 and an empty delayed list; the count [dl_len] of the
    delayed list is not reset. *)
Theorem close_leaves_no_shadow_file (E : collaborators) (f : nat)
    (w w' : world) (s : H5F_shared_t) :
  files w !! f = Some s ->
  H5F_vfd_swmr_close_or_flush E f true w = (w', Ok tt) ->
  let fd := vfd_swmr_md_fd s in
  exists s',
    files w' !! f = Some s'
    /\ vfd_swmr_md_fd s' = -1
    /\ dl s' = []
    /\ dl_len s' = dl_len s
    /\ tick_num s' = u64 (tick_num s + 1)
    /\ wlog w' = wlog w ++ idx_frame_events E fd s 0 []
                   ++ hdr_frame_events E fd s 0
                   ++ [EvClose fd true; EvUnlink true; EvMVClose true].
Proof.
  intros Hs H fd. unfold H5F_vfd_swmr_close_or_flush in H.
  apply bind_ok in H. destruct H as (w0 & s0 & Hs0 & H).
  apply shared_of_ok in Hs0. destruct Hs0 as [-> Hs0].
  rewrite Hs in Hs0. inversion Hs0; subst s0. clear Hs0.
  inv_bind H u1 Ha1. inv_bind H u2 Ha2.
  apply bind_ok in H. destruct H as (w1 & u3 & Hidx & H).
  apply or_error_ok, on_file_ok in Hidx.
  destruct Hidx as (s1 & st1 & Hs1 & Hidx & ->).
  rewrite Hs in Hs1. inversion Hs1; subst s1. clear Hs1.
  apply construct_write_md_idx_ok in Hidx.
  destruct Hidx as (_ & Hsh1 & Hlog1). simpl in Hsh1, Hlog1.
  apply bind_ok in H. destruct H as (w2 & u4 & Hhdr & H).
  apply or_error_ok, on_file_ok in Hhdr.
  destruct Hhdr as (s2 & st2 & Hs2 & Hhdr & ->).
  simpl in Hs2. rewrite lookup_insert_eq in Hs2. inversion Hs2; subst s2.
  clear Hs2.
  apply construct_write_md_hdr_ok in Hhdr.
  destruct Hhdr as (Hsh2 & Hlog2). simpl in Hsh2, Hlog2.
  apply bind_ok in H. destruct H as (w3 & u5 & Hinc & H).
  apply on_file_ok in Hinc. destruct Hinc as (s3 & st3 & Hs3 & Hinc & ->).
  simpl in Hs3. rewrite lookup_insert_eq in Hs3. inversion Hs3; subst s3.
  clear Hs3.
  apply set_shared_ok in Hinc. subst st3.
  unfold bind, wcall, check, ret, throw, on_file, set_shared in H.
  cbn [files wlog with_wlog with_files sh log] in H.
  destruct (HDclose E _ _); [|discriminate].
  cbn [files wlog with_wlog with_files sh log] in H.
  rewrite lookup_insert_eq in H.
  cbn [files wlog with_wlog with_files sh log] in H.
  destruct (HDunlink E _); [|discriminate].
  cbn [files wlog with_wlog with_files sh log] in H.
  destruct (H5MV_close E _); [|discriminate].
  cbn [files wlog with_wlog with_files sh log] in H.
  rewrite lookup_insert_eq in H. inversion H; subst w'. clear H.
  cbn [files wlog with_wlog with_files sh log].
  rewrite lookup_insert_eq. eexists. split; [reflexivity|].
  cbn. rewrite Hsh2, Hsh1, Hlog2, Hlog1, Hsh1.
  repeat split; try reflexivity.
  rewrite <- !app_assoc. reflexivity.
Qed.

(** The sample writer, with one extent on its delayed list, closes. *)
Lemma close_leaves_no_shadow_file_witness :
  let w := process_of [sample_writer 5 None 0 [sample_dl_entry 25 3]] in
  exists w' s',
    H5F_vfd_swmr_close_or_flush E_ok 0%nat true w = (w', Ok tt)
    /\ files w' !! 0%nat = Some s'
    /\ vfd_swmr_md_fd s' = -1 /\ dl s' = [] /\ dl_len s' = 1.
Proof.
  intros w.
  assert (Hrun : H5F_vfd_swmr_close_or_flush E_ok 0%nat true w
                 = (fst (H5F_vfd_swmr_close_or_flush E_ok 0%nat true w),
                    Ok tt))
    by (vm_compute; reflexivity).
  destruct (close_leaves_no_shadow_file E_ok 0%nat w _
              (sample_writer 5 None 0 [sample_dl_entry 25 3]) eq_refl Hrun)
    as (s' & Hs' & Hfd & Hdl & Hlen & _).
  eexists. exists s'. split; [exact Hrun|]. split; [exact Hs'|].
  split; [exact Hfd|]. split; [exact Hdl | exact Hlen].
Defined.

(** ** Chains of queue entries *)

Lemma last_or_cons {A} (d : option A) (x : A) (l : list A) :
  last_or d (x :: l) = last_or (Some x) l.
Proof.
  unfold last_or. destruct l as [|y l]; [reflexivity|].
  simpl. destruct (last (y :: l)) eqn:Hl; [reflexivity|].
  apply last_None in Hl. discriminate.
Qed.

Lemma last_or_snoc {A} (d : option A) (l : list A) (x : A) :
  last_or d (l ++ [x]) = Some x.
Proof. unfold last_or. rewrite last_snoc. reflexivity. Qed.

Lemma hd_or_app {A} (d : option A) (l1 l2 : list A) :
  hd_or d (l1 ++ l2) = hd_or (hd_or d l2) l1.
Proof. destruct l1; reflexivity. Qed.

Lemma eot_seg_frame heap heap' prev ptrs nxt :
  (forall p, p ∈ ptrs -> heap' !! p = heap !! p) ->
  eot_seg heap prev ptrs nxt -> eot_seg heap' prev ptrs nxt.
Proof.
  revert prev. induction ptrs as [|p rest IH]; intros prev Hsame H.
  - exact I.
  - simpl in *. destruct H as (e & He & Hp & Hn & Hrest).
    exists e. rewrite Hsame by apply list_elem_of_here.
    repeat split; try assumption.
    apply IH; [|exact Hrest].
    intros q Hq. apply Hsame. apply list_elem_of_further. exact Hq.
Qed.

Lemma eot_seg_app heap prev l1 l2 nxt :
  eot_seg heap prev (l1 ++ l2) nxt
  <-> eot_seg heap prev l1 (hd_or nxt l2)
      /\ eot_seg heap (last_or prev l1) l2 nxt.
Proof.
  revert prev. induction l1 as [|p l1 IH]; intros prev.
  - simpl. unfold last_or. simpl. tauto.
  - simpl. rewrite last_or_cons. split.
    + intros (e & He & Hp & Hn & Hrest). apply IH in Hrest.
      destruct Hrest as [H1 H2]. split; [|exact H2].
      exists e. rewrite hd_or_app in Hn. auto.
    + intros [(e & He & Hp & Hn & H1) H2].
      exists e. rewrite hd_or_app. repeat split; try assumption.
      apply IH. auto.
Qed.

Lemma eot_seg_relink_last heap prev l p nxt nxt' :
  p ∉ l ->
  eot_seg heap prev (l ++ [p]) nxt ->
  eot_seg (alter (set_eot_next nxt') p heap) prev (l ++ [p]) nxt'.
Proof.
  intros Hp H. apply eot_seg_app in H. destruct H as [H1 H2].
  apply eot_seg_app. split.
  - eapply eot_seg_frame; [|exact H1].
    intros q Hq. apply lookup_alter_ne. intros ->. contradiction.
  - simpl in *. destruct H2 as (e & He & Hprev & _ & _).
    exists (set_eot_next nxt' e). rewrite lookup_alter_eq, He.
    repeat split; assumption.
Qed.

Lemma eot_seg_relink_first heap prev prev' n l nxt :
  n ∉ l ->
  eot_seg heap prev (n :: l) nxt ->
  eot_seg (alter (set_eot_prev prev') n heap) prev' (n :: l) nxt.
Proof.
  intros Hn H. simpl in *. destruct H as (e & He & _ & Hnext & Hrest).
  exists (set_eot_prev prev' e). rewrite lookup_alter_eq, He.
  repeat split; try assumption.
  eapply eot_seg_frame; [|exact Hrest].
  intros q Hq. apply lookup_alter_ne. intros ->. contradiction.
Qed.

Lemma eot_seg_lookup heap prev ptrs nxt p :
  eot_seg heap prev ptrs nxt -> p ∈ ptrs -> is_Some (heap !! p).
Proof.
  revert prev. induction ptrs as [|q rest IH]; intros prev H Hp.
  - apply elem_of_nil in Hp. contradiction.
  - simpl in H. destruct H as (e & He & _ & _ & Hrest).
    apply elem_of_cons in Hp. destruct Hp as [->|Hp]; [eauto|].
    eapply IH; eauto.
Qed.

Lemma snoc_case {A} (l : list A) : l = [] \/ exists l' x, l = l' ++ [x].
Proof.
  induction l as [|x l _] using rev_ind; [left; reflexivity|].
  right. eauto.
Qed.

(** Taking [c] out of the chain. *)
Lemma eot_seg_unlink heap l1 c l2 ec :
  NoDup (l1 ++ c :: l2) ->
  eot_seg heap None (l1 ++ c :: l2) None ->
  heap !! c = Some ec ->
  let prev := last_or None l1 in
  let next := hd_or None l2 in
  eot_prev ec = prev /\ eot_next ec = next
  /\ eot_seg (delete c (<[c := set_eot_prev None (set_eot_next None ec)]>
                          (relink_prev next prev
                             (relink_next prev next heap))))
       None (l1 ++ l2) None.
Proof.
  intros Hnd H Hc prev next.
  apply NoDup_app in Hnd. destruct Hnd as (Hnd1 & Hdisj & Hnd2).
  apply NoDup_cons in Hnd2. destruct Hnd2 as [Hc2 Hnd2].
  assert (Hc1 : c ∉ l1).
  { intros Hin. apply (Hdisj c Hin). apply list_elem_of_here. }
  apply eot_seg_app in H. destruct H as [H1 H2].
  simpl in H1. simpl in H2. destruct H2 as (e & He & Hprev & Hnext & H2).
  rewrite Hc in He. inversion He; subst e. clear He.
  split; [exact Hprev|]. split; [exact Hnext|].
  apply eot_seg_app. split.
  - (* the entries before [c] *)
    destruct (snoc_case l1) as [->|(l1' & p & ->)]; [exact I|].
    assert (Hprev' : prev = Some p) by (unfold prev; apply last_or_snoc).
    apply NoDup_app in Hnd1. destruct Hnd1 as (_ & Hp1 & _).
    assert (Hpl : p ∉ l1').
    { intros Hin. apply (Hp1 p Hin). apply list_elem_of_here. }
    assert (Hpc : p <> c).
    { intros ->. apply Hc1. apply elem_of_app. right. apply list_elem_of_here. }
    assert (Hpl2 : p ∉ l2).
    { intros Hin. apply (Hdisj p).
      - apply elem_of_app. right. apply list_elem_of_here.
      - apply list_elem_of_further. exact Hin. }
    eapply eot_seg_frame;
      [|apply (eot_seg_relink_last heap None l1' p (Some c) next Hpl H1)].
    intros q Hq.
    assert (Hqc : q <> c) by (intros ->; contradiction).
    rewrite lookup_delete_ne, lookup_insert_ne by congruence.
    rewrite Hprev'. unfold relink_next, relink_prev.
    destruct next as [n|] eqn:Hn; [|reflexivity].
    apply lookup_alter_ne. intros ->.
    destruct l2 as [|n' l2']; [discriminate|]. inversion Hn; subst n'.
    apply (Hdisj q Hq). apply list_elem_of_further, list_elem_of_here.
  - (* the entries after [c] *)
    destruct l2 as [|n l2']; [exact I|].
    assert (Hnext' : next = Some n) by reflexivity.
    apply NoDup_cons in Hnd2. destruct Hnd2 as [Hnl Hnd2].
    assert (Hnc : n <> c).
    { intros ->. apply Hc2. apply list_elem_of_here. }
    eapply eot_seg_frame;
      [|apply (eot_seg_relink_first (relink_next prev next heap)
                 (Some c) prev n l2' None Hnl)].
    + intros q Hq.
      assert (Hqc : q <> c).
      { intros ->. contradiction. }
      rewrite lookup_delete_ne, lookup_insert_ne by congruence.
      rewrite Hnext'. reflexivity.
    + eapply eot_seg_frame; [|exact H2].
      intros q Hq. unfold relink_next.
      destruct prev as [p|] eqn:Hp; [|reflexivity].
      apply lookup_alter_ne. intros ->.
      destruct (snoc_case l1) as [->|(l1' & p' & ->)]; [discriminate|].
      unfold prev in Hp. rewrite last_or_snoc in Hp. inversion Hp; subst p'.
      apply (Hdisj q).
      * apply elem_of_app. right. apply list_elem_of_here.
      * apply list_elem_of_further. exact Hq.
Qed.

(** ** The list macros *)

Lemma insert_as_alter {A} (g : A -> A) (m : gmap nat A) (k : nat) (x : A) :
  m !! k = Some x -> <[k := g x]> m = alter g k m.
Proof.
  intros Hk. apply map_eq. intros i. destruct (decide (i = k)) as [->|Hne].
  - rewrite lookup_insert_eq, lookup_alter_eq, Hk. reflexivity.
  - rewrite lookup_insert_ne, lookup_alter_ne by congruence. reflexivity.
Qed.

Lemma load_next_run (w : world) (a : nat) e :
  eot_heap w !! a = Some e -> load_next (Some a) w = (w, Ok (eot_next e)).
Proof.
  intros H. unfold load_next, eot_load, bind, get, deref, ret. simpl.
  rewrite H. reflexivity.
Qed.

Lemma load_prev_run (w : world) (a : nat) e :
  eot_heap w !! a = Some e -> load_prev (Some a) w = (w, Ok (eot_prev e)).
Proof.
  intros H. unfold load_prev, eot_load, bind, get, deref, ret. simpl.
  rewrite H. reflexivity.
Qed.

Lemma store_next_run (w : world) (a : nat) (v : option nat) e :
  eot_heap w !! a = Some e ->
  store_next (Some a) v w
  = (with_eot_heap (alter (set_eot_next v) a (eot_heap w)) (eot_brk w) w,
     Ok tt).
Proof.
  intros H. unfold store_next, eot_load, eot_store, bind, get, put, deref, ret.
  simpl. rewrite H. simpl. rewrite H.
  rewrite (insert_as_alter (set_eot_next v) _ _ _ H). reflexivity.
Qed.

Lemma store_prev_run (w : world) (a : nat) (v : option nat) e :
  eot_heap w !! a = Some e ->
  store_prev (Some a) v w
  = (with_eot_heap (alter (set_eot_prev v) a (eot_heap w)) (eot_brk w) w,
     Ok tt).
Proof.
  intros H. unfold store_prev, eot_load, eot_store, bind, get, put, deref, ret.
  simpl. rewrite H. simpl. rewrite H.
  rewrite (insert_as_alter (set_eot_prev v) _ _ _ H). reflexivity.
Qed.

Lemma ret_run {S A} (a : A) (s : S) : ret a s = (s, Ok a).
Proof. reflexivity. Qed.

Lemma get_head_run (w : world) :
  get_head w = (w, Ok (vfd_swmr_eot_queue_head_g w)).
Proof. reflexivity. Qed.

Lemma get_tail_run (w : world) :
  get_tail w = (w, Ok (vfd_swmr_eot_queue_tail_g w)).
Proof. reflexivity. Qed.

Lemma set_head_run (v : option nat) (w : world) :
  set_head v w = (with_head v w, Ok tt).
Proof. reflexivity. Qed.

Lemma set_tail_run (v : option nat) (w : world) :
  set_tail v w = (with_tail v w, Ok tt).
Proof. reflexivity. Qed.

Lemma alter_twice {A} (g : A -> A) (k : nat) (m : gmap nat A) :
  (forall x, g (g x) = g x) -> alter g k (alter g k m) = alter g k m.
Proof.
  intros Hg. apply map_eq. intros i. destruct (decide (i = k)) as [->|Hne].
  - rewrite !lookup_alter_eq. destruct (m !! k); simpl; [|reflexivity].
    rewrite Hg. reflexivity.
  - rewrite !lookup_alter_ne by congruence. reflexivity.
Qed.

Lemma alter_links_cleared (k : nat) e
    (m : gmap nat H5F_vfd_swmr_eot_queue_entry_t) :
  m !! k = Some e ->
  alter (set_eot_prev None) k (alter (set_eot_next None) k m)
  = <[k := set_eot_prev None (set_eot_next None e)]> m.
Proof.
  intros Hk. apply map_eq. intros i. destruct (decide (i = k)) as [->|Hne].
  - rewrite !lookup_alter_eq, lookup_insert_eq, Hk. reflexivity.
  - rewrite !lookup_alter_ne, lookup_insert_ne by congruence. reflexivity.
Qed.

Ltac eot_simpl :=
  cbn [files eot_heap eot_brk vfd_swmr_eot_queue_head_g
       vfd_swmr_eot_queue_tail_g vfd_swmr_writer_g end_of_tick_g wlog
       with_files with_eot_heap with_head with_tail with_writer_g
       with_end_of_tick_g with_wlog].

Ltac eot_lookup :=
  eot_simpl;
  repeat first
    [ rewrite lookup_alter_ne by congruence
    | rewrite lookup_insert_ne by congruence
    | rewrite lookup_alter_eq
    | rewrite lookup_insert_eq ];
  repeat match goal with
         | H : _ !! _ = Some _ |- _ => rewrite H
         end;
  reflexivity.

(** One step forwards: the first action of the goal is run with [L]. *)
Ltac eot_step L :=
  rewrite ?bind_assoc;
  erewrite bind_run; [|solve [apply L | eapply L; eot_lookup]]; eot_simpl.

(** [H5F__LL_REMOVE] on an entry whose neighbours are where its links say:
    the neighbours are joined, the globals move off the entry, and its own
    links are cleared. *)
Lemma LL_REMOVE_run (w : world) (c : nat)
    (ec : H5F_vfd_swmr_eot_queue_entry_t) (prev next : option nat) :
  eot_heap w !! c = Some ec ->
  eot_prev ec = prev -> eot_next ec = next ->
  (vfd_swmr_eot_queue_head_g w = Some c <-> prev = None) ->
  (vfd_swmr_eot_queue_tail_g w = Some c <-> next = None) ->
  (forall p, prev = Some p -> p <> c /\ is_Some (eot_heap w !! p)) ->
  (forall n, next = Some n -> n <> c /\ is_Some (eot_heap w !! n)) ->
  (forall p n, prev = Some p -> next = Some n -> p <> n) ->
  H5F__LL_REMOVE c w
  = (with_eot_heap
       (<[c := set_eot_prev None (set_eot_next None ec)]>
          (relink_prev next prev (relink_next prev next (eot_heap w))))
       (eot_brk w)
       (with_tail (if next is None then prev
                   else vfd_swmr_eot_queue_tail_g w)
          (with_head (if prev is None then next
                      else vfd_swmr_eot_queue_head_g w) w)),
     Ok tt).
Proof.
  intros Hc Eprev Enext Hhead Htail Hp Hn Hpn.
  unfold H5F__LL_REMOVE.
  eot_step get_head_run.
  destruct prev as [p|]; destruct next as [n|].
  - (* in the body *)
    destruct (Hp p eq_refl) as [Hpc [ep Hep]].
    destruct (Hn n eq_refl) as [Hnc [en Hen]].
    pose proof (Hpn p n eq_refl eq_refl) as Hne.
    rewrite bool_decide_eq_false_2
      by (intros Hh; apply Hhead in Hh; discriminate).
    rewrite !bind_assoc. eot_step load_prev_run. rewrite Eprev.
    eot_step load_next_run. rewrite Enext.
    eot_step store_next_run.
    eot_step get_tail_run.
    rewrite bool_decide_eq_false_2
      by (intros Hh; apply Htail in Hh; discriminate).
    rewrite !bind_assoc. eot_step load_next_run. rewrite Enext.
    eot_step load_prev_run. rewrite Eprev.
    eot_step store_prev_run.
    eot_step store_next_run.
    erewrite store_prev_run by eot_lookup. eot_simpl.
    rewrite (alter_links_cleared c ec) by eot_lookup.
    destruct w; reflexivity.
  - (* the tail, not the head *)
    destruct (Hp p eq_refl) as [Hpc [ep Hep]].
    rewrite bool_decide_eq_false_2
      by (intros Hh; apply Hhead in Hh; discriminate).
    eot_step load_prev_run. rewrite Eprev.
    eot_step load_next_run. rewrite Enext.
    eot_step store_next_run.
    eot_step get_tail_run.
    rewrite bool_decide_eq_true_2 by (apply Htail; reflexivity).
    eot_step load_prev_run. rewrite Eprev.
    eot_step set_tail_run.
    rewrite bool_decide_eq_true_2 by discriminate.
    eot_step store_next_run.
    eot_step store_next_run.
    erewrite store_prev_run by eot_lookup. eot_simpl.
    rewrite (alter_twice (set_eot_next None)) by reflexivity.
    rewrite (alter_links_cleared c ec) by eot_lookup.
    destruct w; reflexivity.
  - (* the head, not the tail *)
    destruct (Hn n eq_refl) as [Hnc [en Hen]].
    rewrite bool_decide_eq_true_2 by (apply Hhead; reflexivity).
    eot_step load_next_run. rewrite Enext.
    eot_step set_head_run.
    rewrite bool_decide_eq_true_2 by discriminate.
    eot_step store_prev_run.
    eot_step get_tail_run.
    rewrite bool_decide_eq_false_2
      by (intros Hh; apply Htail in Hh; discriminate).
    eot_step load_next_run. rewrite Enext.
    eot_step load_prev_run. rewrite Eprev.
    eot_step store_prev_run.
    eot_step store_next_run.
    erewrite store_prev_run by eot_lookup. eot_simpl.
    rewrite (alter_twice (set_eot_prev None)) by reflexivity.
    rewrite (alter_links_cleared c ec) by eot_lookup.
    destruct w; reflexivity.
  - (* the only entry *)
    rewrite bool_decide_eq_true_2 by (apply Hhead; reflexivity).
    eot_step load_next_run. rewrite Enext.
    eot_step set_head_run.
    rewrite bool_decide_eq_false_2 by (intros Hh; apply Hh; reflexivity).
    eot_step (@ret_run world unit).
    eot_step get_tail_run.
    rewrite bool_decide_eq_true_2 by (apply Htail; reflexivity).
    eot_step load_prev_run. rewrite Eprev.
    eot_step set_tail_run.
    rewrite bool_decide_eq_false_2 by (intros Hh; apply Hh; reflexivity).
    eot_step (@ret_run world unit).
    eot_step store_next_run.
    erewrite store_prev_run by eot_lookup. eot_simpl.
    rewrite (alter_links_cleared c ec) by eot_lookup.
    destruct w; reflexivity.
Qed.

(** ** Removing an entry from the queue *)

Lemma head_app_cons {A} (l1 : list A) (c : A) (l2 : list A) :
  head (l1 ++ c :: l2) = Some c <-> (l1 = [] \/ head l1 = Some c).
Proof.
  destruct l1 as [|x l1]; simpl.
  - split; auto.
  - split; [intros H; right; exact H | intros [H|H]; [discriminate|exact H]].
Qed.

Lemma last_app_cons {A} (l1 : list A) (c : A) (l2 : list A) :
  last (l1 ++ c :: l2) = last_or (Some c) l2.
Proof.
  unfold last_or. destruct (snoc_case l2) as [->|(l2' & x & ->)].
  - rewrite last_snoc. reflexivity.
  - replace (l1 ++ c :: l2' ++ [x]) with ((l1 ++ c :: l2') ++ [x])
      by (rewrite <- app_assoc; reflexivity).
    rewrite !last_snoc. reflexivity.
Qed.

Lemma last_or_None_inv {A} (l : list A) : last_or None l = None -> l = [].
Proof.
  unfold last_or. destruct (last l) eqn:Hl; [discriminate|].
  intros _. apply last_None. exact Hl.
Qed.

Lemma last_or_elem {A} (l : list A) (x : A) :
  last_or None l = Some x -> x ∈ l.
Proof.
  unfold last_or. destruct (last l) eqn:Hl; [|discriminate].
  intros H. inversion H; subst. apply last_Some in Hl.
  destruct Hl as [l' ->]. apply elem_of_app. right. apply list_elem_of_here.
Qed.

Lemma hd_or_elem {A} (l : list A) (x : A) : hd_or None l = Some x -> x ∈ l.
Proof.
  destruct l; [discriminate|]. simpl. intros H. inversion H.
  apply list_elem_of_here.
Qed.

Lemma head_app_last_or {A} (l1 l2 : list A) :
  head (l1 ++ l2) = hd_or (hd_or None l2) l1.
Proof. destruct l1; [destruct l2|]; reflexivity. Qed.

Lemma last_app_last_or {A} (l1 l2 : list A) :
  last (l1 ++ l2) = last_or (last_or None l1) l2.
Proof.
  unfold last_or. destruct (snoc_case l2) as [->|(l2' & x & ->)].
  - rewrite app_nil_r. simpl. destruct (last l1); reflexivity.
  - rewrite app_assoc, !last_snoc. reflexivity.
Qed.

Lemma payload_relinked heap prev next c e q :
  q <> c ->
  eot_payload
    <$> delete c (<[c := e]> (relink_prev next prev
                                (relink_next prev next heap))) !! q
  = eot_payload <$> heap !! q.
Proof.
  intros Hq. rewrite lookup_delete_ne, lookup_insert_ne by congruence.
  unfold relink_prev, relink_next.
  assert (Hn : forall v k (m : gmap nat H5F_vfd_swmr_eot_queue_entry_t),
             eot_payload <$> alter (set_eot_next v) k m !! q
             = eot_payload <$> m !! q).
  { intros v k m. destruct (decide (q = k)) as [->|Hne].
    - rewrite lookup_alter_eq. destruct (m !! k); reflexivity.
    - rewrite lookup_alter_ne by congruence. reflexivity. }
  assert (Hp : forall v k (m : gmap nat H5F_vfd_swmr_eot_queue_entry_t),
             eot_payload <$> alter (set_eot_prev v) k m !! q
             = eot_payload <$> m !! q).
  { intros v k m. destruct (decide (q = k)) as [->|Hne].
    - rewrite lookup_alter_eq. destruct (m !! k); reflexivity.
    - rewrite lookup_alter_ne by congruence. reflexivity. }
  destruct next, prev; rewrite ?Hp, ?Hn; reflexivity.
Qed.

(** Unlinking and freeing the entry at [c] of a well-formed queue. *)
Lemma eot_remove_at (w : world) (l1 : list nat) (c : nat) (l2 : list nat)
    (ec : H5F_vfd_swmr_eot_queue_entry_t) :
  eot_queue_is w (l1 ++ c :: l2) ->
  eot_heap w !! c = Some ec ->
  exists w1,
    (H5F__LL_REMOVE c >>
     (w <- get ;; put (with_eot_heap (delete c (eot_heap w)) (eot_brk w) w)))
      w = (w1, Ok tt)
    /\ eot_queue_is w1 (l1 ++ l2)
    /\ (forall q, q <> c -> eot_payload_at w1 q = eot_payload_at w q)
    /\ eot_heap w1 !! c = None
    /\ files w1 = files w /\ wlog w1 = wlog w /\ eot_brk w1 = eot_brk w
    /\ vfd_swmr_writer_g w1 = vfd_swmr_writer_g w
    /\ end_of_tick_g w1 = end_of_tick_g w.
Proof.
  intros (Hnd & Hseg & Hh & Ht & Hbrk) Hc.
  destruct (eot_seg_unlink _ _ _ _ _ Hnd Hseg Hc) as (Eprev & Enext & Hseg').
  assert (Hc1 : c ∉ l1).
  { apply NoDup_app in Hnd. destruct Hnd as (_ & Hdisj & _).
    intros Hin. apply (Hdisj c Hin). apply list_elem_of_here. }
  assert (Hc2 : c ∉ l2).
  { apply NoDup_app in Hnd. destruct Hnd as (_ & _ & Hnd2).
    apply NoDup_cons in Hnd2. tauto. }
  assert (Hin : forall q, q ∈ l1 ++ c :: l2 -> is_Some (eot_heap w !! q)).
  { intros q Hq. eapply eot_seg_lookup; eauto. }
  erewrite bind_run.
  2:{ apply (LL_REMOVE_run w c ec _ _ Hc Eprev Enext).
      - rewrite Hh, head_app_cons. split.
        + intros [->|Hhd]; [reflexivity|].
          exfalso. apply Hc1. destruct l1; [discriminate|].
          inversion Hhd. apply list_elem_of_here.
        + intros Hl. left. apply last_or_None_inv. exact Hl.
      - rewrite Ht, last_app_cons. split.
        + intros Hl. destruct l2 as [|n l2']; [reflexivity|].
          exfalso. apply Hc2. rewrite last_or_cons in Hl.
          unfold last_or in Hl. destruct (last l2') as [x|] eqn:Hlast.
          * inversion Hl; subst x. apply last_Some in Hlast.
            destruct Hlast as [l' ->]. apply list_elem_of_further.
            apply elem_of_app. right. apply list_elem_of_here.
          * inversion Hl. apply list_elem_of_here.
        + intros Hl. destruct l2; [reflexivity | discriminate].
      - intros p Hp. apply last_or_elem in Hp. split.
        + intros ->. contradiction.
        + apply Hin. apply elem_of_app. left. exact Hp.
      - intros n Hn. apply hd_or_elem in Hn. split.
        + intros ->. contradiction.
        + apply Hin. apply elem_of_app. right.
          apply list_elem_of_further. exact Hn.
      - intros p n Hp Hn. apply last_or_elem in Hp. apply hd_or_elem in Hn.
        intros ->. apply NoDup_app in Hnd. destruct Hnd as (_ & Hdisj & _).
        apply (Hdisj n Hp). apply list_elem_of_further. exact Hn. }
  unfold bind, get, put. eot_simpl.
  eexists. split; [reflexivity|]. eot_simpl.
  split.
  { (* the queue that is left *)
    split; [|split; [exact Hseg'|split; [|split]]].
    - apply NoDup_app in Hnd. destruct Hnd as (Hnd1 & Hdisj & Hnd2).
      apply NoDup_cons in Hnd2. destruct Hnd2 as [_ Hnd2].
      apply NoDup_app. split; [exact Hnd1|]. split; [|exact Hnd2].
      intros x Hx1 Hx2. apply (Hdisj x Hx1). apply list_elem_of_further.
      exact Hx2.
    - eot_simpl. rewrite head_app_last_or.
      destruct l1 as [|x l1']; simpl; [reflexivity|].
      rewrite last_or_cons. unfold last_or.
      destruct (last l1'); simpl in Hh; rewrite Hh; reflexivity.
    - eot_simpl. rewrite last_app_last_or.
      destruct l2 as [|n l2']; simpl.
      + unfold last_or. simpl. reflexivity.
      + rewrite Ht, last_app_cons. rewrite !last_or_cons. reflexivity.
    - eot_simpl. apply Forall_app in Hbrk. destruct Hbrk as [Hb1 Hb2].
      apply Forall_cons in Hb2. destruct Hb2 as [_ Hb2].
      apply Forall_app. split; assumption. }
  split.
  { intros q Hq. unfold eot_payload_at. eot_simpl.
    apply payload_relinked. exact Hq. }
  split; [apply lookup_delete_eq|].
  repeat split; reflexivity.
Qed.

Lemma chain_fits_heap {A} (heap : gmap nat A) (ptrs : list nat) :
  NoDup ptrs -> (forall p, p ∈ ptrs -> is_Some (heap !! p)) ->
  (length ptrs <= size heap)%nat.
Proof.
  revert heap. induction ptrs as [|p rest IH]; intros heap Hnd Hin.
  - simpl. lia.
  - apply NoDup_cons in Hnd. destruct Hnd as [Hp Hnd].
    destruct (Hin p (list_elem_of_here _ _)) as [e He].
    rewrite <- (insert_delete_id heap p e He).
    rewrite map_size_insert_None by apply lookup_delete_eq.
    simpl. apply le_n_S. apply IH; [exact Hnd|].
    intros q Hq. rewrite lookup_delete_ne by (intros ->; contradiction).
    apply Hin. apply list_elem_of_further. exact Hq.
Qed.

Lemma eot_load_run (w : world) (p : nat) e :
  eot_heap w !! p = Some e -> eot_load p w = (w, Ok e).
Proof.
  intros H. unfold eot_load, bind, get, deref, ret. rewrite H. reflexivity.
Qed.

Lemma eot_owned_by_spec (w : world) (f p : nat) e :
  eot_heap w !! p = Some e ->
  eot_owned_by w f p = bool_decide (eot_vfd_swmr_file e = f).
Proof.
  intros H. unfold eot_owned_by. rewrite H. simpl.
  apply bool_decide_ext. split; intros Heq; [inversion Heq|]; congruence.
Qed.

Lemma drop_first_none {A} (P : A -> bool) (l : list A) :
  Forall (fun x => P x = false) l -> drop_first P l = l.
Proof.
  induction l as [|x l IH]; intros H; [reflexivity|].
  apply Forall_cons in H. destruct H as [Hx Hl].
  simpl. rewrite Hx, IH by exact Hl. reflexivity.
Qed.

Lemma drop_first_app {A} (P : A -> bool) (l1 l2 : list A) :
  Forall (fun x => P x = false) l1 ->
  drop_first P (l1 ++ l2) = l1 ++ drop_first P l2.
Proof.
  induction l1 as [|x l IH]; intros H; [reflexivity|].
  apply Forall_cons in H. destruct H as [Hx Hl].
  simpl. rewrite Hx, IH by exact Hl. reflexivity.
Qed.

Lemma eot_seg_at heap l1 c l2 :
  eot_seg heap None (l1 ++ c :: l2) None ->
  exists ec, heap !! c = Some ec /\ eot_prev ec = last_or None l1
             /\ eot_next ec = hd_or None l2.
Proof.
  intros H. apply eot_seg_app in H. destruct H as [_ H].
  simpl in H. destruct H as (e & He & Hp & Hn & _). eauto.
Qed.

Lemma remove_scan_run (f : nat) (w : world) (ptrs : list nat) :
  eot_queue_is w ptrs ->
  forall (l2 l1 : list nat) (fuel : nat),
    ptrs = l1 ++ l2 ->
    Forall (fun p => eot_owned_by w f p = false) l1 ->
    (length l2 <= fuel)%nat ->
    exists w1,
      remove_entry_eot_scan fuel f (head l2) w = (w1, Ok tt)
      /\ removed_from w f ptrs w1.
Proof.
  intros Hq. induction l2 as [|c l2' IH]; intros l1 fuel Hptrs Hl1 Hfuel.
  - exists w. rewrite app_nil_r in Hptrs. subst l1.
    destruct fuel; simpl; (split; [reflexivity|]);
      unfold removed_from; rewrite drop_first_none by exact Hl1;
      (split; [exact Hq|]); (split; [reflexivity|]);
      (split; [intros; contradiction|]); repeat split; reflexivity.
  - destruct fuel as [|fuel']; [simpl in Hfuel; lia|].
    subst ptrs. pose proof Hq as (Hnd & Hseg & _).
    destruct (eot_seg_at _ _ _ _ Hseg) as (ec & Hc & _ & Hnext).
    simpl remove_entry_eot_scan.
    rewrite (bind_run _ _ _ _ _ (eot_load_run w c ec Hc)).
    rewrite <- (eot_owned_by_spec w f c ec Hc).
    destruct (eot_owned_by w f c) eqn:Hown.
    + destruct (eot_remove_at w l1 c l2' ec Hq Hc)
        as (w1 & Hrun & Hq1 & Hpay & Hfree & Hrest).
      exists w1. split; [exact Hrun|].
      unfold removed_from. rewrite drop_first_app by exact Hl1.
      simpl. rewrite Hown.
      split; [exact Hq1|]. split.
      { intros q Hin. apply Hpay. intros ->.
        apply NoDup_app in Hnd. destruct Hnd as (_ & Hdisj & Hnd2).
        apply NoDup_cons in Hnd2. destruct Hnd2 as [Hc2 _].
        apply elem_of_app in Hin. destruct Hin as [Hin|Hin].
        - apply (Hdisj c Hin). apply list_elem_of_here.
        - contradiction. }
      split; [|exact Hrest].
      intros q Hin Hnot. apply elem_of_app in Hin.
      destruct Hin as [Hin|Hin].
      { exfalso. apply Hnot. apply elem_of_app. left. exact Hin. }
      apply elem_of_cons in Hin. destruct Hin as [->|Hin]; [exact Hfree|].
      exfalso. apply Hnot. apply elem_of_app. right. exact Hin.
    + rewrite Hnext.
      replace (hd_or None l2') with (head l2') by (destruct l2'; reflexivity).
      apply (IH (l1 ++ [c]) fuel').
      * rewrite <- app_assoc. reflexivity.
      * apply Forall_app. split; [exact Hl1|].
        apply Forall_cons. split; [exact Hown | apply Forall_nil; exact I].
      * simpl in Hfuel. lia.
Qed.

Lemma eot_queue_is_same (w w' : world) (ptrs : list nat) :
  eot_heap w' = eot_heap w -> eot_brk w' = eot_brk w ->
  vfd_swmr_eot_queue_head_g w' = vfd_swmr_eot_queue_head_g w ->
  vfd_swmr_eot_queue_tail_g w' = vfd_swmr_eot_queue_tail_g w ->
  eot_queue_is w ptrs -> eot_queue_is w' ptrs.
Proof.
  intros Hh Hb Hhd Htl. unfold eot_queue_is. rewrite Hh, Hb, Hhd, Htl. tauto.
Qed.

(** The tail of both queue routines, on a well-formed queue. *)
Lemma sync_eot_globals_run (w : world) (ptrs : list nat) :
  eot_queue_is w ptrs ->
  exists w',
    sync_eot_globals w = (w', Ok tt)
    /\ eot_globals_follow w' ptrs (end_of_tick_g w)
    /\ eot_heap w' = eot_heap w /\ eot_brk w' = eot_brk w
    /\ vfd_swmr_eot_queue_head_g w' = vfd_swmr_eot_queue_head_g w
    /\ vfd_swmr_eot_queue_tail_g w' = vfd_swmr_eot_queue_tail_g w
    /\ files w' = files w /\ wlog w' = wlog w.
Proof.
  intros (Hnd & Hseg & Hh & Ht & Hbrk). unfold sync_eot_globals.
  rewrite (bind_run _ _ _ _ _ (get_head_run w)).
  destruct ptrs as [|h rest]; simpl in Hh.
  - eexists. split; [rewrite Hh; reflexivity|]. simpl.
    repeat split; reflexivity.
  - simpl in Hseg. destruct Hseg as (e & He & _).
    eexists. split.
    { rewrite Hh. rewrite (bind_run _ _ _ _ _ (eot_load_run w h e He)).
      reflexivity. }
    simpl.
    split; [exists e; repeat split; assumption|]. repeat split; reflexivity.
Qed.

(** The removal on a well-formed queue, with all it leaves. *)
Lemma remove_entry_eot_run (f : nat) (w : world) (ptrs : list nat) :
  eot_queue_is w ptrs ->
  let ptrs' := drop_first (eot_owned_by w f) ptrs in
  exists w',
    H5F_vfd_swmr_remove_entry_eot f w = (w', Ok tt)
    /\ eot_queue_is w' ptrs'
    /\ (forall q, q ∈ ptrs' -> eot_payload_at w' q = eot_payload_at w q)
    /\ (forall q, q ∈ ptrs -> q ∉ ptrs' -> eot_heap w' !! q = None)
    /\ eot_globals_follow w' ptrs' (end_of_tick_g w)
    /\ files w' = files w /\ wlog w' = wlog w
    /\ eot_brk w' = eot_brk w.
Proof.
  intros Hq ptrs'. unfold H5F_vfd_swmr_remove_entry_eot.
  unfold bind at 1, get at 1.
  pose proof Hq as (Hnd & Hseg & Hh & _).
  destruct (remove_scan_run f w ptrs Hq ptrs [] (S (size (eot_heap w))))
    as (w1 & Hrun & Hq1 & Hpay & Hfree & Hfiles & Hlog & Hbrk & Hwg & Heg).
  - reflexivity.
  - apply Forall_nil. exact I.
  - apply Nat.le_le_succ_r. apply chain_fits_heap; [exact Hnd|].
    intros p Hp. eapply eot_seg_lookup; eauto.
  - rewrite Hh. rewrite (bind_run _ _ _ _ _ Hrun).
    destruct (sync_eot_globals_run w1 _ Hq1)
      as (w' & Hsync & Hglob & Hheap & Hbrk' & Hhd & Htl & Hfiles' & Hlog').
    exists w'. split; [exact Hsync|].
    split; [eapply eot_queue_is_same; eauto|].
    split.
    { intros q Hin. unfold eot_payload_at. rewrite Hheap. apply Hpay, Hin. }
    split.
    { intros q Hin Hnot. rewrite Hheap. apply Hfree; assumption. }
    split; [rewrite <- Heg; exact Hglob|].
    split; [congruence|]. split; congruence.
Qed.

(** [H5F_vfd_swmr_remove_entry_eot] on a well-formed queue always
    succeeds.  It takes out the first entry of file [f], if there is one,
    and frees it; the other entries stay in their order, say what they
    said, and are again linked both ways with the globals for head and
    tail at the two ends.  The globals [vfd_swmr_writer_g] and
    [end_of_tick_g] are then set from the new head; with nothing left the
    first is cleared.  No file and no call is involved. *)
Theorem eot_remove_entry_unlinks (f : nat) (w : world) (ptrs : list nat) :
  eot_queue_is w ptrs ->
  let ptrs' := drop_first (eot_owned_by w f) ptrs in
  exists w',
    H5F_vfd_swmr_remove_entry_eot f w = (w', Ok tt)
    /\ eot_queue_is w' ptrs'
    /\ (forall q, q ∈ ptrs' -> eot_payload_at w' q = eot_payload_at w q)
    /\ (forall q, q ∈ ptrs -> q ∉ ptrs' -> eot_heap w' !! q = None)
    /\ eot_globals_follow w' ptrs' (end_of_tick_g w)
    /\ files w' = files w /\ wlog w' = wlog w.
Proof.
  intros Hq ptrs'.
  destruct (remove_entry_eot_run f w ptrs Hq)
    as (w' & Hrun & Hq' & Hpay & Hfree & Hglob & Hfiles & Hlog & _).
  exists w'. split; [exact Hrun|]. split; [exact Hq'|].
  split; [exact Hpay|]. split; [exact Hfree|]. split; [exact Hglob|].
  split; [exact Hfiles | exact Hlog].
Qed.

(** ** Inserting an entry into the queue *)

Lemma LL_PREPEND_run_empty (w : world) (new : nat) :
  vfd_swmr_eot_queue_head_g w = None ->
  H5F__LL_PREPEND new w
  = (with_tail (Some new) (with_head (Some new) w), Ok tt).
Proof.
  intros Hh. unfold H5F__LL_PREPEND.
  eot_step get_head_run. rewrite Hh.
  rewrite bool_decide_eq_true_2 by reflexivity.
  eot_step set_head_run. reflexivity.
Qed.

Lemma LL_PREPEND_run (w : world) (new h : nat) en eh :
  vfd_swmr_eot_queue_head_g w = Some h ->
  eot_heap w !! h = Some eh -> eot_heap w !! new = Some en -> h <> new ->
  H5F__LL_PREPEND new w
  = (with_head (Some new)
       (with_eot_heap
          (alter (set_eot_next (Some h)) new
             (alter (set_eot_prev (Some new)) h (eot_heap w)))
          (eot_brk w) w),
     Ok tt).
Proof.
  intros Hh Heh Hen Hne. unfold H5F__LL_PREPEND.
  eot_step get_head_run. rewrite Hh.
  rewrite bool_decide_eq_false_2 by discriminate.
  eot_step store_prev_run.
  eot_step store_next_run.
  rewrite set_head_run. destruct w; reflexivity.
Qed.

Lemma LL_APPEND_run (w : world) (new h t : nat) en et :
  vfd_swmr_eot_queue_head_g w = Some h ->
  vfd_swmr_eot_queue_tail_g w = Some t ->
  eot_heap w !! t = Some et -> eot_heap w !! new = Some en -> t <> new ->
  H5F__LL_APPEND new w
  = (with_tail (Some new)
       (with_eot_heap
          (alter (set_eot_prev (Some t)) new
             (alter (set_eot_next (Some new)) t (eot_heap w)))
          (eot_brk w) w),
     Ok tt).
Proof.
  intros Hh Ht Het Hen Hne. unfold H5F__LL_APPEND.
  eot_step get_head_run. rewrite Hh.
  rewrite bool_decide_eq_false_2 by discriminate.
  eot_step get_tail_run. rewrite Ht.
  eot_step store_next_run.
  eot_step store_prev_run.
  rewrite set_tail_run. destruct w; reflexivity.
Qed.

(** [H5F_EOT_INSERT_AFTER] for a predecessor that has an entry on either
    side. *)
Lemma INSERT_AFTER_run_body (w : world) (new p pp n : nat) en ep e_n :
  eot_heap w !! p = Some ep -> eot_heap w !! new = Some en ->
  eot_heap w !! n = Some e_n ->
  eot_prev ep = Some pp -> eot_next ep = Some n ->
  p <> new -> n <> new -> p <> n ->
  H5F_EOT_INSERT_AFTER new (Some p) w
  = (with_eot_heap
       (alter (set_eot_next (Some new)) p
          (alter (set_eot_prev (Some new)) n
             (alter (set_eot_next (Some n)) new
                (alter (set_eot_prev (Some p)) new (eot_heap w)))))
       (eot_brk w) w,
     Ok tt).
Proof.
  intros Hep Hen Hn Hpp Hpn Hp1 Hn1 Hpn1. unfold H5F_EOT_INSERT_AFTER.
  rewrite bool_decide_eq_false_2 by discriminate.
  eot_step load_prev_run. rewrite Hpp.
  rewrite bool_decide_eq_false_2 by discriminate.
  eot_step store_prev_run.
  eot_step load_next_run. rewrite Hpn.
  eot_step store_next_run.
  eot_step load_next_run. rewrite Hpn.
  eot_step store_prev_run.
  erewrite store_next_run by eot_lookup. eot_simpl.
  destruct w; reflexivity.
Qed.

(** The same when the predecessor is the last entry and not the first:
    the macro reads [prec_ptr->next->prev] with [prec_ptr->next] null. *)
Lemma INSERT_AFTER_run_tail (w : world) (new p pp : nat) en ep :
  eot_heap w !! p = Some ep -> eot_heap w !! new = Some en ->
  eot_prev ep = Some pp -> eot_next ep = None ->
  p <> new ->
  snd (H5F_EOT_INSERT_AFTER new (Some p) w) = MemFault.
Proof.
  intros Hep Hen Hpp Hpn Hp1. unfold H5F_EOT_INSERT_AFTER.
  rewrite bool_decide_eq_false_2 by discriminate.
  eot_step load_prev_run. rewrite Hpp.
  rewrite bool_decide_eq_false_2 by discriminate.
  eot_step store_prev_run.
  eot_step load_next_run. rewrite Hpn.
  eot_step store_next_run.
  eot_step load_next_run. rewrite Hpn.
  reflexivity.
Qed.

Lemma last_or_None_last {A} (l : list A) : last_or None l = last l.
Proof. unfold last_or. destruct (last l); reflexivity. Qed.

Lemma eot_seg_at_gen heap l1 c l2 nxt :
  eot_seg heap None (l1 ++ c :: l2) nxt ->
  exists ec, heap !! c = Some ec /\ eot_prev ec = last_or None l1
             /\ eot_next ec = hd_or nxt l2.
Proof.
  intros H. apply eot_seg_app in H. destruct H as [_ H].
  simpl in H. destruct H as (e & He & Hp & Hn & _). eauto.
Qed.

(** The walk from the tail stops at the last entry that is not later than
    the new one. *)
Lemma insert_scan_run (w : world) (eot : timespec) (l1 : list nat) :
  (forall p, last l1 = Some p -> eot_not_later_than w eot p) ->
  forall (l2 : list nat) (nxt : option nat) (fuel : nat),
    eot_seg (eot_heap w) None (l1 ++ l2) nxt ->
    Forall (eot_later_than w eot) l2 ->
    (length l2 < fuel)%nat ->
    insert_entry_eot_scan fuel eot (last (l1 ++ l2)) w = (w, Ok (last l1)).
Proof.
  intros Hl1 l2. induction l2 as [|x l2' IH] using rev_ind;
    intros nxt fuel Hseg Hl2 Hfuel.
  - rewrite app_nil_r. destruct fuel as [|fuel']; [lia|].
    destruct (last l1) as [p|] eqn:Hlast; [|reflexivity].
    destruct (Hl1 p eq_refl) as (e & He & Hcmp).
    simpl. rewrite (bind_run _ _ _ _ _ (eot_load_run w p e He)).
    rewrite Hcmp. reflexivity.
  - destruct fuel as [|fuel']; [lia|].
    rewrite app_assoc, last_snoc.
    apply Forall_app in Hl2. destruct Hl2 as [Hl2' Hx].
    apply Forall_cons in Hx. destruct Hx as [(e & He & Hcmp) _].
    rewrite app_assoc in Hseg.
    destruct (eot_seg_at_gen _ _ _ _ _ Hseg) as (e' & He' & Hprev & _).
    rewrite He in He'. inversion He'; subst e'. clear He'.
    simpl. rewrite (bind_run _ _ _ _ _ (eot_load_run w x e He)).
    rewrite Hcmp, Hprev, last_or_None_last.
    apply eot_seg_app in Hseg. destruct Hseg as [Hseg _].
    apply (IH (hd_or nxt [x]) fuel' Hseg Hl2').
    rewrite length_app in Hfuel. simpl in Hfuel. lia.
Qed.

Lemma eot_seg_prepend heap new h rest en :
  eot_seg heap None (h :: rest) None ->
  heap !! new = Some en -> eot_prev en = None ->
  new ∉ h :: rest -> h ∉ rest ->
  eot_seg (alter (set_eot_next (Some h)) new
             (alter (set_eot_prev (Some new)) h heap))
    None (new :: h :: rest) None.
Proof.
  intros Hseg Hen Hprev Hnew Hh.
  assert (Hne : h <> new).
  { intros ->. apply Hnew. apply list_elem_of_here. }
  change (new :: h :: rest) with ([new] ++ h :: rest).
  apply eot_seg_app. split.
  - simpl. exists (set_eot_next (Some h) en).
    rewrite lookup_alter_eq, lookup_alter_ne, Hen by congruence.
    repeat split; assumption.
  - eapply eot_seg_frame;
      [|apply (eot_seg_relink_first heap None (Some new) h rest None Hh Hseg)].
    intros q Hq. apply lookup_alter_ne. intros ->. contradiction.
Qed.

Lemma eot_seg_append heap new l t en :
  eot_seg heap None (l ++ [t]) None ->
  heap !! new = Some en -> eot_next en = None ->
  new ∉ l ++ [t] -> t ∉ l ->
  eot_seg (alter (set_eot_prev (Some t)) new
             (alter (set_eot_next (Some new)) t heap))
    None ((l ++ [t]) ++ [new]) None.
Proof.
  intros Hseg Hen Hnext Hnew Ht.
  assert (Hne : t <> new).
  { intros ->. apply Hnew. apply elem_of_app. right. apply list_elem_of_here. }
  apply eot_seg_app. split.
  - eapply eot_seg_frame;
      [|apply (eot_seg_relink_last heap None l t None (Some new) Ht Hseg)].
    intros q Hq. apply lookup_alter_ne. intros ->. contradiction.
  - rewrite last_or_snoc. simpl. exists (set_eot_prev (Some t) en).
    rewrite lookup_alter_eq, lookup_alter_ne, Hen by congruence.
    repeat split; assumption.
Qed.

Lemma eot_seg_insert heap new l1 p n l2 en :
  eot_seg heap None ((l1 ++ [p]) ++ n :: l2) None ->
  NoDup ((l1 ++ [p]) ++ n :: l2) ->
  heap !! new = Some en ->
  new ∉ (l1 ++ [p]) ++ n :: l2 ->
  eot_seg (alter (set_eot_next (Some new)) p
             (alter (set_eot_prev (Some new)) n
                (alter (set_eot_next (Some n)) new
                   (alter (set_eot_prev (Some p)) new heap))))
    None ((l1 ++ [p]) ++ new :: n :: l2) None.
Proof.
  intros Hseg Hnd Hen Hnew.
  apply NoDup_app in Hnd. destruct Hnd as (Hnd1 & Hdisj & Hnd2).
  apply NoDup_app in Hnd1. destruct Hnd1 as (_ & Hp1 & _).
  apply NoDup_cons in Hnd2. destruct Hnd2 as [Hn2 _].
  assert (Hpl : p ∉ l1).
  { intros Hin. apply (Hp1 p Hin). apply list_elem_of_here. }
  assert (Hpnew : p <> new).
  { intros ->. apply Hnew. apply elem_of_app. left. apply elem_of_app.
    right. apply list_elem_of_here. }
  assert (Hnnew : n <> new).
  { intros ->. apply Hnew. apply elem_of_app. right. apply list_elem_of_here. }
  assert (Hpn : p <> n).
  { intros ->. apply (Hdisj n).
    - apply elem_of_app. right. apply list_elem_of_here.
    - apply list_elem_of_here. }
  apply eot_seg_app in Hseg. destruct Hseg as [H1 H2].
  rewrite last_or_snoc in H2. simpl hd_or in H1.
  apply eot_seg_app. split.
  - simpl hd_or. apply (eot_seg_relink_last _ None l1 p (Some n)); [exact Hpl|].
    eapply eot_seg_frame; [|exact H1].
    intros q Hq.
    assert (q <> new).
    { intros ->. apply Hnew. apply elem_of_app. left. exact Hq. }
    assert (q <> n).
    { intros ->. apply (Hdisj n Hq). apply list_elem_of_here. }
    rewrite !lookup_alter_ne by congruence. reflexivity.
  - rewrite last_or_snoc.
    change (new :: n :: l2) with ([new] ++ n :: l2).
    apply eot_seg_app. split.
    + simpl. exists (set_eot_next (Some n) (set_eot_prev (Some p) en)).
      rewrite !lookup_alter_ne by congruence.
      rewrite !lookup_alter_eq, Hen. repeat split; reflexivity.
    + eapply eot_seg_frame;
        [|apply (eot_seg_relink_first
                   (alter (set_eot_next (Some n)) new
                      (alter (set_eot_prev (Some p)) new heap))
                   (Some p) (Some new) n l2 None Hn2)].
      * intros q Hq. apply lookup_alter_ne. intros ->.
        apply (Hdisj q); [|exact Hq].
        apply elem_of_app. right. apply list_elem_of_here.
      * eapply eot_seg_frame; [|exact H2].
        intros q Hq.
        assert (q <> new).
        { intros ->. apply Hnew. apply elem_of_app. right. exact Hq. }
        rewrite !lookup_alter_ne by congruence. reflexivity.
Qed.

Lemma payload_alter_next v k (m : gmap nat H5F_vfd_swmr_eot_queue_entry_t) q :
  eot_payload <$> alter (set_eot_next v) k m !! q = eot_payload <$> m !! q.
Proof.
  destruct (decide (q = k)) as [->|Hne].
  - rewrite lookup_alter_eq. destruct (m !! k); reflexivity.
  - rewrite lookup_alter_ne by congruence. reflexivity.
Qed.

Lemma payload_alter_prev v k (m : gmap nat H5F_vfd_swmr_eot_queue_entry_t) q :
  eot_payload <$> alter (set_eot_prev v) k m !! q = eot_payload <$> m !! q.
Proof.
  destruct (decide (q = k)) as [->|Hne].
  - rewrite lookup_alter_eq. destruct (m !! k); reflexivity.
  - rewrite lookup_alter_ne by congruence. reflexivity.
Qed.

(** The allocation of the new entry, up to the walk. *)
Lemma insert_entry_prefix (E : collaborators) (f : nat) (w : world)
    (s : H5F_shared_t) :
  files w !! f = Some s ->
  H5FL_CALLOC E (wlog w) = true ->
  H5F_vfd_swmr_insert_entry_eot E f w
  = (prec_ptr <- insert_entry_eot_scan
                   (S (size (eot_heap (with_new_entry f s w))))
                   (end_of_tick s) (vfd_swmr_eot_queue_tail_g w) ;;
     H5F_EOT_INSERT_AFTER (eot_brk w) prec_ptr >>
     sync_eot_globals) (with_new_entry f s w).
Proof.
  intros Hf Hcalloc. unfold H5F_vfd_swmr_insert_entry_eot.
  unfold bind at 1, wcall at 1. rewrite Hcalloc.
  unfold bind at 1, check at 1, ret at 1.
  rewrite (bind_run _ _ _ _ _ (shared_of_run f (with_wlog _ w) s Hf)).
  reflexivity.
Qed.

Lemma new_entry_fresh (w : world) (ptrs : list nat) :
  eot_queue_is w ptrs -> eot_brk w ∉ ptrs.
Proof.
  intros (_ & _ & _ & _ & Hbrk) Hin.
  rewrite Forall_forall in Hbrk. specialize (Hbrk _ Hin). lia.
Qed.

Lemma new_entry_seg (f : nat) (s : H5F_shared_t) (w : world)
    (ptrs : list nat) :
  eot_queue_is w ptrs ->
  eot_seg (eot_heap (with_new_entry f s w)) None ptrs None.
Proof.
  intros Hq. pose proof (new_entry_fresh w ptrs Hq) as Hfresh.
  destruct Hq as (_ & Hseg & _).
  eapply eot_seg_frame; [|exact Hseg].
  intros p Hp. simpl. apply lookup_insert_ne. intros Heq. subst p.
  contradiction.
Qed.

Lemma new_entry_fuel (f : nat) (s : H5F_shared_t) (w : world)
    (ptrs : list nat) :
  eot_queue_is w ptrs ->
  (length ptrs < S (size (eot_heap (with_new_entry f s w))))%nat.
Proof.
  intros Hq. apply Nat.lt_succ_r. apply chain_fits_heap.
  - destruct Hq as (Hnd & _). exact Hnd.
  - intros p Hp. eapply eot_seg_lookup; [|exact Hp].
    apply (new_entry_seg f s w ptrs Hq).
Qed.

Lemma new_entry_later (f : nat) (s : H5F_shared_t) (w : world)
    (ptrs : list nat) (t : timespec) (l : list nat) :
  eot_queue_is w ptrs -> (forall p, p ∈ l -> p ∈ ptrs) ->
  Forall (eot_later_than w t) l ->
  Forall (eot_later_than (with_new_entry f s w) t) l.
Proof.
  intros Hq Hsub Hl. pose proof (new_entry_fresh w ptrs Hq) as Hfresh.
  rewrite Forall_forall in *. intros p Hp.
  destruct (Hl p Hp) as (e & He & Hcmp). exists e. split; [|exact Hcmp].
  simpl. rewrite lookup_insert_ne; [exact He|].
  intros Heq. subst p. apply Hfresh, Hsub, Hp.
Qed.

Lemma new_entry_not_later (f : nat) (s : H5F_shared_t) (w : world)
    (ptrs : list nat) (t : timespec) (p : nat) :
  eot_queue_is w ptrs -> p ∈ ptrs ->
  eot_not_later_than w t p ->
  eot_not_later_than (with_new_entry f s w) t p.
Proof.
  intros Hq Hp (e & He & Hcmp). pose proof (new_entry_fresh w ptrs Hq).
  exists e. split; [|exact Hcmp].
  simpl. rewrite lookup_insert_ne; [exact He|].
  intros Heq. subst p. contradiction.
Qed.

Lemma insert_finish (w : world) (f : nat) (s : H5F_shared_t)
    (ptrs' : list nat) (w2 : world) :
  eot_queue_is w2 ptrs' ->
  eot_payload_at w2 (eot_brk w)
  = Some (vfd_swmr_writer s, tick_num s, end_of_tick s, f) ->
  (forall q, q <> eot_brk w -> eot_payload_at w2 q = eot_payload_at w q) ->
  files w2 = files w -> wlog w2 = wlog w ++ [EvCalloc true] ->
  end_of_tick_g w2 = end_of_tick_g w ->
  exists w',
    sync_eot_globals w2 = (w', Ok tt) /\ eot_inserted w f s ptrs' w'.
Proof.
  intros Hq Hnew Hold Hfiles Hlog Heg.
  destruct (sync_eot_globals_run w2 ptrs' Hq)
    as (w' & Hsync & Hglob & Hheap & Hbrk & Hhd & Htl & Hfiles' & Hlog').
  exists w'. split; [exact Hsync|]. unfold eot_inserted.
  split; [eapply eot_queue_is_same; eauto|].
  unfold eot_payload_at in *. rewrite Hheap.
  split; [exact Hnew|]. split; [exact Hold|].
  split; [rewrite <- Heg; exact Hglob|].
  split; congruence.
Qed.

(** The insertion of an entry that is due before all the others. *)
Lemma insert_entry_eot_head_run (E : collaborators) (f : nat) (w : world)
    (s : H5F_shared_t) (ptrs : list nat) :
  eot_queue_is w ptrs ->
  files w !! f = Some s ->
  H5FL_CALLOC E (wlog w) = true ->
  Forall (eot_later_than w (end_of_tick s)) ptrs ->
  exists w',
    H5F_vfd_swmr_insert_entry_eot E f w = (w', Ok tt)
    /\ eot_inserted w f s (eot_brk w :: ptrs) w'.
Proof.
  intros Hq Hf Hcalloc Hlater.
  rewrite (insert_entry_prefix E f w s Hf Hcalloc).
  set (w0 := with_new_entry f s w). set (new := eot_brk w).
  pose proof (new_entry_fresh w ptrs Hq) as Hfresh.
  pose proof (new_entry_seg f s w ptrs Hq) as Hseg0.
  pose proof Hq as (Hnd & Hseg & Hh & Ht & Hbrk).
  erewrite bind_run.
  2:{ rewrite Ht.
      apply (insert_scan_run w0 (end_of_tick s) [] ltac:(discriminate)
               ptrs None _ Hseg0).
      - apply (new_entry_later f s w ptrs _ ptrs Hq); auto.
      - apply (new_entry_fuel f s w ptrs Hq). }
  simpl last. unfold H5F_EOT_INSERT_AFTER.
  rewrite bool_decide_eq_true_2 by reflexivity.
  assert (Hnew0 : eot_heap w0 !! new = Some (eot_entry_for f s)).
  { simpl. apply lookup_insert_eq. }
  destruct ptrs as [|h rest].
  - rewrite (bind_run _ _ _ _ _ (LL_PREPEND_run_empty w0 new Hh)).
    apply insert_finish; try reflexivity.
    + split; [apply NoDup_singleton|]. split.
      { simpl. exists (eot_entry_for f s). repeat split. exact Hnew0. }
      split; [reflexivity|]. split; [reflexivity|].
      apply Forall_cons. split; [simpl; lia | apply Forall_nil; exact I].
    + unfold eot_payload_at, w0, with_new_entry, new. eot_simpl.
      rewrite lookup_insert_eq.
      reflexivity.
    + intros q Hne. unfold eot_payload_at, w0, with_new_entry, new. eot_simpl.
      rewrite lookup_insert_ne by congruence. reflexivity.
  - simpl in Hseg0. destruct Hseg0 as (eh & Heh & Hseg0').
    assert (Hhn : h <> new).
    { intros ->. apply Hfresh. apply list_elem_of_here. }
    apply NoDup_cons in Hnd. destruct Hnd as [Hhr Hnd].
    rewrite (bind_run _ _ _ _ _
               (LL_PREPEND_run w0 new h _ eh Hh Heh Hnew0 Hhn)).
    apply insert_finish; try reflexivity.
    + split.
      { apply NoDup_cons. split; [exact Hfresh|].
        apply NoDup_cons. split; assumption. }
      split.
      { eot_simpl. apply (eot_seg_prepend _ new h rest (eot_entry_for f s));
          try assumption; try reflexivity.
        simpl. exists eh. exact (conj Heh Hseg0'). }
      split; [reflexivity|].
      split; [unfold w0, with_new_entry; eot_simpl; rewrite Ht; reflexivity|].
      unfold w0, with_new_entry, new. eot_simpl.
      apply Forall_cons. split; [lia|].
      eapply Forall_impl; [exact Hbrk|]. simpl. intros x Hx. lia.
    + unfold eot_payload_at, w0, with_new_entry, new. eot_simpl.
      rewrite payload_alter_next, payload_alter_prev.
      rewrite lookup_insert_eq. reflexivity.
    + intros q Hne. unfold eot_payload_at, w0, with_new_entry, new. eot_simpl.
      rewrite payload_alter_next, payload_alter_prev.
      rewrite lookup_insert_ne by congruence. reflexivity.
Qed.

(** An entry whose deadline is earlier than every deadline on the queue
    goes to the head, whatever the length of the queue; in particular the
    first entry of an empty queue becomes its head and its tail. *)
Theorem eot_insert_entry_at_head (E : collaborators) (f : nat) (w : world)
    (s : H5F_shared_t) (ptrs : list nat) :
  eot_queue_is w ptrs ->
  files w !! f = Some s ->
  H5FL_CALLOC E (wlog w) = true ->
  Forall (eot_later_than w (end_of_tick s)) ptrs ->
  exists w',
    H5F_vfd_swmr_insert_entry_eot E f w = (w', Ok tt)
    /\ eot_inserted w f s (eot_brk w :: ptrs) w'.
Proof.
  apply insert_entry_eot_head_run.
Qed.

Lemma NoDup_insert_middle {A} (l r : list A) (x : A) :
  NoDup (l ++ r) -> x ∉ l ++ r -> NoDup (l ++ x :: r).
Proof.
  intros Hnd Hx. apply NoDup_app in Hnd. destruct Hnd as (Hl & Hdisj & Hr).
  apply NoDup_app. split; [exact Hl|]. split.
  - intros y Hy Hin. apply elem_of_cons in Hin. destruct Hin as [->|Hin].
    + apply Hx. apply elem_of_app. left. exact Hy.
    + apply (Hdisj y Hy Hin).
  - apply NoDup_cons. split; [|exact Hr].
    intros Hin. apply Hx. apply elem_of_app. right. exact Hin.
Qed.

(** An entry whose predecessor has an entry on either side is spliced in
    right after it: the queue stays in the order of its deadlines. *)
Theorem eot_insert_entry_in_body (E : collaborators) (f : nat) (w : world)
    (s : H5F_shared_t) (l1 : list nat) (p n : nat) (l2 : list nat) :
  eot_queue_is w ((l1 ++ [p]) ++ n :: l2) ->
  l1 <> [] ->
  files w !! f = Some s ->
  H5FL_CALLOC E (wlog w) = true ->
  eot_not_later_than w (end_of_tick s) p ->
  Forall (eot_later_than w (end_of_tick s)) (n :: l2) ->
  exists w',
    H5F_vfd_swmr_insert_entry_eot E f w = (w', Ok tt)
    /\ eot_inserted w f s ((l1 ++ [p]) ++ eot_brk w :: n :: l2) w'.
Proof.
  intros Hq Hl1 Hf Hcalloc Hp Hlater.
  rewrite (insert_entry_prefix E f w s Hf Hcalloc).
  set (ptrs := (l1 ++ [p]) ++ n :: l2) in *.
  pose proof (new_entry_fresh w ptrs Hq) as Hfresh.
  pose proof (new_entry_seg f s w ptrs Hq) as Hseg0.
  pose proof Hq as (Hnd & Hseg & Hh & Ht & Hbrk).
  assert (Hpin : p ∈ ptrs).
  { apply elem_of_app. left. apply elem_of_app. right. apply list_elem_of_here. }
  assert (Hnin : n ∈ ptrs).
  { apply elem_of_app. right. apply list_elem_of_here. }
  erewrite bind_run.
  2:{ rewrite Ht.
      apply (insert_scan_run (with_new_entry f s w) (end_of_tick s)
               (l1 ++ [p])) with (nxt := None).
      - intros q Hlast. rewrite last_snoc in Hlast. inversion Hlast; subst q.
        apply (new_entry_not_later f s w ptrs _ p Hq Hpin Hp).
      - exact Hseg0.
      - apply (new_entry_later f s w ptrs _ (n :: l2) Hq); [|exact Hlater].
        intros q Hin. apply elem_of_app. right. exact Hin.
      - eapply Nat.le_lt_trans; [|apply (new_entry_fuel f s w ptrs Hq)].
        unfold ptrs. rewrite !length_app. simpl. lia. }
  rewrite last_snoc.
  unfold ptrs in Hseg0. rewrite <- app_assoc in Hseg0. simpl in Hseg0.
  destruct (eot_seg_at _ _ _ _ Hseg0) as (ep & Hep & Hprev & Hnext).
  simpl in Hnext.
  destruct (snoc_case l1) as [->|(l1' & pp & ->)]; [contradiction|].
  rewrite last_or_snoc in Hprev.
  destruct (eot_seg_lookup _ _ _ _ n (new_entry_seg f s w ptrs Hq) Hnin)
    as [e_n Hen].
  assert (Hpnew : p <> eot_brk w) by (intros ->; contradiction).
  assert (Hnnew : n <> eot_brk w) by (intros ->; contradiction).
  assert (Hpn : p <> n).
  { intros ->. unfold ptrs in Hnd. apply NoDup_app in Hnd.
    destruct Hnd as (_ & Hdisj & _). apply (Hdisj n).
    - apply elem_of_app. right. apply list_elem_of_here.
    - apply list_elem_of_here. }
  erewrite bind_run.
  2:{ eapply (INSERT_AFTER_run_body (with_new_entry f s w) (eot_brk w) p pp n
                (eot_entry_for f s) ep e_n); try eassumption.
      simpl. apply lookup_insert_eq. }
  apply insert_finish; try reflexivity.
  - split.
    { apply NoDup_insert_middle; assumption. }
    split.
    { eot_simpl. unfold with_new_entry. eot_simpl.
      apply (eot_seg_insert _ _ _ _ _ _ (eot_entry_for f s));
        try assumption.
      - apply (new_entry_seg f s w ptrs Hq).
      - apply lookup_insert_eq. }
    split.
    { eot_simpl. unfold with_new_entry. eot_simpl. rewrite Hh. unfold ptrs.
      rewrite <- !app_assoc. destruct l1'; reflexivity. }
    split.
    { eot_simpl. unfold with_new_entry. eot_simpl. rewrite Ht. unfold ptrs.
      rewrite !last_app_cons. rewrite !last_or_cons. reflexivity. }
    eot_simpl. unfold with_new_entry. eot_simpl.
    apply Forall_app. unfold ptrs in Hbrk. apply Forall_app in Hbrk.
    destruct Hbrk as [Hb1 Hb2]. split.
    + eapply Forall_impl; [exact Hb1|]. simpl. intros x Hx. lia.
    + apply Forall_cons. split; [lia|].
      eapply Forall_impl; [exact Hb2|]. simpl. intros x Hx. lia.
  - unfold eot_payload_at, with_new_entry. eot_simpl.
    rewrite !payload_alter_next, !payload_alter_prev,
      !payload_alter_next, !payload_alter_prev.
    rewrite lookup_insert_eq. reflexivity.
  - intros q Hne. unfold eot_payload_at, with_new_entry. eot_simpl.
    rewrite !payload_alter_next, !payload_alter_prev,
      !payload_alter_next, !payload_alter_prev.
    rewrite lookup_insert_ne by congruence. reflexivity.
Qed.

Lemma INSERT_AFTER_run_head (w : world) (new p : nat) ep :
  eot_heap w !! p = Some ep -> eot_prev ep = None ->
  H5F_EOT_INSERT_AFTER new (Some p) w = H5F__LL_APPEND new w.
Proof.
  intros Hep Hprev. unfold H5F_EOT_INSERT_AFTER.
  rewrite bool_decide_eq_false_2 by discriminate.
  rewrite (bind_run _ _ _ _ _ (load_prev_run w p ep Hep)).
  rewrite Hprev. rewrite bool_decide_eq_true_2 by reflexivity. reflexivity.
Qed.

(** An entry whose predecessor is the head of the queue is appended at the
    tail of the queue: right after the head when the head is the only
    entry, behind the later entries when there are any. *)
Theorem eot_insert_entry_after_head (E : collaborators) (f : nat) (w : world)
    (s : H5F_shared_t) (p : nat) (l2 : list nat) :
  eot_queue_is w (p :: l2) ->
  files w !! f = Some s ->
  H5FL_CALLOC E (wlog w) = true ->
  eot_not_later_than w (end_of_tick s) p ->
  Forall (eot_later_than w (end_of_tick s)) l2 ->
  exists w',
    H5F_vfd_swmr_insert_entry_eot E f w = (w', Ok tt)
    /\ eot_inserted w f s ((p :: l2) ++ [eot_brk w]) w'.
Proof.
  intros Hq Hf Hcalloc Hp Hlater.
  rewrite (insert_entry_prefix E f w s Hf Hcalloc).
  set (ptrs := p :: l2) in *.
  pose proof (new_entry_fresh w ptrs Hq) as Hfresh.
  pose proof (new_entry_seg f s w ptrs Hq) as Hseg0.
  pose proof Hq as (Hnd & Hseg & Hh & Ht & Hbrk).
  assert (Hpin : p ∈ ptrs) by apply list_elem_of_here.
  erewrite bind_run.
  2:{ rewrite Ht.
      apply (insert_scan_run (with_new_entry f s w) (end_of_tick s) [p])
        with (nxt := None).
      - intros q Hlast. inversion Hlast; subst q.
        apply (new_entry_not_later f s w ptrs _ p Hq Hpin Hp).
      - exact Hseg0.
      - apply (new_entry_later f s w ptrs _ l2 Hq); [|exact Hlater].
        intros q Hin. apply list_elem_of_further. exact Hin.
      - eapply Nat.le_lt_trans; [|apply (new_entry_fuel f s w ptrs Hq)].
        unfold ptrs. simpl. lia. }
  simpl last.
  pose proof Hseg0 as Hseg0'. unfold ptrs in Hseg0'. simpl in Hseg0'.
  destruct Hseg0' as (ep & Hep & Hprev & _).
  destruct (last ptrs) as [t|] eqn:Hlast;
    [|apply last_None in Hlast; discriminate].
  pose proof Hlast as Hsnoc. apply last_Some in Hsnoc.
  destruct Hsnoc as [l Hl].
  assert (Htin : t ∈ ptrs).
  { rewrite Hl. apply elem_of_app. right. apply list_elem_of_here. }
  destruct (eot_seg_lookup _ _ _ _ t Hseg0 Htin) as [et Het].
  assert (Htnew : t <> eot_brk w) by (intros ->; contradiction).
  erewrite bind_run.
  2:{ rewrite (INSERT_AFTER_run_head (with_new_entry f s w) _ p ep Hep Hprev).
      eapply (LL_APPEND_run (with_new_entry f s w) (eot_brk w) p t
                (eot_entry_for f s) et); try eassumption.
      simpl. apply lookup_insert_eq. }
  apply insert_finish; try reflexivity.
  - split.
    { apply NoDup_app. split; [exact Hnd|]. split.
      - intros x Hx Hin. apply list_elem_of_singleton in Hin. subst x.
        contradiction.
      - apply NoDup_singleton. }
    split.
    { eot_simpl. unfold with_new_entry. eot_simpl. rewrite Hl.
      apply (eot_seg_append _ _ _ _ (eot_entry_for f s)).
      - rewrite <- Hl. apply (new_entry_seg f s w ptrs Hq).
      - apply lookup_insert_eq.
      - reflexivity.
      - rewrite <- Hl. exact Hfresh.
      - rewrite Hl in Hnd. apply NoDup_app in Hnd.
        destruct Hnd as (_ & Hdisj & _). intros Hin.
        apply (Hdisj t Hin). apply list_elem_of_here. }
    split; [eot_simpl; unfold with_new_entry; eot_simpl; exact Hh|].
    split; [eot_simpl; rewrite last_snoc; reflexivity|].
    eot_simpl. unfold with_new_entry. eot_simpl.
    apply Forall_app. split.
    + eapply Forall_impl; [exact Hbrk|]. simpl. intros x Hx. lia.
    + apply Forall_cons. split; [lia | apply Forall_nil; exact I].
  - unfold eot_payload_at, with_new_entry. eot_simpl.
    rewrite payload_alter_prev, payload_alter_next.
    rewrite lookup_insert_eq. reflexivity.
  - intros q Hne. unfold eot_payload_at, with_new_entry. eot_simpl.
    rewrite payload_alter_prev, payload_alter_next.
    rewrite lookup_insert_ne by congruence. reflexivity.
Qed.

(** An entry whose predecessor is the tail of a queue of two or more
    entries cannot be inserted: the macro follows the null [next] of the
    tail, and the call stops on that dereference. *)
Theorem eot_insert_entry_after_tail_faults (E : collaborators) (f : nat)
    (w : world) (s : H5F_shared_t) (l1 : list nat) (p : nat) :
  eot_queue_is w (l1 ++ [p]) ->
  l1 <> [] ->
  files w !! f = Some s ->
  H5FL_CALLOC E (wlog w) = true ->
  eot_not_later_than w (end_of_tick s) p ->
  snd (H5F_vfd_swmr_insert_entry_eot E f w) = MemFault.
Proof.
  intros Hq Hl1 Hf Hcalloc Hp.
  rewrite (insert_entry_prefix E f w s Hf Hcalloc).
  set (ptrs := l1 ++ [p]) in *.
  pose proof (new_entry_fresh w ptrs Hq) as Hfresh.
  pose proof (new_entry_seg f s w ptrs Hq) as Hseg0.
  pose proof Hq as (Hnd & Hseg & Hh & Ht & Hbrk).
  assert (Hpin : p ∈ ptrs).
  { apply elem_of_app. right. apply list_elem_of_here. }
  erewrite bind_run.
  2:{ rewrite Ht.
      replace (last ptrs) with (last ((l1 ++ [p]) ++ []))
        by (rewrite app_nil_r; reflexivity).
      apply (insert_scan_run (with_new_entry f s w) (end_of_tick s)
               (l1 ++ [p]) ) with (l2 := []) (nxt := None).
      - intros q Hlast. rewrite last_snoc in Hlast. inversion Hlast; subst q.
        apply (new_entry_not_later f s w ptrs _ p Hq Hpin Hp).
      - rewrite app_nil_r. exact Hseg0.
      - apply Forall_nil. exact I.
      - simpl. lia. }
  rewrite last_snoc.
  destruct (eot_seg_at _ _ _ _ Hseg0) as (ep & Hep & Hprev & Hnext).
  simpl in Hnext.
  destruct (snoc_case l1) as [->|(l1' & pp & ->)]; [contradiction|].
  rewrite last_or_snoc in Hprev.
  assert (Hpnew : p <> eot_brk w) by (intros ->; contradiction).
  unfold bind at 1.
  pose proof (INSERT_AFTER_run_tail (with_new_entry f s w) (eot_brk w) p pp
                (eot_entry_for f s) ep Hep ltac:(simpl; apply lookup_insert_eq)
                Hprev Hnext Hpnew) as Hfault.
  destruct (H5F_EOT_INSERT_AFTER (eot_brk w) (Some p) (with_new_entry f s w))
    as [w2 r2]. simpl in Hfault. subst r2. reflexivity.
Qed.

(** ** The queue routines on sample processes *)

Ltac queue_by_computation :=
  unfold eot_queue_is;
  split; [apply (bool_decide_unpack _); vm_compute; exact I|];
  split; [simpl;
          repeat (eexists; split; [vm_compute; reflexivity|];
                  split; [reflexivity|]; split; [reflexivity|]);
          exact I|];
  split; [vm_compute; reflexivity|];
  split; [vm_compute; reflexivity|];
  repeat (apply Forall_cons; split; [vm_compute; lia|]);
  apply Forall_nil; exact I.

Ltac deadline_by_computation :=
  eexists; split; vm_compute; reflexivity.

(** Files 2, 1 and 0 of [four_files] are queued in this order; the entry
    of file 1 is then removed. *)
Lemma eot_remove_entry_unlinks_witness :
  exists w',
    H5F_vfd_swmr_remove_entry_eot 1%nat
      (queued [2%nat; 1%nat; 0%nat] four_files) = (w', Ok tt)
    /\ eot_queue_is w' [3%nat; 1%nat].
Proof.
  destruct (eot_remove_entry_unlinks 1%nat
              (queued [2%nat; 1%nat; 0%nat] four_files)
              [3%nat; 2%nat; 1%nat])
    as (w' & Hrun & Hq & _).
  - queue_by_computation.
  - exists w'. split; [exact Hrun | exact Hq].
Defined.

(** File 1 (150 ms) joins a queue that holds file 2 (200 ms). *)
Lemma eot_insert_entry_at_head_witness :
  exists w',
    H5F_vfd_swmr_insert_entry_eot E_ok 1%nat (queued [2%nat] four_files)
    = (w', Ok tt)
    /\ eot_queue_is w' [2%nat; 1%nat].
Proof.
  destruct (eot_insert_entry_at_head E_ok 1%nat (queued [2%nat] four_files)
              (with_end_of_tick (deadline_ms 150) (sample_writer 1 None 0 []))
              [1%nat])
    as (w' & Hrun & Hq & _).
  - queue_by_computation.
  - reflexivity.
  - reflexivity.
  - apply Forall_cons. split; [deadline_by_computation|].
    apply Forall_nil. exact I.
  - exists w'. split; [exact Hrun | exact Hq].
Defined.

(** File 3 (175 ms) joins the queue 100, 150, 200 ms. *)
Lemma eot_insert_entry_in_body_witness :
  exists w',
    H5F_vfd_swmr_insert_entry_eot E_ok 3%nat
      (queued [2%nat; 1%nat; 0%nat] four_files) = (w', Ok tt)
    /\ eot_queue_is w' [3%nat; 2%nat; 4%nat; 1%nat].
Proof.
  destruct (eot_insert_entry_in_body E_ok 3%nat
              (queued [2%nat; 1%nat; 0%nat] four_files)
              (with_end_of_tick (deadline_ms 175) (sample_writer 1 None 0 []))
              [3%nat] 2%nat 1%nat [])
    as (w' & Hrun & Hq & _).
  - queue_by_computation.
  - discriminate.
  - reflexivity.
  - reflexivity.
  - deadline_by_computation.
  - apply Forall_cons. split; [deadline_by_computation|].
    apply Forall_nil. exact I.
  - exists w'. split; [exact Hrun | exact Hq].
Defined.

(** File 3 (175 ms) joins the queue 100, 200 ms: its entry ends up behind
    the one for 200 ms. *)
Lemma eot_insert_entry_after_head_witness :
  exists w',
    H5F_vfd_swmr_insert_entry_eot E_ok 3%nat
      (queued [2%nat; 0%nat] four_files) = (w', Ok tt)
    /\ eot_queue_is w' [2%nat; 1%nat; 3%nat]
    /\ eot_later_than w' (deadline_ms 175) 1%nat.
Proof.
  destruct (eot_insert_entry_after_head E_ok 3%nat
              (queued [2%nat; 0%nat] four_files)
              (with_end_of_tick (deadline_ms 175) (sample_writer 1 None 0 []))
              2%nat [1%nat])
    as (w' & Hrun & Hq & _ & Hpay & _).
  - queue_by_computation.
  - reflexivity.
  - reflexivity.
  - deadline_by_computation.
  - apply Forall_cons. split; [deadline_by_computation|].
    apply Forall_nil. exact I.
  - exists w'. split; [exact Hrun|]. split; [exact Hq|].
    assert (Hone : eot_payload_at w' 1%nat
                   = Some (true, 1, deadline_ms 200, 2%nat)).
    { rewrite Hpay by (vm_compute; lia). vm_compute. reflexivity. }
    unfold eot_payload_at in Hone.
    destruct (eot_heap w' !! 1%nat) as [e|] eqn:He; [|discriminate].
    exists e. split; [exact He|].
    simpl in Hone. injection Hone as Hw Htick Hd Hfile.
    rewrite Hd. vm_compute. reflexivity.
Defined.

(** File 2 (200 ms) cannot join the queue 100, 150 ms. *)
Lemma eot_insert_entry_after_tail_faults_witness :
  snd (H5F_vfd_swmr_insert_entry_eot E_ok 2%nat
         (queued [1%nat; 0%nat] four_files)) = MemFault.
Proof.
  apply (eot_insert_entry_after_tail_faults E_ok 2%nat
           (queued [1%nat; 0%nat] four_files)
           (with_end_of_tick (deadline_ms 200) (sample_writer 1 None 0 []))
           [2%nat] 1%nat).
  - queue_by_computation.
  - discriminate.
  - reflexivity.
  - reflexivity.
  - deadline_by_computation.
Defined.

(** ** The holding tank of freed space *)

Lemma tank_seg_push heap fs e tl et : forall l,
  tank_seg heap (l ++ [tl]) ->
  heap !! tl = Some et ->
  fs ∉ l ++ [tl] ->
  NoDup (l ++ [tl]) ->
  tank_seg (<[fs := with_fs_next None e]>
              (<[tl := with_fs_next (Some fs) et]> heap))
    (l ++ [tl; fs]).
Proof.
  induction l as [|a l IH]; intros Hseg Htl Hfs Hnd.
  - assert (fs <> tl) by (intros ->; apply Hfs; left).
    simpl. repeat split.
    + exists (with_fs_next (Some fs) et).
      rewrite lookup_insert_ne, lookup_insert_eq by congruence.
      split; reflexivity.
    + exists (with_fs_next None e). rewrite lookup_insert_eq.
      split; reflexivity.
  - simpl in Hseg. destruct Hseg as [(ea & Ha & Hnext) Hseg].
    apply NoDup_cons in Hnd. destruct Hnd as [Hal Hnd].
    assert (a <> fs) by (intros ->; apply Hfs; left).
    assert (a <> tl).
    { intros ->. apply Hal, elem_of_app. right. left. }
    simpl. split.
    + exists ea. rewrite !lookup_insert_ne by congruence.
      split; [exact Ha|]. rewrite Hnext. destruct l; reflexivity.
    + apply IH; try assumption.
      intros Hin. apply Hfs. right. exact Hin.
Qed.

Lemma tank_seg_last heap : forall ptrs tl,
  tank_seg heap ptrs -> last ptrs = Some tl ->
  exists e, heap !! tl = Some e /\ fs_next e = None.
Proof.
  induction ptrs as [|p rest IH]; intros tl Hseg Hlast; [discriminate|].
  destruct Hseg as [(e & He & Hnext) Hseg].
  destruct rest as [|r rest].
  - injection Hlast as <-. exists e. split; assumption.
  - apply IH; assumption.
Qed.

Lemma payload_insert (heap : gmap nat H5MF_freedspace_t) p e v q :
  heap !! p = Some e ->
  fs_payload <$> <[p := with_fs_next v e]> heap !! q
  = fs_payload <$> heap !! q.
Proof.
  intros He. destruct (decide (p = q)) as [->|Hne].
  - rewrite lookup_insert_eq, He. reflexivity.
  - rewrite lookup_insert_ne by exact Hne. reflexivity.
Qed.

Lemma u64_difference now ts limit :
  0 <= now < 2 ^ 64 -> 0 <= ts < 2 ^ 64 ->
  (limit < u64 (now - ts)
   <-> (ts <= now /\ limit < now - ts)
       \/ (now < ts /\ limit < 2 ^ 64 - (ts - now))).
Proof.
  intros Hn Ht. unfold u64.
  destruct (Z_le_gt_dec ts now) as [Hle|Hgt].
  - rewrite Z.mod_small by lia. lia.
  - replace (now - ts) with (2 ^ 64 - (ts - now) + (-1) * 2 ^ 64) by lia.
    rewrite Z.mod_add by lia. rewrite Z.mod_small by lia. lia.
Qed.

(** A push onto a well-formed tank appends: the object that was not in the
    tank becomes its last entry, behind the entries that were there, in
    their order, and no object changes in anything but its link.  On the
    empty tank this needs the link of the object to be null already, for
    that branch does not write it. *)
Theorem freedspace_push_appends (t : freedspace_tank) (ptrs : list nat)
    (fs : nat) (e : H5MF_freedspace_t) :
  tank_is t ptrs ->
  fs ∉ ptrs ->
  tank_heap t !! fs = Some e ->
  (ptrs = [] -> fs_next e = None) ->
  exists t',
    H5MF__freedspace_push (Some fs) t = (t', Ok tt)
    /\ tank_is t' (ptrs ++ [fs])
    /\ forall q, fs_payload <$> tank_heap t' !! q
                 = fs_payload <$> tank_heap t !! q.
Proof.
  intros (Hnd & Hseg & Hhead & Htail) Hfs He Hnull.
  unfold H5MF__freedspace_push.
  destruct ptrs as [|p rest _] using rev_ind.
  - simpl in Hhead. unfold bind, HDassert, get, put. simpl.
    rewrite Hhead. eexists. split; [reflexivity|]. split.
    + repeat split; simpl.
      * apply NoDup_singleton.
      * exists e. split; [exact He | apply Hnull; reflexivity].
    + intros q. reflexivity.
  - rename p into tl, rest into l.
    rewrite last_snoc in Htail.
    destruct (tank_seg_last _ _ tl Hseg (last_snoc _ _)) as (et & Het & _).
    assert (Hne : fs <> tl).
    { intros ->. apply Hfs, elem_of_app. right. left. }
    assert (Hh : exists h, freedspace_head t = Some h).
    { rewrite Hhead. destruct l; eexists; reflexivity. }
    destruct Hh as [h Hh].
    unfold store_fs_next.
    unfold bind, HDassert, get, put, modify, deref, ret.
    simpl. rewrite Hh, Htail. simpl. rewrite Het. simpl.
    rewrite lookup_insert_ne, He by congruence. simpl.
    eexists. split; [reflexivity|]. split.
    + repeat split; simpl.
      * apply NoDup_app. split; [exact Hnd|]. split.
        -- intros x Hx Hx'. apply list_elem_of_singleton in Hx'. subst x.
           exact (Hfs Hx).
        -- apply NoDup_singleton.
      * rewrite <- app_assoc. simpl.
        apply tank_seg_push; assumption.
      * rewrite Hhead. destruct l; reflexivity.
      * rewrite last_snoc. reflexivity.
    + intros q. simpl. rewrite payload_insert.
      * apply payload_insert. exact Het.
      * rewrite lookup_insert_ne by congruence. exact He.
Qed.

Lemma freedspace_push_appends_witness :
  tank_is (pushed [1; 2]%nat sample_tank) [1; 2]%nat
  /\ exists t',
       H5MF__freedspace_push (Some 3%nat) (pushed [1; 2]%nat sample_tank)
       = (t', Ok tt)
       /\ tank_is t' [1; 2; 3]%nat.
Proof.
  assert (Hwf : tank_is (pushed [1; 2]%nat sample_tank) [1; 2]%nat).
  { repeat split.
    - apply (bool_decide_unpack _). vm_compute. reflexivity.
    - eexists. split; [vm_compute; reflexivity | reflexivity].
    - eexists. split; [vm_compute; reflexivity | reflexivity]. }
  split; [exact Hwf|].
  destruct (freedspace_push_appends (pushed [1; 2]%nat sample_tank)
              [1; 2]%nat 3%nat
              {| fs_f := 0%nat; fs_alloc_type := H5FD_MEM_DRAW;
                 fs_addr := 12288; fs_size := 512; fs_timestamp := 2000;
                 fs_next := None |} Hwf)
    as (t' & Hrun & Hnew & _).
  - apply (bool_decide_unpack _). vm_compute. reflexivity.
  - vm_compute. reflexivity.
  - discriminate.
  - exists t'. split; [exact Hrun | exact Hnew].
Defined.

(** The branch of the push for an empty tank leaves the link of the object
    as it finds it: an object that still points to [n] becomes head and
    tail with [n] behind it, and the tank is no chain from head to tail
    any more. *)
Theorem freedspace_push_on_empty_keeps_link (t : freedspace_tank)
    (fs n : nat) (e : H5MF_freedspace_t) :
  freedspace_head t = None ->
  tank_heap t !! fs = Some e ->
  fs_next e = Some n ->
  exists t',
    H5MF__freedspace_push (Some fs) t = (t', Ok tt)
    /\ freedspace_head t' = Some fs
    /\ freedspace_tail t' = Some fs
    /\ tank_heap t' !! fs = Some e
    /\ forall ptrs, ~ tank_is t' ptrs.
Proof.
  intros Hhead He Hn.
  unfold H5MF__freedspace_push, bind, HDassert, get, put. simpl.
  rewrite Hhead. eexists. split; [reflexivity|]. simpl.
  repeat split; try assumption.
  intros ptrs (Hnd & Hseg & Hh & Htl). simpl in *.
  symmetry in Htl.
  destruct (tank_seg_last _ _ _ Hseg Htl) as (e' & He' & Hnull).
  rewrite He in He'. injection He' as <-. congruence.
Qed.

Lemma freedspace_push_on_empty_keeps_link_witness :
  let t := pushed [1; 2]%nat sample_tank in
  let t0 := {| tank_heap := tank_heap t; freedspace_head := None;
               freedspace_tail := None |} in
  exists t',
    H5MF__freedspace_push (Some 1%nat) t0 = (t', Ok tt)
    /\ freedspace_head t' = Some 1%nat
    /\ freedspace_tail t' = Some 1%nat
    /\ fs_next <$> tank_heap t' !! 1%nat = Some (Some 2%nat).
Proof.
  intros t t0.
  destruct (freedspace_push_on_empty_keeps_link t0 1%nat 2%nat
              {| fs_f := 0%nat; fs_alloc_type := H5FD_MEM_DRAW;
                 fs_addr := 4096; fs_size := 512; fs_timestamp := 1000;
                 fs_next := Some 2%nat |})
    as (t' & Hrun & Hh & Htl & He & _).
  - reflexivity.
  - vm_compute. reflexivity.
  - reflexivity.
  - exists t'. split; [exact Hrun|]. split; [exact Hh|].
    split; [exact Htl|]. rewrite He. reflexivity.
Defined.

(** The dequeue looks at the head only.  On the empty tank it hands back
    null.  Otherwise it hands back the head, and leaves the entries behind
    it as the tank, exactly when the head has been held for more than the
    limit -- where a clock reading earlier than the time stamp counts as
    a long time, the difference being unsigned; if the head has not been
    held that long, the tank stays as it is and the caller's pointer is
    left as it was, not set to null. *)
Theorem freedspace_dequeue_head_only (t : freedspace_tank)
    (ptrs : list nat) (now_time time_limit : Z) (freedspace : option nat) :
  tank_is t ptrs ->
  tank_stamped t ->
  0 <= now_time < 2 ^ 64 ->
  let r := H5MF__freedspace_dequeue_time_limit now_time freedspace
             time_limit t in
  match ptrs with
  | [] => r = (t, Ok None)
  | p :: rest =>
      exists e,
        tank_heap t !! p = Some e
        /\ (held_longer_than now_time time_limit e ->
            exists t', r = (t', Ok (Some p))
                       /\ tank_is t' rest
                       /\ tank_heap t' = tank_heap t)
        /\ (~ held_longer_than now_time time_limit e ->
            r = (t, Ok freedspace))
  end.
Proof.
  intros (Hnd & Hseg & Hhead & Htail) Hst Hnow r. subst r.
  unfold H5MF__freedspace_dequeue_time_limit.
  destruct ptrs as [|p rest].
  - simpl in Hhead. unfold bind, get. simpl. rewrite Hhead. reflexivity.
  - simpl in Hhead. destruct Hseg as [(e & He & Hnext) Hseg].
    exists e. split; [exact He|].
    pose proof (Hst p e He) as Hts. simpl in Hts.
    pose proof (u64_difference now_time (fs_timestamp e) time_limit
                  Hnow Hts) as Hiff.
    unfold bind, get, deref, ret, put. simpl. rewrite Hhead. simpl.
    rewrite He. simpl.
    apply NoDup_cons in Hnd. destruct Hnd as [_ Hnd].
    split.
    + intros Hheld. apply Hiff, Z.ltb_lt in Hheld. rewrite Hheld.
      rewrite Hnext. destruct rest as [|q rest]; simpl.
      * eexists. split; [reflexivity|]. repeat split; simpl; auto.
      * eexists. split; [reflexivity|]. repeat split; simpl; auto.
        destruct Hseg as [Hq Hseg]. exact Hq.
        destruct Hseg as [_ Hseg]. exact Hseg.
    + intros Hnot.
      destruct (Z.ltb_spec time_limit (u64 (now_time - fs_timestamp e)))
        as [Hlt|_]; [|destruct t; reflexivity].
      exfalso. apply Hnot, Hiff. exact Hlt.
Qed.

Lemma freedspace_dequeue_head_only_witness :
  let t := pushed [1; 2; 3]%nat sample_tank in
  (exists t',
      H5MF__freedspace_dequeue_time_limit 3000 None 1800 t
      = (t', Ok (Some 1%nat))
      /\ tank_is t' [2; 3]%nat)
  /\ H5MF__freedspace_dequeue_time_limit 2500 (Some 7%nat) 1800 t
     = (t, Ok (Some 7%nat))
  /\ exists t',
       H5MF__freedspace_dequeue_time_limit 500 None 1800 t
       = (t', Ok (Some 1%nat))
       /\ tank_is t' [2; 3]%nat.
Proof.
  intros t.
  assert (Hwf : tank_is t [1; 2; 3]%nat).
  { repeat split.
    - apply (bool_decide_unpack _). vm_compute. reflexivity.
    - eexists. split; [vm_compute; reflexivity | reflexivity].
    - eexists. split; [vm_compute; reflexivity | reflexivity].
    - eexists. split; [vm_compute; reflexivity | reflexivity]. }
  assert (Hst : tank_stamped t).
  { apply (bool_decide_unpack _). vm_compute. reflexivity. }
  split; [|split].
  - destruct (freedspace_dequeue_head_only t [1; 2; 3]%nat 3000 1800 None
                Hwf Hst ltac:(lia)) as (e & He & Hyes & _).
    vm_compute in He. injection He as <-.
    destruct Hyes as (t' & Hrun & Hrest & _).
    + left. simpl. lia.
    + exists t'. split; [exact Hrun | exact Hrest].
  - destruct (freedspace_dequeue_head_only t [1; 2; 3]%nat 2500 1800
                (Some 7%nat) Hwf Hst ltac:(lia)) as (e & He & _ & Hno).
    vm_compute in He. injection He as <-.
    apply Hno. intros [[H1 H2]|[H1 H2]]; simpl in *; lia.
  - destruct (freedspace_dequeue_head_only t [1; 2; 3]%nat 500 1800 None
                Hwf Hst ltac:(lia)) as (e & He & Hyes & _).
    vm_compute in He. injection He as <-.
    destruct Hyes as (t' & Hrun & Hrest & _).
    + right. simpl. lia.
    + exists t'. split; [exact Hrun | exact Hrest].
Defined.

(** ** The ring around the insertion of a freedspace object *)

Lemma ring_in_force_app ring0 l1 l2 :
  ring_in_force ring0 (l1 ++ l2) = ring_in_force (ring_in_force ring0 l1) l2.
Proof. unfold ring_in_force. apply fold_left_app. Qed.

(** [H5MF__freedspace_new] leaves the API context in the ring it found it
    in, whatever its outcome: when it has set the ring of the freed space
    for the insertion it sets the former ring again at [done], also when
    the cache has refused the entry.  (The former ring is what
    [H5AC_set_ring] answers; the invalid ring is never set back.) *)
Theorem freedspace_new_restores_ring (E : cache_env)
    (ctx : H5MF_freedspace_ctx_t) (l : list cache_call) (ring0 : Z) :
  (forall pre, Forall sets_no_ring pre ->
               H5AC_set_ring E (l ++ pre) (ctx_ring ctx) = ring0) ->
  ring0 <> H5AC_RING_INV E ->
  exists calls,
    fst (H5MF__freedspace_new E ctx l) = l ++ calls
    /\ ring_in_force ring0 calls = ring0
    /\ (snd (H5MF__freedspace_new E ctx l)
        = Error "unable to insert freedspace" ->
        exists pre tmp fs,
          calls = pre ++ [CallSetRing (ctx_ring ctx);
                          CallInsertEntry (ctx_f ctx) H5AC_FREEDSPACE_ID
                            tmp fs false;
                          CallSetRing ring0]).
Proof.
  intros Hring Hinv.
  unfold H5MF__freedspace_new, bind, ccall, check, ret, throw. simpl.
  destruct (H5FL_CALLOC_H5MF_freedspace_t E l) eqn:Hcalloc; simpl.
  2:{ exists [CallCalloc false]. split; [reflexivity|].
      split; [reflexivity | discriminate]. }
  destruct (H5MF_alloc_tmp E (l ++ [CallCalloc true]) (ctx_f ctx) 1)
    as [tmp|] eqn:Htmp; simpl.
  2:{ exists [CallCalloc true; CallAllocTmp (ctx_f ctx) 1 None].
      rewrite <- app_assoc. split; [reflexivity|].
      split; [reflexivity | discriminate]. }
  rewrite <- !app_assoc. simpl.
  rewrite (Hring [CallCalloc true; CallAllocTmp (ctx_f ctx) 1 (Some tmp)])
    by (repeat constructor).
  destruct (Z.eqb_spec ring0 (H5AC_RING_INV E)) as [Heq|_];
    [contradiction|].
  simpl.
  match goal with
  | |- context [H5AC_insert_entry E ?l0 ?f ?a ?fs] =>
      destruct (H5AC_insert_entry E l0 f a fs) eqn:Hins; simpl
  end.
  - eexists. rewrite <- !app_assoc. simpl. split; [reflexivity|].
    split; [reflexivity | discriminate].
  - eexists. rewrite <- !app_assoc. simpl. split; [reflexivity|].
    split; [reflexivity|]. intros _.
    exists [CallCalloc true; CallAllocTmp (ctx_f ctx) 1 (Some tmp)].
    eexists. eexists. reflexivity.
Qed.

Lemma freedspace_new_restores_ring_witness :
  exists calls,
    fst (H5MF__freedspace_new (E_no_insert sample_cache sample_types)
           sample_ctx [])
    = [] ++ calls
    /\ ring_in_force 1 calls = 1
    /\ last calls = Some (CallSetRing 1)
    /\ In (CallSetRing 3) calls.
Proof.
  destruct (freedspace_new_restores_ring
              (E_no_insert sample_cache sample_types) sample_ctx [] 1)
    as (calls & Hrun & Hring & Hfail).
  - intros pre _. reflexivity.
  - discriminate.
  - exists calls. split; [exact Hrun|]. split; [exact Hring|].
    destruct Hfail as (pre & tmp & fs & ->); [vm_compute; reflexivity|].
    split.
    + rewrite last_app. reflexivity.
    + apply in_or_app. right. left. reflexivity.
Defined.

(** ** The counter of the delayed list through a publication *)

Lemma preserves_bind {A B} I (m : M fstate A) (k : A -> M fstate B) :
  preserves I m -> (forall a, preserves I (k a)) -> preserves I (bind m k).
Proof.
  intros Hm Hk st HI. unfold bind.
  specialize (Hm st HI). destruct (m st) as [st1 [a| | | |]]; simpl in *;
    try exact Hm.
  apply Hk. exact Hm.
Qed.

Lemma preserves_fixed {A} I (m : M fstate A) :
  (forall st, sh (fst (m st)) = sh st) -> preserves I m.
Proof. intros H st HI. rewrite H. exact HI. Qed.

Lemma preserves_or_error {A} I msg (m : M fstate A) :
  preserves I m -> preserves I (or_error msg m).
Proof.
  intros Hm st HI. specialize (Hm st HI). unfold or_error.
  destruct (m st) as [st1 [a| | | |]]; exact Hm.
Qed.

Lemma preserves_set_shared I (g : H5F_shared_t -> H5F_shared_t) :
  (forall s, I s -> I (g s)) -> preserves I (set_shared g).
Proof. intros H st HI. apply H. exact HI. Qed.

Lemma preserves_check I msg ok : preserves I (@check fstate msg ok).
Proof. apply preserves_fixed. intros st. destruct ok; reflexivity. Qed.

Lemma preserves_deref {A} I (p : option A) : preserves I (@deref fstate A p).
Proof. apply preserves_fixed. intros st. destruct p; reflexivity. Qed.

Lemma preserves_index_read I i : preserves I (index_read i).
Proof.
  apply preserves_fixed. intros st.
  unfold index_read, bind, get_shared, deref, ret, fault.
  destruct (mdf_idx (sh st)); simpl; [|reflexivity].
  destruct (i <? 0); simpl; [reflexivity|].
  destruct (_ !! _); reflexivity.
Qed.

Lemma preserves_index_write i e : preserves counts_dl (index_write i e).
Proof.
  intros st HI.
  unfold index_write, bind, get_shared, deref, ret, fault, set_shared.
  destruct (mdf_idx (sh st)); simpl; [|exact HI].
  destruct (_ && _); simpl; exact HI.
Qed.

Ltac pres_step :=
  first [ apply preserves_check
        | apply preserves_deref
        | apply preserves_index_read
        | apply preserves_index_write
        | apply preserves_fixed; intros ?; reflexivity ].

Lemma preserves_publish_entry E i : preserves counts_dl (publish_entry E i).
Proof.
  unfold publish_entry.
  apply preserves_bind; [pres_step|]. intros e.
  destruct (entry_ptr e) as [image|]; [|pres_step].
  apply preserves_bind.
  { destruct (md_file_page_offset e =? 0); [pres_step|].
    apply preserves_bind; [pres_step|]. intros ok.
    apply preserves_bind; [pres_step|]. intros _.
    intros st HI. unfold bind, get_shared, set_shared, counts_dl in *.
    simpl. rewrite HI. lia. }
  intros _. apply preserves_bind; [pres_step|]. intros md_addr.
  destruct md_addr as [md_addr|]; [|pres_step].
  apply preserves_bind; [pres_step|]. intros s.
  apply preserves_bind; [apply preserves_index_write|]. intros _.
  apply preserves_bind; [pres_step|]. intros ok.
  apply preserves_bind; [pres_step|]. intros _.
  apply preserves_bind; [pres_step|]. intros ok'.
  apply preserves_bind; [pres_step|]. intros _.
  apply preserves_bind; [apply preserves_index_read|]. intros e'.
  apply preserves_index_write.
Qed.

Lemma preserves_publish_entries E : forall k i,
  preserves counts_dl (publish_entries E k i).
Proof.
  induction k as [|k IH]; intros i; [pres_step|].
  cbn [publish_entries].
  apply preserves_bind; [apply preserves_publish_entry|]. intros _. apply IH.
Qed.

Lemma preserves_release_delayed E : forall k,
  preserves counts_dl (release_delayed E k).
Proof.
  induction k as [|k IH]; [pres_step|].
  cbn [release_delayed]. intros st HI.
  unfold bind at 1. unfold get_shared at 1. simpl.
  unfold bind at 1.
  destruct (dl (sh st) !! k) as [d|] eqn:Hd; simpl; [|exact HI].
  destruct (timed_out (sh st) d); [|exact HI].
  unfold bind at 1. unfold call at 1. simpl.
  unfold bind at 1.
  match goal with |- context [check ?m ?b] => destruct b end; simpl;
    [|exact HI].
  unfold bind at 1. unfold get_shared at 1. simpl.
  unfold bind at 1. unfold set_shared at 1. simpl.
  apply IH. unfold counts_dl in *. simpl.
  rewrite length_delete by (eexists; exact Hd).
  apply lookup_lt_Some in Hd. rewrite HI. lia.
Qed.

Lemma preserves_sort_index n : preserves counts_dl (sort_index n).
Proof.
  intros st HI. unfold sort_index, bind, get_shared, deref, fault, set_shared.
  destruct (mdf_idx (sh st)); simpl; [|exact HI].
  destruct (_ <? _); exact HI.
Qed.

(** Whatever the outcome of a publication -- complete, or cut short by an
    error at any step -- the counter [dl_len] still gives the number of
    entries on the delayed list, if it did before: every entry prepended
    and every entry released is counted at once. *)
Theorem publication_counts_delayed_list (E : collaborators) (n : Z)
    (index : bool) (st : fstate) :
  dl_len (sh st) = Z.of_nat (length (dl (sh st))) ->
  let s' := sh (fst (H5F_update_vfd_swmr_metadata_file E n index st)) in
  dl_len s' = Z.of_nat (length (dl s')).
Proof.
  revert st. change (preserves counts_dl
                       (H5F_update_vfd_swmr_metadata_file E n index)).
  unfold H5F_update_vfd_swmr_metadata_file.
  apply preserves_bind.
  { destruct (n =? 0); [pres_step|].
    apply preserves_bind; [pres_step|]. intros s.
    apply preserves_bind; [pres_step|]. intros _.
    apply preserves_sort_index. }
  intros _. apply preserves_bind.
  { destruct (n =? 0); [pres_step|].
    apply preserves_bind; [pres_step|]. intros s.
    apply preserves_bind; [pres_step|]. intros _.
    apply preserves_publish_entries. }
  intros _. apply preserves_bind; [pres_step|]. intros s.
  apply preserves_bind.
  { apply preserves_or_error, preserves_fixed.
    apply construct_write_md_idx_keeps. }
  intros _. apply preserves_bind.
  { apply preserves_or_error, preserves_fixed.
    apply construct_write_md_hdr_keeps. }
  intros _. apply preserves_bind; [pres_step|]. intros s'.
  apply preserves_release_delayed.
Qed.

Lemma publication_counts_delayed_list_witness :
  let st := {| sh := sample_writer 5 (Some sample_index) 3
                       [sample_dl_entry 24 2; sample_dl_entry 23 1];
               log := [] |} in
  let s' := sh (fst (H5F_update_vfd_swmr_metadata_file E_ok 3 true st)) in
  dl_len (sh st) = 2 /\ dl_len s' = Z.of_nat (length (dl s')).
Proof.
  intros st s'. split; [reflexivity|].
  apply (publication_counts_delayed_list E_ok 3 true st). reflexivity.
Defined.

(** ** Routines on the queue make no call *)

Lemma wlog_fixed_bind {A B} (m : M world A) (k : A -> M world B) :
  wlog_fixed m -> (forall a, wlog_fixed (k a)) -> wlog_fixed (bind m k).
Proof.
  intros Hm Hk w. unfold bind. pose proof (Hm w) as H1.
  destruct (m w) as [w1 [a| | | |]]; simpl in *; try exact H1.
  rewrite Hk. exact H1.
Qed.

Lemma wlog_fixed_get_bind {A} (k : world -> M world A) :
  (forall w, wlog (fst (k w w)) = wlog w) -> wlog_fixed (bind get k).
Proof. intros H w. unfold bind, get. apply H. Qed.

Lemma wlog_fixed_ret {A} (a : A) : wlog_fixed (ret a).
Proof. intros w. reflexivity. Qed.

Lemma wlog_fixed_deref {A} (p : option A) : wlog_fixed (deref p).
Proof. intros w. destruct p; reflexivity. Qed.

Lemma wlog_fixed_check msg b : wlog_fixed (check msg b).
Proof. intros w. destruct b; reflexivity. Qed.

Lemma wlog_fixed_HDassert b : wlog_fixed (HDassert b).
Proof. intros w. reflexivity. Qed.

Lemma wlog_fixed_or_error {A} msg (m : M world A) :
  wlog_fixed m -> wlog_fixed (or_error msg m).
Proof.
  intros Hm w. unfold or_error. pose proof (Hm w) as H.
  destruct (m w) as [w1 []]; exact H.
Qed.

Lemma wlog_fixed_out_of_fuel {A} :
  wlog_fixed (fun w : world => (w, @OutOfFuel A)).
Proof. intros w. reflexivity. Qed.

Lemma wlog_fixed_modify g :
  (forall w, wlog (g w) = wlog w) -> wlog_fixed (modify g).
Proof. intros H w. apply H. Qed.

Lemma wlog_fixed_eot_load p : wlog_fixed (eot_load p).
Proof.
  apply wlog_fixed_get_bind. intros w. destruct (eot_heap w !! p); reflexivity.
Qed.

Lemma wlog_fixed_eot_store p e : wlog_fixed (eot_store p e).
Proof.
  apply wlog_fixed_get_bind. intros w. unfold bind, deref, put, ret, fault.
  destruct (eot_heap w !! p); reflexivity.
Qed.

Lemma wlog_fixed_get_head : wlog_fixed get_head.
Proof. intros w. reflexivity. Qed.

Lemma wlog_fixed_get_tail : wlog_fixed get_tail.
Proof. intros w. reflexivity. Qed.

Lemma wlog_fixed_set_head v : wlog_fixed (set_head v).
Proof. intros w. reflexivity. Qed.

Lemma wlog_fixed_set_tail v : wlog_fixed (set_tail v).
Proof. intros w. reflexivity. Qed.

Lemma wlog_fixed_shared_of f : wlog_fixed (shared_of f).
Proof. intros w. rewrite shared_of_pure. reflexivity. Qed.

(** Steps through a routine on the queue. *)
Ltac wlog_fixed_steps :=
  repeat first
    [ apply wlog_fixed_ret
    | apply wlog_fixed_deref
    | apply wlog_fixed_check
    | apply wlog_fixed_HDassert
    | apply wlog_fixed_eot_load
    | apply wlog_fixed_eot_store
    | apply wlog_fixed_get_head
    | apply wlog_fixed_get_tail
    | apply wlog_fixed_set_head
    | apply wlog_fixed_set_tail
    | apply wlog_fixed_shared_of
    | apply wlog_fixed_or_error
    | apply wlog_fixed_out_of_fuel
    | apply wlog_fixed_modify; intros; reflexivity
    | match goal with |- wlog_fixed (if ?b then _ else _) => destruct b end
    | match goal with |- wlog_fixed (match ?x with Some _ => _ | None => _ end) =>
        destruct x end
    | apply wlog_fixed_bind; [|intros] ].

Lemma wlog_fixed_store_next p v : wlog_fixed (store_next p v).
Proof. unfold store_next. wlog_fixed_steps. Qed.

Lemma wlog_fixed_store_prev p v : wlog_fixed (store_prev p v).
Proof. unfold store_prev. wlog_fixed_steps. Qed.

Lemma wlog_fixed_load_next p : wlog_fixed (load_next p).
Proof. unfold load_next. wlog_fixed_steps. Qed.

Lemma wlog_fixed_load_prev p : wlog_fixed (load_prev p).
Proof. unfold load_prev. wlog_fixed_steps. Qed.

Ltac wlog_fixed_links :=
  repeat first
    [ apply wlog_fixed_store_next
    | apply wlog_fixed_store_prev
    | apply wlog_fixed_load_next
    | apply wlog_fixed_load_prev
    | apply wlog_fixed_ret
    | apply wlog_fixed_get_head
    | apply wlog_fixed_get_tail
    | apply wlog_fixed_set_head
    | apply wlog_fixed_set_tail
    | apply wlog_fixed_eot_load
    | apply wlog_fixed_modify; intros; reflexivity
    | match goal with |- wlog_fixed (if ?b then _ else _) => destruct b end
    | match goal with |- wlog_fixed (match ?x with Some _ => _ | None => _ end) =>
        destruct x end
    | apply wlog_fixed_bind; [|intros] ].

Lemma wlog_fixed_LL_REMOVE p : wlog_fixed (H5F__LL_REMOVE p).
Proof. unfold H5F__LL_REMOVE. wlog_fixed_links. Qed.

Lemma wlog_fixed_LL_APPEND p : wlog_fixed (H5F__LL_APPEND p).
Proof. unfold H5F__LL_APPEND. wlog_fixed_links. Qed.

Lemma wlog_fixed_LL_PREPEND p : wlog_fixed (H5F__LL_PREPEND p).
Proof. unfold H5F__LL_PREPEND. wlog_fixed_links. Qed.

Lemma wlog_fixed_INSERT_AFTER p q : wlog_fixed (H5F_EOT_INSERT_AFTER p q).
Proof.
  unfold H5F_EOT_INSERT_AFTER.
  destruct (bool_decide (q = None)); [apply wlog_fixed_LL_PREPEND|].
  apply wlog_fixed_bind; [apply wlog_fixed_load_prev|]. intros pp.
  destruct (bool_decide (pp = None)); [apply wlog_fixed_LL_APPEND|].
  wlog_fixed_links.
Qed.

Lemma wlog_fixed_sync : wlog_fixed sync_eot_globals.
Proof. unfold sync_eot_globals. wlog_fixed_links. Qed.

Lemma wlog_fixed_remove_scan fuel f : forall curr,
  wlog_fixed (remove_entry_eot_scan fuel f curr).
Proof.
  induction fuel as [|fuel IH]; intros [c|]; simpl;
    try apply wlog_fixed_ret; try apply wlog_fixed_out_of_fuel.
  apply wlog_fixed_bind; [apply wlog_fixed_eot_load|]. intros e.
  destruct (bool_decide (eot_vfd_swmr_file e = f)); [|apply IH].
  apply wlog_fixed_bind; [apply wlog_fixed_LL_REMOVE|]. intros _.
  apply wlog_fixed_get_bind. intros w. reflexivity.
Qed.

Lemma wlog_fixed_remove_entry_eot f :
  wlog_fixed (H5F_vfd_swmr_remove_entry_eot f).
Proof.
  unfold H5F_vfd_swmr_remove_entry_eot.
  apply wlog_fixed_get_bind. intros w.
  apply (wlog_fixed_bind _ _ (wlog_fixed_remove_scan _ f _)
           (fun _ => wlog_fixed_sync)).
Qed.

Lemma wlog_fixed_insert_scan fuel eot : forall p,
  wlog_fixed (insert_entry_eot_scan fuel eot p).
Proof.
  induction fuel as [|fuel IH]; intros [p|]; simpl;
    try apply wlog_fixed_ret; try apply wlog_fixed_out_of_fuel.
  apply wlog_fixed_bind; [apply wlog_fixed_eot_load|]. intros e.
  destruct (timespec_gt (eot_end_of_tick e) eot);
    [apply IH | apply wlog_fixed_ret].
Qed.

(** The one call of an insertion is the allocation of the entry. *)
Lemma insert_entry_eot_wlog E f w :
  wlog (fst (H5F_vfd_swmr_insert_entry_eot E f w))
  = wlog w ++ [EvCalloc (H5FL_CALLOC E (wlog w))].
Proof.
  unfold H5F_vfd_swmr_insert_entry_eot.
  unfold bind at 1, wcall at 1.
  destruct (H5FL_CALLOC E (wlog w)); [|reflexivity].
  unfold bind at 1, check at 1, ret at 1.
  match goal with
  | |- wlog (fst (?m ?w2)) = _ =>
      transitivity (wlog w2); [|reflexivity];
      apply (fun H : wlog_fixed m => H w2)
  end.
  apply wlog_fixed_bind; [apply wlog_fixed_shared_of|]. intros s.
  apply wlog_fixed_get_bind. intros w1.
  unfold bind at 1, put.
  match goal with
  | |- wlog (fst (?m ?w2)) = _ =>
      transitivity (wlog w2); [|reflexivity];
      apply (fun H : wlog_fixed m => H w2)
  end.
  apply wlog_fixed_get_bind. intros w2.
  apply (wlog_fixed_bind _ _ (wlog_fixed_insert_scan _ _ _)).
  intros prec.
  apply (wlog_fixed_bind _ _ (wlog_fixed_INSERT_AFTER _ _)
           (fun _ => wlog_fixed_sync)).
Qed.

(** A reader whose shadow file still shows the reader's own tick does
    nothing to the file at its end of tick, whatever the outcome: it asks
    the driver for the tick and allocates the queue entry, and that is
    all.  No index is loaded, nothing is evicted, the clock is not read
    and the end of the tick of the file stays where it was, so the entry
    goes back on the queue with the deadline it had. *)
Theorem reader_same_tick_changes_nothing (E : collaborators) (f : nat)
    (w : world) (s : H5F_shared_t) :
  files w !! f = Some s ->
  pb_ptr s <> None ->
  vfd_swmr s = true ->
  vfd_swmr_writer s = false ->
  H5FD_vfd_swmr_get_tick E (wlog w) = Some (tick_num s) ->
  let w' := fst (H5F_vfd_swmr_reader_end_of_tick E (Some f) w) in
  files w' = files w
  /\ exists calls,
       wlog w' = wlog w ++ EvGetTick (Some (tick_num s)) :: calls
       /\ (calls = [] \/ exists ok, calls = [EvCalloc ok]).
Proof.
  intros Hf Hpb Hsw Hwr Htick w'.
  assert (Hstep :
    H5F_vfd_swmr_reader_end_of_tick E (Some f) w
    = (H5F_vfd_swmr_remove_entry_eot f >>
       or_error "unable to insert entry into the EOT queue"
         (H5F_vfd_swmr_insert_entry_eot E f))
        (with_wlog (wlog w ++ [EvGetTick (Some (tick_num s))]) w)).
  { unfold H5F_vfd_swmr_reader_end_of_tick, eot_file.
    unfold bind at 1, ret at 1.
    rewrite (bind_run _ _ _ _ _ (shared_of_run f w s Hf)).
    rewrite bool_decide_true by exact Hpb. rewrite Hsw, Hwr.
    unfold bind at 1, HDassert at 1.
    unfold bind at 1, HDassert at 1.
    unfold bind at 1, HDassert at 1. simpl negb. cbv iota.
    unfold bind at 1, wcall at 1. rewrite Htick.
    rewrite Z.eqb_refl. simpl negb. cbv iota.
    unfold bind at 1, ret at 1. reflexivity. }
  subst w'. rewrite Hstep. clear Hstep.
  set (w1 := with_wlog _ w).
  pose proof (files_fixed_remove_entry_eot f w1) as Hfiles.
  pose proof (wlog_fixed_remove_entry_eot f w1) as Hlog.
  unfold bind.
  destruct (H5F_vfd_swmr_remove_entry_eot f w1) as [w2 [[]| | | |]];
    simpl in Hfiles, Hlog;
    try (split; [exact Hfiles|]; exists []; split; [exact Hlog | left;
                                                      reflexivity]).
  split.
  - rewrite (files_fixed_or_error _ _ (files_fixed_insert_entry_eot E f)).
    exact Hfiles.
  - eexists. split; [|right; eexists; reflexivity].
    transitivity (wlog (fst (H5F_vfd_swmr_insert_entry_eot E f w2))).
    + unfold or_error.
      destruct (H5F_vfd_swmr_insert_entry_eot E f w2) as [w3 []];
        reflexivity.
    + rewrite insert_entry_eot_wlog, Hlog. unfold w1. simpl.
      rewrite <- app_assoc. reflexivity.
Qed.

Lemma reader_same_tick_changes_nothing_witness :
  let w := fst (H5F_vfd_swmr_insert_entry_eot E_tick8 0%nat
                  (process_of [with_tick_num 8 sample_reader])) in
  let w' := fst (H5F_vfd_swmr_reader_end_of_tick E_tick8 (Some 0%nat) w) in
  files w' = files w
  /\ exists calls,
       wlog w' = wlog w ++ EvGetTick (Some 8) :: calls
       /\ (calls = [] \/ exists ok, calls = [EvCalloc ok]).
Proof.
  intros w w'.
  apply (reader_same_tick_changes_nothing E_tick8 0%nat w
           (with_tick_num 8 sample_reader)).
  - vm_compute. reflexivity.
  - discriminate.
  - reflexivity.
  - reflexivity.
  - reflexivity.
Defined.

(** ** A reader's end of tick after one that failed *)

Lemma evicts_only_bind {A B} (m : M fstate A) (k : A -> M fstate B) :
  evicts_only m -> (forall a, evicts_only (k a)) -> evicts_only (bind m k).
Proof.
  intros Hm Hk st st' r H. unfold bind in H.
  destruct (m st) as [st1 r1] eqn:Hm1.
  destruct (Hm _ _ _ Hm1) as [Hsh Herr].
  destruct r1 as [a|msg| | |].
  - destruct (Hk a _ _ _ H) as [Hsh' Herr']. split; [congruence | exact Herr'].
  - inversion H; subst. split; [exact Hsh|]. intros msg' _.
    apply (Herr msg). reflexivity.
  - inversion H; subst. split; [exact Hsh | discriminate].
  - inversion H; subst. split; [exact Hsh | discriminate].
  - inversion H; subst. split; [exact Hsh | discriminate].
Qed.

Lemma evicts_only_quiet {A} (m : M fstate A) :
  (forall st, fst (m st) = st) ->
  (forall st msg, snd (m st) <> Error msg) ->
  evicts_only m.
Proof.
  intros Hst Hr st st' r H. pose proof (Hst st) as H1.
  pose proof (Hr st) as H2. rewrite H in H1, H2. simpl in H1, H2. subst st'.
  split; [reflexivity|]. intros msg ->. exfalso. exact (H2 msg eq_refl).
Qed.

Lemma evicts_only_ret {A} (a : A) : evicts_only (@ret fstate A a).
Proof. apply evicts_only_quiet; [reflexivity | discriminate]. Qed.

Lemma evicts_only_at_index arr i : evicts_only (at_index arr i).
Proof.
  apply evicts_only_quiet; intros st; unfold at_index, bind, deref, ret, fault;
    destruct arr as [a|]; simpl; try reflexivity; try discriminate;
    destruct (i <? 0); simpl; try reflexivity; try discriminate;
    destruct (a !! Z.to_nat i); simpl; try reflexivity; discriminate.
Qed.

Lemma evicts_only_assert_ascending arr used k :
  evicts_only (assert_ascending arr used k).
Proof.
  unfold assert_ascending.
  destruct (_ || _); [apply evicts_only_ret|].
  apply evicts_only_bind; [apply evicts_only_at_index|]. intros a.
  apply evicts_only_bind; [apply evicts_only_at_index|]. intros b.
  apply evicts_only_quiet; intros st; unfold HDassert; simpl;
    [reflexivity|]. destruct (_ <? _); discriminate.
Qed.

Lemma evicts_only_evict_page E pass ps tmp e :
  evicts_only (evict_page E pass ps tmp e).
Proof.
  intros st st' r H. unfold evict_page, bind, call, check, ret, throw in H.
  destruct (pass =? 0); simpl in H.
  - destruct (H5PB_remove_entry E (log st) _) eqn:Hok;
      inversion H; subst; simpl; (split; [reflexivity|]).
    + discriminate.
    + intros msg _. eexists. rewrite last_snoc. split; [reflexivity|].
      exact I.
  - destruct (H5C_evict_or_refresh_all_entries_in_page E (log st) _ _)
      eqn:Hok; inversion H; subst; simpl; (split; [reflexivity|]).
    + discriminate.
    + intros msg _. eexists. rewrite last_snoc. split; [reflexivity|].
      exact I.
Qed.

Lemma evicts_only_out_of_fuel {A} :
  evicts_only (fun s : fstate => (s, @OutOfFuel A)).
Proof. apply evicts_only_quiet; [reflexivity | discriminate]. Qed.

Lemma evicts_only_compare E pass ps tmp old new ou nu : forall fuel i j,
  evicts_only (compare_indexes E fuel pass ps tmp old new ou nu i j).
Proof.
  induction fuel as [|fuel IH]; intros i j; simpl;
    (destruct (_ && _); [|apply evicts_only_ret]).
  - apply evicts_only_out_of_fuel.
  - apply evicts_only_bind; [apply evicts_only_at_index|]. intros o.
    apply evicts_only_bind; [apply evicts_only_at_index|]. intros n.
    apply evicts_only_bind.
    { destruct (_ =? _).
      - apply evicts_only_bind; [|intros; apply evicts_only_ret].
        destruct (negb _);
          [apply evicts_only_evict_page | apply evicts_only_ret].
      - destruct (_ <? _); [|apply evicts_only_ret].
        apply evicts_only_bind; [apply evicts_only_evict_page|].
        intros; apply evicts_only_ret. }
    intros ij.
    apply evicts_only_bind; [apply evicts_only_assert_ascending|]. intros _.
    apply evicts_only_bind; [apply evicts_only_assert_ascending|]. intros _.
    apply IH.
Qed.

Lemma evicts_only_left_overs E pass ps tmp old ou : forall fuel i,
  evicts_only (evict_left_overs E fuel pass ps tmp old ou i).
Proof.
  induction fuel as [|fuel IH]; intros i; simpl;
    (destruct (_ <? _); [|apply evicts_only_ret]).
  - apply evicts_only_out_of_fuel.
  - apply evicts_only_bind; [apply evicts_only_at_index|]. intros o.
    apply evicts_only_bind; [apply evicts_only_evict_page|]. intros _.
    apply IH.
Qed.

Lemma evicts_only_reader_passes E tmp : evicts_only (reader_passes E tmp).
Proof.
  assert (Hpass : forall pass, evicts_only (reader_pass E pass tmp)).
  { intros pass. unfold reader_pass.
    apply evicts_only_bind.
    { apply evicts_only_quiet; [reflexivity | discriminate]. }
    intros s. apply evicts_only_bind.
    { apply evicts_only_quiet; intros st; destruct (pb_ptr s);
        try reflexivity; discriminate. }
    intros pb. apply evicts_only_bind; [apply evicts_only_compare|].
    intros i. apply evicts_only_left_overs. }
  unfold reader_passes. apply evicts_only_bind; [apply Hpass|].
  intros _. apply Hpass.
Qed.

(** Two arrays with the same sorted entries in use: the comparison walks
    to the end of both and asks for nothing. *)
Lemma compare_same_run (E : collaborators) (pass ps tmp : Z)
    (old new : list H5FD_vfd_swmr_idx_entry_t) (u : Z) :
  0 <= u <= Z.of_nat (length old) ->
  u <= Z.of_nat (length new) ->
  u < 2 ^ 31 ->
  take (Z.to_nat u) old = take (Z.to_nat u) new ->
  index_sorted (take (Z.to_nat u) old) ->
  forall (fuel : nat) (i : Z) (st : fstate),
    0 <= i <= u -> u - i <= Z.of_nat fuel ->
    compare_indexes E fuel pass ps tmp (Some old) (Some new) u u i i st
    = (st, Ok u).
Proof.
  intros Hold Hnew Hsmall Hsame Hsorted.
  induction fuel as [|fuel IH]; intros i st Hi Hf; simpl.
  - destruct (Z.ltb_spec i u); [lia|]. simpl. unfold ret.
    replace i with u by lia. reflexivity.
  - destruct (Z.ltb_spec i u) as [Hlt|Hge]; simpl.
    2:{ unfold ret. replace i with u by lia. reflexivity. }
    destruct (used_slot old u i) as [o Ho]; [lia|lia|].
    assert (Hn : new !! Z.to_nat i = Some o).
    { rewrite <- (lookup_take_lt new (Z.to_nat u)) by lia.
      rewrite <- Hsame. rewrite lookup_take_lt by lia. exact Ho. }
    rewrite (bind_run _ _ _ _ _ (at_index_run old i o st ltac:(lia) Ho)).
    rewrite (bind_run _ _ _ _ _ (at_index_run new i o st ltac:(lia) Hn)).
    rewrite !Z.eqb_refl. simpl negb. cbv iota.
    unfold bind at 2. unfold ret at 1 2. unfold bind at 1. cbn [fst snd].
    rewrite i32_small by lia.
    rewrite (bind_run _ _ _ _ _
               (assert_ascending_run old u (i + 1) st ltac:(lia) ltac:(lia)
                  Hsorted)).
    rewrite (bind_run _ _ _ _ _
               (assert_ascending_run new u (i + 1) st ltac:(lia) ltac:(lia)
                  ltac:(rewrite <- Hsame; exact Hsorted))).
    apply IH; lia.
Qed.

Lemma reader_passes_same_run (E : collaborators) (tmp : Z) (st : fstate)
    (pb : H5PB_t) (old new : list H5FD_vfd_swmr_idx_entry_t) (u : Z) :
  pb_ptr (sh st) = Some pb ->
  old_mdf_idx (sh st) = Some old ->
  mdf_idx (sh st) = Some new ->
  old_mdf_idx_entries_used (sh st) = u ->
  mdf_idx_entries_used (sh st) = u ->
  0 <= u <= Z.of_nat (length old) ->
  u <= Z.of_nat (length new) ->
  u < 2 ^ 31 ->
  take (Z.to_nat u) old = take (Z.to_nat u) new ->
  index_sorted (take (Z.to_nat u) old) ->
  reader_passes E tmp st = (st, Ok tt).
Proof.
  intros Hpb Hold Hnew Hou Hnu Hu Hu' Hsmall Hsame Hsorted.
  assert (Hpass : forall pass, reader_pass E pass tmp st = (st, Ok tt)).
  { intros pass. unfold reader_pass.
    erewrite bind_run by reflexivity. rewrite Hpb.
    erewrite bind_run by reflexivity.
    rewrite Hold, Hnew, Hou, Hnu. rewrite i32_small by lia.
    erewrite bind_run
      by (apply (compare_same_run E pass (page_size pb) tmp old new u);
          try assumption; lia).
    simpl. rewrite Z.ltb_irrefl. reflexivity. }
  unfold reader_passes.
  rewrite (bind_run _ _ _ _ _ (Hpass 0)). apply Hpass.
Qed.

(** ** The course of a writer's end of tick *)

Lemma wcall_ok {A} (oracle : list event -> A) (ev : A -> event)
    (w w' : world) (r : A) :
  wcall oracle ev w = (w', Ok r) ->
  r = oracle (wlog w) /\ w' = with_wlog (wlog w ++ [ev r]) w.
Proof. unfold wcall. intros H. inversion H. auto. Qed.

Lemma wcall_check_ok (oracle : list event -> bool) (ev : bool -> event)
    msg (k : M world unit) (w w' : world) :
  (ok <- wcall oracle ev ;; check msg ok >> k) w = (w', Ok tt) ->
  k (with_wlog (wlog w ++ [ev true]) w) = (w', Ok tt).
Proof.
  intros H. apply bind_ok in H. destruct H as (w1 & ok & Hc & H).
  apply wcall_ok in Hc. destruct Hc as [Hok ->].
  apply bind_ok in H. destruct H as (w2 & u & Hch & H).
  apply check_ok in Hch. destruct Hch as [-> ->]. exact H.
Qed.

Lemma writer_flush_caches_ok E f (w w' : world) s :
  files w !! f = Some s ->
  writer_flush_caches E f w = (w', Ok tt) ->
  w' = with_wlog (wlog w ++ flush_calls (cache s)) w.
Proof.
  intros Hf H. unfold writer_flush_caches in H.
  rewrite (bind_run _ _ _ _ _ (shared_of_run f w s Hf)) in H.
  apply bind_ok in H. destruct H as (w0 & u0 & H0 & H).
  assert (w0 = w) as ->.
  { destruct (flush_raw_data _); [discriminate|].
    apply ret_ok in H0. destruct H0 as [_ ->]. reflexivity. }
  apply wcall_check_ok in H. apply wcall_check_ok in H.
  unfold flush_calls. destruct (cache s).
  - apply bind_ok in H. destruct H as (w1 & u1 & H1 & H).
    apply bind_ok in H1. destruct H1 as (w2 & ok & Hc & H1).
    apply wcall_ok in Hc. destruct Hc as [_ ->].
    apply check_ok in H1. destruct H1 as [-> ->].
    apply bind_ok in H. destruct H as (w3 & ok & Hc & H).
    apply wcall_ok in Hc. destruct Hc as [_ ->].
    apply bind_ok in H. destruct H as (w4 & u4 & Hch & H).
    apply check_ok in Hch. destruct Hch as [-> ->].
    apply bind_ok in H. destruct H as (w5 & ok & Hc & H).
    apply wcall_ok in Hc. destruct Hc as [_ ->].
    apply check_ok in H. destruct H as [-> ->].
    destruct w. unfold with_wlog. simpl. rewrite <- !app_assoc. reflexivity.
  - apply bind_ok in H. destruct H as (w1 & u1 & H1 & H).
    apply ret_ok in H1. destruct H1 as [_ ->].
    apply bind_ok in H. destruct H as (w3 & ok & Hc & H).
    apply wcall_ok in Hc. destruct Hc as [_ ->].
    apply bind_ok in H. destruct H as (w4 & u4 & Hch & H).
    apply check_ok in Hch. destruct Hch as [-> ->].
    apply ret_ok in H. destruct H as [_ ->].
    destruct w. unfold with_wlog. simpl. rewrite <- !app_assoc. reflexivity.
Qed.

Lemma create_index_shape E (st st' : fstate) :
  H5F__vfd_swmr_writer__create_index E st = (st', Ok tt) ->
  tick_view (sh st') = tick_view (sh st)
  /\ vfd_swmr_config (sh st') = vfd_swmr_config (sh st)
  /\ exists evs, log st' = log st ++ evs.
Proof.
  intros H. unfold H5F__vfd_swmr_writer__create_index in H.
  inv_bind H s0 Hs0. subst s0.
  inv_bind H u1 H1. inv_bind H u2 H2. inv_bind H u3 H3. inv_bind H u4 H4.
  inv_bind H u5 H5. inv_bind H u6 H6.
  inv_bind H ok Hok. inv_bind H u7 H7.
  apply set_shared_ok in H. subst st'. simpl.
  split; [reflexivity|]. split; [reflexivity|]. eexists. reflexivity.
Qed.

Lemma update_index_shape E (st st' : fstate) r :
  update_index E st = (st', Ok r) ->
  tick_view (sh st') = tick_view (sh st)
  /\ vfd_swmr_config (sh st') = vfd_swmr_config (sh st)
  /\ log st' = log st ++ [EvPBUpdateIndex true].
Proof.
  intros H. unfold update_index in H.
  inv_bind H s0 Hs0. subst s0.
  inv_bind H r0 Hr0.
  destruct r0 as [r0|]; [|discriminate].
  inv_bind H u Hu. apply ret_ok in H. destruct H as [_ ->]. simpl.
  repeat split; reflexivity.
Qed.

Lemma hdr_frame_same E (s1 s : H5F_shared_t) n :
  tick_view s1 = tick_view s ->
  hdr_frame_events E (vfd_swmr_md_fd s1) s1 n
  = hdr_frame_events E (vfd_swmr_md_fd s) s n.
Proof.
  unfold tick_view. intros H. injection H as Ht Hp Hfd.
  unfold hdr_frame_events, md_hdr_image, md_hdr_body.
  rewrite Ht, Hp, Hfd. reflexivity.
Qed.

(** A publication that completes ends with the header frame and the
    release of the shadow extents that have timed out. *)
Lemma publication_tail E n index (st st' : fstate) :
  H5F_update_vfd_swmr_metadata_file E n index st = (st', Ok tt) ->
  0 <= n -> (index = true \/ n = 0) ->
  tick_view (sh st') = tick_view (sh st)
  /\ vfd_swmr_config (sh st') = vfd_swmr_config (sh st)
  /\ exists pub frees,
       log st' = log st ++ pub
                   ++ hdr_frame_events E (vfd_swmr_md_fd (sh st)) (sh st) n
                   ++ frees
       /\ Forall (fun ev => is_MVFree ev = true) frees.
Proof.
  intros H Hn Hindex.
  assert (Hfree : forall fs l,
            Forall (fun ev => is_MVFree ev = true) (map (free_event fs) l)).
  { intros fs l. apply Forall_forall. intros ev Hev.
    apply list_elem_of_In, in_map_iff in Hev.
    destruct Hev as (d & <- & _). reflexivity. }
  destruct (Z.eq_dec n 0) as [->|Hn0].
  - apply update_metadata_file_empty_ok in H. cbv zeta in H.
    destruct H as (_ & kept & freed & _ & _ & _ & Hsh & Hlog).
    rewrite Hsh. split; [reflexivity|]. split; [reflexivity|].
    eexists. eexists. split; [exact Hlog | apply Hfree].
  - destruct Hindex as [->|]; [|contradiction].
    destruct (mdf_idx (sh st)) as [idx|] eqn:Hidx.
    + pose proof (update_metadata_file_ok E n st st' idx H Hidx Hn) as Hok.
      cbv zeta in Hok.
      destruct Hok as (_ & addrs & kept & freed & _ & _ & _ & _ & Hsh & Hlog).
      rewrite Hsh. split; [reflexivity|]. split; [reflexivity|].
      eexists (_ ++ _). eexists. rewrite <- app_assoc.
      split; [exact Hlog | apply Hfree].
    + exfalso. unfold H5F_update_vfd_swmr_metadata_file in H.
      apply Z.eqb_neq in Hn0. rewrite Hn0 in H.
      unfold bind at 1 in H. unfold bind at 1 in H.
      unfold get_shared at 1 in H. unfold bind at 1 in H.
      rewrite Hidx in H. simpl in H. discriminate.
Qed.

Lemma on_file_facts {A} (f : nat) (m : M fstate A) (w w' : world) (a : A)
    (s : H5F_shared_t) :
  files w !! f = Some s ->
  on_file f m w = (w', Ok a) ->
  exists st',
    m {| sh := s; log := wlog w |} = (st', Ok a)
    /\ files w' !! f = Some (sh st')
    /\ wlog w' = log st'
    /\ queue_of w' = queue_of w.
Proof.
  intros Hf H. apply on_file_ok in H.
  destruct H as (s0 & st' & Hs0 & Hm & ->).
  rewrite Hf in Hs0. injection Hs0 as <-.
  exists st'. split; [exact Hm|]. split; [|split; reflexivity].
  simpl. apply lookup_insert_eq.
Qed.

Lemma insert_entry_eot_ok E f (w w' : world) :
  H5F_vfd_swmr_insert_entry_eot E f w = (w', Ok tt) ->
  files w' = files w /\ wlog w' = wlog w ++ [EvCalloc true].
Proof.
  intros H.
  pose proof (files_fixed_insert_entry_eot E f w) as Hfiles.
  pose proof (insert_entry_eot_wlog E f w) as Hlog.
  rewrite H in Hfiles, Hlog. simpl in Hfiles, Hlog.
  split; [exact Hfiles|]. rewrite Hlog.
  unfold H5F_vfd_swmr_insert_entry_eot in H.
  apply bind_ok in H. destruct H as (w1 & ok & Hc & H).
  apply wcall_ok in Hc. destruct Hc as [Hok _].
  apply bind_ok in H. destruct H as (w2 & u & Hch & _).
  apply check_ok in Hch. destruct Hch as [Htrue _].
  rewrite <- Hok, Htrue. reflexivity.
Qed.

(** All a completed end of tick of a writer tells. *)
Lemma writer_end_of_tick_ok (E : collaborators) (f : nat)
    (w w' : world) (s : H5F_shared_t) :
  files w !! f = Some s ->
  H5F_vfd_swmr_writer_end_of_tick E (Some f) w = (w', Ok tt) ->
  exists s' pub frees t n w8 w9,
    files w' !! f = Some s'
    /\ tick_num s' = u64 (tick_num s + 1)
    /\ wlog w'
       = wlog w ++ flush_calls (cache s) ++ pub
           ++ hdr_frame_events E (vfd_swmr_md_fd s) s n ++ frees
           ++ [EvPBReleaseTickList true; EvPBReleaseDelayedWrites true;
               EvClock (Some t); EvPBSetTick (u64 (tick_num s + 1)) true;
               EvCalloc true]
    /\ In (EvPBUpdateIndex true) pub
    /\ Forall (fun ev => is_MVFree ev = true) frees
    /\ files w8 !! f = Some s'
    /\ queue_of w8 = queue_of w
    /\ end_of_tick_g w8 = end_of_tick s'
    /\ H5F_vfd_swmr_remove_entry_eot f w8 = (w9, Ok tt)
    /\ H5F_vfd_swmr_insert_entry_eot E f w9 = (w', Ok tt).
Proof.
  intros Hf H. unfold H5F_vfd_swmr_writer_end_of_tick, eot_file in H.
  unfold bind at 1, ret at 1 in H.
  rewrite (bind_run _ _ _ _ _ (shared_of_run f w s Hf)) in H.
  apply bind_ok in H. destruct H as (wa & ua & Ha & H).
  apply HDassert_ok in Ha. destruct Ha as [_ ->].
  apply bind_ok in H. destruct H as (wa & ub & Ha & H).
  apply HDassert_ok in Ha. destruct Ha as [_ ->].
  (* steps 1 and 2 *)
  apply bind_ok in H. destruct H as (w1 & u1 & Hflush & H). destruct u1.
  apply (writer_flush_caches_ok E f w w1 s Hf) in Hflush.
  assert (Hf1 : files w1 !! f = Some s) by (rewrite Hflush; exact Hf).
  assert (Hl1 : wlog w1 = wlog w ++ flush_calls (cache s))
    by (rewrite Hflush; reflexivity).
  assert (Hq1 : queue_of w1 = queue_of w) by (rewrite Hflush; reflexivity).
  clear Hflush.
  (* step 3 *)
  apply bind_ok in H. destruct H as (w2 & u2 & Hcreate & H).
  assert (H2 : exists s2 evs2,
             files w2 !! f = Some s2 /\ tick_view s2 = tick_view s
             /\ vfd_swmr_config s2 = vfd_swmr_config s
             /\ wlog w2 = wlog w1 ++ evs2
             /\ queue_of w2 = queue_of w).
  { destruct (tick_num s =? 1).
    - apply or_error_ok in Hcreate.
      destruct (on_file_facts f _ w1 w2 u2 s Hf1 Hcreate)
        as (st' & Hm & Hf2 & Hl2 & Hq2).
      destruct u2. apply create_index_shape in Hm. simpl in Hm.
      destruct Hm as (Hv & Hc & evs & Hlog).
      exists (sh st'), evs. rewrite Hl2, Hlog, Hq2. auto.
    - apply ret_ok in Hcreate. destruct Hcreate as [_ ->].
      exists s, []. rewrite app_nil_r. auto. }
  clear Hcreate.
  destruct H2 as (s2 & evs2 & Hf2 & Hv2 & Hc2 & Hl2 & Hq2).
  (* step 4 *)
  apply bind_ok in H. destruct H as (w3 & r & Hupd & H).
  destruct (on_file_facts f _ w2 w3 r s2 Hf2 Hupd)
    as (st3 & Hm & Hf3 & Hl3 & Hq3).
  apply update_index_shape in Hm. simpl in Hm.
  destruct Hm as (Hv3 & Hc3 & Hlog3). clear Hupd.
  (* step 6 *)
  rewrite (bind_run _ _ _ _ _ (shared_of_run f w3 _ Hf3)) in H.
  apply bind_ok in H. destruct H as (w4 & u4 & Hpub & H).
  set (num := u32 (mdf_idx_entries_used (sh st3) + idx_entries_added r))
    in *.
  assert (Hnum : 0 <= num).
  { unfold num, u32. apply Z.mod_pos_bound. lia. }
  assert (H4 : exists s4 n pub frees,
             files w4 !! f = Some s4 /\ tick_view s4 = tick_view s
             /\ vfd_swmr_config s4 = vfd_swmr_config s
             /\ wlog w4 = wlog w3 ++ pub
                  ++ hdr_frame_events E (vfd_swmr_md_fd s) s n ++ frees
             /\ Forall (fun ev => is_MVFree ev = true) frees
             /\ queue_of w4 = queue_of w3).
  { assert (Hboth : forall n index,
              index = true \/ n = 0 -> 0 <= n ->
              on_file f (H5F_update_vfd_swmr_metadata_file E n index) w3
              = (w4, Ok u4) ->
              exists s4 n pub frees,
                files w4 !! f = Some s4 /\ tick_view s4 = tick_view s
                /\ vfd_swmr_config s4 = vfd_swmr_config s
                /\ wlog w4 = wlog w3 ++ pub
                     ++ hdr_frame_events E (vfd_swmr_md_fd s) s n ++ frees
                /\ Forall (fun ev => is_MVFree ev = true) frees
                /\ queue_of w4 = queue_of w3).
    { intros n index Hix Hn Hrun.
      destruct (on_file_facts f _ w3 w4 u4 _ Hf3 Hrun)
        as (st4 & Hm & Hf4 & Hl4 & Hq4).
      destruct u4.
      destruct (publication_tail E n index _ st4 Hm Hn Hix)
        as (Hv & Hc & pub & frees & Hlog & Hfrees).
      cbn [sh log] in Hv, Hc, Hlog.
      exists (sh st4), n, pub, frees.
      split; [exact Hf4|]. split; [congruence|]. split; [congruence|].
      split; [|split; [exact Hfrees | exact Hq4]].
      rewrite Hl4, Hlog.
      rewrite (hdr_frame_same E (sh st3) s n) by congruence.
      reflexivity. }
    destruct (0 <? num); apply or_error_ok in Hpub.
    - apply (Hboth num true); auto.
    - apply (Hboth 0 false); auto. lia. }
  clear Hpub.
  destruct H4 as (s4 & n & pub & frees & Hf4 & Hv4 & Hc4 & Hl4 & Hfrees
                  & Hq4).
  rewrite (bind_run _ _ _ _ _ (shared_of_run f w4 _ Hf4)) in H.
  apply bind_ok in H. destruct H as (w5 & u5 & Hset & H).
  destruct (on_file_facts f _ w4 w5 u5 _ Hf4 Hset)
    as (st5 & Hm & Hf5 & Hl5 & Hq5).
  apply set_shared_ok in Hm. subst st5. simpl in Hf5, Hl5. clear Hset.
  rewrite (bind_run _ _ _ _ _ (shared_of_run f w5 _ Hf5)) in H.
  apply bind_ok in H. destruct H as (wa & uc & Ha & H).
  apply HDassert_ok in Ha. destruct Ha as [_ ->].
  (* steps 7 and 8 *)
  apply wcall_check_ok in H. apply wcall_check_ok in H.
  (* step 9 *)
  apply bind_ok in H. destruct H as (w8 & u8 & Heot & H).
  apply or_error_ok in Heot.
  match type of Heot with
  | _ ?w7 = _ =>
      assert (Hf7 : files w7 !! f
                    = Some (with_mdf_idx (mdf_idx s4) (mdf_idx_len s4)
                              (u32 (mdf_idx_entries_used s4
                                    + idx_entries_added r)) s4))
        by exact Hf5
  end.
  destruct u8.
  destruct (update_end_of_tick_ok E f true _ w8 _ Hf7 Heot)
    as (curr & eot & Hfiles8 & Hlog8 & Heg8 & Hh8 & Hb8 & Hhd8 & Htl8 & _).
  cbn [wlog with_wlog] in Hlog8.
  cbn [eot_heap eot_brk vfd_swmr_eot_queue_head_g vfd_swmr_eot_queue_tail_g
       with_wlog] in Hh8, Hb8, Hhd8, Htl8.
  assert (Hq8 : queue_of w8 = queue_of w).
  { unfold queue_of. rewrite Hh8, Hb8, Hhd8, Htl8.
    change (queue_of w5 = queue_of w). congruence. }
  clear Heot.
  apply bind_ok in H. destruct H as (w9 & u9 & Hrem & H). destruct u9.
  pose proof (files_fixed_remove_entry_eot f w8) as Hfiles9.
  pose proof (wlog_fixed_remove_entry_eot f w8) as Hlog9.
  rewrite Hrem in Hfiles9, Hlog9. simpl in Hfiles9, Hlog9.
  apply or_error_ok in H. pose proof H as Hins.
  apply insert_entry_eot_ok in H.
  destruct H as [Hfiles' Hlog'].
  eexists. exists (evs2 ++ [EvPBUpdateIndex true] ++ pub), frees, curr, n.
  exists w8, w9.
  split.
  { rewrite Hfiles', Hfiles9, Hfiles8. apply lookup_insert_eq. }
  split.
  { simpl. unfold tick_view in Hv4. injection Hv4 as -> _ _. reflexivity. }
  split.
  { rewrite Hlog', Hlog9, Hlog8, Hl5, Hl4, Hl3, Hlog3, Hl2, Hl1.
    cbn [tick_num with_mdf_idx].
    unfold tick_view in Hv4. injection Hv4 as Ht _ _. rewrite ?Ht.
    unfold flush_calls.
    destruct (cache s); simpl; rewrite <- ?app_assoc; simpl;
      rewrite <- ?app_assoc; reflexivity. }
  split; [apply in_or_app; right; left; reflexivity|].
  split; [exact Hfrees|].
  split; [rewrite Hfiles8; apply lookup_insert_eq|].
  split; [exact Hq8|].
  split; [exact Heg8|].
  split; [exact Hrem | exact Hins].
Qed.



(** A writer's end of tick that completes has gone this way: the caches
    are flushed; the page buffer updates the index and the shadow file is
    brought up to date, the header frame of the tick (the tick the call
    started with) being written last but for the release of shadow extents
    that have timed out; only then is the page buffer told to release its
    tick list and its delayed writes; then the clock is read, the tick goes
    up by one, the page buffer is told the new tick, and the file is queued
    again. *)
Theorem writer_end_of_tick_course (E : collaborators) (f : nat)
    (w w' : world) (s : H5F_shared_t) :
  files w !! f = Some s ->
  H5F_vfd_swmr_writer_end_of_tick E (Some f) w = (w', Ok tt) ->
  exists s' pub frees t n,
    files w' !! f = Some s'
    /\ tick_num s' = u64 (tick_num s + 1)
    /\ wlog w'
       = wlog w ++ flush_calls (cache s) ++ pub
           ++ hdr_frame_events E (vfd_swmr_md_fd s) s n ++ frees
           ++ [EvPBReleaseTickList true; EvPBReleaseDelayedWrites true;
               EvClock (Some t); EvPBSetTick (u64 (tick_num s + 1)) true;
               EvCalloc true]
    /\ In (EvPBUpdateIndex true) pub
    /\ Forall (fun ev => is_MVFree ev = true) frees.
Proof.
  intros Hf H.
  destruct (writer_end_of_tick_ok E f w w' s Hf H)
    as (s' & pub & frees & t & n & w8 & w9 & Hs' & Htick & Hlog & Hpub
        & Hfrees & _).
  exists s', pub, frees, t, n.
  split; [exact Hs'|]. split; [exact Htick|]. split; [exact Hlog|].
  split; [exact Hpub | exact Hfrees].
Qed.

Lemma writer_end_of_tick_course_witness :
  let s := sample_writer 5 (Some sample_sorted_index) 3 [] in
  exists w' s' pub frees t n,
    H5F_vfd_swmr_writer_end_of_tick E_ok (Some 0%nat) full_writer
    = (w', Ok tt)
    /\ files w' !! 0%nat = Some s'
    /\ tick_num s' = 6
    /\ wlog w'
       = wlog full_writer ++ flush_calls true ++ pub
           ++ hdr_frame_events E_ok 3 s n ++ frees
           ++ [EvPBReleaseTickList true; EvPBReleaseDelayedWrites true;
               EvClock (Some t); EvPBSetTick 6 true; EvCalloc true]
    /\ In (EvPBUpdateIndex true) pub
    /\ Forall (fun ev => is_MVFree ev = true) frees.
Proof.
  intros s.
  assert (Hrun : H5F_vfd_swmr_writer_end_of_tick E_ok (Some 0%nat) full_writer
                 = (fst (H5F_vfd_swmr_writer_end_of_tick E_ok (Some 0%nat)
                           full_writer), Ok tt))
    by (vm_compute; reflexivity).
  destruct (writer_end_of_tick_course E_ok 0%nat full_writer _ s eq_refl Hrun)
    as (s' & pub & frees & t & n & Hs' & Htick & Hlog & Hpub & Hfrees).
  eexists. exists s', pub, frees, t, n.
  split; [exact Hrun|]. split; [exact Hs'|]. split; [exact Htick|].
  split; [exact Hlog|]. split; [exact Hpub | exact Hfrees].
Defined.

(** ** No release before the header, whatever the outcome *)

Section NoRelease.
Let Q := fun ev : event => is_release ev = false.

Lemma emits_index_read i : emits Q (index_read i).
Proof.
  unfold index_read. emits_steps.
  destruct (_ <? _); emits_steps.
Qed.

Lemma emits_index_write i e : emits Q (index_write i e).
Proof.
  unfold index_write. emits_steps.
  destruct (_ && _); emits_steps.
Qed.

Lemma emits_publish_entry E i : emits Q (publish_entry E i).
Proof.
  unfold publish_entry.
  apply emits_bind; [apply emits_index_read|]. intros e.
  destruct (entry_ptr e); [|apply emits_ret].
  apply emits_bind.
  { destruct (_ =? _); emits_steps; reflexivity. }
  intros _. apply emits_bind; [apply emits_call; reflexivity|].
  intros [md_addr|]; [|apply emits_throw].
  apply emits_bind; [apply emits_get_shared|]. intros s.
  apply emits_bind; [apply emits_index_write|]. intros _.
  apply emits_bind; [apply emits_call; reflexivity|]. intros ok.
  apply emits_bind; [apply emits_check|]. intros _.
  apply emits_bind; [apply emits_call; reflexivity|]. intros ok'.
  apply emits_bind; [apply emits_check|]. intros _.
  apply emits_bind; [apply emits_index_read|]. intros e'.
  apply emits_index_write.
Qed.

Lemma emits_publish_entries E : forall k i, emits Q (publish_entries E k i).
Proof.
  induction k as [|k IH]; intros i; [apply emits_ret|].
  cbn [publish_entries].
  apply emits_bind; [apply emits_publish_entry | intros _; apply IH].
Qed.

Lemma emits_release_delayed E : forall k, emits Q (release_delayed E k).
Proof.
  induction k as [|k IH]; [apply emits_ret|].
  cbn [release_delayed].
  apply emits_bind; [apply emits_get_shared|]. intros s.
  apply emits_bind; [apply emits_deref|]. intros d.
  destruct (timed_out s d); [|apply emits_ret].
  apply emits_bind; [apply emits_call; reflexivity|]. intros ok.
  apply emits_bind; [apply emits_check|]. intros _.
  apply emits_bind; [apply emits_get_shared|]. intros s'.
  apply emits_bind; [apply emits_set_shared | intros _; apply IH].
Qed.

Lemma emits_publication E n index :
  emits Q (H5F_update_vfd_swmr_metadata_file E n index).
Proof.
  unfold H5F_update_vfd_swmr_metadata_file.
  apply emits_bind.
  { destruct (n =? 0); [apply emits_ret|].
    apply emits_bind; [apply emits_get_shared|]. intros s.
    apply emits_bind; [apply emits_deref|]. intros _.
    unfold sort_index. emits_steps. destruct (_ <? _); emits_steps. }
  intros _. apply emits_bind.
  { destruct (n =? 0); [apply emits_ret|].
    apply emits_bind; [apply emits_get_shared|]. intros s.
    apply emits_bind; [apply emits_deref|]. intros _.
    apply emits_publish_entries. }
  intros _. apply emits_bind; [apply emits_get_shared|]. intros s.
  apply emits_bind.
  { apply emits_or_error. unfold H5F__vfd_swmr_construct_write_md_idx.
    emits_steps; try reflexivity.
    all: repeat match goal with
         | |- emits _ (match ?x with _ => _ end) => destruct x
         | |- emits _ (if ?b then _ else _) => destruct b
         end; emits_steps; reflexivity. }
  intros _. apply emits_bind.
  { apply emits_or_error. unfold H5F__vfd_swmr_construct_write_md_hdr.
    emits_steps; reflexivity. }
  intros _. apply emits_bind; [apply emits_get_shared|]. intros s'.
  apply emits_release_delayed.
Qed.

Lemma emits_create_index E : emits Q (H5F__vfd_swmr_writer__create_index E).
Proof.
  unfold H5F__vfd_swmr_writer__create_index. emits_steps; reflexivity.
Qed.

Lemma emits_update_index E : emits Q (update_index E).
Proof.
  unfold update_index.
  apply emits_bind; [apply emits_get_shared|]. intros s.
  apply emits_bind; [apply emits_call; reflexivity|].
  intros [r|]; emits_steps.
Qed.

End NoRelease.

Lemma wemits_quiet (P : event -> Prop) (f : nat) {A} (m : M world A) :
  files_fixed m -> wlog_fixed m -> wemits P f m.
Proof.
  intros Hf Hl w w' r H Hpres.
  pose proof (Hf w) as H1. pose proof (Hl w) as H2.
  rewrite H in H1, H2. simpl in H1, H2.
  split; [|rewrite H1; exact Hpres].
  exists []. rewrite app_nil_r. split; [exact H2 | constructor].
Qed.

Lemma wemits_insert_entry_eot (P : event -> Prop) E f :
  (forall ok, P (EvCalloc ok)) ->
  wemits P f (H5F_vfd_swmr_insert_entry_eot E f).
Proof.
  intros HP w w' r H Hpres.
  pose proof (files_fixed_insert_entry_eot E f w) as H1.
  pose proof (insert_entry_eot_wlog E f w) as H2.
  rewrite H in H1, H2. simpl in H1, H2.
  split; [|rewrite H1; exact Hpres].
  eexists. split; [exact H2|]. constructor; [apply HP | constructor].
Qed.

Lemma wemits_writer_flush_caches E f :
  wemits (fun ev => is_release ev = false) f (writer_flush_caches E f).
Proof.
  unfold writer_flush_caches.
  apply wemits_bind; [apply wemits_pure, shared_of_pure|]. intros s.
  apply wemits_bind.
  { destruct (flush_raw_data _); apply wemits_pure; reflexivity. }
  intros _.
  apply wemits_bind; [apply wemits_wcall; reflexivity|]. intros ok1.
  apply wemits_bind; [apply wemits_pure, check_pure|]. intros _.
  apply wemits_bind; [apply wemits_wcall; reflexivity|]. intros ok2.
  apply wemits_bind; [apply wemits_pure, check_pure|]. intros _.
  apply wemits_bind.
  { destruct (cache s); [|apply wemits_pure; reflexivity].
    apply wemits_bind; [apply wemits_wcall; reflexivity|]. intros ok.
    apply wemits_pure, check_pure. }
  intros _.
  apply wemits_bind; [apply wemits_wcall; reflexivity|]. intros ok3.
  apply wemits_bind; [apply wemits_pure, check_pure|]. intros _.
  destruct (cache s); [|apply wemits_pure; reflexivity].
  apply wemits_bind; [apply wemits_wcall; reflexivity|]. intros ok.
  apply wemits_pure, check_pure.
Qed.

(** What is left of the end of tick once the shadow file is up to date. *)
Lemma writer_tail_extends E f (added : Z) :
  wemits (fun _ => True) f
    (s <- shared_of f ;;
     on_file f (set_shared (with_mdf_idx (mdf_idx s) (mdf_idx_len s)
                              (u32 (mdf_idx_entries_used s + added)))) >>
     s <- shared_of f ;;
     HDassert (mdf_idx_entries_used s <=? u32 (mdf_idx_len s)) >>
     ok <- wcall (H5PB_vfd_swmr__release_tick_list E) EvPBReleaseTickList ;;
     check "can't release tick list" ok >>
     ok <- wcall (H5PB_vfd_swmr__release_delayed_writes E)
                 EvPBReleaseDelayedWrites ;;
     check "can't release delayed writes" ok >>
     or_error "unable to update end of tick"
       (H5F__vfd_swmr_update_end_of_tick_and_tick_num E f true) >>
     H5F_vfd_swmr_remove_entry_eot f >>
     or_error "unable to insert entry into the EOT queue"
       (H5F_vfd_swmr_insert_entry_eot E f)).
Proof.
  apply wemits_bind; [apply wemits_pure, shared_of_pure|]. intros s.
  apply wemits_bind; [apply wemits_on_file, emits_set_shared|]. intros _.
  apply wemits_bind; [apply wemits_pure, shared_of_pure|]. intros s'.
  apply wemits_bind; [apply wemits_pure, HDassert_pure|]. intros _.
  apply wemits_bind; [apply wemits_wcall; auto|]. intros ok1.
  apply wemits_bind; [apply wemits_pure, check_pure|]. intros _.
  apply wemits_bind; [apply wemits_wcall; auto|]. intros ok2.
  apply wemits_bind; [apply wemits_pure, check_pure|]. intros _.
  apply wemits_bind.
  { apply wemits_or_error, update_end_of_tick_wemits; auto. }
  intros _. apply wemits_bind.
  { apply wemits_quiet;
      [apply files_fixed_remove_entry_eot | apply wlog_fixed_remove_entry_eot]. }
  intros _. apply wemits_or_error, wemits_insert_entry_eot. auto.
Qed.

Lemma step_no_release {A B} (f : nat) (m : M world A) (k : A -> M world B)
    (w0 w w' : world) (r : outcome B) (L : list event) :
  bind m k w = (w', r) ->
  wemits (fun ev => is_release ev = false) f m ->
  is_Some (files w !! f) ->
  wlog w = wlog w0 ++ L ->
  Forall (fun ev => is_release ev = false) L ->
  (exists w1 a L1,
      m w = (w1, Ok a) /\ k a w1 = (w', r)
      /\ wlog w1 = wlog w0 ++ L1
      /\ Forall (fun ev => is_release ev = false) L1)
  \/ (exists L', wlog w' = wlog w0 ++ L'
                 /\ Forall (fun ev => is_release ev = false) L').
Proof.
  intros H Hm Hpres Hl HL.
  apply bind_inv in H. destruct H as [(w1 & a & H1 & H2) | (r0 & H1 & _)].
  - left. destruct (Hm _ _ _ H1 Hpres) as ((evs & Hl1 & Hq) & _).
    exists w1, a, (L ++ evs). split; [exact H1|]. split; [exact H2|].
    split; [rewrite Hl1, Hl, app_assoc; reflexivity|].
    apply Forall_app. split; assumption.
  - right. destruct (Hm _ _ _ H1 Hpres) as ((evs & Hl1 & Hq) & _).
    exists (L ++ evs). split; [rewrite Hl1, Hl, app_assoc; reflexivity|].
    apply Forall_app. split; assumption.
Qed.

(** However a writer's end of tick ends, the page buffer is not asked to
    release the tick list or the delayed writes before the header frame of
    the tick has been written to the shadow file: the calls made are
    either free of such a request, or they are calls free of it, then the
    header frame, then the rest. *)
Theorem writer_releases_after_header (E : collaborators) (f : nat)
    (w : world) (s : H5F_shared_t) :
  files w !! f = Some s ->
  let w' := fst (H5F_vfd_swmr_writer_end_of_tick E (Some f) w) in
  exists pre post,
    wlog w' = wlog w ++ pre ++ post
    /\ Forall (fun ev => is_release ev = false) pre
    /\ (post = []
        \/ exists n rest,
             post = hdr_frame_events E (vfd_swmr_md_fd s) s n ++ rest).
Proof.
  intros Hf w'.
  destruct (H5F_vfd_swmr_writer_end_of_tick E (Some f) w) as [w1 r] eqn:H.
  subst w'. simpl.
  assert (Hdone : forall L', wlog w1 = wlog w ++ L' ->
                    Forall (fun ev => is_release ev = false) L' ->
                    exists pre post,
                      wlog w1 = wlog w ++ pre ++ post
                      /\ Forall (fun ev => is_release ev = false) pre
                      /\ (post = []
                          \/ exists n rest,
                               post = hdr_frame_events E (vfd_swmr_md_fd s)
                                        s n ++ rest)).
  { intros L' Hl HL. exists L', []. rewrite app_nil_r. auto. }
  unfold H5F_vfd_swmr_writer_end_of_tick, eot_file in H.
  unfold bind at 1, ret at 1 in H.
  rewrite (bind_run _ _ _ _ _ (shared_of_run f w s Hf)) in H.
  (* the two assertions *)
  destruct (step_no_release f _ _ w w w1 r [] H
              ltac:(apply wemits_pure, HDassert_pure) (ex_intro _ s Hf)
              ltac:(rewrite app_nil_r; reflexivity) ltac:(constructor))
    as [(wa & ua & La & Ha & H' & _ & _) | (L' & Hl & HL)];
    [|exact (Hdone L' Hl HL)].
  clear H. rename H' into H.
  assert (wa = w) as -> by (unfold HDassert in Ha; inversion Ha; reflexivity).
  clear Ha La.
  destruct (step_no_release f _ _ w w w1 r [] H
              ltac:(apply wemits_pure, HDassert_pure) (ex_intro _ s Hf)
              ltac:(rewrite app_nil_r; reflexivity) ltac:(constructor))
    as [(wa & ub & La & Ha & H' & _ & _) | (L' & Hl & HL)];
    [|exact (Hdone L' Hl HL)].
  clear H. rename H' into H.
  assert (wa = w) as -> by (unfold HDassert in Ha; inversion Ha; reflexivity).
  clear Ha La.
  (* steps 1 and 2 *)
  destruct (step_no_release f _ _ w w w1 r [] H
              (wemits_writer_flush_caches E f) (ex_intro _ s Hf)
              ltac:(rewrite app_nil_r; reflexivity) ltac:(constructor))
    as [(wb & u1 & L1 & Hflush & H' & Hl1 & HL1) | (L' & Hl & HL)];
    [|exact (Hdone L' Hl HL)].
  clear H. rename H' into H. destruct u1.
  assert (Hf1 : files wb !! f = Some s).
  { rewrite (writer_flush_caches_ok E f w wb s Hf Hflush). exact Hf. }
  clear Hflush.
  (* step 3 *)
  assert (Hcreate_emits :
    wemits (fun ev => is_release ev = false) f
      (if tick_num s =? 1
       then or_error "unable to allocate metadata file index"
              (on_file f (H5F__vfd_swmr_writer__create_index E))
       else ret tt)).
  { destruct (_ =? _); [|apply wemits_pure; reflexivity].
    apply wemits_or_error, wemits_on_file, emits_create_index. }
  destruct (step_no_release f _ _ w wb w1 r L1 H Hcreate_emits
              (ex_intro _ s Hf1) Hl1 HL1)
    as [(wc & u2 & L2 & Hcreate & H' & Hl2 & HL2) | (L' & Hl & HL)];
    [|exact (Hdone L' Hl HL)].
  clear H Hcreate_emits. rename H' into H.
  assert (H2 : exists s2, files wc !! f = Some s2
                          /\ tick_view s2 = tick_view s).
  { destruct (tick_num s =? 1).
    - apply or_error_ok in Hcreate.
      destruct (on_file_facts f _ wb wc u2 s Hf1 Hcreate)
        as (st' & Hm & Hf2 & _).
      destruct u2. apply create_index_shape in Hm.
      destruct Hm as (Hv & _). exists (sh st'). auto.
    - apply ret_ok in Hcreate. destruct Hcreate as [_ ->]. exists s. auto. }
  clear Hcreate. destruct H2 as (s2 & Hf2 & Hv2).
  (* step 4 *)
  destruct (step_no_release f _ _ w wc w1 r L2 H
              ltac:(apply wemits_on_file, emits_update_index)
              (ex_intro _ s2 Hf2) Hl2 HL2)
    as [(wd & ui & L3 & Hupd & H' & Hl3 & HL3) | (L' & Hl & HL)];
    [|exact (Hdone L' Hl HL)].
  clear H. rename H' into H.
  destruct (on_file_facts f _ wc wd ui s2 Hf2 Hupd) as (st3 & Hm & Hf3 & _).
  apply update_index_shape in Hm. destruct Hm as (Hv3 & _). simpl in Hv3.
  clear Hupd.
  (* step 6 *)
  rewrite (bind_run _ _ _ _ _ (shared_of_run f wd _ Hf3)) in H.
  set (num := u32 (mdf_idx_entries_used (sh st3) + idx_entries_added ui))
    in *.
  assert (Hnum : 0 <= num).
  { unfold num, u32. apply Z.mod_pos_bound. lia. }
  assert (Hpub_emits :
    wemits (fun ev => is_release ev = false) f
      (if 0 <? num
       then or_error "can't update MD file"
              (on_file f (H5F_update_vfd_swmr_metadata_file E num true))
       else or_error "can't update MD file"
              (on_file f (H5F_update_vfd_swmr_metadata_file E 0 false)))).
  { destruct (_ <? _);
      apply wemits_or_error, wemits_on_file, emits_publication. }
  apply bind_inv in H.
  destruct H as [(we & u4 & Hpub & H) | (r0 & Hpub & _)].
  2:{ destruct (Hpub_emits _ _ _ Hpub (ex_intro _ _ Hf3))
        as ((evs & Hl & Hq) & _).
      apply (Hdone (L3 ++ evs)).
      - rewrite Hl, Hl3, app_assoc. reflexivity.
      - apply Forall_app. split; assumption. }
  clear Hpub_emits.
  assert (H4 : exists n pub frees,
             is_Some (files we !! f)
             /\ wlog we = wlog wd ++ pub
                  ++ hdr_frame_events E (vfd_swmr_md_fd s) s n ++ frees
             /\ Forall (fun ev => is_release ev = false) pub).
  { assert (Hboth : forall n index,
              index = true \/ n = 0 -> 0 <= n ->
              on_file f (H5F_update_vfd_swmr_metadata_file E n index) wd
              = (we, Ok u4) ->
              exists n pub frees,
                is_Some (files we !! f)
                /\ wlog we = wlog wd ++ pub
                     ++ hdr_frame_events E (vfd_swmr_md_fd s) s n ++ frees
                /\ Forall (fun ev => is_release ev = false) pub).
    { intros n index Hix Hn Hrun.
      destruct (on_file_facts f _ wd we u4 _ Hf3 Hrun)
        as (st4 & Hm & Hf4 & Hl4 & _).
      destruct u4.
      destruct (emits_publication E n index _ _ _ Hm) as (evs & Hevs & Hq).
      destruct (publication_tail E n index _ st4 Hm Hn Hix)
        as (_ & _ & pub & frees & Hlog & _).
      cbn [sh log] in Hlog, Hevs.
      exists n, pub, frees. split; [eexists; exact Hf4|].
      split.
      - rewrite Hl4, Hlog.
        rewrite (hdr_frame_same E (sh st3) s n) by congruence.
        reflexivity.
      - rewrite Hlog in Hevs. apply app_inv_head in Hevs. subst evs.
        apply Forall_app in Hq. destruct Hq as [Hq _]. exact Hq. }
    destruct (0 <? num); apply or_error_ok in Hpub.
    - apply (Hboth num true); auto.
    - apply (Hboth 0 false); auto. lia. }
  clear Hpub.
  destruct H4 as (n & pub & frees & Hpres4 & Hl4 & Hq4).
  destruct (writer_tail_extends E f (idx_entries_added ui) _ _ _ H Hpres4)
    as ((evs & Hl' & _) & _).
  exists (L3 ++ pub), (hdr_frame_events E (vfd_swmr_md_fd s) s n
                       ++ frees ++ evs).
  split.
  { rewrite Hl', Hl4, Hl3. rewrite <- !app_assoc. reflexivity. }
  split; [apply Forall_app; split; assumption|].
  right. exists n, (frees ++ evs). reflexivity.
Qed.

Lemma writer_releases_after_header_witness :
  let s := sample_writer 5 (Some sample_sorted_index) 3 [] in
  let run := H5F_vfd_swmr_writer_end_of_tick E_tick_list_stuck (Some 0%nat)
               full_writer in
  snd run = Error "can't release tick list"
  /\ last (wlog (fst run)) = Some (EvPBReleaseTickList false)
  /\ exists pre post,
       wlog (fst run) = wlog full_writer ++ pre ++ post
       /\ Forall (fun ev => is_release ev = false) pre
       /\ (post = []
           \/ exists n rest,
                post = hdr_frame_events E_tick_list_stuck 3 s n ++ rest).
Proof.
  intros s run.
  split; [vm_compute; reflexivity|].
  split; [vm_compute; reflexivity|].
  apply (writer_releases_after_header E_tick_list_stuck 0%nat full_writer s).
  reflexivity.
Defined.

(** ** The queue after the end of tick of the only file *)

Lemma insert_entry_eot_calloc E f (w w' : world) :
  H5F_vfd_swmr_insert_entry_eot E f w = (w', Ok tt) ->
  H5FL_CALLOC E (wlog w) = true.
Proof.
  intros H. unfold H5F_vfd_swmr_insert_entry_eot in H.
  apply bind_ok in H. destruct H as (w1 & ok & Hc & H).
  apply wcall_ok in Hc. destruct Hc as [Hok _].
  apply bind_ok in H. destruct H as (w2 & u & Hch & _).
  apply check_ok in Hch. destruct Hch as [Htrue _].
  rewrite <- Hok. exact Htrue.
Qed.

(** With one file on the queue, a writer's end of tick that completes
    leaves a queue of one entry again: the old entry is freed, the new one
    says what the file now says (its new tick and its new end of tick),
    and the globals [end_of_tick_g] and [vfd_swmr_writer_g] agree with the
    file. *)
Theorem writer_end_of_tick_requeues (E : collaborators) (f : nat)
    (w w' : world) (s : H5F_shared_t) (p : nat) :
  files w !! f = Some s ->
  eot_queue_is w [p] ->
  eot_owned_by w f p = true ->
  H5F_vfd_swmr_writer_end_of_tick E (Some f) w = (w', Ok tt) ->
  exists s',
    files w' !! f = Some s'
    /\ tick_num s' = u64 (tick_num s + 1)
    /\ eot_queue_is w' [eot_brk w]
    /\ eot_payload_at w' (eot_brk w)
       = Some (vfd_swmr_writer s', tick_num s', end_of_tick s', f)
    /\ eot_heap w' !! p = None
    /\ end_of_tick_g w' = end_of_tick s'
    /\ vfd_swmr_writer_g w' = vfd_swmr_writer s'.
Proof.
  intros Hf Hq Hown H.
  destruct (writer_end_of_tick_ok E f w w' s Hf H)
    as (s' & pub & frees & t & n & w8 & w9 & Hs' & Htick & _ & _ & _
        & Hf8 & Hq8 & Heg8 & Hrem & Hins).
  unfold queue_of in Hq8. injection Hq8 as Hh8 Hb8 Hhd8 Htl8.
  assert (Hqueue8 : eot_queue_is w8 [p])
    by (apply (eot_queue_is_same w w8); assumption).
  destruct (remove_entry_eot_run f w8 [p] Hqueue8)
    as (w9' & Hrem' & Hqueue9 & _ & Hfree & _ & Hfiles9 & _ & Hb9).
  rewrite Hrem in Hrem'. injection Hrem' as <-.
  assert (Hown8 : eot_owned_by w8 f p = true).
  { unfold eot_owned_by in *. rewrite Hh8. exact Hown. }
  simpl in Hqueue9, Hfree. rewrite Hown8 in Hqueue9, Hfree.
  assert (Hgone : eot_heap w9 !! p = None).
  { apply Hfree; [left | apply not_elem_of_nil]. }
  assert (Hf9 : files w9 !! f = Some s') by (rewrite Hfiles9; exact Hf8).
  destruct (insert_entry_eot_head_run E f w9 s' [] Hqueue9 Hf9
              (insert_entry_eot_calloc E f w9 w' Hins) ltac:(constructor))
    as (w'' & Hins' & Hq' & Hnew & Hold & Hglob & _).
  rewrite Hins in Hins'. injection Hins' as <-.
  rewrite Hb9, Hb8 in Hq', Hnew, Hold.
  exists s'. split; [exact Hs'|]. split; [exact Htick|].
  split; [exact Hq'|]. split; [exact Hnew|].
  assert (Hlt : (p < eot_brk w)%nat).
  { destruct Hq as (_ & _ & _ & _ & Hbrk). inversion Hbrk. assumption. }
  split.
  { specialize (Hold p ltac:(lia)). unfold eot_payload_at in Hold.
    rewrite Hgone in Hold. simpl in Hold.
    destruct (eot_heap w' !! p); [discriminate | reflexivity]. }
  simpl in Hglob. rewrite Hb9, Hb8 in Hglob.
  destruct Hglob as (e & He & Hwg & Hegl).
  unfold eot_payload_at in Hnew. rewrite He in Hnew. simpl in Hnew.
  unfold eot_payload in Hnew. injection Hnew as Hw _ Hd _.
  split; congruence.
Qed.

Lemma writer_end_of_tick_requeues_witness :
  exists w' s',
    H5F_vfd_swmr_writer_end_of_tick E_ok (Some 0%nat) full_writer
    = (w', Ok tt)
    /\ files w' !! 0%nat = Some s'
    /\ eot_queue_is full_writer [1%nat]
    /\ eot_queue_is w' [2%nat]
    /\ eot_payload_at w' 2%nat
       = Some (true, 6, end_of_tick s', 0%nat)
    /\ end_of_tick_g w' = end_of_tick s'.
Proof.
  assert (Hrun : H5F_vfd_swmr_writer_end_of_tick E_ok (Some 0%nat) full_writer
                 = (fst (H5F_vfd_swmr_writer_end_of_tick E_ok (Some 0%nat)
                           full_writer), Ok tt))
    by (vm_compute; reflexivity).
  assert (Hq : eot_queue_is full_writer [1%nat]).
  { repeat split.
    - apply (bool_decide_unpack _). vm_compute. reflexivity.
    - eexists. split; [vm_compute; reflexivity|]. repeat split.
    - repeat constructor. }
  destruct (writer_end_of_tick_requeues E_ok 0%nat full_writer _
              (sample_writer 5 (Some sample_sorted_index) 3 []) 1%nat
              eq_refl Hq eq_refl Hrun)
    as (s' & Hs' & Htick & Hq' & Hnew & _ & Heg & Hwg).
  eexists. exists s'. split; [exact Hrun|]. split; [exact Hs'|].
  split; [exact Hq|]. split; [exact Hq'|].
  split; [|exact Heg].
  pose proof Hs' as Hs''. vm_compute in Hs''. injection Hs'' as <-.
  exact Hnew.
Defined.

(** ** Runs of the routines the two end-of-tick engines start with *)

Lemma create_index_run E (st : fstate) :
  index_can_be_made (sh st) ->
  HDmalloc E (log st) (u64 (sizeof_idx_entry E * index_capacity (sh st)))
  = true ->
  H5F__vfd_swmr_writer__create_index E st
  = ({| sh := index_made (sh st);
        log := log st ++ [index_alloc E (sh st)] |}, Ok tt).
Proof.
  intros (Hv & Hidx & Hlen & Hused & Hbytes & HN) Hmalloc.
  unfold H5F__vfd_swmr_writer__create_index.
  unfold bind at 1, get_shared at 1.
  rewrite Hv, Hidx, Hlen, Hused.
  unfold bind at 1, HDassert at 1. cbn [bool_decide decide_rel].
  rewrite bool_decide_eq_true_2 by reflexivity.
  unfold bind at 1, HDassert at 1.
  unfold bind at 1, HDassert at 1. cbn [Z.eqb].
  unfold bind at 1, HDassert at 1.
  assert (Hb : u64 (u64 (fs_page_size (sh st)
                         * md_pages_reserved (vfd_swmr_config (sh st)))
                    - H5FD_MD_HEADER_SIZE)
               = fs_page_size (sh st)
                 * md_pages_reserved (vfd_swmr_config (sh st))
                 - H5FD_MD_HEADER_SIZE).
  { unfold H5FD_MD_HEADER_SIZE in *. unfold u64.
    rewrite (Z.mod_small (_ * _)) by lia. apply Z.mod_small. lia. }
  rewrite Hb. fold (index_capacity (sh st)).
  assert (Hpos : 0 < fs_page_size (sh st)
                     * md_pages_reserved (vfd_swmr_config (sh st))
                     - H5FD_MD_HEADER_SIZE).
  { destruct (Z_lt_le_dec 0 (fs_page_size (sh st)
                     * md_pages_reserved (vfd_swmr_config (sh st))
                     - H5FD_MD_HEADER_SIZE)) as [H|H]; [exact H|].
    exfalso. unfold index_capacity in HN.
    assert (fs_page_size (sh st)
            * md_pages_reserved (vfd_swmr_config (sh st))
            - H5FD_MD_HEADER_SIZE = 0) as H0 by lia.
    rewrite H0 in HN. unfold H5FD_MD_INDEX_ENTRY_SIZE in HN.
    rewrite Z.div_0_l in HN by lia. lia. }
  rewrite (proj2 (Z.ltb_lt _ _) Hpos).
  unfold bind at 1, HDassert at 1.
  rewrite i32_small by lia.
  rewrite (proj2 (Z.ltb_lt _ _) (proj1 HN)).
  unfold bind at 1, HDassert at 1.
  unfold bind at 1, call at 1. cbn [sh log]. rewrite Hmalloc.
  unfold bind, check, ret, set_shared. cbn [sh log].
  reflexivity.
Qed.

Lemma writer_flush_caches_run E f (w : world) (s : H5F_shared_t) :
  files w !! f = Some s ->
  flush_raw_data (vfd_swmr_config s) = false ->
  (forall l, H5D_flush_all E l = true) ->
  (forall l, H5MF_free_aggrs E l = true) ->
  (forall l, H5AC_flush E l = true) ->
  (forall l, H5FD_truncate E l = true) ->
  writer_flush_caches E f w
  = (with_wlog (wlog w ++ flush_calls (cache s)) w, Ok tt).
Proof.
  intros Hf Hraw HD HMF HAC HFD. unfold writer_flush_caches.
  rewrite (bind_run _ _ _ _ _ (shared_of_run f w s Hf)).
  rewrite Hraw. unfold flush_calls.
  unfold bind, wcall, check, ret.
  destruct (cache s); cbn [wlog with_wlog];
    rewrite ?HD, ?HMF, ?HAC, ?HFD; cbn [wlog with_wlog];
    rewrite ?HD, ?HMF, ?HAC, ?HFD; cbn [wlog with_wlog];
    destruct w; unfold with_wlog; cbn; rewrite <- ?app_assoc; reflexivity.
Qed.

Lemma update_index_run E (st : fstate) r :
  H5PB_vfd_swmr__update_index E (log st) (sh st) = Some r ->
  update_index E st
  = ({| sh := with_mdf_idx (ui_index r) (mdf_idx_len (sh st))
                 (mdf_idx_entries_used (sh st)) (sh st);
        log := log st ++ [EvPBUpdateIndex true] |}, Ok r).
Proof.
  intros Hr. unfold update_index.
  unfold bind, get_shared, call, set_shared, ret. cbn [sh log].
  rewrite Hr. cbn [sh log].
  rewrite bool_decide_eq_true_2 by discriminate. reflexivity.
Qed.

Lemma writer_end_of_tick_at E (fo : option nat) (f : nat) (w : world) :
  eot_file fo w = (w, Ok f) ->
  H5F_vfd_swmr_writer_end_of_tick E fo w
  = H5F_vfd_swmr_writer_end_of_tick E (Some f) w.
Proof.
  intros Hfo. unfold H5F_vfd_swmr_writer_end_of_tick.
  rewrite (bind_run _ _ _ _ _ Hfo). reflexivity.
Qed.

(** ** The length of the index through an end of tick *)

Local Abbreviation keeps_capacity c :=
  (preserves (fun s => capacity_view s = c)).

Lemma capacity_index_write c i e : keeps_capacity c (index_write i e).
Proof.
  intros st HI.
  unfold index_write, bind, get_shared, deref, ret, fault, set_shared.
  destruct (mdf_idx (sh st)); simpl; [|exact HI].
  destruct (_ && _); simpl; exact HI.
Qed.

Lemma capacity_sort_index c n : keeps_capacity c (sort_index n).
Proof.
  intros st HI. unfold sort_index, bind, get_shared, deref, fault, set_shared.
  destruct (mdf_idx (sh st)); simpl; [|exact HI].
  destruct (_ <? _); exact HI.
Qed.

Ltac capacity_step :=
  first [ apply preserves_check
        | apply preserves_deref
        | apply preserves_index_read
        | apply capacity_index_write
        | apply preserves_fixed; intros ?; reflexivity ].

Lemma capacity_publish_entry c E i : keeps_capacity c (publish_entry E i).
Proof.
  unfold publish_entry.
  apply preserves_bind; [capacity_step|]. intros e.
  destruct (entry_ptr e) as [image|]; [|capacity_step].
  apply preserves_bind.
  { destruct (md_file_page_offset e =? 0); [capacity_step|].
    apply preserves_bind; [capacity_step|]. intros ok.
    apply preserves_bind; [capacity_step|]. intros _.
    intros st HI. exact HI. }
  intros _. apply preserves_bind; [capacity_step|]. intros md_addr.
  destruct md_addr as [md_addr|]; [|capacity_step].
  apply preserves_bind; [capacity_step|]. intros s.
  apply preserves_bind; [apply capacity_index_write|]. intros _.
  apply preserves_bind; [capacity_step|]. intros ok.
  apply preserves_bind; [capacity_step|]. intros _.
  apply preserves_bind; [capacity_step|]. intros ok'.
  apply preserves_bind; [capacity_step|]. intros _.
  apply preserves_bind; [apply preserves_index_read|]. intros e'.
  apply capacity_index_write.
Qed.

Lemma capacity_publish_entries c E : forall k i,
  keeps_capacity c (publish_entries E k i).
Proof.
  induction k as [|k IH]; intros i; [capacity_step|].
  cbn [publish_entries].
  apply preserves_bind; [apply capacity_publish_entry|]. intros _. apply IH.
Qed.

Lemma capacity_release_delayed c E : forall k,
  keeps_capacity c (release_delayed E k).
Proof.
  induction k as [|k IH]; [capacity_step|].
  cbn [release_delayed]. intros st HI.
  unfold bind at 1. unfold get_shared at 1. simpl.
  unfold bind at 1.
  destruct (dl (sh st) !! k) as [d|] eqn:Hd; simpl; [|exact HI].
  destruct (timed_out (sh st) d); [|exact HI].
  unfold bind at 1. unfold call at 1. simpl.
  unfold bind at 1.
  match goal with |- context [check ?m ?b] => destruct b end; simpl;
    [|exact HI].
  unfold bind at 1. unfold get_shared at 1. simpl.
  unfold bind at 1. unfold set_shared at 1. simpl.
  apply IH. exact HI.
Qed.

Lemma capacity_publication c E n index :
  keeps_capacity c (H5F_update_vfd_swmr_metadata_file E n index).
Proof.
  unfold H5F_update_vfd_swmr_metadata_file.
  apply preserves_bind.
  { destruct (n =? 0); [capacity_step|].
    apply preserves_bind; [capacity_step|]. intros s.
    apply preserves_bind; [capacity_step|]. intros _.
    apply capacity_sort_index. }
  intros _. apply preserves_bind.
  { destruct (n =? 0); [capacity_step|].
    apply preserves_bind; [capacity_step|]. intros s.
    apply preserves_bind; [capacity_step|]. intros _.
    apply capacity_publish_entries. }
  intros _. apply preserves_bind; [capacity_step|]. intros s.
  apply preserves_bind.
  { apply preserves_or_error, preserves_fixed.
    apply construct_write_md_idx_keeps. }
  intros _. apply preserves_bind.
  { apply preserves_or_error, preserves_fixed.
    apply construct_write_md_hdr_keeps. }
  intros _. apply preserves_bind; [capacity_step|]. intros s'.
  apply capacity_release_delayed.
Qed.

Lemma capacity_update_index c E : keeps_capacity c (update_index E).
Proof.
  intros st HI. unfold update_index, bind, get_shared, call, set_shared,
    ret, throw. cbn [sh log].
  destruct (H5PB_vfd_swmr__update_index E (log st) (sh st)); exact HI.
Qed.

Lemma update_end_of_tick_keeps_capacity E f incr :
  keeps_of_file f capacity_view
    (H5F__vfd_swmr_update_end_of_tick_and_tick_num E f incr).
Proof.
  unfold H5F__vfd_swmr_update_end_of_tick_and_tick_num.
  apply keeps_of_file_bind;
    [apply keeps_of_file_fixed, files_fixed_wcall|]. intros [curr|];
    [|apply keeps_of_file_fixed; intros w; reflexivity].
  apply keeps_of_file_bind;
    [apply keeps_of_file_fixed, files_fixed_shared_of|]. intros s.
  apply keeps_of_file_bind.
  { destruct incr; [|apply keeps_of_file_fixed, files_fixed_ret].
    apply keeps_of_file_bind;
      [apply keeps_of_file_on_file; intros st; reflexivity|]. intros _.
    apply keeps_of_file_bind;
      [apply keeps_of_file_fixed, files_fixed_wcall|]. intros ok.
    apply keeps_of_file_fixed, files_fixed_check. }
  intros _.
  apply keeps_of_file_bind;
    [apply keeps_of_file_fixed, files_fixed_modify; intros; reflexivity|].
  intros _. apply keeps_of_file_on_file. intros st. reflexivity.
Qed.

(** A writer's end of tick that completes leaves the index as long as the
    sizing rule says, if it was before or if this is the end of tick 1,
    which creates the index. *)
Lemma writer_end_of_tick_keeps_capacity E f (w w' : world)
    (s : H5F_shared_t) :
  files w !! f = Some s ->
  H5FD_MD_HEADER_SIZE
    <= fs_page_size s * md_pages_reserved (vfd_swmr_config s) < 2 ^ 64 ->
  index_capacity s < 2 ^ 31 ->
  tick_num s = 1 \/ mdf_idx_len s = index_capacity s ->
  H5F_vfd_swmr_writer_end_of_tick E (Some f) w = (w', Ok tt) ->
  exists s',
    files w' !! f = Some s'
    /\ index_capacity s' = index_capacity s
    /\ mdf_idx_len s' = index_capacity s
    /\ mdf_idx_entries_used s' <= index_capacity s.
Proof.
  intros Hf Hbytes HN Hcase Hrun.
  assert (HN0 : 0 <= index_capacity s).
  { unfold index_capacity, H5FD_MD_INDEX_ENTRY_SIZE, H5FD_MD_HEADER_SIZE in *.
    apply Z.div_pos; lia. }
  destruct (writer_end_of_tick_within_capacity E _ w w' Hrun)
    as (f0 & s'' & Hf0 & Hs'' & Hle).
  simpl in Hf0. injection Hf0 as <-.
  pose proof Hrun as H.
  unfold H5F_vfd_swmr_writer_end_of_tick, eot_file in H.
  unfold bind at 1, ret at 1 in H.
  rewrite (bind_run _ _ _ _ _ (shared_of_run f w s Hf)) in H.
  apply bind_ok in H. destruct H as (wa & ua & Ha & H).
  apply HDassert_ok in Ha. destruct Ha as [_ ->].
  apply bind_ok in H. destruct H as (wa & ub & Ha & H).
  apply HDassert_ok in Ha. destruct Ha as [_ ->].
  apply bind_ok in H. destruct H as (w1 & u1 & Hflush & H). destruct u1.
  apply (writer_flush_caches_ok E f w w1 s Hf) in Hflush.
  assert (Hf1 : files w1 !! f = Some s) by (rewrite Hflush; exact Hf).
  clear Hflush.
  apply bind_ok in H. destruct H as (w2 & u2 & Hcreate & H).
  assert (H2 : exists s2,
             files w2 !! f = Some s2
             /\ capacity_view s2
                = (fs_page_size s, md_pages_reserved (vfd_swmr_config s),
                   index_capacity s)).
  { destruct (tick_num s =? 1) eqn:Htick.
    - apply or_error_ok in Hcreate.
      destruct (on_file_facts f _ w1 w2 u2 s Hf1 Hcreate)
        as (st' & Hm & Hf2 & _).
      destruct u2. pose proof (create_index_shape _ _ _ Hm) as Hshape.
      apply create_index_ok in Hm; [|exact Hbytes|exact HN].
      cbn [sh log] in Hm, Hshape.
      destruct Hm as (_ & Hlen & _). destruct Hshape as (Hv & Hc & _).
      exists (sh st'). split; [exact Hf2|].
      unfold capacity_view. unfold tick_view in Hv.
      injection Hv as _ Hps _. rewrite Hps, Hc, Hlen. reflexivity.
    - apply ret_ok in Hcreate. destruct Hcreate as [_ ->].
      exists s. split; [exact Hf1|].
      apply Z.eqb_neq in Htick. destruct Hcase as [?|Hlen]; [contradiction|].
      unfold capacity_view. rewrite Hlen. reflexivity. }
  clear Hcreate. destruct H2 as (s2 & Hf2 & Hv2).
  (* step 4 *)
  apply bind_ok in H. destruct H as (w3 & r & Hupd & H).
  assert (H3 : exists s3, files w3 !! f = Some s3
                          /\ capacity_view s3 = capacity_view s2).
  { assert (Hk : keeps_of_file f capacity_view (on_file f (update_index E))).
    { apply keeps_of_file_on_file. intros st.
      exact (capacity_update_index (capacity_view (sh st)) E st eq_refl). }
    specialize (Hk w2 s2 Hf2). rewrite Hupd in Hk. exact Hk. }
  clear Hupd. destruct H3 as (s3 & Hf3 & Hv3).
  (* step 6 *)
  rewrite (bind_run _ _ _ _ _ (shared_of_run f w3 _ Hf3)) in H.
  apply bind_ok in H. destruct H as (w4 & u4 & Hpub & H).
  assert (H4 : exists s4, files w4 !! f = Some s4
                          /\ capacity_view s4 = capacity_view s3).
  { assert (Hk : forall n index,
              keeps_of_file f capacity_view
                (or_error "can't update MD file"
                   (on_file f (H5F_update_vfd_swmr_metadata_file E n index)))).
    { intros n index. apply keeps_of_file_or_error, keeps_of_file_on_file.
      intros st.
      exact (capacity_publication (capacity_view (sh st)) E n index st
               eq_refl). }
    destruct (0 <? _);
      match type of Hpub with
      | or_error _ (on_file _ (H5F_update_vfd_swmr_metadata_file _ ?n ?ix)) _
        = _ =>
          specialize (Hk n ix w3 s3 Hf3); rewrite Hpub in Hk; exact Hk
      end. }
  clear Hpub. destruct H4 as (s4 & Hf4 & Hv4).
  rewrite (bind_run _ _ _ _ _ (shared_of_run f w4 _ Hf4)) in H.
  apply bind_ok in H. destruct H as (w5 & u5 & Hset & H).
  destruct (on_file_facts f _ w4 w5 u5 _ Hf4 Hset)
    as (st5 & Hm & Hf5 & _).
  apply set_shared_ok in Hm. subst st5. cbn [sh] in Hf5. clear Hset.
  match type of H with ?rest _ = _ =>
    assert (Hkeep : keeps_of_file f capacity_view rest)
  end.
  { apply keeps_of_file_bind;
      [apply keeps_of_file_fixed, files_fixed_shared_of|]. intros s5.
    apply keeps_of_file_bind;
      [apply keeps_of_file_fixed, files_fixed_HDassert|]. intros _.
    apply keeps_of_file_bind;
      [apply keeps_of_file_fixed, files_fixed_wcall|]. intros ok1.
    apply keeps_of_file_bind;
      [apply keeps_of_file_fixed, files_fixed_check|]. intros _.
    apply keeps_of_file_bind;
      [apply keeps_of_file_fixed, files_fixed_wcall|]. intros ok2.
    apply keeps_of_file_bind;
      [apply keeps_of_file_fixed, files_fixed_check|]. intros _.
    apply keeps_of_file_bind;
      [apply keeps_of_file_or_error, update_end_of_tick_keeps_capacity|].
    intros _.
    apply keeps_of_file_bind;
      [apply keeps_of_file_fixed, files_fixed_remove_entry_eot|]. intros _.
    apply keeps_of_file_or_error, keeps_of_file_fixed,
      files_fixed_insert_entry_eot. }
  destruct (Hkeep _ _ Hf5) as (s' & Hs' & Hproj).
  rewrite H in Hs'. cbn [fst] in Hs'.
  rewrite Hs'' in Hs'. injection Hs' as <-.
  change (capacity_view s'' = capacity_view s4) in Hproj.
  rewrite Hv4, Hv3, Hv2 in Hproj. unfold capacity_view in Hproj.
  injection Hproj as Hps Hres Hlen.
  exists s''. split; [exact Hs''|].
  split; [unfold index_capacity; rewrite Hps, Hres; reflexivity|].
  split; [exact Hlen|].
  rewrite Hlen, u32_small in Hle by lia. exact Hle.
Qed.

(** ** More entries than slots *)

(** A publication told to publish more entries than the index array has
    slots faults in the sort, before any call. *)
Lemma publication_past_the_end E n (st : fstate) idx :
  mdf_idx (sh st) = Some idx ->
  Z.of_nat (length idx) < n ->
  H5F_update_vfd_swmr_metadata_file E n true st = (st, MemFault).
Proof.
  intros Hidx Hlt. unfold H5F_update_vfd_swmr_metadata_file.
  assert (Hn : (n =? 0) = false) by (apply Z.eqb_neq; lia).
  rewrite Hn. unfold sort_index.
  unfold bind, get_shared, deref, ret, fault. rewrite Hidx.
  cbn [sh log]. rewrite Hidx.
  rewrite (proj2 (Z.ltb_lt _ _) Hlt). destruct st. reflexivity.
Qed.

Lemma writer_end_of_tick_overflows E f (w : world) (s : H5F_shared_t)
    (r : update_index_result) idx :
  files w !! f = Some s ->
  pb_ptr s <> None ->
  vfd_swmr_writer s = true ->
  flush_raw_data (vfd_swmr_config s) = false ->
  (forall l, H5D_flush_all E l = true) ->
  (forall l, H5MF_free_aggrs E l = true) ->
  (forall l, H5AC_flush E l = true) ->
  (forall l, H5FD_truncate E l = true) ->
  (tick_num s = 1 ->
   index_can_be_made s /\ forall l n, HDmalloc E l n = true) ->
  H5PB_vfd_swmr__update_index E (wlog w ++ calls_before_update E s)
    (file_at_update s) = Some r ->
  ui_index r = Some idx ->
  Z.of_nat (length idx) = mdf_idx_len (file_at_update s) ->
  mdf_idx_len (file_at_update s)
  < u32 (mdf_idx_entries_used (file_at_update s) + idx_entries_added r) ->
  exists w',
    H5F_vfd_swmr_writer_end_of_tick E (Some f) w = (w', MemFault)
    /\ wlog w' = wlog w ++ calls_before_update E s ++ [EvPBUpdateIndex true].
Proof.
  intros Hf Hpb Hwr Hraw HD HMF HAC HFD Hfirst Hr Hidx Hlen Hover.
  unfold H5F_vfd_swmr_writer_end_of_tick, eot_file.
  unfold bind at 1, ret at 1.
  rewrite (bind_run _ _ _ _ _ (shared_of_run f w s Hf)).
  rewrite (bool_decide_eq_true_2 _ Hpb), Hwr.
  unfold bind at 1, HDassert at 1. unfold bind at 1, HDassert at 1.
  rewrite (bind_run _ _ _ _ _
             (writer_flush_caches_run E f w s Hf Hraw HD HMF HAC HFD)).
  set (w1 := with_wlog (wlog w ++ flush_calls (cache s)) w).
  assert (Hf1 : files w1 !! f = Some s) by exact Hf.
  set (w2 := with_files (<[f := file_at_update s]> (files w))
               (with_wlog (wlog w ++ calls_before_update E s) w)).
  assert (Hstep3 :
            (if tick_num s =? 1
             then or_error "unable to allocate metadata file index"
                    (on_file f (H5F__vfd_swmr_writer__create_index E))
             else ret tt) w1 = (w2, Ok tt)).
  { unfold w2, file_at_update, calls_before_update.
    destruct (tick_num s =? 1) eqn:Htick.
    - apply Z.eqb_eq in Htick. destruct (Hfirst Htick) as [Hmade Hmalloc].
      rewrite (or_error_on_file_run f _ _ w1 s _ _ Hf1
                 (create_index_run E {| sh := s; log := wlog w1 |} Hmade
                    (Hmalloc _ _))).
      cbn [sh log]. unfold w1. destruct w. unfold with_files, with_wlog.
      cbn. rewrite <- app_assoc. reflexivity.
    - unfold ret, w1. rewrite insert_id by exact Hf. rewrite app_nil_r.
      destruct w. reflexivity. }
  rewrite (bind_run _ _ _ _ _ Hstep3). clear Hstep3.
  assert (Hf2 : files w2 !! f = Some (file_at_update s))
    by apply lookup_insert_eq.
  rewrite (bind_run _ _ _ _ _
             (on_file_run f _ w2 _ _ _ Hf2
                (update_index_run E {| sh := file_at_update s;
                                       log := wlog w2 |} r Hr))).
  cbn [sh log].
  match goal with
  | |- context [bind (shared_of f) _ ?w0] => set (w3 := w0)
  end.
  set (s3 := with_mdf_idx (ui_index r) (mdf_idx_len (file_at_update s))
               (mdf_idx_entries_used (file_at_update s)) (file_at_update s))
    in *.
  assert (Hf3 : files w3 !! f = Some s3) by apply lookup_insert_eq.
  rewrite (bind_run _ _ _ _ _ (shared_of_run f w3 _ Hf3)).
  change (mdf_idx_entries_used s3)
    with (mdf_idx_entries_used (file_at_update s)).
  set (num := u32 (mdf_idx_entries_used (file_at_update s)
                   + idx_entries_added r)) in *.
  assert (Hnum : (0 <? num) = true) by (apply Z.ltb_lt; lia).
  rewrite Hnum.
  assert (Hpub : H5F_update_vfd_swmr_metadata_file E num true
                   {| sh := s3; log := wlog w3 |}
                 = ({| sh := s3; log := wlog w3 |}, MemFault)).
  { apply (publication_past_the_end E num _ idx); [exact Hidx | lia]. }
  unfold bind at 1.
  rewrite (or_error_on_file_run f _ _ w3 s3 _ _ Hf3 Hpub).
  cbn [sh log].
  eexists. split; [reflexivity|].
  unfold w3, w2. cbn [wlog with_wlog with_files].
  rewrite <- app_assoc. reflexivity.
Qed.




(** ** A reader that finds a new tick *)

(** The steps of [reader_new_tick] up to the two passes. *)
Lemma reader_new_tick_run (E : collaborators) (tmp : Z) (st : fstate)
    (loaded : list H5FD_vfd_swmr_idx_entry_t) :
  let s := sh st in
  (old_mdf_idx s = None ->
   index_can_be_made (reader_swap s) /\ forall l n, HDmalloc E l n = true) ->
  H5FD_vfd_swmr_get_idx E (log st ++ reader_alloc E s)
    (u32 (mdf_idx_len (reader_swapped s))) = Some loaded ->
  Z.of_nat (length loaded) <= u32 (mdf_idx_len (reader_swapped s)) ->
  reader_new_tick E tmp st
  = (reader_passes E tmp >> set_shared (with_tick_num tmp))
      {| sh := reader_loaded loaded s;
         log := log st ++ reader_alloc E s ++ [EvGetIdx true] |}.
Proof.
  intros s Hfirst Hget Hcap.
  unfold reader_new_tick.
  erewrite bind_run by reflexivity.
  erewrite bind_run by reflexivity.
  erewrite bind_run by reflexivity.
  cbn [sh log]. fold s. fold (reader_swap s).
  assert (Hcreate :
            (if bool_decide (mdf_idx (reader_swap s) = None)
             then or_error "unable to allocate metadata file index"
                    (H5F__vfd_swmr_writer__create_index E)
             else ret tt) {| sh := reader_swap s; log := log st |}
            = ({| sh := reader_swapped s;
                  log := log st ++ reader_alloc E s |}, Ok tt)
            /\ exists arr, mdf_idx (reader_swapped s) = Some arr).
  { unfold reader_swapped, reader_alloc.
    change (mdf_idx (reader_swap s)) with (old_mdf_idx s).
    destruct (old_mdf_idx s) as [spare|] eqn:Hold.
    - rewrite bool_decide_eq_false_2 by discriminate.
      rewrite app_nil_r. split; [reflexivity|]. exists spare. exact Hold.
    - rewrite bool_decide_eq_true_2 by reflexivity.
      destruct (Hfirst eq_refl) as [Hmade Hmalloc].
      unfold or_error.
      rewrite (create_index_run E {| sh := reader_swap s; log := log st |}
                 Hmade (Hmalloc _ _)).
      split; [reflexivity|]. eexists. reflexivity. }
  destruct Hcreate as [Hcreate [arr Harr]].
  rewrite (bind_run _ _ _ _ _ Hcreate). clear Hcreate.
  erewrite bind_run by reflexivity.
  unfold bind at 1, call at 1. cbn [sh log]. rewrite Hget.
  rewrite bool_decide_eq_true_2 by discriminate.
  rewrite Harr.
  erewrite bind_run by reflexivity.
  erewrite bind_run by reflexivity.
  assert (Hsmall : 0 <= Z.of_nat (length loaded) < 2 ^ 32).
  { split; [lia|]. unfold u32 in Hcap.
    pose proof (Z.mod_pos_bound (mdf_idx_len (reader_swapped s)) (2 ^ 32)
                  ltac:(lia)).
    lia. }
  rewrite (u32_small (Z.of_nat (length loaded))) by lia.
  destruct (Z.leb_spec (Z.of_nat (length loaded))
              (u32 (mdf_idx_len (reader_swapped s))))
    as [_|Hbad]; [|lia].
  erewrite bind_run by reflexivity.
  erewrite bind_run by reflexivity.
  unfold reader_loaded. rewrite Harr. rewrite <- app_assoc. reflexivity.
Qed.

Lemma reader_loaded_fields (loaded : list H5FD_vfd_swmr_idx_entry_t)
    (s : H5F_shared_t) :
  pb_ptr (reader_loaded loaded s) = pb_ptr s
  /\ tick_num (reader_loaded loaded s) = tick_num s
  /\ mdf_idx_entries_used (reader_loaded loaded s)
     = Z.of_nat (length loaded)
  /\ mdf_idx_len (reader_loaded loaded s) = mdf_idx_len (reader_swapped s)
  /\ old_mdf_idx (reader_loaded loaded s) = mdf_idx s
  /\ old_mdf_idx_len (reader_loaded loaded s) = mdf_idx_len s
  /\ old_mdf_idx_entries_used (reader_loaded loaded s)
     = i32 (mdf_idx_entries_used s)
  /\ vfd_swmr (reader_loaded loaded s) = vfd_swmr s
  /\ vfd_swmr_writer (reader_loaded loaded s) = vfd_swmr_writer s.
Proof.
  unfold reader_loaded, reader_swapped.
  destruct (old_mdf_idx s); repeat split; reflexivity.
Qed.

(** The reader's end of tick up to the test of the tick. *)
Lemma reader_end_of_tick_head (E : collaborators) (fo : option nat)
    (f : nat) (w : world) (s : H5F_shared_t) (tmp : Z) :
  eot_file fo w = (w, Ok f) ->
  files w !! f = Some s ->
  pb_ptr s <> None ->
  vfd_swmr s = true ->
  vfd_swmr_writer s = false ->
  H5FD_vfd_swmr_get_tick E (wlog w) = Some tmp ->
  tmp <> tick_num s ->
  H5F_vfd_swmr_reader_end_of_tick E fo w
  = (on_file f (reader_new_tick E tmp) >>
     or_error "unable to update end of tick"
       (H5F__vfd_swmr_update_end_of_tick_and_tick_num E f false) >>
     H5F_vfd_swmr_remove_entry_eot f >>
     or_error "unable to insert entry into the EOT queue"
       (H5F_vfd_swmr_insert_entry_eot E f))
      (with_wlog (wlog w ++ [EvGetTick (Some tmp)]) w).
Proof.
  intros Hfo Hf Hpb Hsw Hwr Htick Hne.
  unfold H5F_vfd_swmr_reader_end_of_tick.
  rewrite (bind_run _ _ _ _ _ Hfo).
  rewrite (bind_run _ _ _ _ _ (shared_of_run f w s Hf)).
  rewrite bool_decide_true by exact Hpb. rewrite Hsw, Hwr.
  unfold bind at 1, HDassert at 1.
  unfold bind at 1, HDassert at 1.
  unfold bind at 1, HDassert at 1. simpl negb. cbv iota.
  unfold bind at 1, wcall at 1. rewrite Htick.
  rewrite (proj2 (Z.eqb_neq _ _) Hne). simpl negb. cbv iota.
  rewrite !bind_assoc. reflexivity.
Qed.

Lemma or_error_fst {S A} msg (m : M S A) (s : S) :
  fst (or_error msg m s) = fst (m s).
Proof. unfold or_error. destruct (m s) as [s1 []]; reflexivity. Qed.

(** After the walk, whatever the outcome: the clock is read, the entry
    of the file may be queued again, and the file keeps its tick and its
    two indexes. *)
Lemma reader_end_of_tick_tail (E : collaborators) (f : nat) (w : world)
    (s : H5F_shared_t) :
  files w !! f = Some s ->
  exists tail s',
    wlog (fst ((or_error "unable to update end of tick"
                  (H5F__vfd_swmr_update_end_of_tick_and_tick_num E f false) >>
                H5F_vfd_swmr_remove_entry_eot f >>
                or_error "unable to insert entry into the EOT queue"
                  (H5F_vfd_swmr_insert_entry_eot E f)) w))
    = wlog w ++ EvClock (HDclock_gettime E (wlog w)) :: tail
    /\ Forall settles_tick tail
    /\ files (fst ((or_error "unable to update end of tick"
                      (H5F__vfd_swmr_update_end_of_tick_and_tick_num E f
                         false) >>
                    H5F_vfd_swmr_remove_entry_eot f >>
                    or_error "unable to insert entry into the EOT queue"
                      (H5F_vfd_swmr_insert_entry_eot E f)) w)) !! f
       = Some s'
    /\ reader_view s' = reader_view s.
Proof.
  intros Hf.
  assert (Hupd : exists w1 r1 s1,
             or_error "unable to update end of tick"
               (H5F__vfd_swmr_update_end_of_tick_and_tick_num E f false) w
             = (w1, r1)
             /\ wlog w1 = wlog w ++ [EvClock (HDclock_gettime E (wlog w))]
             /\ files w1 !! f = Some s1
             /\ reader_view s1 = reader_view s).
  { unfold or_error, H5F__vfd_swmr_update_end_of_tick_and_tick_num.
    unfold bind at 1, wcall at 1.
    destruct (HDclock_gettime E (wlog w)) as [curr|].
    - rewrite (bind_run _ _ _ _ _ (shared_of_run f (with_wlog _ w) s Hf)).
      unfold bind, on_file, set_shared, modify, ret, get, put.
      cbn [files wlog with_wlog with_files with_end_of_tick_g sh log].
      rewrite Hf. eexists. eexists. eexists.
      split; [reflexivity|].
      cbn [files wlog with_wlog with_files with_end_of_tick_g sh log].
      split; [reflexivity|].
      split; [apply lookup_insert_eq | reflexivity].
    - eexists. eexists. exists s.
      split; [reflexivity|]. split; [reflexivity|].
      split; [exact Hf | reflexivity]. }
  destruct Hupd as (w1 & r1 & s1 & Hu & Hl1 & Hf1 & Hv1).
  match goal with
  | |- context [fst (?m w)] => destruct (m w) as [w' r] eqn:Hrun
  end.
  cbn [fst].
  unfold bind at 1 in Hrun. rewrite Hu in Hrun.
  destruct r1 as [[]|msg | | |];
    try (injection Hrun as <- _; exists [], s1; rewrite Hl1;
         split; [reflexivity|]; split; [constructor|];
         split; [exact Hf1 | exact Hv1]).
  pose proof (files_fixed_remove_entry_eot f w1) as Hfiles2.
  pose proof (wlog_fixed_remove_entry_eot f w1) as Hlog2.
  unfold bind at 1 in Hrun.
  destruct (H5F_vfd_swmr_remove_entry_eot f w1) as [w2 r2].
  cbn [fst] in Hfiles2, Hlog2.
  destruct r2 as [[]|msg | | |];
    try (injection Hrun as <- _; exists [], s1; rewrite Hlog2, Hl1, Hfiles2;
         split; [reflexivity|]; split; [constructor|];
         split; [exact Hf1 | exact Hv1]).
  assert (Hw' : w' = fst (H5F_vfd_swmr_insert_entry_eot E f w2)).
  { rewrite <- (or_error_fst
                  "unable to insert entry into the EOT queue").
    rewrite Hrun. reflexivity. }
  rewrite Hw'.
  rewrite insert_entry_eot_wlog, files_fixed_insert_entry_eot.
  exists [EvCalloc (H5FL_CALLOC E (wlog w2))], s1.
  rewrite Hlog2, Hl1, Hfiles2, <- app_assoc.
  split; [reflexivity|].
  split; [constructor; [exact I | constructor]|].
  split; [exact Hf1 | exact Hv1].
Qed.

(** The run of [reader_new_tick] when the page buffer and the metadata
    cache accept every request. *)
Lemma reader_new_tick_evicts (E : collaborators) (tmp : Z) (st : fstate)
    (pb : H5PB_t) (cur loaded : list H5FD_vfd_swmr_idx_entry_t) :
  let s := sh st in
  let used := mdf_idx_entries_used s in
  let gone := stale_pages (take (Z.to_nat used) cur) loaded in
  (forall l page, H5PB_remove_entry E l page = true) ->
  (forall l page tick,
      H5C_evict_or_refresh_all_entries_in_page E l page tick = true) ->
  pb_ptr s = Some pb ->
  mdf_idx s = Some cur ->
  0 <= used <= Z.of_nat (length cur) -> used < 2 ^ 31 ->
  (old_mdf_idx s = None ->
   index_can_be_made (reader_swap s) /\ forall l n, HDmalloc E l n = true) ->
  H5FD_vfd_swmr_get_idx E (log st ++ reader_alloc E s)
    (u32 (mdf_idx_len (reader_swapped s))) = Some loaded ->
  Z.of_nat (length loaded) <= u32 (mdf_idx_len (reader_swapped s)) ->
  Z.of_nat (length loaded) < 2 ^ 31 ->
  index_sorted (take (Z.to_nat used) cur) ->
  index_sorted loaded ->
  reader_new_tick E tmp st
  = ({| sh := with_tick_num tmp (reader_loaded loaded s);
        log := log st ++ reader_alloc E s ++ [EvGetIdx true]
                 ++ map (page_event 0 (page_size pb) tmp) gone
                 ++ map (page_event 1 (page_size pb) tmp) gone |}, Ok tt).
Proof.
  intros s used gone Hrm Hev Hpb Hcur Hused Hused' Hfirst Hget Hcap Hsmall
    Hso Hsn.
  rewrite (reader_new_tick_run E tmp st loaded Hfirst Hget Hcap).
  fold s.
  destruct (reader_loaded_fields loaded s)
    as (Fpb & Ftick & Fused & Flen & Fold & Foldlen & Foldused & _).
  assert (Hloaded : forall tl : list H5FD_vfd_swmr_idx_entry_t,
            take (length loaded) (loaded ++ tl) = loaded).
  { intros tl. apply take_app_length. }
  erewrite bind_run.
  2:{ apply (reader_passes_run E tmp _ pb cur
               (loaded ++ drop (length loaded)
                  (default [] (mdf_idx (reader_swapped s)))));
        cbn [sh log]; rewrite ?Fpb, ?Fold, ?Foldused, ?Fused;
        fold used; rewrite ?i32_small by lia;
        rewrite ?Nat2Z.id, ?Hloaded;
        try assumption; try reflexivity; try lia.
    rewrite length_app. lia. }
  cbn [sh log]. rewrite Foldused, Fused. fold used.
  rewrite i32_small by lia. rewrite Nat2Z.id, Hloaded.
  fold gone. unfold set_shared. cbn [sh log].
  rewrite <- !app_assoc. reflexivity.
Qed.

(** C5.  A reader whose end of tick finds a new tick [tmp] in the shadow
    file swaps its two index arrays -- creating the second one if this is
    the first new tick it sees --, loads the new index and walks both;
    [old_es] is the index it had and [loaded] the one it reads, each
    sorted by page with no page twice.  With the page buffer and the
    metadata cache accepting every request, the walk selects exactly the
    old entries whose page is in the new index at another
    [md_file_page_offset] or is not in it at all; a page that is only in
    the new index, or is in both at the same shadow offset, is not
    touched.  The requests are made in two passes over the selected
    entries in index order: first every page is removed from the page
    buffer (at address page * page size), and only after the last of
    these the metadata cache is asked, page by page, to evict or refresh
    its entries at tick [tmp].  Nothing else is asked before the clock is
    read for the next end of tick, and whatever the outcome of what
    follows the walk, the reader is left at tick [tmp] with the loaded
    index current and the previous one kept as the old index. *)
Theorem C5_reader_evictions (E : collaborators) (fo : option nat) (f : nat)
    (w : world) (s : H5F_shared_t) (pb : H5PB_t) (tmp : Z)
    (cur loaded : list H5FD_vfd_swmr_idx_entry_t) :
  let used := mdf_idx_entries_used s in
  let old_es := take (Z.to_nat used) cur in
  let gone := stale_pages old_es loaded in
  let w' := fst (H5F_vfd_swmr_reader_end_of_tick E fo w) in
  eot_file fo w = (w, Ok f) ->
  files w !! f = Some s ->
  pb_ptr s = Some pb ->
  vfd_swmr s = true ->
  vfd_swmr_writer s = false ->
  H5FD_vfd_swmr_get_tick E (wlog w) = Some tmp ->
  tmp <> tick_num s ->
  (forall l page, H5PB_remove_entry E l page = true) ->
  (forall l page tick,
      H5C_evict_or_refresh_all_entries_in_page E l page tick = true) ->
  mdf_idx s = Some cur ->
  0 <= used <= Z.of_nat (length cur) -> used < 2 ^ 31 ->
  (old_mdf_idx s = None ->
   index_can_be_made (reader_swap s) /\ forall l n, HDmalloc E l n = true) ->
  H5FD_vfd_swmr_get_idx E
    (wlog w ++ [EvGetTick (Some tmp)] ++ reader_alloc E s)
    (u32 (mdf_idx_len (reader_swapped s))) = Some loaded ->
  Z.of_nat (length loaded) <= u32 (mdf_idx_len (reader_swapped s)) ->
  Z.of_nat (length loaded) < 2 ^ 31 ->
  index_sorted old_es ->
  index_sorted loaded ->
  (exists tail s',
      wlog w' = wlog w ++ [EvGetTick (Some tmp)] ++ reader_alloc E s
                  ++ [EvGetIdx true]
                  ++ map (page_event 0 (page_size pb) tmp) gone
                  ++ map (page_event 1 (page_size pb) tmp) gone
                  ++ tail
      /\ Forall settles_tick tail
      /\ files w' !! f = Some s'
      /\ tick_num s' = tmp
      /\ mdf_idx s'
         = Some (loaded ++ drop (length loaded)
                             (default [] (mdf_idx (reader_swapped s))))
      /\ mdf_idx_entries_used s' = Z.of_nat (length loaded)
      /\ old_mdf_idx s' = Some cur
      /\ old_mdf_idx_entries_used s' = used)
  /\ (forall o n, o ∈ old_es -> n ∈ loaded ->
                  hdf5_page_offset o = hdf5_page_offset n ->
                  (o ∈ gone
                   <-> md_file_page_offset o <> md_file_page_offset n))
  /\ (forall o, o ∈ old_es ->
                (forall n, n ∈ loaded ->
                           hdf5_page_offset n <> hdf5_page_offset o) ->
                o ∈ gone)
  /\ (forall x, x ∈ gone -> x ∈ old_es).
Proof.
  intros used old_es gone w' Hfo Hf Hpb Hsw Hwr Htick Hne Hrm Hev Hcur Hused
    Hused' Hfirst Hget Hcap Hsmall Hso Hsn.
  split; [|apply stale_pages_spec; exact Hsn].
  subst w'.
  rewrite (reader_end_of_tick_head E fo f w s tmp Hfo Hf
             ltac:(rewrite Hpb; discriminate) Hsw Hwr Htick Hne).
  set (w0 := with_wlog (wlog w ++ [EvGetTick (Some tmp)]) w).
  assert (Hf0 : files w0 !! f = Some s) by exact Hf.
  assert (Hget0 : H5FD_vfd_swmr_get_idx E
                    (log {| sh := s; log := wlog w0 |} ++ reader_alloc E s)
                    (u32 (mdf_idx_len (reader_swapped s))) = Some loaded).
  { cbn [log]. unfold w0. cbn [wlog with_wlog]. rewrite <- app_assoc.
    exact Hget. }
  pose proof (reader_new_tick_evicts E tmp {| sh := s; log := wlog w0 |} pb
                cur loaded Hrm Hev Hpb Hcur Hused Hused' Hfirst Hget0 Hcap
                Hsmall Hso Hsn) as Hnew.
  cbn [sh log] in Hnew. fold used in Hnew. fold old_es in Hnew.
  fold gone in Hnew.
  rewrite (bind_run _ _ _ _ _ (on_file_run f _ w0 s _ _ Hf0 Hnew)).
  cbn [sh log].
  match goal with
  | |- context [fst (_ ?w1)] =>
      destruct (reader_end_of_tick_tail E f w1
                  (with_tick_num tmp (reader_loaded loaded s)))
        as (tail & s' & Hlog & Htail & Hs' & Hview)
  end.
  { apply lookup_insert_eq. }
  exists (EvClock (HDclock_gettime E
                     (wlog w0 ++ reader_alloc E s ++ [EvGetIdx true]
                        ++ map (page_event 0 (page_size pb) tmp) gone
                        ++ map (page_event 1 (page_size pb) tmp) gone))
            :: tail), s'.
  split.
  { rewrite Hlog. cbn [wlog with_wlog with_files]. unfold w0.
    cbn [wlog with_wlog]. rewrite <- !app_assoc. reflexivity. }
  split; [constructor; [exact I | exact Htail]|].
  split; [exact Hs'|].
  destruct (reader_loaded_fields loaded s)
    as (_ & _ & Fused & _ & Fold & _ & Foldused & _).
  unfold reader_view in Hview.
  injection Hview as Ht Hi _ Hu Ho Hou.
  rewrite Ht, Hi, Hu, Ho, Hou.
  cbn [tick_num mdf_idx mdf_idx_entries_used old_mdf_idx
       old_mdf_idx_entries_used with_tick_num].
  change (old_mdf_idx (reader_swapped s))
    with (old_mdf_idx (reader_loaded loaded s)).
  change (old_mdf_idx_entries_used (reader_swapped s))
    with (old_mdf_idx_entries_used (reader_loaded loaded s)).
  rewrite Fold, Foldused.
  split; [reflexivity|]. split; [reflexivity|].
  split; [reflexivity|]. split; [exact Hcur|].
  apply i32_small. lia.
Qed.

(** The reader at tick 7 finds tick 8: page 42 (address 168) has moved and
    page 50 (address 200) is gone, page 60 is new.  The same for a reader
    that sees its first new tick and has to create its second array. *)
Lemma C5_reader_evictions_witness :
  let later := fst (H5F_vfd_swmr_insert_entry_eot E_tick8 0%nat
                      (process_of [sample_reader])) in
  let first := fst (H5F_vfd_swmr_insert_entry_eot E_tick8 0%nat
                      (process_of
                         [with_old_mdf_idx None 0 0 sample_reader])) in
  (exists tail s',
      wlog (fst (H5F_vfd_swmr_reader_end_of_tick E_tick8 None later))
      = [EvCalloc true; EvGetTick (Some 8); EvGetIdx true;
         EvPBRemoveEntry 168 true; EvPBRemoveEntry 200 true;
         EvEvictOrRefresh 42 8 true; EvEvictOrRefresh 50 8 true] ++ tail
      /\ Forall settles_tick tail
      /\ files (fst (H5F_vfd_swmr_reader_end_of_tick E_tick8 None later))
           !! 0%nat = Some s'
      /\ tick_num s' = 8
      /\ mdf_idx s' = Some (index_tick8 ++ [empty_idx_entry]))
  /\ (exists tail s',
        wlog (fst (H5F_vfd_swmr_reader_end_of_tick E_tick8 None first))
        = [EvCalloc true; EvGetTick (Some 8); EvMalloc 288 true;
           EvGetIdx true;
           EvPBRemoveEntry 168 true; EvPBRemoveEntry 200 true;
           EvEvictOrRefresh 42 8 true; EvEvictOrRefresh 50 8 true] ++ tail
        /\ Forall settles_tick tail
        /\ files (fst (H5F_vfd_swmr_reader_end_of_tick E_tick8 None first))
             !! 0%nat = Some s'
        /\ tick_num s' = 8
        /\ mdf_idx s' = Some (index_tick8 ++ [empty_idx_entry])).
Proof.
  intros later first.
  assert (Hs7 : index_sorted index_tick7)
    by (unfold index_sorted; simpl; repeat constructor; simpl; lia).
  assert (Hs8 : index_sorted index_tick8)
    by (unfold index_sorted, index_tick8; repeat constructor; simpl; lia).
  split.
  - destruct (C5_reader_evictions E_tick8 None 0%nat later sample_reader
                {| page_size := 4; dwl_len := 0 |} 8
                (index_tick7 ++ [empty_idx_entry]) index_tick8)
      as [(tail & s' & Hlog & Htail & Hs' & Htick & Hidx & _) _].
    + vm_compute. reflexivity.
    + vm_compute. reflexivity.
    + reflexivity.
    + reflexivity.
    + reflexivity.
    + reflexivity.
    + vm_compute. discriminate.
    + intros l page. reflexivity.
    + intros l page tick. reflexivity.
    + reflexivity.
    + simpl. lia.
    + simpl. lia.
    + intros Hnone. vm_compute in Hnone. discriminate Hnone.
    + reflexivity.
    + vm_compute. discriminate.
    + simpl. lia.
    + exact Hs7.
    + exact Hs8.
    + exists tail, s'. split; [exact Hlog|]. split; [exact Htail|].
      split; [exact Hs'|]. split; [exact Htick | exact Hidx].
  - destruct (C5_reader_evictions E_tick8 None 0%nat first
                (with_old_mdf_idx None 0 0 sample_reader)
                {| page_size := 4; dwl_len := 0 |} 8
                (index_tick7 ++ [empty_idx_entry]) index_tick8)
      as [(tail & s' & Hlog & Htail & Hs' & Htick & Hidx & _) _].
    + vm_compute. reflexivity.
    + vm_compute. reflexivity.
    + reflexivity.
    + reflexivity.
    + reflexivity.
    + reflexivity.
    + vm_compute. discriminate.
    + intros l page. reflexivity.
    + intros l page tick. reflexivity.
    + reflexivity.
    + simpl. lia.
    + simpl. lia.
    + intros _. split; [|intros l n; reflexivity].
      unfold index_can_be_made.
      repeat split; try reflexivity; vm_compute; discriminate.
    + reflexivity.
    + vm_compute. discriminate.
    + simpl. lia.
    + exact Hs7.
    + exact Hs8.
    + exists tail, s'. split; [exact Hlog|]. split; [exact Htail|].
      split; [exact Hs'|]. split; [exact Htick | exact Hidx].
Defined.

(** ** A reader's end of tick after one that failed *)

Lemma eot_file_moved (fo : option nat) (f : nat) (w w1 : world) :
  eot_file fo w = (w, Ok f) ->
  vfd_swmr_eot_queue_head_g w1 = vfd_swmr_eot_queue_head_g w ->
  eot_heap w1 = eot_heap w ->
  eot_file fo w1 = (w1, Ok f).
Proof.
  destruct fo as [g|].
  - intros H _ _. inversion H. reflexivity.
  - unfold eot_file, get_head, eot_load, bind, get, ret, deref, fault.
    intros H Hh Hheap. rewrite Hh.
    destruct (vfd_swmr_eot_queue_head_g w) as [h|]; [|discriminate].
    unfold ret in *. cbv beta iota in *. rewrite Hheap.
    destruct (eot_heap w !! h); inversion H. reflexivity.
Qed.

Lemma last_settles (l tail : list event) (x ev : event) :
  last (l ++ x :: tail) = Some ev ->
  Forall settles_tick (x :: tail) ->
  settles_tick ev.
Proof.
  intros Hlast Hall.
  rewrite last_app in Hlast.
  destruct (last (x :: tail)) as [y|] eqn:Hy.
  - injection Hlast as <-.
    rewrite Forall_forall in Hall. apply Hall.
    apply last_Some_elem_of. exact Hy.
  - apply last_None in Hy. discriminate.
Qed.

(** An end of tick that stops at a refused eviction has already swapped
    the two index arrays and loaded the new index, yet keeps the old
    tick.  The next end of tick therefore finds the tick of the shadow
    file new again and compares the index with itself: if the shadow
    file still holds that index, it asks for no eviction at all and
    adopts the new tick, although the request that was refused has not
    been made again. *)
Theorem reader_retry_skips_evictions (E : collaborators) (fo : option nat)
    (f : nat) (w : world) (s : H5F_shared_t) (pb : H5PB_t) (tmp : Z)
    (cur loaded : list H5FD_vfd_swmr_idx_entry_t) (ev : event) :
  let w1 := fst (H5F_vfd_swmr_reader_end_of_tick E fo w) in
  let w2 := fst (H5F_vfd_swmr_reader_end_of_tick E fo w1) in
  eot_file fo w = (w, Ok f) ->
  files w !! f = Some s ->
  pb_ptr s = Some pb ->
  vfd_swmr s = true ->
  vfd_swmr_writer s = false ->
  H5FD_vfd_swmr_get_tick E (wlog w) = Some tmp ->
  tmp <> tick_num s ->
  mdf_idx s = Some cur ->
  (old_mdf_idx s = None ->
   index_can_be_made (reader_swap s) /\ forall l n, HDmalloc E l n = true) ->
  H5FD_vfd_swmr_get_idx E
    (wlog w ++ [EvGetTick (Some tmp)] ++ reader_alloc E s)
    (u32 (mdf_idx_len (reader_swapped s))) = Some loaded ->
  Z.of_nat (length loaded) <= u32 (mdf_idx_len (reader_swapped s)) ->
  Z.of_nat (length loaded) <= u32 (mdf_idx_len s) ->
  Z.of_nat (length loaded) < 2 ^ 31 ->
  index_sorted loaded ->
  last (wlog w1) = Some ev ->
  refused_eviction ev ->
  H5FD_vfd_swmr_get_tick E (wlog w1) = Some tmp ->
  H5FD_vfd_swmr_get_idx E (wlog w1 ++ [EvGetTick (Some tmp)])
    (u32 (mdf_idx_len s)) = Some loaded ->
  (snd (H5F_vfd_swmr_reader_end_of_tick E fo w) <> Ok tt
   /\ exists s1, files w1 !! f = Some s1 /\ tick_num s1 = tick_num s)
  /\ exists tail s2,
       wlog w2 = wlog w1 ++ [EvGetTick (Some tmp); EvGetIdx true] ++ tail
       /\ Forall settles_tick tail
       /\ files w2 !! f = Some s2
       /\ tick_num s2 = tmp
       /\ mdf_idx s2 = Some (loaded ++ drop (length loaded) cur)
       /\ old_mdf_idx s2
          = Some (loaded ++ drop (length loaded)
                              (default [] (mdf_idx (reader_swapped s)))).
Proof.
  intros w1 w2 Hfo Hf Hpb Hsw Hwr Htick Hne Hcur Hfirst Hget Hcap Hcap'
    Hsmall Hsorted Hlast Hrefused Htick1 Hget1.
  destruct (reader_loaded_fields loaded s)
    as (Fpb & Ftick & Fused & Flen & Fold & Foldlen & Foldused & Fsw & Fwr).
  set (s1 := reader_loaded loaded s) in *.
  (* the first end of tick *)
  assert (H1 : exists l1 r1,
             H5F_vfd_swmr_reader_end_of_tick E fo w
             = (with_files (<[f := s1]> (files w)) (with_wlog l1 w), r1)
             /\ r1 <> Ok tt).
  { subst w1. revert Hlast.
    rewrite (reader_end_of_tick_head E fo f w s tmp Hfo Hf
               ltac:(rewrite Hpb; discriminate) Hsw Hwr Htick Hne).
    set (w0 := with_wlog (wlog w ++ [EvGetTick (Some tmp)]) w).
    assert (Hf0 : files w0 !! f = Some s) by exact Hf.
    assert (Hget0 : H5FD_vfd_swmr_get_idx E
                      (log {| sh := s; log := wlog w0 |} ++ reader_alloc E s)
                      (u32 (mdf_idx_len (reader_swapped s))) = Some loaded).
    { cbn [log]. unfold w0. cbn [wlog with_wlog]. rewrite <- app_assoc.
      exact Hget. }
    pose proof (reader_new_tick_run E tmp {| sh := s; log := wlog w0 |}
                  loaded Hfirst Hget0 Hcap) as Hnew.
    cbn [sh log] in Hnew. fold s1 in Hnew.
    destruct (reader_passes E tmp
                {| sh := s1;
                   log := wlog w0 ++ reader_alloc E s ++ [EvGetIdx true] |})
      as [st' r] eqn:Hpasses.
    destruct (evicts_only_reader_passes E tmp _ _ _ Hpasses) as [Hsh _].
    cbn [sh] in Hsh.
    unfold bind at 1 in Hnew. rewrite Hpasses in Hnew.
    destruct r as [[]|msg | | |].
    - (* the walk completed: the clock has been read since *)
      intros Hlast. exfalso. unfold set_shared in Hnew.
      rewrite (bind_run _ _ _ _ _ (on_file_run f _ w0 s _ _ Hf0 Hnew))
        in Hlast.
      cbn [sh log] in Hlast.
      match type of Hlast with
      | context [fst (_ ?wa)] =>
          destruct (reader_end_of_tick_tail E f wa
                      (with_tick_num tmp (sh st')))
            as (tail & s' & Hlog & Htail & _)
      end.
      { apply lookup_insert_eq. }
      rewrite Hlog in Hlast.
      assert (Hsettles : settles_tick ev).
      { apply (last_settles _ _ _ _ Hlast).
        constructor; [exact I | exact Htail]. }
      destruct ev; try contradiction; destruct ok; contradiction.
    - intros _. unfold bind at 1.
      rewrite (on_file_run f _ w0 s _ _ Hf0 Hnew). cbn [sh log].
      rewrite Hsh. unfold w0. eexists. eexists.
      split; [reflexivity | discriminate].
    - intros _. unfold bind at 1.
      rewrite (on_file_run f _ w0 s _ _ Hf0 Hnew). cbn [sh log].
      rewrite Hsh. unfold w0. eexists. eexists.
      split; [reflexivity | discriminate].
    - intros _. unfold bind at 1.
      rewrite (on_file_run f _ w0 s _ _ Hf0 Hnew). cbn [sh log].
      rewrite Hsh. unfold w0. eexists. eexists.
      split; [reflexivity | discriminate].
    - intros _. unfold bind at 1.
      rewrite (on_file_run f _ w0 s _ _ Hf0 Hnew). cbn [sh log].
      rewrite Hsh. unfold w0. eexists. eexists.
      split; [reflexivity | discriminate]. }
  destruct H1 as (l1 & r1 & Hrun1 & Hnot).
  assert (Hw1 : w1 = with_files (<[f := s1]> (files w)) (with_wlog l1 w)).
  { unfold w1. rewrite Hrun1. reflexivity. }
  assert (Hf1 : files w1 !! f = Some s1).
  { rewrite Hw1. apply lookup_insert_eq. }
  split.
  { split; [rewrite Hrun1; exact Hnot|].
    exists s1. split; [exact Hf1 | exact Ftick]. }
  (* the second end of tick *)
  assert (Hfo1 : eot_file fo w1 = (w1, Ok f)).
  { apply (eot_file_moved fo f w w1 Hfo); rewrite Hw1; reflexivity. }
  assert (Hold1 : old_mdf_idx s1 = Some cur) by (rewrite Fold; exact Hcur).
  assert (Halloc1 : reader_alloc E s1 = []).
  { unfold reader_alloc. rewrite Hold1. reflexivity. }
  assert (Hswapped1 : reader_swapped s1 = reader_swap s1).
  { unfold reader_swapped. rewrite Hold1. reflexivity. }
  assert (Hlen1 : mdf_idx_len (reader_swapped s1) = mdf_idx_len s).
  { rewrite Hswapped1. exact Foldlen. }
  assert (Hidx1 : mdf_idx (reader_swapped s1) = Some cur).
  { rewrite Hswapped1. exact Hold1. }
  subst w2.
  rewrite (reader_end_of_tick_head E fo f w1 s1 tmp Hfo1 Hf1
             ltac:(rewrite Fpb, Hpb; discriminate)
             ltac:(rewrite Fsw; exact Hsw) ltac:(rewrite Fwr; exact Hwr)
             Htick1 ltac:(rewrite Ftick; exact Hne)).
  set (w0 := with_wlog (wlog w1 ++ [EvGetTick (Some tmp)]) w1).
  assert (Hf0 : files w0 !! f = Some s1) by exact Hf1.
  pose proof (reader_new_tick_run E tmp {| sh := s1; log := wlog w0 |}
                loaded) as Hnew.
  cbn [sh log] in Hnew. rewrite Halloc1, Hlen1, app_nil_r in Hnew.
  specialize (Hnew ltac:(intros Hnone; rewrite Hold1 in Hnone;
                         discriminate Hnone) Hget1 Hcap').
  cbn [app] in Hnew.
  destruct (reader_loaded_fields loaded s1)
    as (Gpb & Gtick & Gused & Glen & Gold & Goldlen & Goldused & _).
  assert (Hmid_new : mdf_idx (reader_loaded loaded s1)
                     = Some (loaded ++ drop (length loaded) cur)).
  { unfold reader_loaded. rewrite Hidx1. reflexivity. }
  assert (Hmid_old : old_mdf_idx (reader_loaded loaded s1)
                     = Some (loaded ++ drop (length loaded)
                               (default [] (mdf_idx (reader_swapped s))))).
  { rewrite Gold. reflexivity. }
  assert (Htake : forall tl : list H5FD_vfd_swmr_idx_entry_t,
            take (Z.to_nat (Z.of_nat (length loaded))) (loaded ++ tl)
            = loaded).
  { intros tl. rewrite Nat2Z.id. apply take_app_length. }
  assert (Hpasses :
            reader_passes E tmp
              {| sh := reader_loaded loaded s1;
                 log := wlog w0 ++ [EvGetIdx true] |}
            = ({| sh := reader_loaded loaded s1;
                  log := wlog w0 ++ [EvGetIdx true] |}, Ok tt)).
  { apply (reader_passes_same_run E tmp _ pb
             (loaded ++ drop (length loaded)
                (default [] (mdf_idx (reader_swapped s))))
             (loaded ++ drop (length loaded) cur)
             (Z.of_nat (length loaded))); cbn [sh log].
    - rewrite Gpb, Fpb. exact Hpb.
    - exact Hmid_old.
    - exact Hmid_new.
    - rewrite Goldused, Fused. apply i32_small. lia.
    - exact Gused.
    - rewrite length_app. lia.
    - rewrite length_app. lia.
    - exact Hsmall.
    - rewrite !Htake. reflexivity.
    - rewrite Htake. exact Hsorted. }
  rewrite (bind_run _ _ _ _ _ Hpasses) in Hnew. unfold set_shared in Hnew.
  cbn [sh log] in Hnew.
  rewrite (bind_run _ _ _ _ _ (on_file_run f _ w0 s1 _ _ Hf0 Hnew)).
  cbn [sh log].
  match goal with
  | |- context [fst (_ ?wa)] =>
      destruct (reader_end_of_tick_tail E f wa
                  (with_tick_num tmp (reader_loaded loaded s1)))
        as (tail & s2 & Hlog & Htail & Hs2 & Hview)
  end.
  { apply lookup_insert_eq. }
  eexists (EvClock _ :: tail), s2.
  split.
  { rewrite Hlog. cbn [wlog with_wlog with_files]. unfold w0.
    cbn [wlog with_wlog]. rewrite <- !app_assoc. reflexivity. }
  split; [constructor; [exact I | exact Htail]|].
  split; [exact Hs2|].
  unfold reader_view in Hview.
  injection Hview as Ht Hi _ _ Ho _.
  split; [exact Ht|].
  split; [rewrite Hi; exact Hmid_new|].
  rewrite Ho. exact Hmid_old.
Qed.

(** A reader at its first new tick whose page buffer refuses the removal
    of page 42: the end of tick stops there, at tick 7; the next one asks
    for no eviction and adopts tick 8. *)
Lemma reader_retry_skips_evictions_witness :
  let w := fst (H5F_vfd_swmr_insert_entry_eot E_tick8_pb_refuses 0%nat
                  (process_of
                     [with_old_mdf_idx None 0 0 sample_reader])) in
  let w1 := fst (H5F_vfd_swmr_reader_end_of_tick E_tick8_pb_refuses None
                   w) in
  let w2 := fst (H5F_vfd_swmr_reader_end_of_tick E_tick8_pb_refuses None
                   w1) in
  stale_pages index_tick7 index_tick8 <> []
  /\ wlog w1 = [EvCalloc true; EvGetTick (Some 8); EvMalloc 288 true;
                EvGetIdx true; EvPBRemoveEntry 168 false]
  /\ (snd (H5F_vfd_swmr_reader_end_of_tick E_tick8_pb_refuses None w)
      <> Ok tt
      /\ exists s1, files w1 !! 0%nat = Some s1 /\ tick_num s1 = 7)
  /\ exists tail s2,
       wlog w2 = wlog w1 ++ [EvGetTick (Some 8); EvGetIdx true] ++ tail
       /\ Forall settles_tick tail
       /\ files w2 !! 0%nat = Some s2
       /\ tick_num s2 = 8.
Proof.
  intros w w1 w2.
  split; [vm_compute; discriminate|].
  split; [vm_compute; reflexivity|].
  destruct (reader_retry_skips_evictions E_tick8_pb_refuses None 0%nat w
              (with_old_mdf_idx None 0 0 sample_reader)
              {| page_size := 4; dwl_len := 0 |} 8
              (index_tick7 ++ [empty_idx_entry]) index_tick8
              (EvPBRemoveEntry 168 false))
    as (Hfirst & tail & s2 & Hlog & Htail & Hs2 & Htick & _).
  - vm_compute. reflexivity.
  - vm_compute. reflexivity.
  - reflexivity.
  - reflexivity.
  - reflexivity.
  - reflexivity.
  - vm_compute. discriminate.
  - reflexivity.
  - intros _. split; [|intros l n; reflexivity].
    unfold index_can_be_made.
    repeat split; try reflexivity; vm_compute; discriminate.
  - reflexivity.
  - vm_compute. discriminate.
  - vm_compute. discriminate.
  - simpl. lia.
  - unfold index_sorted, index_tick8. repeat constructor; simpl; lia.
  - vm_compute. reflexivity.
  - exact I.
  - reflexivity.
  - reflexivity.
  - split; [exact Hfirst|]. exists tail, s2.
    split; [exact Hlog|]. split; [exact Htail|].
    split; [exact Hs2 | exact Htick].
Defined.
